(** * II-20: the per-session learning and suggestion core

    A shallow embedding of the session core of II-20 (package [aimodel] and
    [data.CollectionIndex]) and the properties of it that the specification
    states.

    Conventions of the embedding.
    - Python integers are [Z]; image and bucket identifiers are integers.
    - A Python [dict] is an association list in insertion order ([dict]);
      a [set] of integers is a [gset Z].
    - A method that mutates [self] is a state transformer [M S A]: it maps
      the state before the call to an outcome (a value or a raised
      exception) and the state after it.  The state after a raise is the
      state reached when the exception left the method: Python rolls
      nothing back.
    - Classifier scores are exact rationals ([Q]); the results of float
      division are [npfloat]s, which add the infinities and NaN that numpy
      produces on division by zero.
    - The classifier, the feature store, the ranking by the collection
      index and the random number generator are external collaborators:
      they are the fields of the class [Externals]. *)

From Stdlib Require Import ZArith QArith Qminmax Qround Qabs Lqa List Bool Lia Sorting.Permutation.
From stdpp Require Import base list gmap sets strings sorting pretty.

Local Open Scope Z_scope.

(** ** Exceptions and the state-and-exception monad *)

Inductive exn : Type :=
| ValueError
| KeyError
| TypeError
| IndexError
| OverflowError
| AttributeError
| BucketNotActiveError.

(** [class DatasetExhaustedError: pass] (SeenImages.py) does not derive from
    [BaseException]: in Python 3 the statement [raise DatasetExhaustedError]
    raises [TypeError].  No statement below depends on which exception it is. *)
Definition DatasetExhaustedError : exn := TypeError.

Inductive result (A : Type) : Type :=
| Ok (a : A)
| Raise (e : exn).
Arguments Ok {A} a.
Arguments Raise {A} e.

Definition is_raise {A} (r : result A) : Prop :=
  match r with Ok _ => False | Raise _ => True end.

Definition is_ok {A} (r : result A) : Prop :=
  match r with Ok _ => True | Raise _ => False end.

Definition M (S A : Type) : Type := S -> result A * S.

Definition ret {S A} (a : A) : M S A := fun s => (Ok a, s).

Definition raise {S A} (e : exn) : M S A := fun s => (Raise e, s).

Definition bind {S A B} (c : M S A) (k : A -> M S B) : M S B :=
  fun s => match c s with
           | (Ok a, s') => k a s'
           | (Raise e, s') => (Raise e, s')
           end.

Definition get {S} : M S S := fun s => (Ok s, s).

Definition put {S} (s : S) : M S unit := fun _ => (Ok tt, s).

Definition modify {S} (f : S -> S) : M S unit := fun s => (Ok tt, f s).

(** [try: c except e: h] for one exception class [e]. *)
Definition try_except {S A} (c : M S A) (handles : exn -> bool) (h : M S A) : M S A :=
  fun s => match c s with
           | (Ok a, s') => (Ok a, s')
           | (Raise e, s') => if handles e then h s' else (Raise e, s')
           end.

(** A pure computation that may raise, run inside a method. *)
Definition lift_result {S A} (r : result A) : M S A := fun s => (r, s).

(** Run a method of a component that is a field of the state. *)
Definition zoom {S T A} (proj : S -> T) (upd : T -> S -> S) (c : M T A) : M S A :=
  fun s => let '(r, t') := c (proj s) in (r, upd t' s).

Declare Scope monad_scope.
Delimit Scope monad_scope with monad.
Notation "x <- c ;; k" := (bind c (fun x => k))
  (at level 100, c at next level, right associativity) : monad_scope.
Notation "c ;;; k" := (bind c (fun _ => k))
  (at level 100, right associativity) : monad_scope.

(** [for x in l: body x] *)
Fixpoint for_each {S A} (l : list A) (body : A -> M S unit) : M S unit :=
  match l with
  | [] => ret tt
  | x :: l' => bind (body x) (fun _ => for_each l' body)
  end.

(** ** Python built-ins *)

Definition len {A} (l : list A) : Z := Z.of_nat (length l).

(** [l[:n]] *)
Definition py_take {A} (n : Z) (l : list A) : list A :=
  if n <? 0 then take (length l - Z.to_nat (- n)) l else take (Z.to_nat n) l.

(** [l[1:]] *)
Definition py_tail {A} (l : list A) : list A := drop 1 l.

(** [range(n)] *)
Definition py_range (n : Z) : list Z := map Z.of_nat (seq 0 (Z.to_nat n)).

(** [l.index(x)]: the first position of [x], [ValueError] when absent. *)
Fixpoint py_index (x : Z) (l : list Z) : result nat :=
  match l with
  | [] => Raise ValueError
  | y :: l' => if Z.eqb y x then Ok O
               else match py_index x l' with
                    | Ok i => Ok (S i)
                    | Raise e => Raise e
                    end
  end.

(** [del l[i]] for [i >= 0]: [IndexError] out of range. *)
Definition py_del {A} (i : nat) (l : list A) : result (list A) :=
  if Nat.ltb i (length l) then Ok (delete i l) else Raise IndexError.

(** [x in l] *)
Definition py_in (x : Z) (l : list Z) : bool := existsb (Z.eqb x) l.

(** [sum(l)] *)
Definition py_sum (l : list Z) : Z := fold_left Z.add l 0.

(** A [dict] with integer keys, in insertion order. *)
Definition dict (V : Type) : Type := list (Z * V).

Fixpoint dict_get {V} (k : Z) (d : dict V) : option V :=
  match d with
  | [] => None
  | (k', v) :: d' => if Z.eqb k' k then Some v else dict_get k d'
  end.

(** [d[k]]: [KeyError] when absent. *)
Definition dict_lookup {V} (k : Z) (d : dict V) : result V :=
  match dict_get k d with
  | Some v => Ok v
  | None => Raise KeyError
  end.

(** [d[k] = v]: in place when the key is there, appended otherwise. *)
Fixpoint dict_set {V} (k : Z) (v : V) (d : dict V) : dict V :=
  match d with
  | [] => [(k, v)]
  | (k', v') :: d' => if Z.eqb k' k then (k', v) :: d' else (k', v') :: dict_set k v d'
  end.

(** [del d[k]] *)
Fixpoint dict_del {V} (k : Z) (d : dict V) : dict V :=
  match d with
  | [] => []
  | (k', v') :: d' => if Z.eqb k' k then d' else (k', v') :: dict_del k d'
  end.

Definition dict_keys {V} (d : dict V) : list Z := map fst d.

(** [k in d] *)
Definition dict_mem {V} (k : Z) (d : dict V) : bool :=
  match dict_get k d with Some _ => true | None => false end.

(** ** Floats as numpy produces them *)

Inductive npfloat : Type :=
| Fin (q : Q)
| PInf
| NInf
| NaN.

(** [a < b] on floats; every comparison with NaN is false. *)
Definition fl_lt (a b : npfloat) : bool :=
  match a, b with
  | NaN, _ | _, NaN => false
  | Fin p, Fin q => negb (Qle_bool q p)
  | NInf, NInf => false
  | NInf, _ => true
  | _, NInf => false
  | PInf, _ => false
  | Fin _, PInf => true
  end.

(** [max(a, b)] of the built-in: [b] when [b > a], else [a]. *)
Definition py_max (a b : npfloat) : npfloat := if fl_lt a b then b else a.

(** [min(a, b)] of the built-in: [b] when [b < a], else [a]. *)
Definition py_min (a b : npfloat) : npfloat := if fl_lt b a then b else a.

(** [s / b] on numpy floats: a zero divisor gives NaN or an infinity (with a
    warning), not [ZeroDivisionError]. *)
Definition np_div (s b : Q) : npfloat :=
  if Qeq_bool b 0 then
    if Qeq_bool s 0 then NaN
    else if Qle_bool 0 s then PInf else NInf
  else Fin (s / b).

Definition q_max (a b : Q) : Q := if Qle_bool a b then b else a.

(** [np.max(l)]: [ValueError] on an empty array. *)
Definition np_max (l : list Q) : result Q :=
  match l with
  | [] => Raise ValueError
  | q :: l' => Ok (fold_left q_max l' q)
  end.

(** [int(x)] on a float: truncation toward zero; NaN and the infinities raise. *)
Definition py_int (x : npfloat) : result Z :=
  match x with
  | Fin q => Ok (Z.quot (Qnum q) (Zpos (Qden q)))
  | NaN => Raise ValueError
  | PInf | NInf => Raise OverflowError
  end.

Definition fl_affine (a : Q) (x : npfloat) (b : Q) : npfloat :=
  match x with
  | Fin q => Fin (a + q * b)
  | other => other
  end.

(** The square root that [Bucket.user_feedback] takes of a success rate is
    kept symbolic: [Sqrt q] stands for the float nearest to the root of [q]. *)
Inductive sqrt_float : Type := Sqrt (q : Q).

(** ** ImageList.py: the entries of a suggestion list *)

(** A confidence colour [#rrggbbaa]: the bucket's colour and the alpha channel
    [int(alpha)] that [confidence_color] formats after it. *)
Record conf_color : Type := { cc_base : string; cc_alpha : Z }.

Record img_info : Type := {
  image : Z;
  confidence : option npfloat;
  confidence_color : option conf_color;
  sugg_line_thickness : option npfloat;
  bucket : Z;
  is_fast_forward : bool;
  is_al_query : bool
}.

Definition SUGG_LINE_THICKNESS : Q := 4%Q.

(** [if not is_fast_forward: is_fast_forward = [False for img in images]]:
    [None] and the empty list both count as absent. *)
Definition flags_or_default {A} (flags : option (list bool)) (images : list A) : list bool :=
  match flags with
  | None | Some [] => map (fun _ => false) images
  | Some fl => fl
  end.

Fixpoint image_list_entries (bucket_id : Z) (images : list Z)
    (confidences : list (option npfloat)) (confidence_colors : list (option conf_color))
    (is_ff is_al : list bool) : list img_info :=
  match images, confidences, confidence_colors, is_ff, is_al with
  | i :: images', c :: confidences', cc :: colors', ff :: is_ff', al :: is_al' =>
      {| image := i;
         confidence := c;
         confidence_color := cc;
         sugg_line_thickness := option_map (fun x => fl_affine SUGG_LINE_THICKNESS x SUGG_LINE_THICKNESS) c;
         bucket := bucket_id;
         is_fast_forward := ff;
         is_al_query := al |}
      :: image_list_entries bucket_id images' confidences' colors' is_ff' is_al'
  | _, _, _, _, _ => []
  end.

(** [ImageList.image_list]: the five lists must have one length. *)
Definition ImageList_image_list (bucket_id : Z) (images : list Z)
    (confidences : list (option npfloat)) (confidence_colors : list (option conf_color))
    (is_fast_forward is_al_query : option (list bool)) : result (list img_info) :=
  let is_ff := flags_or_default is_fast_forward images in
  let is_al := flags_or_default is_al_query images in
  let sugg_list_lengths :=
    [length images; length confidences; length confidence_colors; length is_ff; length is_al] in
  if forallb (Nat.eqb (length images)) sugg_list_lengths
  then Ok (image_list_entries bucket_id images confidences confidence_colors is_ff is_al)
  else Raise ValueError.

(** ** BucketColorManager.confidence_color *)

Definition CONF_ALPHA_BREAKPOINT : Q := 100%Q.

Definition BucketColorManager_confidence_color (bucket_color : string) (conf : npfloat)
    : result conf_color :=
  match py_int (fl_affine CONF_ALPHA_BREAKPOINT conf (255 - CONF_ALPHA_BREAKPOINT)) with
  | Ok a => Ok {| cc_base := bucket_color; cc_alpha := a |}
  | Raise e => Raise e
  end.

(** [[f(x) for x in l]] where [f] may raise. *)
Fixpoint map_result {A B} (f : A -> result B) (l : list A) : result (list B) :=
  match l with
  | [] => Ok []
  | x :: l' =>
      match f x with
      | Raise e => Raise e
      | Ok y => match map_result f l' with
                | Raise e => Raise e
                | Ok ys => Ok (y :: ys)
                end
      end
  end.

(** ** SeenImages.py *)

Record SeenImages : Type := { seen : gset Z; n : Z }.

Definition SeenImages_len (s : SeenImages) : Z := Z.of_nat (size (seen s)).

Definition SeenImages_all (s : SeenImages) : list Z := elements (seen s).

Definition SeenImages_is_seen (s : SeenImages) (img : Z) : bool :=
  bool_decide (img ∈ seen s).

(** [SeenImages.update]: the set is updated first, the size is tested after. *)
Definition SeenImages_update (new_seen : list Z) : M SeenImages unit :=
  (modify (fun s => {| seen := seen s ∪ list_to_set new_seen; n := n s |}) ;;;
   s <- get ;;
   if SeenImages_len s =? n s then raise DatasetExhaustedError else ret tt)%monad.

(** [set(range(self.n)) - self.seen - set(exclude)], listed in ascending order. *)
Definition SeenImages_candidates (s : SeenImages) (exclude : list Z) : list Z :=
  filter (fun i => ¬ (i ∈ seen s) ∧ ¬ (i ∈ exclude)) (py_range (n s)).

(** ** DiscardPile.py (the methods that need only the pile) *)

Record DiscardPile : Type := { pile : list Z; dp_outstanding_ff : list Z }.

Definition DISCARD_PILE_BUCKET_ID : Z := 0.

Definition DiscardPile_discard_images (images_to_discard : list Z) : M DiscardPile unit :=
  modify (fun d => {| pile := pile d ++ images_to_discard;
                      dp_outstanding_ff := dp_outstanding_ff d |}).

Definition DiscardPile_len (d : DiscardPile) : Z := len (pile d).

Definition DiscardPile_all (d : DiscardPile) : list Z := pile d.

Definition DiscardPile_fast_forward (outstanding_ff : list Z) : M DiscardPile unit :=
  modify (fun d => {| pile := pile d; dp_outstanding_ff := outstanding_ff |}).

(** ** RandomizedExplorer.py: the state *)

Record RandomizedExplorer : Type := { re_outstanding_suggs : list Z }.

(** ** The state of a session

    The definitions from here on are parametric in the type [model] of a
    trained classifier and the type [R] of the random number generator's
    state. *)

Inductive oracle : Type := Rf | Al.

Section Session.

Context {model R : Type}.

(** *** Bucket.py: the attributes of a bucket

    The attributes of the exploration-search sliding ([expsearch_method] to
    [model_confidences]) exist in the source only when the configuration has
    an [expsearch] entry, and are read only then. *)
Record Bucket : Type := {
  id_ : Z;
  name : string;
  ordering : Z;
  color : string;
  active : bool;
  images : list Z;
  img_confidences : list npfloat;
  img_confidence_colors : list conf_color;
  img_svm_scores : list Q;
  best_img_svm_score : Q;
  negatives : list Z;
  active_suggs : option (list img_info);
  n_good_suggs : Z;
  n_judged_suggs : Z;
  precision : Q;
  svm_model : option model;
  outstanding_ff : list Z;
  outstanding_ff_conf : list npfloat;
  outstanding_ff_conf_colors : list conf_color;
  bad_ff : list Z;
  n_sugg_candidates : Z;
  oracle_mode : oracle;
  al_ratio : Q;
  outstanding_al_queries : list Z;
  expsearch : bool;
  expsearch_method : string;
  expsearch_n_rounds : Z;
  ann_sample : bool;
  outstanding_suggs : list (list Z);
  good_suggs : list (list Z);
  all_suggs : list (list Z);
  model_confidences : list sqrt_float
}.

Definition set_ordering (v : Z) (b : Bucket) : Bucket :=
  {| id_ := id_ b; name := name b; ordering := v; color := color b; active := active b;
     images := images b; img_confidences := img_confidences b;
     img_confidence_colors := img_confidence_colors b; img_svm_scores := img_svm_scores b;
     best_img_svm_score := best_img_svm_score b; negatives := negatives b;
     active_suggs := active_suggs b; n_good_suggs := n_good_suggs b;
     n_judged_suggs := n_judged_suggs b; precision := precision b; svm_model := svm_model b;
     outstanding_ff := outstanding_ff b; outstanding_ff_conf := outstanding_ff_conf b;
     outstanding_ff_conf_colors := outstanding_ff_conf_colors b; bad_ff := bad_ff b;
     n_sugg_candidates := n_sugg_candidates b; oracle_mode := oracle_mode b;
     al_ratio := al_ratio b; outstanding_al_queries := outstanding_al_queries b;
     expsearch := expsearch b; expsearch_method := expsearch_method b;
     expsearch_n_rounds := expsearch_n_rounds b; ann_sample := ann_sample b;
     outstanding_suggs := outstanding_suggs b; good_suggs := good_suggs b;
     all_suggs := all_suggs b; model_confidences := model_confidences b |}.

Definition set_active (v : bool) (b : Bucket) : Bucket :=
  {| id_ := id_ b; name := name b; ordering := ordering b; color := color b; active := v;
     images := images b; img_confidences := img_confidences b;
     img_confidence_colors := img_confidence_colors b; img_svm_scores := img_svm_scores b;
     best_img_svm_score := best_img_svm_score b; negatives := negatives b;
     active_suggs := active_suggs b; n_good_suggs := n_good_suggs b;
     n_judged_suggs := n_judged_suggs b; precision := precision b; svm_model := svm_model b;
     outstanding_ff := outstanding_ff b; outstanding_ff_conf := outstanding_ff_conf b;
     outstanding_ff_conf_colors := outstanding_ff_conf_colors b; bad_ff := bad_ff b;
     n_sugg_candidates := n_sugg_candidates b; oracle_mode := oracle_mode b;
     al_ratio := al_ratio b; outstanding_al_queries := outstanding_al_queries b;
     expsearch := expsearch b; expsearch_method := expsearch_method b;
     expsearch_n_rounds := expsearch_n_rounds b; ann_sample := ann_sample b;
     outstanding_suggs := outstanding_suggs b; good_suggs := good_suggs b;
     all_suggs := all_suggs b; model_confidences := model_confidences b |}.

Definition set_images (v : list Z) (b : Bucket) : Bucket :=
  {| id_ := id_ b; name := name b; ordering := ordering b; color := color b;
     active := active b; images := v; img_confidences := img_confidences b;
     img_confidence_colors := img_confidence_colors b; img_svm_scores := img_svm_scores b;
     best_img_svm_score := best_img_svm_score b; negatives := negatives b;
     active_suggs := active_suggs b; n_good_suggs := n_good_suggs b;
     n_judged_suggs := n_judged_suggs b; precision := precision b; svm_model := svm_model b;
     outstanding_ff := outstanding_ff b; outstanding_ff_conf := outstanding_ff_conf b;
     outstanding_ff_conf_colors := outstanding_ff_conf_colors b; bad_ff := bad_ff b;
     n_sugg_candidates := n_sugg_candidates b; oracle_mode := oracle_mode b;
     al_ratio := al_ratio b; outstanding_al_queries := outstanding_al_queries b;
     expsearch := expsearch b; expsearch_method := expsearch_method b;
     expsearch_n_rounds := expsearch_n_rounds b; ann_sample := ann_sample b;
     outstanding_suggs := outstanding_suggs b; good_suggs := good_suggs b;
     all_suggs := all_suggs b; model_confidences := model_confidences b |}.

Definition set_img_confidences (v : list npfloat) (b : Bucket) : Bucket :=
  {| id_ := id_ b; name := name b; ordering := ordering b; color := color b;
     active := active b; images := images b; img_confidences := v;
     img_confidence_colors := img_confidence_colors b; img_svm_scores := img_svm_scores b;
     best_img_svm_score := best_img_svm_score b; negatives := negatives b;
     active_suggs := active_suggs b; n_good_suggs := n_good_suggs b;
     n_judged_suggs := n_judged_suggs b; precision := precision b; svm_model := svm_model b;
     outstanding_ff := outstanding_ff b; outstanding_ff_conf := outstanding_ff_conf b;
     outstanding_ff_conf_colors := outstanding_ff_conf_colors b; bad_ff := bad_ff b;
     n_sugg_candidates := n_sugg_candidates b; oracle_mode := oracle_mode b;
     al_ratio := al_ratio b; outstanding_al_queries := outstanding_al_queries b;
     expsearch := expsearch b; expsearch_method := expsearch_method b;
     expsearch_n_rounds := expsearch_n_rounds b; ann_sample := ann_sample b;
     outstanding_suggs := outstanding_suggs b; good_suggs := good_suggs b;
     all_suggs := all_suggs b; model_confidences := model_confidences b |}.

Definition set_img_confidence_colors (v : list conf_color) (b : Bucket) : Bucket :=
  {| id_ := id_ b; name := name b; ordering := ordering b; color := color b;
     active := active b; images := images b; img_confidences := img_confidences b;
     img_confidence_colors := v; img_svm_scores := img_svm_scores b;
     best_img_svm_score := best_img_svm_score b; negatives := negatives b;
     active_suggs := active_suggs b; n_good_suggs := n_good_suggs b;
     n_judged_suggs := n_judged_suggs b; precision := precision b; svm_model := svm_model b;
     outstanding_ff := outstanding_ff b; outstanding_ff_conf := outstanding_ff_conf b;
     outstanding_ff_conf_colors := outstanding_ff_conf_colors b; bad_ff := bad_ff b;
     n_sugg_candidates := n_sugg_candidates b; oracle_mode := oracle_mode b;
     al_ratio := al_ratio b; outstanding_al_queries := outstanding_al_queries b;
     expsearch := expsearch b; expsearch_method := expsearch_method b;
     expsearch_n_rounds := expsearch_n_rounds b; ann_sample := ann_sample b;
     outstanding_suggs := outstanding_suggs b; good_suggs := good_suggs b;
     all_suggs := all_suggs b; model_confidences := model_confidences b |}.

Definition set_img_svm_scores (v : list Q) (b : Bucket) : Bucket :=
  {| id_ := id_ b; name := name b; ordering := ordering b; color := color b;
     active := active b; images := images b; img_confidences := img_confidences b;
     img_confidence_colors := img_confidence_colors b; img_svm_scores := v;
     best_img_svm_score := best_img_svm_score b; negatives := negatives b;
     active_suggs := active_suggs b; n_good_suggs := n_good_suggs b;
     n_judged_suggs := n_judged_suggs b; precision := precision b; svm_model := svm_model b;
     outstanding_ff := outstanding_ff b; outstanding_ff_conf := outstanding_ff_conf b;
     outstanding_ff_conf_colors := outstanding_ff_conf_colors b; bad_ff := bad_ff b;
     n_sugg_candidates := n_sugg_candidates b; oracle_mode := oracle_mode b;
     al_ratio := al_ratio b; outstanding_al_queries := outstanding_al_queries b;
     expsearch := expsearch b; expsearch_method := expsearch_method b;
     expsearch_n_rounds := expsearch_n_rounds b; ann_sample := ann_sample b;
     outstanding_suggs := outstanding_suggs b; good_suggs := good_suggs b;
     all_suggs := all_suggs b; model_confidences := model_confidences b |}.

Definition set_best_img_svm_score (v : Q) (b : Bucket) : Bucket :=
  {| id_ := id_ b; name := name b; ordering := ordering b; color := color b;
     active := active b; images := images b; img_confidences := img_confidences b;
     img_confidence_colors := img_confidence_colors b; img_svm_scores := img_svm_scores b;
     best_img_svm_score := v; negatives := negatives b; active_suggs := active_suggs b;
     n_good_suggs := n_good_suggs b; n_judged_suggs := n_judged_suggs b;
     precision := precision b; svm_model := svm_model b; outstanding_ff := outstanding_ff b;
     outstanding_ff_conf := outstanding_ff_conf b;
     outstanding_ff_conf_colors := outstanding_ff_conf_colors b; bad_ff := bad_ff b;
     n_sugg_candidates := n_sugg_candidates b; oracle_mode := oracle_mode b;
     al_ratio := al_ratio b; outstanding_al_queries := outstanding_al_queries b;
     expsearch := expsearch b; expsearch_method := expsearch_method b;
     expsearch_n_rounds := expsearch_n_rounds b; ann_sample := ann_sample b;
     outstanding_suggs := outstanding_suggs b; good_suggs := good_suggs b;
     all_suggs := all_suggs b; model_confidences := model_confidences b |}.

Definition set_negatives (v : list Z) (b : Bucket) : Bucket :=
  {| id_ := id_ b; name := name b; ordering := ordering b; color := color b;
     active := active b; images := images b; img_confidences := img_confidences b;
     img_confidence_colors := img_confidence_colors b; img_svm_scores := img_svm_scores b;
     best_img_svm_score := best_img_svm_score b; negatives := v;
     active_suggs := active_suggs b; n_good_suggs := n_good_suggs b;
     n_judged_suggs := n_judged_suggs b; precision := precision b; svm_model := svm_model b;
     outstanding_ff := outstanding_ff b; outstanding_ff_conf := outstanding_ff_conf b;
     outstanding_ff_conf_colors := outstanding_ff_conf_colors b; bad_ff := bad_ff b;
     n_sugg_candidates := n_sugg_candidates b; oracle_mode := oracle_mode b;
     al_ratio := al_ratio b; outstanding_al_queries := outstanding_al_queries b;
     expsearch := expsearch b; expsearch_method := expsearch_method b;
     expsearch_n_rounds := expsearch_n_rounds b; ann_sample := ann_sample b;
     outstanding_suggs := outstanding_suggs b; good_suggs := good_suggs b;
     all_suggs := all_suggs b; model_confidences := model_confidences b |}.

Definition set_active_suggs (v : option (list img_info)) (b : Bucket) : Bucket :=
  {| id_ := id_ b; name := name b; ordering := ordering b; color := color b;
     active := active b; images := images b; img_confidences := img_confidences b;
     img_confidence_colors := img_confidence_colors b; img_svm_scores := img_svm_scores b;
     best_img_svm_score := best_img_svm_score b; negatives := negatives b;
     active_suggs := v; n_good_suggs := n_good_suggs b; n_judged_suggs := n_judged_suggs b;
     precision := precision b; svm_model := svm_model b; outstanding_ff := outstanding_ff b;
     outstanding_ff_conf := outstanding_ff_conf b;
     outstanding_ff_conf_colors := outstanding_ff_conf_colors b; bad_ff := bad_ff b;
     n_sugg_candidates := n_sugg_candidates b; oracle_mode := oracle_mode b;
     al_ratio := al_ratio b; outstanding_al_queries := outstanding_al_queries b;
     expsearch := expsearch b; expsearch_method := expsearch_method b;
     expsearch_n_rounds := expsearch_n_rounds b; ann_sample := ann_sample b;
     outstanding_suggs := outstanding_suggs b; good_suggs := good_suggs b;
     all_suggs := all_suggs b; model_confidences := model_confidences b |}.

Definition set_n_good_suggs (v : Z) (b : Bucket) : Bucket :=
  {| id_ := id_ b; name := name b; ordering := ordering b; color := color b;
     active := active b; images := images b; img_confidences := img_confidences b;
     img_confidence_colors := img_confidence_colors b; img_svm_scores := img_svm_scores b;
     best_img_svm_score := best_img_svm_score b; negatives := negatives b;
     active_suggs := active_suggs b; n_good_suggs := v; n_judged_suggs := n_judged_suggs b;
     precision := precision b; svm_model := svm_model b; outstanding_ff := outstanding_ff b;
     outstanding_ff_conf := outstanding_ff_conf b;
     outstanding_ff_conf_colors := outstanding_ff_conf_colors b; bad_ff := bad_ff b;
     n_sugg_candidates := n_sugg_candidates b; oracle_mode := oracle_mode b;
     al_ratio := al_ratio b; outstanding_al_queries := outstanding_al_queries b;
     expsearch := expsearch b; expsearch_method := expsearch_method b;
     expsearch_n_rounds := expsearch_n_rounds b; ann_sample := ann_sample b;
     outstanding_suggs := outstanding_suggs b; good_suggs := good_suggs b;
     all_suggs := all_suggs b; model_confidences := model_confidences b |}.

Definition set_n_judged_suggs (v : Z) (b : Bucket) : Bucket :=
  {| id_ := id_ b; name := name b; ordering := ordering b; color := color b;
     active := active b; images := images b; img_confidences := img_confidences b;
     img_confidence_colors := img_confidence_colors b; img_svm_scores := img_svm_scores b;
     best_img_svm_score := best_img_svm_score b; negatives := negatives b;
     active_suggs := active_suggs b; n_good_suggs := n_good_suggs b; n_judged_suggs := v;
     precision := precision b; svm_model := svm_model b; outstanding_ff := outstanding_ff b;
     outstanding_ff_conf := outstanding_ff_conf b;
     outstanding_ff_conf_colors := outstanding_ff_conf_colors b; bad_ff := bad_ff b;
     n_sugg_candidates := n_sugg_candidates b; oracle_mode := oracle_mode b;
     al_ratio := al_ratio b; outstanding_al_queries := outstanding_al_queries b;
     expsearch := expsearch b; expsearch_method := expsearch_method b;
     expsearch_n_rounds := expsearch_n_rounds b; ann_sample := ann_sample b;
     outstanding_suggs := outstanding_suggs b; good_suggs := good_suggs b;
     all_suggs := all_suggs b; model_confidences := model_confidences b |}.

Definition set_precision (v : Q) (b : Bucket) : Bucket :=
  {| id_ := id_ b; name := name b; ordering := ordering b; color := color b;
     active := active b; images := images b; img_confidences := img_confidences b;
     img_confidence_colors := img_confidence_colors b; img_svm_scores := img_svm_scores b;
     best_img_svm_score := best_img_svm_score b; negatives := negatives b;
     active_suggs := active_suggs b; n_good_suggs := n_good_suggs b;
     n_judged_suggs := n_judged_suggs b; precision := v; svm_model := svm_model b;
     outstanding_ff := outstanding_ff b; outstanding_ff_conf := outstanding_ff_conf b;
     outstanding_ff_conf_colors := outstanding_ff_conf_colors b; bad_ff := bad_ff b;
     n_sugg_candidates := n_sugg_candidates b; oracle_mode := oracle_mode b;
     al_ratio := al_ratio b; outstanding_al_queries := outstanding_al_queries b;
     expsearch := expsearch b; expsearch_method := expsearch_method b;
     expsearch_n_rounds := expsearch_n_rounds b; ann_sample := ann_sample b;
     outstanding_suggs := outstanding_suggs b; good_suggs := good_suggs b;
     all_suggs := all_suggs b; model_confidences := model_confidences b |}.

Definition set_svm_model (v : option model) (b : Bucket) : Bucket :=
  {| id_ := id_ b; name := name b; ordering := ordering b; color := color b;
     active := active b; images := images b; img_confidences := img_confidences b;
     img_confidence_colors := img_confidence_colors b; img_svm_scores := img_svm_scores b;
     best_img_svm_score := best_img_svm_score b; negatives := negatives b;
     active_suggs := active_suggs b; n_good_suggs := n_good_suggs b;
     n_judged_suggs := n_judged_suggs b; precision := precision b; svm_model := v;
     outstanding_ff := outstanding_ff b; outstanding_ff_conf := outstanding_ff_conf b;
     outstanding_ff_conf_colors := outstanding_ff_conf_colors b; bad_ff := bad_ff b;
     n_sugg_candidates := n_sugg_candidates b; oracle_mode := oracle_mode b;
     al_ratio := al_ratio b; outstanding_al_queries := outstanding_al_queries b;
     expsearch := expsearch b; expsearch_method := expsearch_method b;
     expsearch_n_rounds := expsearch_n_rounds b; ann_sample := ann_sample b;
     outstanding_suggs := outstanding_suggs b; good_suggs := good_suggs b;
     all_suggs := all_suggs b; model_confidences := model_confidences b |}.

Definition set_outstanding_ff (v : list Z) (b : Bucket) : Bucket :=
  {| id_ := id_ b; name := name b; ordering := ordering b; color := color b;
     active := active b; images := images b; img_confidences := img_confidences b;
     img_confidence_colors := img_confidence_colors b; img_svm_scores := img_svm_scores b;
     best_img_svm_score := best_img_svm_score b; negatives := negatives b;
     active_suggs := active_suggs b; n_good_suggs := n_good_suggs b;
     n_judged_suggs := n_judged_suggs b; precision := precision b; svm_model := svm_model b;
     outstanding_ff := v; outstanding_ff_conf := outstanding_ff_conf b;
     outstanding_ff_conf_colors := outstanding_ff_conf_colors b; bad_ff := bad_ff b;
     n_sugg_candidates := n_sugg_candidates b; oracle_mode := oracle_mode b;
     al_ratio := al_ratio b; outstanding_al_queries := outstanding_al_queries b;
     expsearch := expsearch b; expsearch_method := expsearch_method b;
     expsearch_n_rounds := expsearch_n_rounds b; ann_sample := ann_sample b;
     outstanding_suggs := outstanding_suggs b; good_suggs := good_suggs b;
     all_suggs := all_suggs b; model_confidences := model_confidences b |}.

Definition set_outstanding_ff_conf (v : list npfloat) (b : Bucket) : Bucket :=
  {| id_ := id_ b; name := name b; ordering := ordering b; color := color b;
     active := active b; images := images b; img_confidences := img_confidences b;
     img_confidence_colors := img_confidence_colors b; img_svm_scores := img_svm_scores b;
     best_img_svm_score := best_img_svm_score b; negatives := negatives b;
     active_suggs := active_suggs b; n_good_suggs := n_good_suggs b;
     n_judged_suggs := n_judged_suggs b; precision := precision b; svm_model := svm_model b;
     outstanding_ff := outstanding_ff b; outstanding_ff_conf := v;
     outstanding_ff_conf_colors := outstanding_ff_conf_colors b; bad_ff := bad_ff b;
     n_sugg_candidates := n_sugg_candidates b; oracle_mode := oracle_mode b;
     al_ratio := al_ratio b; outstanding_al_queries := outstanding_al_queries b;
     expsearch := expsearch b; expsearch_method := expsearch_method b;
     expsearch_n_rounds := expsearch_n_rounds b; ann_sample := ann_sample b;
     outstanding_suggs := outstanding_suggs b; good_suggs := good_suggs b;
     all_suggs := all_suggs b; model_confidences := model_confidences b |}.

Definition set_outstanding_ff_conf_colors (v : list conf_color) (b : Bucket) : Bucket :=
  {| id_ := id_ b; name := name b; ordering := ordering b; color := color b;
     active := active b; images := images b; img_confidences := img_confidences b;
     img_confidence_colors := img_confidence_colors b; img_svm_scores := img_svm_scores b;
     best_img_svm_score := best_img_svm_score b; negatives := negatives b;
     active_suggs := active_suggs b; n_good_suggs := n_good_suggs b;
     n_judged_suggs := n_judged_suggs b; precision := precision b; svm_model := svm_model b;
     outstanding_ff := outstanding_ff b; outstanding_ff_conf := outstanding_ff_conf b;
     outstanding_ff_conf_colors := v; bad_ff := bad_ff b;
     n_sugg_candidates := n_sugg_candidates b; oracle_mode := oracle_mode b;
     al_ratio := al_ratio b; outstanding_al_queries := outstanding_al_queries b;
     expsearch := expsearch b; expsearch_method := expsearch_method b;
     expsearch_n_rounds := expsearch_n_rounds b; ann_sample := ann_sample b;
     outstanding_suggs := outstanding_suggs b; good_suggs := good_suggs b;
     all_suggs := all_suggs b; model_confidences := model_confidences b |}.

Definition set_bad_ff (v : list Z) (b : Bucket) : Bucket :=
  {| id_ := id_ b; name := name b; ordering := ordering b; color := color b;
     active := active b; images := images b; img_confidences := img_confidences b;
     img_confidence_colors := img_confidence_colors b; img_svm_scores := img_svm_scores b;
     best_img_svm_score := best_img_svm_score b; negatives := negatives b;
     active_suggs := active_suggs b; n_good_suggs := n_good_suggs b;
     n_judged_suggs := n_judged_suggs b; precision := precision b; svm_model := svm_model b;
     outstanding_ff := outstanding_ff b; outstanding_ff_conf := outstanding_ff_conf b;
     outstanding_ff_conf_colors := outstanding_ff_conf_colors b; bad_ff := v;
     n_sugg_candidates := n_sugg_candidates b; oracle_mode := oracle_mode b;
     al_ratio := al_ratio b; outstanding_al_queries := outstanding_al_queries b;
     expsearch := expsearch b; expsearch_method := expsearch_method b;
     expsearch_n_rounds := expsearch_n_rounds b; ann_sample := ann_sample b;
     outstanding_suggs := outstanding_suggs b; good_suggs := good_suggs b;
     all_suggs := all_suggs b; model_confidences := model_confidences b |}.

Definition set_outstanding_al_queries (v : list Z) (b : Bucket) : Bucket :=
  {| id_ := id_ b; name := name b; ordering := ordering b; color := color b;
     active := active b; images := images b; img_confidences := img_confidences b;
     img_confidence_colors := img_confidence_colors b; img_svm_scores := img_svm_scores b;
     best_img_svm_score := best_img_svm_score b; negatives := negatives b;
     active_suggs := active_suggs b; n_good_suggs := n_good_suggs b;
     n_judged_suggs := n_judged_suggs b; precision := precision b; svm_model := svm_model b;
     outstanding_ff := outstanding_ff b; outstanding_ff_conf := outstanding_ff_conf b;
     outstanding_ff_conf_colors := outstanding_ff_conf_colors b; bad_ff := bad_ff b;
     n_sugg_candidates := n_sugg_candidates b; oracle_mode := oracle_mode b;
     al_ratio := al_ratio b; outstanding_al_queries := v; expsearch := expsearch b;
     expsearch_method := expsearch_method b; expsearch_n_rounds := expsearch_n_rounds b;
     ann_sample := ann_sample b; outstanding_suggs := outstanding_suggs b;
     good_suggs := good_suggs b; all_suggs := all_suggs b;
     model_confidences := model_confidences b |}.

Definition set_outstanding_suggs (v : list (list Z)) (b : Bucket) : Bucket :=
  {| id_ := id_ b; name := name b; ordering := ordering b; color := color b;
     active := active b; images := images b; img_confidences := img_confidences b;
     img_confidence_colors := img_confidence_colors b; img_svm_scores := img_svm_scores b;
     best_img_svm_score := best_img_svm_score b; negatives := negatives b;
     active_suggs := active_suggs b; n_good_suggs := n_good_suggs b;
     n_judged_suggs := n_judged_suggs b; precision := precision b; svm_model := svm_model b;
     outstanding_ff := outstanding_ff b; outstanding_ff_conf := outstanding_ff_conf b;
     outstanding_ff_conf_colors := outstanding_ff_conf_colors b; bad_ff := bad_ff b;
     n_sugg_candidates := n_sugg_candidates b; oracle_mode := oracle_mode b;
     al_ratio := al_ratio b; outstanding_al_queries := outstanding_al_queries b;
     expsearch := expsearch b; expsearch_method := expsearch_method b;
     expsearch_n_rounds := expsearch_n_rounds b; ann_sample := ann_sample b;
     outstanding_suggs := v; good_suggs := good_suggs b; all_suggs := all_suggs b;
     model_confidences := model_confidences b |}.

Definition set_good_suggs (v : list (list Z)) (b : Bucket) : Bucket :=
  {| id_ := id_ b; name := name b; ordering := ordering b; color := color b;
     active := active b; images := images b; img_confidences := img_confidences b;
     img_confidence_colors := img_confidence_colors b; img_svm_scores := img_svm_scores b;
     best_img_svm_score := best_img_svm_score b; negatives := negatives b;
     active_suggs := active_suggs b; n_good_suggs := n_good_suggs b;
     n_judged_suggs := n_judged_suggs b; precision := precision b; svm_model := svm_model b;
     outstanding_ff := outstanding_ff b; outstanding_ff_conf := outstanding_ff_conf b;
     outstanding_ff_conf_colors := outstanding_ff_conf_colors b; bad_ff := bad_ff b;
     n_sugg_candidates := n_sugg_candidates b; oracle_mode := oracle_mode b;
     al_ratio := al_ratio b; outstanding_al_queries := outstanding_al_queries b;
     expsearch := expsearch b; expsearch_method := expsearch_method b;
     expsearch_n_rounds := expsearch_n_rounds b; ann_sample := ann_sample b;
     outstanding_suggs := outstanding_suggs b; good_suggs := v; all_suggs := all_suggs b;
     model_confidences := model_confidences b |}.

Definition set_all_suggs (v : list (list Z)) (b : Bucket) : Bucket :=
  {| id_ := id_ b; name := name b; ordering := ordering b; color := color b;
     active := active b; images := images b; img_confidences := img_confidences b;
     img_confidence_colors := img_confidence_colors b; img_svm_scores := img_svm_scores b;
     best_img_svm_score := best_img_svm_score b; negatives := negatives b;
     active_suggs := active_suggs b; n_good_suggs := n_good_suggs b;
     n_judged_suggs := n_judged_suggs b; precision := precision b; svm_model := svm_model b;
     outstanding_ff := outstanding_ff b; outstanding_ff_conf := outstanding_ff_conf b;
     outstanding_ff_conf_colors := outstanding_ff_conf_colors b; bad_ff := bad_ff b;
     n_sugg_candidates := n_sugg_candidates b; oracle_mode := oracle_mode b;
     al_ratio := al_ratio b; outstanding_al_queries := outstanding_al_queries b;
     expsearch := expsearch b; expsearch_method := expsearch_method b;
     expsearch_n_rounds := expsearch_n_rounds b; ann_sample := ann_sample b;
     outstanding_suggs := outstanding_suggs b; good_suggs := good_suggs b; all_suggs := v;
     model_confidences := model_confidences b |}.

Definition set_model_confidences (v : list sqrt_float) (b : Bucket) : Bucket :=
  {| id_ := id_ b; name := name b; ordering := ordering b; color := color b;
     active := active b; images := images b; img_confidences := img_confidences b;
     img_confidence_colors := img_confidence_colors b; img_svm_scores := img_svm_scores b;
     best_img_svm_score := best_img_svm_score b; negatives := negatives b;
     active_suggs := active_suggs b; n_good_suggs := n_good_suggs b;
     n_judged_suggs := n_judged_suggs b; precision := precision b; svm_model := svm_model b;
     outstanding_ff := outstanding_ff b; outstanding_ff_conf := outstanding_ff_conf b;
     outstanding_ff_conf_colors := outstanding_ff_conf_colors b; bad_ff := bad_ff b;
     n_sugg_candidates := n_sugg_candidates b; oracle_mode := oracle_mode b;
     al_ratio := al_ratio b; outstanding_al_queries := outstanding_al_queries b;
     expsearch := expsearch b; expsearch_method := expsearch_method b;
     expsearch_n_rounds := expsearch_n_rounds b; ann_sample := ann_sample b;
     outstanding_suggs := outstanding_suggs b; good_suggs := good_suggs b;
     all_suggs := all_suggs b; model_confidences := v |}.

(** The objects a bucket shares with the session, and the generator. *)
Record World : Type := {
  discard_pile : DiscardPile;
  seen_images : SeenImages;
  randomized_explorer : RandomizedExplorer;
  rng : R
}.

Definition set_discard_pile (d : DiscardPile) (w : World) : World :=
  {| discard_pile := d; seen_images := seen_images w;
     randomized_explorer := randomized_explorer w; rng := rng w |}.

Definition set_seen_images (s : SeenImages) (w : World) : World :=
  {| discard_pile := discard_pile w; seen_images := s;
     randomized_explorer := randomized_explorer w; rng := rng w |}.

Definition set_randomized_explorer (e : RandomizedExplorer) (w : World) : World :=
  {| discard_pile := discard_pile w; seen_images := seen_images w;
     randomized_explorer := e; rng := rng w |}.

Definition set_rng (r : R) (w : World) : World :=
  {| discard_pile := discard_pile w; seen_images := seen_images w;
     randomized_explorer := randomized_explorer w; rng := r |}.

(** *** AIModel.py: the attributes of the model *)
Record AIModel : Type := {
  buckets : dict Bucket;
  world : World;
  ai_outstanding_suggs : dict img_info;
  next_bucket_id : Z
}.

Definition set_buckets (bs : dict Bucket) (m : AIModel) : AIModel :=
  {| buckets := bs; world := world m;
     ai_outstanding_suggs := ai_outstanding_suggs m; next_bucket_id := next_bucket_id m |}.

Definition set_world (w : World) (m : AIModel) : AIModel :=
  {| buckets := buckets m; world := w;
     ai_outstanding_suggs := ai_outstanding_suggs m; next_bucket_id := next_bucket_id m |}.

Definition set_ai_outstanding_suggs (o : dict img_info) (m : AIModel) : AIModel :=
  {| buckets := buckets m; world := world m;
     ai_outstanding_suggs := o; next_bucket_id := next_bucket_id m |}.

(** *** The external collaborators *)
Class Externals : Type := {
  (** [svm_model.decision_function] on the feature row of one image. *)
  decision_function : model -> Z -> Q;
  (** [svm.LinearSVC().fit(features[train_idx, :], labels)]. *)
  LinearSVC_fit : list Z -> list Z -> R -> model * R;
  (** The choice [random.sample(population, k)] makes when [0 <= k <= len]. *)
  sample_choice : list Z -> nat -> R -> list Z * R;
  (** The ranking of [RandomizedExplorer.suggest]: the candidates by their
      smallest distance to the seen images, furthest first; [ValueError]
      when the collection index cannot rank them. *)
  rank_candidates : list Z -> list Z -> result (list Z);
  (** The ranking [np.argsort(sort_mult * scores)] of [Bucket._top_images]
      over the whole collection, seen images last. *)
  top_img_ranking : model -> SeenImages -> bool -> list Z;
  (** [sum(np.random.rand(n_suggs) < al_ratio)]: how many of the [n_suggs]
      suggestions become active-learning queries. *)
  al_query_count : Z -> Q -> R -> Z * R;
  (** [np.argsort(np.abs(scores))] *)
  argsort_abs : list npfloat -> list nat;
  (** The roulette of [Bucket.suggest]: how many of the [n_suggs] draws fall
      under the classifier's threshold, between the two thresholds, and
      above the index's threshold. *)
  roulette_split : Z -> sqrt_float -> sqrt_float -> R -> (Z * Z * Z) * R;
  (** The nearest-neighbour candidates of [Bucket.suggest] (k-NN or
      approximate), at most the number asked for. *)
  nn_suggs : Bucket -> SeenImages -> Z -> list Z -> R -> result (list Z) * R
}.

End Session.

Arguments Bucket : clear implicits.
Arguments World : clear implicits.
Arguments AIModel : clear implicits.
Arguments Externals : clear implicits.

(** ** The methods *)

Section Methods.

Context {model R : Type} `{!Externals model R}.

Local Open Scope monad_scope.

Local Abbreviation BucketSt := (Bucket model * World R)%type.

(** The components of a state, as places a method can run in. *)
Definition on_bucket {A} (c : M (Bucket model) A) : M BucketSt A :=
  zoom fst (fun b s => (b, snd s)) c.

Definition on_world {A} (c : M (World R) A) : M BucketSt A :=
  zoom snd (fun w s => (fst s, w)) c.

Definition on_seen {A} (c : M SeenImages A) : M (World R) A :=
  zoom seen_images set_seen_images c.

Definition on_discard {A} (c : M DiscardPile A) : M (World R) A :=
  zoom discard_pile set_discard_pile c.

Definition on_explorer {A} (c : M RandomizedExplorer A) : M (World R) A :=
  zoom randomized_explorer set_randomized_explorer c.

Definition on_rng {A} (c : M R A) : M (World R) A :=
  zoom rng set_rng c.

(** [l[i]] and [l[i] = v] for [i >= 0]. *)
Definition list_get {A} (i : nat) (l : list A) : result A :=
  match l !! i with Some x => Ok x | None => Raise IndexError end.

Definition list_set {A} (i : nat) (v : A) (l : list A) : result (list A) :=
  if Nat.ltb i (length l) then Ok (<[i := v]> l) else Raise IndexError.

(** [random.sample(population, k)]: [ValueError] when the sample is larger
    than the population or negative. *)
Definition random_sample (population : list Z) (k : Z) : M R (list Z) :=
  fun r =>
    if (k <? 0) || (len population <? k) then (Raise ValueError, r)
    else let '(l, r') := sample_choice population (Z.to_nat k) r in (Ok l, r').

(** *** SeenImages.random_unseen_images *)
Definition SeenImages_random_unseen_images (s : SeenImages) (n_random : Z)
    (exclude : list Z) : M R (list Z) :=
  let candidates := SeenImages_candidates s exclude in
  if len candidates =? 0 then raise DatasetExhaustedError
  else if len candidates <? n_random then ret candidates
  else random_sample candidates n_random.

(** *** DiscardPile.random_sample and DiscardPile.restore_images *)
Definition DiscardPile_random_sample (d : DiscardPile) (n_samples : Z) : M R (list Z) :=
  random_sample (pile d) n_samples.

Definition DiscardPile_restore_images (images_to_restore : list Z) : M (World R) unit :=
  for_each images_to_restore (fun img =>
    w <- get ;;
    let d := discard_pile w in
    match py_index img (pile d) with
    | Ok i =>
        p <- lift_result (py_del i (pile d)) ;;
        on_discard (put {| pile := p; dp_outstanding_ff := dp_outstanding_ff d |})
    | Raise _ =>
        match py_index img (dp_outstanding_ff d) with
        | Raise _ => raise ValueError
        | Ok i =>
            x <- lift_result (list_get i (dp_outstanding_ff d)) ;;
            on_seen (SeenImages_update [x]) ;;;
            ff <- lift_result (py_del i (dp_outstanding_ff d)) ;;
            on_discard (put {| pile := pile d; dp_outstanding_ff := ff |})
        end
    end).

Definition DiscardPile_ff_commit : M (World R) unit :=
  w <- get ;;
  let d := discard_pile w in
  on_discard (put {| pile := pile d ++ dp_outstanding_ff d;
                     dp_outstanding_ff := dp_outstanding_ff d |}) ;;;
  on_seen (SeenImages_update (dp_outstanding_ff d)) ;;;
  on_discard (modify (fun d' => {| pile := pile d'; dp_outstanding_ff := [] |})).

(** *** BlackthornFeatures.get: the rows fetched

    [idx += random.sample(self.rand_candidates_all - set(idx), n_random_fill)];
    the feature store has one row per image of the collection. *)
Definition features_get (n_coll : Z) (idx : list Z) (n_random_fill : Z) : M R (list Z) :=
  if 0 <? n_random_fill then
    fill <- random_sample (filter (fun i => ¬ (i ∈ idx)) (py_range n_coll)) n_random_fill ;;
    ret (idx ++ fill)
  else ret idx.

(** *** RandomizedExplorer.suggest *)

Definition N_SUGG_CANDIDATE_MULT : Z := 100.

(** The body of [suggest] up to the choice of the return format. *)
Definition RandomizedExplorer_suggest_images (n_suggs : Z) (refresh : bool)
    (prev_suggs : list Z) : M (World R) (list Z) :=
  w <- get ;;
  let suggs_images :=
    if refresh then [] else py_take n_suggs (re_outstanding_suggs (randomized_explorer w)) in
  let n_new_rand_exp := if refresh then n_suggs else n_suggs - len suggs_images in
  if 0 <? n_new_rand_exp then
    let n_rand_candidates := n_new_rand_exp * N_SUGG_CANDIDATE_MULT in
    rand_candidates <-
      on_rng (SeenImages_random_unseen_images (seen_images w) n_rand_candidates prev_suggs) ;;
    new_rand_exp <-
      try_except
        (ranked <- lift_result (rank_candidates rand_candidates (SeenImages_all (seen_images w))) ;;
         ret (py_take n_new_rand_exp ranked))
        (fun e => match e with ValueError => true | _ => false end)
        (on_rng (random_sample (py_range (n (seen_images w))) n_new_rand_exp)) ;;
    let suggs_images := suggs_images ++ new_rand_exp in
    on_explorer (put {| re_outstanding_suggs := suggs_images |}) ;;;
    ret suggs_images
  else ret suggs_images.

(** [suggest(n_suggs, refresh, return_raw_suggs=True, prev_suggs)] *)
Definition RandomizedExplorer_suggest_raw (n_suggs : Z) (refresh : bool)
    (prev_suggs : list Z) : M (World R) (list Z) :=
  RandomizedExplorer_suggest_images n_suggs refresh prev_suggs.

(** [suggest(n_suggs, refresh)]: the entries carry the discard pile's
    identifier in their [bucket] field and no confidence. *)
Definition RandomizedExplorer_suggest (n_suggs : Z) (refresh : bool)
    : M (World R) (list img_info) :=
  let suggs_confidences := repeat None (Z.to_nat n_suggs) in
  let suggs_conf_colors := repeat None (Z.to_nat n_suggs) in
  suggs_images <- RandomizedExplorer_suggest_images n_suggs refresh [] ;;
  lift_result (ImageList_image_list DISCARD_PILE_BUCKET_ID suggs_images
                 suggs_confidences suggs_conf_colors None None).

(** *** Bucket.py *)

(** [Bucket._confidence] *)
Definition Bucket__confidence (b : Bucket model) (svm_scores : list Q) : list npfloat :=
  map (fun s => py_min (py_max (np_div s (best_img_svm_score b)) (Fin 0)) (Fin 1)) svm_scores.

(** [self.svm_model.decision_function(features.get(images))] *)
Definition Bucket__svm_scores (b : Bucket model) (imgs : list Z) : result (list Q) :=
  match svm_model b with
  | None => Raise AttributeError
  | Some mdl => Ok (map (decision_function mdl) imgs)
  end.

Definition confidence_colors (b : Bucket model) (confs : list npfloat) : result (list conf_color) :=
  map_result (BucketColorManager_confidence_color (color b)) confs.

(** [Bucket._bucket_image_confidences] *)
Definition Bucket__bucket_image_confidences : M (Bucket model) unit :=
  b <- get ;;
  scores <- lift_result (Bucket__svm_scores b (images b)) ;;
  modify (set_img_svm_scores scores) ;;;
  best <- lift_result (np_max scores) ;;
  modify (set_best_img_svm_score best) ;;;
  b <- get ;;
  modify (set_img_confidences (Bucket__confidence b scores)) ;;;
  b <- get ;;
  colors <- lift_result (confidence_colors b (img_confidences b)) ;;
  modify (set_img_confidence_colors colors).

(** [Bucket._train] *)
Definition Bucket__train : M BucketSt unit :=
  s <- get ;;
  let b := fst s in
  let w := snd s in
  let positives := images b in
  let n_positives := len positives in
  if n_positives =? 0 then on_bucket (modify (set_svm_model None))
  else
    let n_negatives := len (negatives b) in
    let train_idx := positives ++ negatives b in
    aug <-
      (if n_negatives <? 2 * n_positives then
         let n_random_negs := 2 * n_positives - n_negatives in
         try_except
           (sample <- on_world (on_rng (DiscardPile_random_sample (discard_pile w) n_random_negs)) ;;
            ret (train_idx ++ sample, 0, 2 * n_positives))
           (fun e => match e with ValueError => true | _ => false end)
           (ret (train_idx ++ DiscardPile_all (discard_pile w),
                 n_random_negs - DiscardPile_len (discard_pile w),
                 2 * n_positives))
       else ret (train_idx, 0, n_negatives)) ;;
    let train_idx := fst (fst aug) in
    let n_negs_rand_coll_img := snd (fst aug) in
    let n_negatives := snd aug in
    train <- on_world (on_rng (features_get (n (seen_images w)) train_idx n_negs_rand_coll_img)) ;;
    let labels := repeat 1 (Z.to_nat n_positives) ++ repeat (-1) (Z.to_nat n_negatives) in
    mdl <- on_world (on_rng (fun r => let '(mdl, r') := LinearSVC_fit train labels r in (Ok mdl, r'))) ;;
    on_bucket (modify (set_svm_model (Some mdl))) ;;;
    on_bucket Bucket__bucket_image_confidences.

(** [del l[l.index(x)]] for an [x] known to occur in [l]. *)
Fixpoint remove_first (x : Z) (l : list Z) : list Z :=
  match l with
  | [] => []
  | y :: l' => if Z.eqb y x then l' else y :: remove_first x l'
  end.

(** The exploration-search sliding window of one suggestion type [st]. *)
Definition slide_window (st : nat) (good_suggs_fb : list Z) : M (Bucket model) unit :=
  b <- get ;;
  all_st <- lift_result (list_get st (all_suggs b)) ;;
  all' <- lift_result (list_set st (py_tail all_st) (all_suggs b)) ;;
  modify (set_all_suggs all') ;;;
  b <- get ;;
  good_st <- lift_result (list_get st (good_suggs b)) ;;
  good' <- lift_result (list_set st (py_tail good_st) (good_suggs b)) ;;
  modify (set_good_suggs good') ;;;
  b <- get ;;
  out_st <- lift_result (list_get st (outstanding_suggs b)) ;;
  all_st <- lift_result (list_get st (all_suggs b)) ;;
  all' <- lift_result (list_set st (all_st ++ [len out_st]) (all_suggs b)) ;;
  modify (set_all_suggs all') ;;;
  let n_good_suggs_st := len (filter (fun gs => py_in gs out_st = true) good_suggs_fb) in
  b <- get ;;
  good_st <- lift_result (list_get st (good_suggs b)) ;;
  good' <- lift_result (list_set st (good_st ++ [n_good_suggs_st]) (good_suggs b)) ;;
  modify (set_good_suggs good') ;;;
  b <- get ;;
  good_st <- lift_result (list_get st (good_suggs b)) ;;
  all_st <- lift_result (list_get st (all_suggs b)) ;;
  let conf :=
    if py_sum all_st =? 0 then Sqrt 1
    else Sqrt (inject_Z (py_sum good_st) / inject_Z (py_sum all_st)) in
  confs' <- lift_result (list_set st conf (model_confidences b)) ;;
  modify (set_model_confidences confs').

Definition EXPSEARCH_SUGG_SVM : nat := 0.
Definition EXPSEARCH_SUGG_INDEX : nat := 1.

(** [Bucket.user_feedback] *)
Definition Bucket_user_feedback (good_suggs_fb neutral_assignments bad_suggs : list Z)
    : M BucketSt unit :=
  if (len good_suggs_fb =? 0) && (len neutral_assignments =? 0) && (len bad_suggs =? 0)
  then ret tt
  else
    s <- get ;;
    let b := fst s in
    (* the active-learning answers are moved out of the good and bad lists *)
    let al := match oracle_mode b with Al => true | Rf => false end in
    let al_resp_in_good_suggs :=
      filter (fun gs => py_in gs (outstanding_al_queries b) = true) good_suggs_fb in
    let al_resp_in_bad_suggs :=
      filter (fun bs => py_in bs (outstanding_al_queries b) = true) bad_suggs in
    let neutral_assignments :=
      if al then neutral_assignments ++ al_resp_in_good_suggs else neutral_assignments in
    let good_suggs_fb :=
      if al then fold_left (fun g x => remove_first x g) al_resp_in_good_suggs good_suggs_fb
      else good_suggs_fb in
    let bad_suggs' :=
      if al then fold_left (fun g x => remove_first x g) al_resp_in_bad_suggs bad_suggs
      else bad_suggs in
    (if al then
       on_bucket (modify (fun b => set_negatives (negatives b ++ al_resp_in_bad_suggs) b)) ;;;
       on_bucket (modify (set_outstanding_al_queries []))
     else ret tt) ;;;
    on_bucket (modify (fun b => set_images (images b ++ good_suggs_fb) b)) ;;;
    on_bucket (modify (fun b => set_n_good_suggs (n_good_suggs b + len good_suggs_fb) b)) ;;;
    on_bucket (modify (fun b =>
      set_n_judged_suggs (n_judged_suggs b + (len good_suggs_fb + len bad_suggs')) b)) ;;;
    (if expsearch b then
       on_bucket (for_each [EXPSEARCH_SUGG_SVM; EXPSEARCH_SUGG_INDEX]
                    (fun st => slide_window st good_suggs_fb))
     else ret tt) ;;;
    on_bucket (modify (fun b =>
      set_precision (if n_judged_suggs b =? 0 then 1%Q
                     else (inject_Z (n_good_suggs b) / inject_Z (n_judged_suggs b))%Q) b)) ;;;
    on_bucket (modify (fun b => set_images (images b ++ neutral_assignments) b)) ;;;
    on_bucket (modify (fun b => set_negatives (negatives b ++ bad_suggs') b)) ;;;
    on_bucket (modify (set_active_suggs None)) ;;;
    Bucket__train.

(** [Bucket.remove_images] *)
Definition Bucket_remove_one (img : Z) : M (Bucket model) unit :=
  b <- get ;;
  match py_index img (images b) with
  | Ok i =>
      l <- lift_result (py_del i (images b)) ;;
      modify (set_images l) ;;;
      b <- get ;;
      c <- lift_result (py_del i (img_confidences b)) ;;
      modify (set_img_confidences c) ;;;
      b <- get ;;
      cc <- lift_result (py_del i (img_confidence_colors b)) ;;
      modify (set_img_confidence_colors cc)
  | Raise _ =>
      match py_index img (outstanding_ff b) with
      | Raise _ => raise ValueError
      | Ok i =>
          modify (fun b => set_bad_ff (bad_ff b ++ [img]) b) ;;;
          b <- get ;;
          l <- lift_result (py_del i (outstanding_ff b)) ;;
          modify (set_outstanding_ff l) ;;;
          b <- get ;;
          c <- lift_result (py_del i (outstanding_ff_conf b)) ;;
          modify (set_outstanding_ff_conf c) ;;;
          b <- get ;;
          cc <- lift_result (py_del i (outstanding_ff_conf_colors b)) ;;
          modify (set_outstanding_ff_conf_colors cc)
      end
  end.

Definition Bucket_remove_images (images_to_remove : list Z) : M BucketSt unit :=
  on_bucket (for_each images_to_remove Bucket_remove_one) ;;;
  Bucket__train.

(** [Bucket._top_images]: [if n_top:] leaves the ranking whole for
    [n_top = 0] as for [None]. *)
Definition Bucket__top_images (highest_score : bool) (n_top : option Z)
    : M BucketSt (list Z) :=
  s <- get ;;
  match svm_model (fst s) with
  | None => raise AttributeError
  | Some mdl =>
      let top_img_ranking := top_img_ranking mdl (seen_images (snd s)) highest_score in
      ret (match n_top with
           | None => top_img_ranking
           | Some k => if k =? 0 then top_img_ranking else py_take k top_img_ranking
           end)
  end.

(** [Bucket.discard_candidates] *)
Definition Bucket_discard_candidates (n_candidates : Z) : M BucketSt (list Z) :=
  Bucket__top_images false (Some n_candidates).

(** [Bucket.fast_forward] *)
Definition Bucket_fast_forward (n_ff : Z) : M BucketSt unit :=
  s <- get ;;
  match svm_model (fst s) with
  | None => raise BucketNotActiveError
  | Some _ =>
      ff <- Bucket__top_images true (Some n_ff) ;;
      on_bucket (modify (set_outstanding_ff ff)) ;;;
      s <- get ;;
      outstanding_ff_scores <- lift_result (Bucket__svm_scores (fst s) ff) ;;
      on_bucket (modify (set_outstanding_ff_conf
                           (Bucket__confidence (fst s) outstanding_ff_scores))) ;;;
      s <- get ;;
      colors <- lift_result (confidence_colors (fst s) (outstanding_ff_conf (fst s))) ;;
      on_bucket (modify (set_outstanding_ff_conf_colors colors)) ;;;
      on_bucket (modify (set_bad_ff []))
  end.

(** [scores[top_img_ranking]] of [Bucket._top_images]: the seen images
    carry the infinity that sorts them last. *)
Definition ranked_scores (mdl : model) (sn : SeenImages) (highest_score : bool)
    (ranking : list Z) : list npfloat :=
  map (fun i => if SeenImages_is_seen sn i
                then (if highest_score then NInf else PInf)
                else Fin (decision_function mdl i)) ranking.

(** [a[idx]] and [np.delete(a, idx)] for a list [idx] of positions *)
Definition np_take_at {A} (idx : list nat) (a : list A) : list A :=
  omap (fun i => a !! i) idx.

Definition np_delete {A} (idx : list nat) (a : list A) : list A :=
  omap (fun ia => if existsb (Nat.eqb (fst ia)) idx then None else Some (snd ia))
       (combine (seq 0 (length a)) a).

(** [Bucket.suggest] *)
Definition Bucket_suggest (n_suggs : Z) : M BucketSt (list img_info) :=
  s <- get ;;
  let b := fst s in
  let sn := seen_images (snd s) in
  match svm_model b with
  | None => raise BucketNotActiveError
  | Some mdl =>
      let all_images_svm_ranked := top_img_ranking mdl sn true in
      let all_images_svm_scores := ranked_scores mdl sn true all_images_svm_ranked in
      (* active-learning queries *)
      al <-
        (match oracle_mode b with
         | Al =>
             n_al_queries <- on_world (on_rng (fun r =>
                               let '(k, r') := al_query_count n_suggs (al_ratio b) r in
                               (Ok k, r'))) ;;
             let al_queries_idx := py_take n_al_queries (argsort_abs all_images_svm_scores) in
             let al_queries := np_take_at al_queries_idx all_images_svm_ranked in
             on_bucket (modify (set_outstanding_al_queries al_queries)) ;;;
             ret (al_queries, np_delete al_queries_idx all_images_svm_ranked,
                  n_suggs - n_al_queries)
         | Rf => ret ([], all_images_svm_ranked, n_suggs)
         end) ;;
      let al_queries := fst (fst al) in
      let all_images_svm_ranked := snd (fst al) in
      let n_suggs := snd al in
      let suggs_images := py_take (n_sugg_candidates b) all_images_svm_ranked in
      (* the three channels of the exploration-search sliding *)
      suggs_images <-
        (if expsearch b then
           svm_confidence <- lift_result (list_get EXPSEARCH_SUGG_SVM (model_confidences b)) ;;
           index_confidence <- lift_result (list_get EXPSEARCH_SUGG_INDEX (model_confidences b)) ;;
           split <- on_world (on_rng (fun r =>
                      let '(k, r') := roulette_split n_suggs svm_confidence index_confidence r in
                      (Ok k, r'))) ;;
           let n_svm_suggs := fst (fst split) in
           let n_index_suggs := snd (fst split) in
           let n_randexp_suggs := snd split in
           let suggs_images := py_take n_svm_suggs suggs_images in
           let prev_suggs := al_queries ++ suggs_images in
           s <- get ;;
           index_suggs <- on_world (on_rng (nn_suggs (fst s) sn n_index_suggs prev_suggs)) ;;
           let n_randexp_suggs :=
             if len index_suggs <? n_index_suggs
             then n_randexp_suggs + (n_index_suggs - len index_suggs)
             else n_randexp_suggs in
           let suggs_images := suggs_images ++ index_suggs in
           let prev_suggs := prev_suggs ++ index_suggs in
           randexp_suggs <- on_world (RandomizedExplorer_suggest_raw n_randexp_suggs true prev_suggs) ;;
           let suggs_images := suggs_images ++ randexp_suggs in
           on_bucket (modify (set_outstanding_suggs
                                [py_take n_svm_suggs suggs_images; index_suggs])) ;;;
           ret suggs_images
         else ret suggs_images) ;;
      (* scores, confidences and colours of the suggestions *)
      let suggs_images := py_take n_suggs suggs_images ++ al_queries in
      s <- get ;;
      let b := fst s in
      suggs_scores <- lift_result (Bucket__svm_scores b suggs_images) ;;
      let suggs_confidences := Bucket__confidence b suggs_scores in
      suggs_conf_colors <- lift_result (confidence_colors b suggs_confidences) ;;
      let suggs_is_al_query :=
        repeat false (Z.to_nat n_suggs) ++ map (fun _ => true) al_queries in
      l <- lift_result (ImageList_image_list (id_ b) suggs_images
                          (map Some suggs_confidences) (map Some suggs_conf_colors)
                          None (Some suggs_is_al_query)) ;;
      on_bucket (modify (set_active_suggs (Some l))) ;;;
      ret l
  end.

(** *** AIModel.py *)

Definition RANDOM_EXPLORE_REQUEST : Z := -1.

Definition on_model_world {A} (c : M (World R) A) : M (AIModel model R) A :=
  zoom world set_world c.

(** [self.buckets[k].method(...)]: the lookup raises [KeyError] before the
    method runs; the method works on the bucket object in place. *)
Definition with_bucket {A} (k : Z) (c : M BucketSt A) : M (AIModel model R) A :=
  fun m =>
    match dict_get k (buckets m) with
    | None => (Raise KeyError, m)
    | Some b =>
        let '(r, (b', w')) := c (b, world m) in
        (r, set_world w' (set_buckets (dict_set k b' (buckets m)) m))
    end.

Definition is_trained (b : Bucket model) : bool :=
  match svm_model b with Some _ => true | None => false end.

(** [AIModel._active_buckets] and [AIModel._trained_buckets]: in the order
    of the dictionary [self.buckets]. *)
Definition AIModel__active_buckets (m : AIModel model R) : list Z :=
  map fst (List.filter (fun kb => active (snd kb)) (buckets m)).

Definition AIModel__trained_buckets (m : AIModel model R) : list Z :=
  map fst (List.filter (fun kb => is_trained (snd kb)) (buckets m)).

(** [arr[:k] += 1] *)
Definition np_incr_prefix (k : Z) (arr : list Z) : list Z :=
  map (fun x => x + 1) (py_take k arr) ++ drop (length (py_take k arr)) arr.

(** The counts [n_discards_per_bucket] of [AIModel._ff_discard]. *)
Definition n_discards_per_bucket (n_ff : Z) (trained_buckets : list Z) : list Z :=
  let n_trained_buckets := len trained_buckets in
  np_incr_prefix (n_ff mod n_trained_buckets)
    (map (fun _ => n_ff / n_trained_buckets) trained_buckets).

(** [for i in range(n): ff_discard += self.buckets[trained[i]].discard_candidates(counts[i])] *)
Fixpoint collect_discards (requests : list (Z * Z)) : M (AIModel model R) (list Z) :=
  match requests with
  | [] => ret []
  | (b, k) :: rest =>
      c <- with_bucket b (Bucket_discard_candidates k) ;;
      cs <- collect_discards rest ;;
      ret (c ++ cs)
  end.

(** [AIModel._ff_discard] *)
Definition AIModel__ff_discard (n_ff : Z) : M (AIModel model R) unit :=
  m <- get ;;
  let trained_buckets := AIModel__trained_buckets m in
  let n_trained_buckets := len trained_buckets in
  if n_trained_buckets =? 0 then raise ValueError
  else
    ff_discard <- collect_discards
                    (combine trained_buckets (n_discards_per_bucket n_ff trained_buckets)) ;;
    on_model_world (on_discard (DiscardPile_fast_forward ff_discard)).

(** [AIModel.fast_forward], for a count that is already an integer. *)
Definition AIModel_fast_forward (bucket_id : Z) (n_ff : Z) : M (AIModel model R) unit :=
  if n_ff <=? 0 then raise ValueError
  else if bucket_id =? DISCARD_PILE_BUCKET_ID then AIModel__ff_discard n_ff
  else try_except (with_bucket bucket_id (Bucket_fast_forward n_ff))
         (fun e => match e with KeyError | BucketNotActiveError => true | _ => false end)
         (raise ValueError).

(** [AIModel._record_outstanding_suggs]: a fresh dictionary, a later entry
    for an image replacing an earlier one. *)
Definition AIModel__record_outstanding_suggs (suggs : list img_info) : M (AIModel model R) unit :=
  modify (set_ai_outstanding_suggs
            (fold_left (fun o img_info => dict_set (image img_info) img_info o) suggs [])).

(** The bins of one bucket in [AIModel.user_feedback]. *)
Record bins : Type := { good : list Z; neutral : list Z; bad : list Z }.

Inductive bin_name : Type := GoodBin | NeutralBin | BadBin.

Definition bin_append (which : bin_name) (img : Z) (f : bins) : bins :=
  match which with
  | GoodBin => {| good := good f ++ [img]; neutral := neutral f; bad := bad f |}
  | NeutralBin => {| good := good f; neutral := neutral f ++ [img]; bad := bad f |}
  | BadBin => {| good := good f; neutral := neutral f; bad := bad f ++ [img] |}
  end.

(** The local variables of [AIModel.user_feedback]. *)
Record feedback_acc : Type := {
  bucketwise_feedback : dict bins;
  discarded_img : list Z;
  fb_seen_images : list Z
}.

(** [bucketwise_feedback[b][which].append(img)] *)
Definition bucketwise_append (b : Z) (which : bin_name) (img : Z) : M feedback_acc unit :=
  acc <- get ;;
  f <- lift_result (dict_lookup b (bucketwise_feedback acc)) ;;
  put {| bucketwise_feedback := dict_set b (bin_append which img f) (bucketwise_feedback acc);
         discarded_img := discarded_img acc;
         fb_seen_images := fb_seen_images acc |}.

(** The bucket an image was suggested for, and its truth value as the
    source tests it ([if suggested_bucket:]): [None] and the discard pile's
    identifier 0, which the randomized explorer's entries carry, are false. *)
Definition suggested_bucket_of (outstanding : dict img_info) (img : Z) : option Z :=
  match dict_get img outstanding with
  | Some info => Some (bucket info)
  | None => None
  end.

Definition truthy (suggested_bucket : option Z) : bool :=
  match suggested_bucket with
  | Some b => negb (b =? 0)
  | None => false
  end.

(** One turn of the loop over the feedback, for an entry that is not null. *)
Definition classify_entry (outstanding : dict img_info) (img assigned_bucket : Z)
    : M feedback_acc unit :=
  let suggested_bucket := suggested_bucket_of outstanding img in
  (if assigned_bucket =? DISCARD_PILE_BUCKET_ID then
     modify (fun acc => {| bucketwise_feedback := bucketwise_feedback acc;
                           discarded_img := discarded_img acc ++ [img];
                           fb_seen_images := fb_seen_images acc |}) ;;;
     match suggested_bucket with
     | Some sb => if truthy suggested_bucket then bucketwise_append sb BadBin img else ret tt
     | None => ret tt
     end
   else
     match suggested_bucket with
     | Some sb =>
         if negb (truthy suggested_bucket) then
           bucketwise_append assigned_bucket NeutralBin img
         else if assigned_bucket =? sb then
           bucketwise_append sb GoodBin img
         else
           bucketwise_append assigned_bucket NeutralBin img ;;;
           bucketwise_append sb BadBin img
     | None => bucketwise_append assigned_bucket NeutralBin img
     end) ;;;
  modify (fun acc => {| bucketwise_feedback := bucketwise_feedback acc;
                        discarded_img := discarded_img acc;
                        fb_seen_images := fb_seen_images acc ++ [img] |}).

(** The loop [for image in user_feedback], null entries skipped. *)
Definition classify_feedback (outstanding : dict img_info)
    (user_feedback : list (Z * option Z)) : M feedback_acc unit :=
  for_each user_feedback (fun entry =>
    match snd entry with
    | None => ret tt
    | Some assigned_bucket => classify_entry outstanding (fst entry) assigned_bucket
    end).

Definition empty_bins : bins := {| good := []; neutral := []; bad := [] |}.

(** The second half of [AIModel.user_feedback], up to the update of the seen
    set: the bins go to the buckets, the discarded images to the pile. *)
Definition dispatch_feedback (acc : feedback_acc) : M (AIModel model R) unit :=
  for_each (bucketwise_feedback acc) (fun bf =>
    with_bucket (fst bf)
      (Bucket_user_feedback (good (snd bf)) (neutral (snd bf)) (bad (snd bf)))) ;;;
  on_model_world (on_discard (DiscardPile_discard_images (discarded_img acc))).

Definition initial_feedback_acc (m : AIModel model R) : feedback_acc :=
  {| bucketwise_feedback := map (fun kb => (fst kb, empty_bins)) (buckets m);
     discarded_img := [];
     fb_seen_images := [] |}.

(** [AIModel.user_feedback] *)
Definition AIModel_user_feedback (user_feedback : list (Z * option Z))
    : M (AIModel model R) unit :=
  m <- get ;;
  match classify_feedback (ai_outstanding_suggs m) user_feedback (initial_feedback_acc m) with
  | (Raise e, _) => raise e
  | (Ok _, acc) =>
      dispatch_feedback acc ;;;
      on_model_world (on_seen (SeenImages_update (fb_seen_images acc)))
  end.

(** The caller of [AIModel.suggest] passes its request dictionary by
    reference: the state of a call is the model and that dictionary. *)
Local Abbreviation SuggestSt := (AIModel model R * dict Z)%type.

Definition on_model {A} (c : M (AIModel model R) A) : M SuggestSt A :=
  zoom fst (fun m s => (m, snd s)) c.

Definition on_request {A} (c : M (dict Z) A) : M SuggestSt A :=
  zoom snd (fun d s => (fst s, d)) c.

(** [bucket_orderings.sort(key=lambda b: b[1])]: a stable sort. *)
Fixpoint insert_by_ordering (x : Z * Z) (l : list (Z * Z)) : list (Z * Z) :=
  match l with
  | [] => [x]
  | y :: l' => if snd y <=? snd x then y :: insert_by_ordering x l' else x :: y :: l'
  end.

Definition sort_by_ordering (l : list (Z * Z)) : list (Z * Z) :=
  fold_left (fun acc x => insert_by_ordering x acc) l [].

(** [[(b, self.buckets[b].ordering) for b in sugg_request]] *)
Definition bucket_orderings_of (bs : dict (Bucket model)) (sugg_request : dict Z)
    : result (list (Z * Z)) :=
  map_result (fun b => match dict_get b bs with
                       | Some bk => Ok (b, ordering bk)
                       | None => Raise KeyError
                       end) (dict_keys sugg_request).

(** One turn of the loop of [AIModel.suggest] over the ordered buckets; the
    state of the loop is the list [suggs] built so far. *)
Definition suggest_for_bucket (refresh_rand_exp : bool) (b : Z) (suggs : list img_info)
    : M SuggestSt (list img_info) :=
  s <- get ;;
  n_b <- lift_result (dict_lookup b (snd s)) ;;
  if n_b =? 0 then ret suggs
  else
    got <- on_model
             (try_except
                (with_bucket b (Bucket_suggest n_b))
                (fun e => match e with BucketNotActiveError => true | _ => false end)
                (on_model_world (RandomizedExplorer_suggest n_b refresh_rand_exp))) ;;
    let suggs := suggs ++ got in
    if len suggs <? n_b then
      let n_extra_randexp := n_b - len suggs in
      extra <- on_model (on_model_world (RandomizedExplorer_suggest n_extra_randexp refresh_rand_exp)) ;;
      ret (suggs ++ extra)
    else ret suggs.

Fixpoint suggest_loop (refresh_rand_exp : bool) (bs : list Z) (suggs : list img_info)
    : M SuggestSt (list img_info) :=
  match bs with
  | [] => ret suggs
  | b :: bs' =>
      suggs' <- suggest_for_bucket refresh_rand_exp b suggs ;;
      suggest_loop refresh_rand_exp bs' suggs'
  end.

(** [AIModel.suggest] *)
Definition AIModel_suggest (refresh_rand_exp : bool) : M SuggestSt (list img_info) :=
  s <- get ;;
  suggs_randexp <-
    (match dict_get RANDOM_EXPLORE_REQUEST (snd s) with
     | Some n_suggs_randexp =>
         r <- on_model (on_model_world
                (RandomizedExplorer_suggest n_suggs_randexp refresh_rand_exp)) ;;
         on_request (modify (dict_del RANDOM_EXPLORE_REQUEST)) ;;;
         ret r
     | None => ret []
     end) ;;
  s <- get ;;
  bucket_orderings <-
    try_except (lift_result (bucket_orderings_of (buckets (fst s)) (snd s)))
      (fun e => match e with KeyError | ValueError => true | _ => false end)
      (raise ValueError) ;;
  let bucket_orderings := sort_by_ordering bucket_orderings in
  suggs <- suggest_loop refresh_rand_exp (map fst bucket_orderings) [] ;;
  let suggs := suggs ++ suggs_randexp in
  on_model (AIModel__record_outstanding_suggs suggs) ;;;
  ret suggs.

(** [AIModel.transfer_images] *)
Definition catch_KeyError {S A} (c : M S A) : M S A :=
  try_except c (fun e => match e with KeyError => true | _ => false end) (raise ValueError).

Definition AIModel_transfer_images (imgs : list Z) (bucket_src bucket_dst : Z)
    (mode : string) : M (AIModel model R) unit :=
  if negb (bool_decide (mode = "move"%string) || bool_decide (mode = "copy"%string))
  then raise ValueError
  else if bool_decide (mode = "copy"%string)
          && ((bucket_src =? DISCARD_PILE_BUCKET_ID) || (bucket_dst =? DISCARD_PILE_BUCKET_ID))
  then raise ValueError
  else
    catch_KeyError
      ((if bool_decide (mode = "move"%string) then
          if bucket_src =? DISCARD_PILE_BUCKET_ID
          then on_model_world (DiscardPile_restore_images imgs)
          else with_bucket bucket_src (Bucket_remove_images imgs)
        else ret tt) ;;;
       (if bucket_dst =? DISCARD_PILE_BUCKET_ID
        then on_model_world (on_discard (DiscardPile_discard_images imgs))
        else with_bucket bucket_dst (Bucket_user_feedback [] imgs []))).

End Methods.

(** ** CollectionIndex.py: distances at query time

    The entries of the centroid distance tables are floats; their type [F]
    with its zero and its addition is a parameter, and sums are taken in the
    order the source takes them. *)

Section Index.

Context {F : Type} (fzero : F) (fadd : F -> F -> F).

(** [index[i][s]] is the cluster of item [i] in subspace [s];
    [distance_matrix[s][c][c']] the distance between the centroids of the
    clusters [c] and [c'] of subspace [s]. *)
Record CollectionIndex : Type := {
  index : list (list nat);
  distance_matrix : list (list (list F))
}.

Definition n_submat (ci : CollectionIndex) : nat := length (distance_matrix ci).

(** [a[i]] for an integer [i]: a negative [i] counts from the end. *)
Definition np_get {A} (i : Z) (a : list A) : result A :=
  let i' := if i <? 0 then len a + i else i in
  if i' <? 0 then Raise IndexError
  else match a !! Z.to_nat i' with
       | Some x => Ok x
       | None => Raise IndexError
       end.

(** [self.index[img, s]] for a list [img] of items *)
Definition codes_of (ci : CollectionIndex) (img : list Z) (s : nat) : result (list nat) :=
  map_result (fun i => match np_get i (index ci) with
                       | Ok row => list_get s row
                       | Raise e => Raise e
                       end) img.

(** [self.distance_matrix[s, rows][:, cols]] *)
Definition submatrix (ci : CollectionIndex) (s : nat) (rows cols : list nat)
    : result (list (list F)) :=
  match list_get s (distance_matrix ci) with
  | Raise e => Raise e
  | Ok table =>
      map_result (fun r => match list_get r table with
                           | Raise e => Raise e
                           | Ok row => map_result (fun c => list_get c row) cols
                           end) rows
  end.

(** [np.zeros((n_rows, n_cols))] and [a += b] on matrices of one shape *)
Definition np_zeros (n_rows n_cols : nat) : list (list F) :=
  repeat (repeat fzero n_cols) n_rows.

Definition mat_add (a b : list (list F)) : list (list F) :=
  zip_with (zip_with fadd) a b.

(** The loop [for s in range(self.n_submat): distances += ...] *)
Fixpoint accumulate (ci : CollectionIndex) (img1 img2 : list Z) (subspaces : list nat)
    (distances : list (list F)) : result (list (list F)) :=
  match subspaces with
  | [] => Ok distances
  | s :: rest =>
      match codes_of ci img1 s with
      | Raise e => Raise e
      | Ok rows =>
          match codes_of ci img2 s with
          | Raise e => Raise e
          | Ok cols =>
              match submatrix ci s rows cols with
              | Raise e => Raise e
              | Ok block => accumulate ci img1 img2 rest (mat_add distances block)
              end
          end
      end
  end.

(** [CollectionIndex.distances] *)
Definition CollectionIndex_distances (ci : CollectionIndex) (img1 img2 : list Z)
    : result (list (list F)) :=
  let n_queries := length img1 in
  if Nat.eqb n_queries 0 then Raise ValueError
  else
    let n_cols := length img2 in
    accumulate ci img1 img2 (seq 0 (n_submat ci)) (np_zeros n_queries n_cols).

(** The distance of two items in the words of the specification: the sum,
    over the subspaces, of the distance between the centroids the two items
    are assigned to. *)
Definition centroid_distance (ci : CollectionIndex) (s : nat) (a b : Z) : result F :=
  match np_get a (index ci), np_get b (index ci), list_get s (distance_matrix ci) with
  | Ok codes_a, Ok codes_b, Ok table =>
      match list_get s codes_a, list_get s codes_b with
      | Ok ca, Ok cb =>
          match list_get ca table with
          | Ok row => list_get cb row
          | Raise e => Raise e
          end
      | Raise e, _ | _, Raise e => Raise e
      end
  | Raise e, _, _ | _, Raise e, _ | _, _, Raise e => Raise e
  end.

Fixpoint pq_distance_from (ci : CollectionIndex) (subspaces : list nat) (a b : Z) (acc : F)
    : result F :=
  match subspaces with
  | [] => Ok acc
  | s :: rest =>
      match centroid_distance ci s a b with
      | Ok d => pq_distance_from ci rest a b (fadd acc d)
      | Raise e => Raise e
      end
  end.

Definition pq_distance (ci : CollectionIndex) (a b : Z) : result F :=
  pq_distance_from ci (seq 0 (n_submat ci)) a b fzero.

End Index.

Arguments CollectionIndex : clear implicits.

(** * The vocabulary of the properties *)

(** [keeps proj c]: whatever the outcome of [c], the part [proj] of the state
    after it is the part [proj] of the state before. *)
Definition keeps {S A T} (proj : S -> T) (c : M S A) : Prop :=
  forall s, proj (snd (c s)) = proj s.

(** The order of the stable sort of [suggest]: by display order. *)
Definition by_ordering (x y : Z * Z) : Prop := snd x <= snd y.

(** [clamp(score / best, 0, 1)] as [Bucket._confidence] computes it. *)
Definition clamp_conf (best : Q) (s : Q) : npfloat :=
  py_min (py_max (np_div s best) (Fin 0)) (Fin 1).

(** The images of the entries that are not null. *)
Definition judged (user_feedback : list (Z * option Z)) : list Z :=
  map fst (List.filter (fun e => match snd e with Some _ => true | None => false end)
             user_feedback).

(** The buckets a request names: its keys without the sentinel. *)
Definition requested_buckets (req : dict Z) : list Z :=
  dict_keys (dict_del RANDOM_EXPLORE_REQUEST req).

(** An entry names the bucket [b], or the discard pile as the entries of
    the randomized explorer do. *)
Definition names_bucket_or_pile (b : Z) (i : img_info) : Prop :=
  bucket i = b \/ bucket i = DISCARD_PILE_BUCKET_ID.

Section SessionVocabulary.

Context {model R : Type} `{!Externals model R}.

(** The display order of the bucket stored under [b]. *)
Definition ordering_in (bs : dict (Bucket model)) (b : Z) : Z :=
  match dict_get b bs with
  | Some bk => ordering bk
  | None => 0
  end.

(** Every bucket of the dictionary is stored under its identifier. *)
Definition keys_are_ids (bs : dict (Bucket model)) : Prop :=
  forall k b, dict_get k bs = Some b -> id_ b = k.

(** The fields a retrain writes. *)
Definition untouched_by_train {T} (proj : Bucket model -> T) : Prop :=
  (forall v b, proj (set_svm_model v b) = proj b)
  /\ (forall v b, proj (set_img_svm_scores v b) = proj b)
  /\ (forall v b, proj (set_best_img_svm_score v b) = proj b)
  /\ (forall v b, proj (set_img_confidences v b) = proj b)
  /\ (forall v b, proj (set_img_confidence_colors v b) = proj b).

(** The candidates the bucket [b] of a model returns when asked for [k]:
    the [k] lowest-ranked images, or the whole ranking when [k] is 0. *)
Definition discard_candidates_of (m : AIModel model R) (b k : Z) : list Z :=
  match dict_get b (buckets m) with
  | Some bk =>
      match svm_model bk with
      | Some mdl =>
          let ranking := top_img_ranking mdl (seen_images (world m)) false in
          if k =? 0 then ranking else py_take k ranking
      | None => []
      end
  | None => []
  end.

(** The collaborators outside Bucket.py (the ranking of the randomized
    explorer and the nearest-neighbour search) do not raise the error with
    which [Bucket.suggest] reports a bucket without a classifier. *)
Definition collaborators_quiet : Prop :=
  (forall candidates seen_so_far,
      rank_candidates candidates seen_so_far <> Raise BucketNotActiveError)
  /\ (forall (b : Bucket model) sn k prev (r : R),
        fst (nn_suggs b sn k prev r) <> Raise BucketNotActiveError).

(** What the randomized explorer returns for a count: that many entries
    (none for a count below 1), each naming the discard pile. *)
Definition explorer_entries (count : Z) (l : list img_info) : Prop :=
  length l = Z.to_nat count
  /\ Forall (fun i => bucket i = DISCARD_PILE_BUCKET_ID) l.

(** The segment of the requested bucket [b] in a list that has the entries
    [before] in front of it.  It is what stands for the bucket's own
    suggestions, followed by the top-up.  For a bucket without a classifier
    the randomized explorer stands in: as many entries as were requested
    for the bucket.  The own suggestions of a bucket with a classifier name
    the bucket.  The top-up is what the explorer returns for the requested
    count less the length of the list so far, [before] included.  A bucket
    for which 0 suggestions are requested has an empty segment. *)
Definition bucket_segment (bs : dict (Bucket model)) (req : dict Z) (b : Z)
    (before seg : list img_info) : Prop :=
  exists (bk : Bucket model) (n_b : Z) (got extra : list img_info),
    dict_get b bs = Some bk
    /\ dict_get b req = Some n_b
    /\ seg = got ++ extra
    /\ match svm_model bk with
       | None => explorer_entries n_b got
       | Some _ =>
           Forall (names_bucket_or_pile b) got
           /\ (collaborators_quiet -> Forall (fun i => bucket i = b) got)
       end
    /\ explorer_entries (n_b - len (before ++ got)) extra
    /\ (n_b = 0 -> seg = []).

(** The segments of the buckets [order], one after the other, after the
    entries [before]. *)
Fixpoint segments_in_order (bs : dict (Bucket model)) (req : dict Z) (order : list Z)
    (before : list img_info) (segs : list (list img_info)) : Prop :=
  match order, segs with
  | [], [] => True
  | b :: order', seg :: segs' =>
      bucket_segment bs req b before seg
      /\ segments_in_order bs req order' (before ++ seg) segs'
  | _, _ => False
  end.

(** The buckets of [bs'] have the classifiers of the buckets of [bs]. *)
Definition same_classifiers (bs bs' : dict (Bucket model)) : Prop :=
  forall k, option_map svm_model (dict_get k bs') = option_map svm_model (dict_get k bs).

(** The computation never raises the exception [e]. *)
Definition never_raises {S A} (e : exn) (c : M S A) : Prop :=
  forall s, fst (c s) <> Raise e.

(** What [suggest] does once the exploration request is served: it reads
    the request and does not write it. *)
Definition suggest_rest (refresh : bool) (suggs_randexp : list img_info)
    : M (AIModel model R * dict Z) (list img_info) :=
  (s <- get ;;
   bucket_orderings <-
     try_except (lift_result (bucket_orderings_of (buckets (fst s)) (snd s)))
       (fun e => match e with KeyError | ValueError => true | _ => false end)
       (raise ValueError) ;;
   let bucket_orderings := sort_by_ordering bucket_orderings in
   suggs <- suggest_loop refresh (map fst bucket_orderings) [] ;;
   let suggs := suggs ++ suggs_randexp in
   on_model (AIModel__record_outstanding_suggs suggs) ;;;
   ret suggs)%monad.

End SessionVocabulary.

Section IndexVocabulary.

Context {F : Type}.

(** The entry [(i, j)] of a matrix. *)
Definition mat_get (d : list (list F)) (i j : nat) : option F :=
  match d !! i with
  | Some row => row !! j
  | None => None
  end.

(** A matrix of [r] rows and [c] columns. *)
Definition has_shape (d : list (list F)) (r c : nat) : Prop :=
  length d = r /\ Forall (fun row => length row = c) d.

(** The code of one item in one subspace. *)
Definition code_at (ci : CollectionIndex F) (s : nat) (a : Z) : result nat :=
  match np_get a (index ci) with
  | Ok row => list_get s row
  | Raise e => Raise e
  end.

(** What makes every lookup of [distances] land inside the arrays: the
    item has a row of codes, one per subspace, and each code is a row of
    the subspace's table; the tables are square. *)
Definition item_indexed (ci : CollectionIndex F) (a : Z) : Prop :=
  exists codes, np_get a (index ci) = Ok codes
    /\ Forall2 (fun c table => (c < length table)%nat)
         (take (n_submat ci) codes) (distance_matrix ci).

Definition tables_square (ci : CollectionIndex F) : Prop :=
  Forall (fun table => Forall (fun row => length row = length table) table)
         (distance_matrix ci).

End IndexVocabulary.

(** ** The fast-forward split in the words of the specification

    Modelled from the specification, to be compared with
    [n_discards_per_bucket]: the remainder goes "to the first [n mod T]
    buckets in display order". *)

Section AsStated.

Context {model R : Type}.

Definition ordering_of (m : AIModel model R) (b : Z) : Z :=
  ordering_in (buckets m) b.

(** The position of a trained bucket among the trained buckets when they
    are put in display order. *)
Definition display_rank (m : AIModel model R) (b : Z) : Z :=
  len (List.filter (fun b' => ordering_of m b' <? ordering_of m b)
         (AIModel__trained_buckets m)).

Definition split_in_display_order (m : AIModel model R) (n_ff : Z) : Prop :=
  let trained := AIModel__trained_buckets m in
  forall i b, trained !! i = Some b ->
    n_discards_per_bucket n_ff trained !! i
    = Some (n_ff / len trained + (if display_rank m b <? n_ff mod len trained then 1 else 0)).

End AsStated.

(** ** A small session for the examples

    The collaborators of the examples are the simplest ones: a classifier
    that scores image [i] with [i + 1] (so the unseen image with the largest
    number ranks first and the seen images rank last), samples and distance
    rankings that keep the order of their input (with no seen image there is
    no distance to rank by: [np.min] of a row without columns raises
    [ValueError]), and a random number generator that is a list of the draws
    to come (each draw is the number of active-learning queries among the
    suggestions of one call; with an [al_ratio] of 1 every suggestion is a
    query, whatever is drawn). *)

Definition demo_ranking (sn : SeenImages) (highest_score : bool) : list Z :=
  let is_seen := fun i => bool_decide (i ∈ seen sn) in
  let unseen := List.filter (fun i => negb (is_seen i)) (py_range (n sn)) in
  (if highest_score then rev unseen else unseen)
  ++ List.filter is_seen (py_range (n sn)).

(** [np.argsort(np.abs(scores))], as a stable insertion sort: the finite
    scores by their absolute value, then the infinite ones, then NaN. *)
Definition abs_le (x y : npfloat) : bool :=
  match x, y with
  | Fin a, Fin b => Qle_bool (Qabs a) (Qabs b)
  | Fin _, _ => true
  | _, Fin _ => false
  | NaN, NaN => true
  | NaN, _ => false
  | _, _ => true
  end.

Fixpoint insert_by_abs (x : nat * npfloat) (l : list (nat * npfloat))
    : list (nat * npfloat) :=
  match l with
  | [] => [x]
  | y :: l' => if abs_le (snd y) (snd x) then y :: insert_by_abs x l' else x :: l
  end.

Definition demo_argsort_abs (scores : list npfloat) : list nat :=
  map fst (fold_left (fun acc x => insert_by_abs x acc)
             (combine (seq 0 (length scores)) scores) []).

#[export] Instance demo_externals : Externals unit (list Z) := {|
  decision_function := fun _ i => inject_Z (i + 1);
  LinearSVC_fit := fun _ _ r => (tt, r);
  sample_choice := fun population k r => (take k population, r);
  rank_candidates := fun candidates seen_so_far =>
                      match seen_so_far with
                      | [] => Raise ValueError
                      | _ => Ok candidates
                      end;
  top_img_ranking := fun _ sn highest_score => demo_ranking sn highest_score;
  al_query_count := fun n_suggs ratio r =>
                      if Qle_bool 1 ratio then (n_suggs, r)
                      else match r with
                           | k :: r' => (k, r')
                           | [] => (0, [])
                           end;
  argsort_abs := demo_argsort_abs;
  roulette_split := fun n_suggs _ _ r => ((n_suggs, 0, 0), r);
  nn_suggs := fun _ _ _ _ r => (Ok [], r)
|}.

Definition demo_color (conf : Q) : conf_color :=
  {| cc_base := "#0065bd"; cc_alpha := Qfloor (100 + conf * 155) |}.

(** A bucket with the given members and no exploration-search sliding;
    [ratio] is the [al_ratio] of the oracle configuration.  First the bucket
    before any training, each member with confidence 1. *)
Definition untrained_bucket (ratio : Q) (bucket_id ord : Z) (members : list Z)
    (mdl : option unit) (mode : oracle) : Bucket unit :=
  {| id_ := bucket_id; name := "Bucket"; ordering := ord; color := "#0065bd";
     active := true;
     images := members;
     img_confidences := map (fun _ => Fin 1) members;
     img_confidence_colors := map (fun _ => demo_color 1) members;
     img_svm_scores := map (fun _ => 1%Q) members;
     best_img_svm_score := 1%Q;
     negatives := [];
     active_suggs := None;
     n_good_suggs := 0; n_judged_suggs := 0; precision := 1%Q;
     svm_model := mdl;
     outstanding_ff := []; outstanding_ff_conf := []; outstanding_ff_conf_colors := [];
     bad_ff := [];
     n_sugg_candidates := 1000; oracle_mode := mode; al_ratio := ratio;
     outstanding_al_queries := [];
     expsearch := false; expsearch_method := "ann"; expsearch_n_rounds := 5;
     ann_sample := false;
     outstanding_suggs := [[]; []]; good_suggs := [[]; []]; all_suggs := [[]; []];
     model_confidences := [Sqrt 1; Sqrt 1] |}.

(** A bucket with a classifier has the scores, confidences and colors that
    [_bucket_image_confidences] gives its members. *)
Definition demo_bucket_with (ratio : Q) (bucket_id ord : Z) (members : list Z)
    (mdl : option unit) (mode : oracle) : Bucket unit :=
  let b := untrained_bucket ratio bucket_id ord members mdl mode in
  match mdl with
  | Some _ => snd (Bucket__bucket_image_confidences b)
  | None => b
  end.

(** The default configuration: one suggestion in ten is a query. *)
Definition demo_bucket : Z -> Z -> list Z -> option unit -> oracle -> Bucket unit :=
  demo_bucket_with (1 # 10).

Definition demo_world (n_coll : Z) (seen_so_far discarded : list Z) (draws : list Z)
    : World (list Z) :=
  {| discard_pile := {| pile := discarded; dp_outstanding_ff := [] |};
     seen_images := {| seen := list_to_set seen_so_far; n := n_coll |};
     randomized_explorer := {| re_outstanding_suggs := [] |};
     rng := draws |}.

Definition demo_session (bs : dict (Bucket unit)) (w : World (list Z))
    (outstanding : dict img_info) : AIModel unit (list Z) :=
  {| buckets := bs; world := w; ai_outstanding_suggs := outstanding;
     next_bucket_id := 1 + len bs |}.

Definition demo_sugg (img bucket_id : Z) : img_info :=
  {| image := img; confidence := None; confidence_color := None;
     sugg_line_thickness := None; bucket := bucket_id;
     is_fast_forward := false; is_al_query := false |}.

(** A small index for the examples: two items, two subspaces of two
    clusters each, distances in [Z]. *)
Definition demo_index : CollectionIndex Z :=
  {| index := [[0; 1]; [1; 0]]%nat;
     distance_matrix := [[[0; 3]; [3; 0]]; [[0; 5]; [5; 0]]] |}.

(** *** The sessions of the examples *)

(** The example of the specification: image 42 was suggested for bucket 2
    and is assigned to bucket 3; image 43 is not judged yet. *)
Definition feedback_session : AIModel unit (list Z) :=
  demo_session
    [(1, demo_bucket 1 0 [] None Rf); (2, demo_bucket 2 1 [] None Rf);
     (3, demo_bucket 3 2 [] None Rf)]
    (demo_world 100 [] [] [])
    [(42, demo_sugg 42 2); (43, demo_sugg 43 0)].

(** Two trained buckets whose display order was swapped: bucket 2 is shown
    first, bucket 1 second. *)
Definition swapped_session : AIModel unit (list Z) :=
  demo_session
    [(1, demo_bucket 1 1 [10] (Some tt) Rf); (2, demo_bucket 2 0 [20] (Some tt) Rf)]
    (demo_world 100 [10; 20] [] [])
    [].

(** The image and the bucket of every entry of a returned list. *)
Definition sugg_entries (r : result (list img_info)) : result (list (Z * Z)) :=
  match r with
  | Ok l => Ok (map (fun i => (image i, bucket i)) l)
  | Raise e => Raise e
  end.

(** Three buckets with the display orders 3, 1 and 2; the third one is not
    trained yet. *)
Definition order_session : AIModel unit (list Z) :=
  demo_session
    [(1, demo_bucket 1 3 [10] (Some tt) Rf); (2, demo_bucket 2 1 [20] (Some tt) Rf);
     (3, demo_bucket 3 2 [] None Rf)]
    (demo_world 30 [10; 20] [] [])
    [].

(** A collection of five images; image 0 is in bucket 1 and image 1 in
    bucket 2, the other three are not seen yet.  Bucket 1 suggests by
    relevance; bucket 2 asks the oracle about every suggestion (its
    [al_ratio] is 1). *)
Definition shortfall_session : AIModel unit (list Z) :=
  demo_session
    [(1, demo_bucket 1 0 [0] (Some tt) Rf); (2, demo_bucket_with 1 2 1 [1] (Some tt) Al)]
    (demo_world 5 [0; 1] [] [])
    [].

(** A collection of five images that are all seen. *)
Definition exhausted_session : AIModel unit (list Z) :=
  demo_session
    [(1, demo_bucket 1 0 [0; 1; 2] (Some tt) Rf); (2, demo_bucket 2 1 [3; 4] (Some tt) Rf)]
    (demo_world 5 [0; 1; 2; 3; 4] [] [])
    [].

(** Bucket 1 holds the images 10 and 11, bucket 2 is empty. *)
Definition transfer_session : AIModel unit (list Z) :=
  demo_session
    [(1, demo_bucket 1 0 [10; 11] (Some tt) Rf); (2, demo_bucket 2 1 [] None Rf)]
    (demo_world 100 [10; 11] [] [])
    [].

Definition members_of (m : AIModel unit (list Z)) : list (Z * list Z) :=
  map (fun kb => (fst kb, images (snd kb))) (buckets m).

(** * The rest of the session core

    The methods of [aimodel] that manage the buckets of a session, commit
    fast-forwards and build the views, modelled like the methods above. *)

(** ** BucketColorManager.py: the colours of the buckets *)

Definition COLORS_HEX : list string :=
  ["#0065bd"; "#16db93"; "#eca400"; "#f5f749"; "#a4036f"; "#c5c3c6"; "#8a716a"]%string.

Definition COLORS_RGB : list (Z * Z * Z) :=
  [(0, 101, 189); (22, 219, 147); (236, 164, 0); (245, 247, 73); (164, 3, 111);
   (197, 195, 198); (138, 113, 106)].

Definition N_COLORS : nat := length COLORS_HEX.

(** [self.taken]: one flag per base colour. *)
Record BucketColorManager : Type := { taken : list bool }.

Definition BucketColorManager_init : BucketColorManager :=
  {| taken := repeat false N_COLORS |}.

(** The three draws of the fallback of [assign_color], in the order of the
    source: [random.choice(COLORS_RGB)], whether
    [random.choice(RANDOM_COLOR_METHODS)] is ["shade"], and
    [random.uniform(0.3, 0.9)]. *)
Class ColorDraws (R : Type) : Type := {
  color_draws : R -> ((Z * Z * Z) * bool * Q) * R
}.

(** [int(x)] for a finite float. *)
Definition trunc (q : Q) : Z := Z.quot (Qnum q) (Zpos (Qden q)).

Definition hex_digit (d : Z) : string :=
  String.substring (Z.to_nat d) 1 "0123456789abcdef".

(** The hexadecimal digits of a natural number, most significant first;
    [fuel] bounds their number. *)
Fixpoint hex_digits (fuel : nat) (z : Z) : string :=
  match fuel with
  | O => ""
  | S fuel' =>
      if z <? 16 then hex_digit z
      else (hex_digits fuel' (z / 16) ++ hex_digit (z mod 16))%string
  end.

(** ["{0:0{1}x}".format(coord, 2)]: lower-case hexadecimal, padded with
    zeros to two characters, the sign of a negative number included. *)
Definition format_02x (coord : Z) : string :=
  if coord <? 0 then ("-" ++ hex_digits (S (Z.to_nat (Z.log2 (- coord)))) (- coord))%string
  else if coord <? 16 then ("0" ++ hex_digit coord)%string
  else hex_digits (S (Z.to_nat (Z.log2 coord))) coord.

(** [for i in range(N_COLORS): if not self.taken[i]]: the first colour that
    is not taken, if any. *)
Fixpoint first_free (indices : list nat) (t : list bool) : result (option nat) :=
  match indices with
  | [] => Ok None
  | i :: indices' =>
      match t !! i with
      | None => Raise IndexError
      | Some false => Ok (Some i)
      | Some true => first_free indices' t
      end
  end.

(** [COLORS_HEX.index(color)] *)
Fixpoint str_index (x : string) (l : list string) : result nat :=
  match l with
  | [] => Raise ValueError
  | y :: l' => if String.eqb y x then Ok O
               else match str_index x l' with
                    | Ok i => Ok (S i)
                    | Raise e => Raise e
                    end
  end.

(** [l[i]] and [l[i] = v] for [i >= 0]. *)
Definition at_index {A} (i : nat) (l : list A) : result A :=
  match l !! i with Some x => Ok x | None => Raise IndexError end.

Definition set_index {A} (i : nat) (v : A) (l : list A) : result (list A) :=
  if Nat.ltb i (length l) then Ok (<[i := v]> l) else Raise IndexError.

(** [BucketColorManager.assign_color]; the state is the manager and the
    random number generator. *)
Definition BucketColorManager_assign_color {R} `{!ColorDraws R}
    : M (BucketColorManager * R) string :=
  (s <- get ;;
   free <- lift_result (first_free (seq 0 N_COLORS) (taken (fst s))) ;;
   match free with
   | Some i =>
       t <- lift_result (set_index i true (taken (fst s))) ;;
       put ({| taken := t |}, snd s) ;;;
       lift_result (at_index i COLORS_HEX)
   | None =>
       let '((color, shade, change_coef), r') := color_draws (snd s) in
       put (fst s, r') ;;;
       let '(cr, cg, cb) := color in
       let change (coord : Z) : Z :=
         if shade then trunc (change_coef * inject_Z coord)
         else trunc (inject_Z coord + inject_Z (255 - coord) * change_coef) in
       ret ("#" ++ format_02x (change cr) ++ format_02x (change cg)
                ++ format_02x (change cb))%string
   end)%monad.

(** [BucketColorManager.relinquish_color]: a colour that is no base colour
    is passed over. *)
Definition BucketColorManager_relinquish_color (color : string)
    : M BucketColorManager unit :=
  match str_index color COLORS_HEX with
  | Ok i =>
      (mgr <- get ;;
       t <- lift_result (set_index i false (taken mgr)) ;;
       put {| taken := t |})%monad
  | Raise _ => ret tt
  end.

(** ** The model configuration

    [DEFAULT_MODEL_CONFIG] of AIModel.py: the [expsearch] entry is optional. *)
Record ExpsearchConfig : Type := { es_n_rounds : Z; es_method : string }.

Record ModelConfig : Type := {
  cfg_n_sugg_candidates : Z;
  cfg_expsearch : option ExpsearchConfig;
  cfg_oracle_mode : oracle;
  cfg_al_ratio : Q
}.

Definition DEFAULT_MODEL_CONFIG : ModelConfig :=
  {| cfg_n_sugg_candidates := 1000;
     cfg_expsearch := Some {| es_n_rounds := 5; es_method := "ann" |};
     cfg_oracle_mode := Rf;
     cfg_al_ratio := (1 # 10)%Q |}.

Definition MAX_BUCKET_NAME_LENGTH : Z := 16.

(** [len(s)] of a Python string.  A string is held here as the bytes of its
    UTF-8 encoding, and [len] counts its characters (code points): the
    bytes that are no continuation bytes (those of the form [10xxxxxx]). *)
Definition is_continuation_byte (c : Ascii.ascii) : bool :=
  match c with
  | Ascii.Ascii _ _ _ _ _ _ b6 b7 => b7 && negb b6
  end.

Fixpoint py_str_len (s : string) : nat :=
  match s with
  | EmptyString => O
  | String c s' => ((if is_continuation_byte c then 0 else 1) + py_str_len s')%nat
  end.
Definition ANN_COLL_SAMPLE_CAP : Z := 10000.
Definition INIT_BUCKET_ID : Z := 1.
Definition N_MAX_BUCKETS : Z := 1000.
Definition N_MAX_ACTIVE_BUCKETS : Z := 7.

Section Management.

Context {model R : Type} `{!Externals model R} `{!ColorDraws R}.

Local Open Scope monad_scope.

Local Abbreviation BucketSt := (Bucket model * World R)%type.

(** *** Bucket.py: the constructor and the methods of bucket management *)

(** [Bucket.__init__]; [n_coll] is [DatasetConfigManager.n(dataset)].  With
    no [expsearch] entry in the configuration the attributes of the sliding
    are not created; they are given empty values here and never read. *)
Definition Bucket_init (bucket_id : Z) (bucket_name : string) (is_active : bool)
    (bucket_ordering : Z) (n_coll : Z) (cfg : ModelConfig)
    : M (BucketColorManager * R) (Bucket model) :=
  bucket_color <- BucketColorManager_assign_color ;;
  let n_rounds :=
    match cfg_expsearch cfg with Some es => es_n_rounds es | None => 0 end in
  ret {| id_ := bucket_id; name := bucket_name; ordering := bucket_ordering;
         color := bucket_color; active := is_active;
         images := []; img_confidences := []; img_confidence_colors := [];
         img_svm_scores := []; best_img_svm_score := 0%Q;
         negatives := [];
         active_suggs := None; n_good_suggs := 0; n_judged_suggs := 0;
         precision := 1%Q;
         svm_model := None;
         outstanding_ff := []; outstanding_ff_conf := [];
         outstanding_ff_conf_colors := []; bad_ff := [];
         n_sugg_candidates := cfg_n_sugg_candidates cfg;
         oracle_mode := cfg_oracle_mode cfg; al_ratio := cfg_al_ratio cfg;
         outstanding_al_queries := [];
         expsearch := match cfg_expsearch cfg with Some _ => true | None => false end;
         expsearch_method :=
           match cfg_expsearch cfg with Some es => es_method es | None => "" end;
         expsearch_n_rounds := n_rounds;
         ann_sample :=
           match cfg_expsearch cfg with
           | Some _ => ANN_COLL_SAMPLE_CAP <? n_coll
           | None => false
           end;
         outstanding_suggs :=
           match cfg_expsearch cfg with Some _ => [[]; []] | None => [] end;
         good_suggs :=
           match cfg_expsearch cfg with
           | Some _ => [repeat 0 (Z.to_nat n_rounds); repeat 0 (Z.to_nat n_rounds)]
           | None => []
           end;
         all_suggs :=
           match cfg_expsearch cfg with
           | Some _ => [repeat 0 (Z.to_nat n_rounds); repeat 0 (Z.to_nat n_rounds)]
           | None => []
           end;
         model_confidences :=
           match cfg_expsearch cfg with Some _ => [Sqrt 1; Sqrt 1] | None => [] end |}.

Definition set_name (v : string) (b : Bucket model) : Bucket model :=
  {| id_ := id_ b; name := v; ordering := ordering b; color := color b; active := active b;
     images := images b; img_confidences := img_confidences b;
     img_confidence_colors := img_confidence_colors b; img_svm_scores := img_svm_scores b;
     best_img_svm_score := best_img_svm_score b; negatives := negatives b;
     active_suggs := active_suggs b; n_good_suggs := n_good_suggs b;
     n_judged_suggs := n_judged_suggs b; precision := precision b; svm_model := svm_model b;
     outstanding_ff := outstanding_ff b; outstanding_ff_conf := outstanding_ff_conf b;
     outstanding_ff_conf_colors := outstanding_ff_conf_colors b; bad_ff := bad_ff b;
     n_sugg_candidates := n_sugg_candidates b; oracle_mode := oracle_mode b;
     al_ratio := al_ratio b; outstanding_al_queries := outstanding_al_queries b;
     expsearch := expsearch b; expsearch_method := expsearch_method b;
     expsearch_n_rounds := expsearch_n_rounds b; ann_sample := ann_sample b;
     outstanding_suggs := outstanding_suggs b; good_suggs := good_suggs b;
     all_suggs := all_suggs b; model_confidences := model_confidences b |}.

(** [Bucket.rename] *)
Definition Bucket_rename (new_bucket_name : string) : M (Bucket model) unit :=
  if MAX_BUCKET_NAME_LENGTH <? Z.of_nat (py_str_len new_bucket_name)
  then raise ValueError
  else modify (set_name new_bucket_name).

(** [Bucket.update_ordering_after_deletion] *)
Definition Bucket_update_ordering_after_deletion (del_bucket_ordering : Z)
    (b : Bucket model) : Bucket model :=
  if del_bucket_ordering <? ordering b then set_ordering (ordering b - 1) b else b.

(** [Bucket.delete] *)
Definition Bucket_delete (b : Bucket model) : M BucketColorManager unit :=
  BucketColorManager_relinquish_color (color b).

(** [Bucket.ff_commit].  [user_feedback] is handed the list object
    [self.bad_ff] as its [bad_suggs]: the answers to active-learning
    queries that it deletes from [bad_suggs] are deleted from the attribute,
    which shows when the retrain at its end raises. *)
Definition Bucket_ff_commit : M BucketSt unit :=
  s <- get ;;
  let b := fst s in
  on_world (on_seen (SeenImages_update (outstanding_ff b))) ;;;
  on_world (on_seen (SeenImages_update (bad_ff b))) ;;;
  (fun s =>
     let '(r, (b', w')) :=
       Bucket_user_feedback (outstanding_ff b) [] (bad_ff b) s in
     let bad_ff' :=
       match oracle_mode b with
       | Al =>
           if (len (outstanding_ff b) =? 0) && (len (bad_ff b) =? 0) then bad_ff b
           else fold_left (fun g x => remove_first x g)
                  (filter (fun bs => py_in bs (outstanding_al_queries b) = true) (bad_ff b))
                  (bad_ff b)
       | Rf => bad_ff b
       end in
     (r, (set_bad_ff bad_ff' b', w'))) ;;;
  on_bucket (modify (set_outstanding_ff [])) ;;;
  on_bucket (modify (set_outstanding_ff_conf [])) ;;;
  on_bucket (modify (set_outstanding_ff_conf_colors [])) ;;;
  on_bucket (modify (set_bad_ff [])).

(** *** AIModel.py: bucket management

    The attributes of an [AIModel] object that only bucket management
    reads, beside those of [AIModel]: the colour manager and the model
    configuration. *)
Record AIModelMgr : Type := {
  am_model : AIModel model R;
  am_color_mgr : BucketColorManager;
  am_config : ModelConfig
}.

Definition on_core {A} (c : M (AIModel model R) A) : M AIModelMgr A :=
  zoom am_model
       (fun m s => {| am_model := m; am_color_mgr := am_color_mgr s;
                      am_config := am_config s |}) c.

Definition on_color_mgr {A} (c : M BucketColorManager A) : M AIModelMgr A :=
  zoom am_color_mgr
       (fun c' s => {| am_model := am_model s; am_color_mgr := c';
                       am_config := am_config s |}) c.

(** The colour manager together with the random number generator. *)
Definition on_colors {A} (c : M (BucketColorManager * R) A) : M AIModelMgr A :=
  zoom (fun s => (am_color_mgr s, rng (world (am_model s))))
       (fun cr s => {| am_model := set_world (set_rng (snd cr) (world (am_model s)))
                                             (am_model s);
                       am_color_mgr := fst cr;
                       am_config := am_config s |}) c.

Definition set_next_bucket_id (v : Z) (m : AIModel model R) : AIModel model R :=
  {| buckets := buckets m; world := world m;
     ai_outstanding_suggs := ai_outstanding_suggs m; next_bucket_id := v |}.

(** What [create_bucket] and [toggle_bucket] return: the identifier and the
    name of the bucket and whether it is active now. *)
Record bucket_note : Type := {
  note_bucket_id : Z;
  note_bucket_name : string;
  note_is_now_active : bool
}.

(** [AIModel.create_bucket] *)
Definition AIModel_create_bucket : M AIModelMgr bucket_note :=
  s <- get ;;
  let m := am_model s in
  if N_MAX_BUCKETS <=? len (buckets m) then raise ValueError
  else
    let bucket_active :=
      negb (N_MAX_ACTIVE_BUCKETS <=? len (AIModel__active_buckets m)) in
    let bucket_id := next_bucket_id m in
    let bucket_name := ("Bucket " ++ pretty bucket_id)%string in
    b <- on_colors (Bucket_init bucket_id bucket_name bucket_active (len (buckets m))
                      (n (seen_images (world m))) (am_config s)) ;;
    on_core (modify (fun m => set_buckets (dict_set bucket_id b (buckets m)) m)) ;;;
    on_core (modify (fun m => set_next_bucket_id (next_bucket_id m + 1) m)) ;;;
    ret {| note_bucket_id := bucket_id; note_bucket_name := bucket_name;
           note_is_now_active := bucket_active |}.

(** [AIModel.__init__] for a collection of [n_coll] images: one bucket and
    the empty discard pile. *)
Definition AIModel_init (n_coll : Z) (cfg : ModelConfig) (r : R)
    : result bucket_note * AIModelMgr :=
  AIModel_create_bucket
    {| am_model :=
         {| buckets := [];
            world := {| discard_pile := {| pile := []; dp_outstanding_ff := [] |};
                        seen_images := {| seen := ∅; n := n_coll |};
                        randomized_explorer := {| re_outstanding_suggs := [] |};
                        rng := r |};
            ai_outstanding_suggs := [];
            next_bucket_id := INIT_BUCKET_ID |};
       am_color_mgr := BucketColorManager_init;
       am_config := cfg |}.

(** [AIModel.delete_bucket], for an identifier that is an integer; it
    returns the identifier and the name of the deleted bucket. *)
Definition AIModel_delete_bucket (bucket_id : Z) : M AIModelMgr (Z * string) :=
  s <- get ;;
  if len (buckets (am_model s)) =? 1 then raise ValueError
  else
    match dict_get bucket_id (buckets (am_model s)) with
    | None => raise ValueError
    | Some del_bucket =>
        let del_bucket_ordering := ordering del_bucket in
        let del_bucket_name := name del_bucket in
        on_color_mgr (Bucket_delete del_bucket) ;;;
        on_core (modify (fun m => set_buckets (dict_del bucket_id (buckets m)) m)) ;;;
        on_core (modify (fun m =>
          set_buckets
            (map (fun kb => (fst kb,
                             Bucket_update_ordering_after_deletion del_bucket_ordering
                               (snd kb)))
                 (buckets m)) m)) ;;;
        ret (bucket_id, del_bucket_name)
    end.

(** [self.buckets[k].method(...)] for a method of the bucket alone. *)
Definition with_bucket_only {A} (k : Z) (c : M (Bucket model) A) : M (AIModel model R) A :=
  fun m =>
    match dict_get k (buckets m) with
    | None => (Raise KeyError, m)
    | Some b =>
        let '(r, b') := c b in
        (r, set_buckets (dict_set k b' (buckets m)) m)
    end.

(** [AIModel.rename_bucket]; it returns the identifier, the old and the
    new name. *)
Definition AIModel_rename_bucket (bucket_id : Z) (new_bucket_name : string)
    : M (AIModel model R) (Z * string * string) :=
  m <- get ;;
  match dict_get bucket_id (buckets m) with
  | None => raise ValueError
  | Some renamed_bucket =>
      let renamed_bucket_old_name := name renamed_bucket in
      with_bucket_only bucket_id (Bucket_rename new_bucket_name) ;;;
      m <- get ;;
      renamed <- lift_result (dict_lookup bucket_id (buckets m)) ;;
      ret (bucket_id, renamed_bucket_old_name, name renamed)
  end.

(** [AIModel.swap_buckets]; it returns the identifiers and the names. *)
Definition AIModel_swap_buckets (bucket1_id bucket2_id : Z)
    : M (AIModel model R) (Z * string * Z * string) :=
  m <- get ;;
  match dict_get bucket1_id (buckets m), dict_get bucket2_id (buckets m) with
  | Some bucket1, Some bucket2 =>
      (* the right-hand side is evaluated first, then [bucket1.ordering]
         and [bucket2.ordering] are assigned in this order *)
      let o1 := ordering bucket1 in
      let o2 := ordering bucket2 in
      with_bucket_only bucket1_id (modify (set_ordering o2)) ;;;
      with_bucket_only bucket2_id (modify (set_ordering o1)) ;;;
      ret (bucket1_id, name bucket1, bucket2_id, name bucket2)
  | _, _ => raise ValueError
  end.

(** [AIModel.toggle_bucket] *)
Definition AIModel_toggle_bucket (bucket_id : Z) : M (AIModel model R) bucket_note :=
  m <- get ;;
  match dict_get bucket_id (buckets m) with
  | None => raise ValueError
  | Some b =>
      if negb (active b) && (N_MAX_ACTIVE_BUCKETS <=? len (AIModel__active_buckets m))
      then raise ValueError
      else
        with_bucket_only bucket_id (modify (set_active (negb (active b)))) ;;;
        ret {| note_bucket_id := bucket_id; note_bucket_name := name b;
               note_is_now_active := negb (active b) |}
  end.

(** [AIModel.active_and_trained_buckets] *)
Definition AIModel_active_and_trained_buckets (m : AIModel model R) : list Z :=
  map fst (List.filter (fun kb => active (snd kb) && is_trained (snd kb)) (buckets m)).

(** [AIModel.ff_commit] *)
Definition AIModel_ff_commit (bucket_id : Z) : M (AIModel model R) unit :=
  if bucket_id =? DISCARD_PILE_BUCKET_ID then on_model_world DiscardPile_ff_commit
  else catch_KeyError (with_bucket bucket_id Bucket_ff_commit).

(** [AIModel.bucket_name] *)
Definition AIModel_bucket_name (bucket_id : Z) (m : AIModel model R) : result string :=
  if bucket_id =? DISCARD_PILE_BUCKET_ID then Ok "Discard pile"%string
  else match dict_get bucket_id (buckets m) with
       | Some b => Ok (name b)
       | None => Raise ValueError
       end.

End Management.

Arguments AIModelMgr : clear implicits.

(** ** Colours in hexadecimal, for the properties of the colour manager *)

(** The two hexadecimal digits of a coordinate between 0 and 255. *)
Definition byte_hex (z : Z) : string := (hex_digit (z / 16) ++ hex_digit (z mod 16))%string.

(** [#rrggbb] *)
Definition rgb_hex (color : Z * Z * Z) : string :=
  let '(cr, cg, cb) := color in
  ("#" ++ byte_hex cr ++ byte_hex cg ++ byte_hex cb)%string.

Definition hexval (c : Ascii.ascii) : Z :=
  match String.index 0 (String c "") "0123456789abcdef" with
  | Some i => Z.of_nat i
  | None => 0
  end.

Definition rgb_of_hex (s : string) : option (Z * Z * Z) :=
  match s with
  | String _ (String r1 (String r2 (String g1 (String g2 (String b1 (String b2 "")))))) =>
      Some (16 * hexval r1 + hexval r2, 16 * hexval g1 + hexval g2,
            16 * hexval b1 + hexval b2)
  | _ => None
  end.

(** ** The vocabulary of bucket management *)

Section ManagementVocabulary.

Context {model R : Type} `{!Externals model R} `{!ColorDraws R}.

(** What bucket management reads of a bucket. *)
Definition bucket_frame (b : Bucket model) : Z * Z * bool * string :=
  (id_ b, ordering b, active b, color b).

Definition skeleton (m : AIModel model R) : list (Z * (Z * Z * bool * string)) :=
  map (fun kb => (fst kb, bucket_frame (snd kb))) (buckets m).

Definition frame_of (m : AIModel model R) : list (Z * (Z * Z * bool * string)) * Z :=
  (skeleton m, next_bucket_id m).

(** The display orders and the colours of the buckets, in the order of the
    bucket dictionary. *)
Definition bucket_orderings (m : AIModel model R) : list Z :=
  map (fun kb => ordering (snd kb)) (buckets m).

Definition bucket_colors (m : AIModel model R) : list string :=
  map (fun kb => color (snd kb)) (buckets m).

Definition base_colors_in_use (m : AIModel model R) : list string :=
  filter (fun c => c ∈ COLORS_HEX) (bucket_colors m).

(** An entry of the bucket dictionary, reduced to its frame. *)
Definition frame_entry (kb : Z * Bucket model) : Z * (Z * Z * bool * string) :=
  (fst kb, bucket_frame (snd kb)).

(** [bucket.update_ordering_after_deletion(o)] on an entry of the bucket
    dictionary, and what it does to the frame of the entry. *)
Definition shift_entry (o : Z) (kb : Z * Bucket model) : Z * Bucket model :=
  (fst kb, Bucket_update_ordering_after_deletion o (snd kb)).

Definition shift_frame (o : Z) (e : Z * (Z * Z * bool * string))
    : Z * (Z * Z * bool * string) :=
  let '(k, (i, ord, a, c)) := e in (k, (i, (if o <? ord then ord - 1 else ord), a, c)).

(** The calls of the public interface of [AIModel] that change a session,
    with their arguments (identifiers and counts that are integers). *)
Inductive api_call : Type :=
| CreateBucket
| DeleteBucket (bucket_id : Z)
| RenameBucket (bucket_id : Z) (new_bucket_name : string)
| SwapBuckets (bucket1_id bucket2_id : Z)
| ToggleBucket (bucket_id : Z)
| UserFeedback (user_feedback : list (Z * option Z))
| Suggest (sugg_request : dict Z) (refresh_rand_exp : bool)
| TransferImages (imgs : list Z) (bucket_src bucket_dst : Z) (mode : string)
| FastForward (bucket_id n_ff : Z)
| FfCommit (bucket_id : Z).

(** The session after a call, whether the call returned or raised. *)
Definition after_call (c : api_call) (s : AIModelMgr model R) : AIModelMgr model R :=
  match c with
  | CreateBucket => snd (AIModel_create_bucket s)
  | DeleteBucket bucket_id => snd (AIModel_delete_bucket bucket_id s)
  | RenameBucket bucket_id new_bucket_name =>
      snd (on_core (AIModel_rename_bucket bucket_id new_bucket_name) s)
  | SwapBuckets bucket1_id bucket2_id =>
      snd (on_core (AIModel_swap_buckets bucket1_id bucket2_id) s)
  | ToggleBucket bucket_id => snd (on_core (AIModel_toggle_bucket bucket_id) s)
  | UserFeedback user_feedback => snd (on_core (AIModel_user_feedback user_feedback) s)
  | Suggest sugg_request refresh_rand_exp =>
      snd (on_core (fun m => let '(r, (m', _)) :=
                               AIModel_suggest refresh_rand_exp (m, sugg_request) in
                             (r, m')) s)
  | TransferImages imgs bucket_src bucket_dst mode =>
      snd (on_core (AIModel_transfer_images imgs bucket_src bucket_dst mode) s)
  | FastForward bucket_id n_ff => snd (on_core (AIModel_fast_forward bucket_id n_ff) s)
  | FfCommit bucket_id => snd (on_core (AIModel_ff_commit bucket_id) s)
  end.

(** The session a sequence of calls leaves, from the construction on. *)
Definition session_after (n_coll : Z) (cfg : ModelConfig) (r : R) (calls : list api_call)
    : AIModelMgr model R :=
  fold_left (fun s c => after_call c s) calls (snd (AIModel_init n_coll cfg r)).

(** The draws of the colour fallback are what the [random] module
    documents: a base colour and a coefficient between 0.3 and 0.9. *)
Definition color_draws_in_range : Prop :=
  forall r, let '((color, _, change_coef), _) := color_draws r in
            color ∈ COLORS_RGB /\ (3 # 10 <= change_coef)%Q /\ (change_coef <= 9 # 10)%Q.

(** The invariant of a session, on the frames of its buckets, the next
    identifier and the flags of the colour manager: see [session_wf]. *)
Definition frames_wf (sk : list (Z * (Z * Z * bool * string))) (next : Z)
    (flags : list bool) : Prop :=
  NoDup (map fst sk)
  /\ Forall (fun e => fst (fst (fst (snd e))) = fst e
                      /\ INIT_BUCKET_ID <= fst e < next) sk
  /\ Permutation (map (fun e => snd (fst (fst (snd e)))) sk) (py_range (len sk))
  /\ len (List.filter (fun e => snd (fst (snd e))) sk) <= N_MAX_ACTIVE_BUCKETS
  /\ 1 <= len sk
  /\ length flags = N_COLORS
  /\ NoDup (filter (fun c => c ∈ COLORS_HEX) (map (fun e => snd (snd e)) sk))
  /\ (forall i c, COLORS_HEX !! i = Some c ->
        (flags !! i = Some true
         <-> c ∈ filter (fun c => c ∈ COLORS_HEX) (map (fun e => snd (snd e)) sk))).

(** What holds of the buckets of a session at any time: the identifiers
    are distinct, each bucket is stored under its own, and they lie between
    the first identifier and the next one to be given; the display orders
    are the numbers from 0 to the number of buckets less one, each once; at
    most seven buckets are active; there is a bucket; and the flags of the
    colour manager are up for the base colours that a bucket has, which no
    two buckets share. *)
Definition session_wf (s : AIModelMgr model R) : Prop :=
  let m := am_model s in
  NoDup (dict_keys (buckets m))
  /\ Forall (fun kb => id_ (snd kb) = fst kb
                       /\ INIT_BUCKET_ID <= fst kb < next_bucket_id m) (buckets m)
  /\ Permutation (bucket_orderings m) (py_range (len (buckets m)))
  /\ len (AIModel__active_buckets m) <= N_MAX_ACTIVE_BUCKETS
  /\ 1 <= len (buckets m)
  /\ length (taken (am_color_mgr s)) = N_COLORS
  /\ NoDup (base_colors_in_use m)
  /\ (forall i c, COLORS_HEX !! i = Some c ->
        (taken (am_color_mgr s) !! i = Some true <-> c ∈ base_colors_in_use m)).

End ManagementVocabulary.
(** ** Fixtures of the bucket-management examples

    The colour draws of the examples are always the same: a shade of the
    first base colour, by one half.  [demo_managed calls] is the session
    over a collection of five images after the given calls. *)

#[export] Instance demo_color_draws : ColorDraws (list Z) := {|
  color_draws := fun r => (((0, 101, 189), true, (1 # 2)%Q), r)
|}.

Definition demo_managed (calls : list api_call) : AIModelMgr unit (list Z) :=
  session_after 5 DEFAULT_MODEL_CONFIG [] calls.

(** Two sessions with an outstanding suggestion.  In [suggested_session] a
    second bucket is created, image 0 is put into it and it is asked for
    one suggestion: image 4, which the session records as suggested for
    bucket 2.  In [stale_session] bucket 2 is deleted after that. *)
Definition suggested_session : AIModelMgr unit (list Z) :=
  demo_managed [CreateBucket; UserFeedback [(0, Some 2)]; Suggest [(2, 1)] true].

Definition stale_session : AIModelMgr unit (list Z) :=
  demo_managed [CreateBucket; UserFeedback [(0, Some 2)]; Suggest [(2, 1)] true;
                DeleteBucket 2].

(** The members and the negatives of the buckets, the discard pile and the
    seen images (in ascending order) of a model. *)
Definition feedback_view {model R} (m : AIModel model R)
    : list (Z * list Z * list Z) * list Z * list Z :=
  (map (fun kb => (fst kb, images (snd kb), negatives (snd kb))) (buckets m),
   pile (discard_pile (world m)),
   List.filter (fun i => bool_decide (i ∈ seen (seen_images (world m))))
               (py_range (n (seen_images (world m))))).
(** * Properties *)

(** ** SeenImages.update *)

Lemma SeenImages_update_state (s : SeenImages) (new_seen : list Z) :
  snd (SeenImages_update new_seen s)
  = {| seen := seen s ∪ list_to_set new_seen; n := n s |}.
Proof.
  unfold SeenImages_update, bind, modify, get, raise, ret. simpl.
  destruct (_ =? _); reflexivity.
Qed.

Lemma SeenImages_update_outcome (s : SeenImages) (new_seen : list Z) :
  is_raise (fst (SeenImages_update new_seen s))
  <-> Z.of_nat (size (seen s ∪ list_to_set new_seen)) = n s.
Proof.
  unfold SeenImages_update, bind, modify, get, raise, ret, SeenImages_len. simpl.
  destruct (Z.eqb_spec (Z.of_nat (size (seen s ∪ list_to_set new_seen))) (n s));
    simpl; tauto.
Qed.

(** C5, as the code has it.  [update] only adds to the seen set; an update
    with images that are all seen already, and a repeated update, leave the
    set as it is; and [update] raises at every call after which the set has
    as many elements as the collection, be it the call that reaches that
    size or a later one. *)
Theorem SeenImages_update_monotone_and_raises_at_full
    (s : SeenImages) (new_seen : list Z) :
  let s' := snd (SeenImages_update new_seen s) in
  seen s ⊆ seen s'
  /\ n s' = n s
  /\ (forall x, x ∈ seen s' <-> x ∈ seen s \/ x ∈ new_seen)
  /\ ((forall x, x ∈ new_seen -> x ∈ seen s) -> seen s' = seen s)
  /\ seen (snd (SeenImages_update new_seen s')) = seen s'
  /\ (is_raise (fst (SeenImages_update new_seen s))
      <-> Z.of_nat (size (seen s')) = n s)
  /\ (Z.of_nat (size (seen s)) = n s ->
      (forall x, x ∈ new_seen -> x ∈ seen s) ->
      is_raise (fst (SeenImages_update new_seen s))).
Proof.
  intros s'. subst s'. rewrite !SeenImages_update_state. simpl.
  repeat split.
  - set_solver.
  - set_solver.
  - set_solver.
  - intros Hall. apply set_eq. intros x.
    rewrite elem_of_union, elem_of_list_to_set.
    split; [intros [H | H]; [exact H | apply Hall, H] | intros H; left; exact H].
  - apply set_eq. intros x. rewrite !elem_of_union. tauto.
  - apply SeenImages_update_outcome.
  - apply SeenImages_update_outcome.
  - intros Hfull Hall. apply SeenImages_update_outcome.
    replace (seen s ∪ list_to_set new_seen) with (seen s); [exact Hfull|].
    apply set_eq. intros x. rewrite elem_of_union, elem_of_list_to_set.
    split; [intros H; left; exact H | intros [H | H]; [exact H | apply Hall, H]].
Qed.

(** C5 as stated fails: in a collection of one image, the update that
    reaches the size of the collection raises, and so does the next one. *)
Lemma SeenImages_update_raises_more_than_once :
  let s0 := {| seen := ∅; n := 1 |} in
  let r1 := SeenImages_update [0] s0 in
  let r2 := SeenImages_update [0] (snd r1) in
  SeenImages_len s0 < n s0
  /\ is_raise (fst r1)
  /\ is_raise (fst r2)
  /\ seen (snd r2) = seen (snd r1).
Proof.
  vm_compute. repeat split; auto.
Qed.

Lemma SeenImages_update_monotone_and_raises_at_full_witness :
  let s := {| seen := {[ 0 ]}; n := 1 |} in
  seen (snd (SeenImages_update [0] s)) = seen s
  /\ is_raise (fst (SeenImages_update [0] s)).
Proof.
  intros s.
  pose proof (SeenImages_update_monotone_and_raises_at_full s [0]) as H.
  destruct H as (_ & _ & _ & Hsame & _ & _ & Hraise).
  assert (Hall : forall x : Z, x ∈ [0] -> x ∈ seen s).
  { intros x Hx. apply list_elem_of_singleton in Hx. subst x s. simpl.
    apply elem_of_singleton_2. reflexivity. }
  split.
  - apply Hsame, Hall.
  - apply Hraise; [reflexivity | exact Hall].
Defined.

(** ** The monad *)

Lemma bind_Ok {S A B} (c : M S A) (k : A -> M S B) (s s' : S) (b : B) :
  bind c k s = (Ok b, s') ->
  exists a s1, c s = (Ok a, s1) /\ k a s1 = (Ok b, s').
Proof.
  unfold bind. destruct (c s) as [[a|e] s1]; intros H.
  - exists a, s1. split; [reflexivity | exact H].
  - discriminate H.
Qed.

Lemma lift_result_Ok {S A} (r : result A) (s s' : S) (a : A) :
  lift_result r s = (Ok a, s') -> r = Ok a /\ s' = s.
Proof. unfold lift_result. intros H. inversion H. split; reflexivity. Qed.

Lemma zoom_Ok {S T A} (proj : S -> T) (upd : T -> S -> S) (c : M T A) (s s' : S) (a : A) :
  zoom proj upd c s = (Ok a, s') ->
  exists t', c (proj s) = (Ok a, t') /\ s' = upd t' s.
Proof.
  unfold zoom. destruct (c (proj s)) as [r t'] eqn:E. intros H. inversion H. subst.
  exists t'. split; reflexivity.
Qed.

Lemma try_except_Ok {S A} (c h : M S A) (handles : exn -> bool) (s s' : S) (a : A) :
  try_except c handles h s = (Ok a, s') ->
  c s = (Ok a, s')
  \/ exists e s1, c s = (Raise e, s1) /\ handles e = true /\ h s1 = (Ok a, s').
Proof.
  unfold try_except. destruct (c s) as [[x|e] s1]; intros H.
  - left. exact H.
  - destruct (handles e) eqn:He; [|discriminate H].
    right. exists e, s1. auto.
Qed.

(** One step of a method that returned: split its first statement off. *)
Ltac bind_step H x s Hx := apply bind_Ok in H as (x & s & Hx & H).

Ltac inv_pure H := inversion H; subst; clear H.

Ltac lift_step H x Hx :=
  let s := fresh "s" in
  bind_step H x s Hx; apply lift_result_Ok in Hx as [Hx ->].

Ltac unit_step H :=
  let u := fresh "u" in let s := fresh "s" in let Hu := fresh "Hu" in
  bind_step H u s Hu; destruct u; inv_pure Hu.

Ltac get_step H x :=
  let s := fresh "s" in let Hg := fresh "Hg" in
  bind_step H x s Hg; unfold get in Hg; injection Hg as <- <-.

(** ** Floats *)

Lemma q_max_cases (a b : Q) :
  (q_max a b = b /\ (a <= b)%Q) \/ (q_max a b = a /\ (b <= a)%Q).
Proof.
  unfold q_max. destruct (Qle_bool a b) eqn:E.
  - left. split; [reflexivity | apply Qle_bool_iff; exact E].
  - right. split; [reflexivity|].
    destruct (Qlt_le_dec b a) as [Hlt | Hle].
    + apply Qlt_le_weak. exact Hlt.
    + apply Qle_bool_iff in Hle. congruence.
Qed.

Lemma fold_q_max_spec (l : list Q) (q0 : Q) :
  (fold_left q_max l q0 = q0 \/ In (fold_left q_max l q0) l)
  /\ (q0 <= fold_left q_max l q0)%Q
  /\ Forall (fun s => (s <= fold_left q_max l q0)%Q) l.
Proof.
  revert q0. induction l as [|x l IH]; intros q0; simpl.
  - split; [left; reflexivity|]. split; [apply Qle_refl | constructor].
  - destruct (IH (q_max q0 x)) as (Hin & Hle & Hall).
    destruct (q_max_cases q0 x) as [[Hm Hq] | [Hm Hq]]; rewrite Hm in *.
    + split; [right; destruct Hin as [-> | Hin]; [left; reflexivity | right; exact Hin]|].
      split; [eapply Qle_trans; eassumption|].
      constructor; assumption.
    + split; [destruct Hin as [-> | Hin]; [left; reflexivity | right; right; exact Hin]|].
      split; [exact Hle|].
      constructor; [eapply Qle_trans; eassumption | exact Hall].
Qed.

(** [np.max] returns an element of the array that bounds the others. *)
Lemma np_max_spec (l : list Q) (best : Q) :
  np_max l = Ok best -> In best l /\ Forall (fun s => (s <= best)%Q) l.
Proof.
  destruct l as [|q l]; simpl; [discriminate|].
  intros H. inversion H; subst; clear H.
  destruct (fold_q_max_spec l q) as (Hin & Hle & Hall).
  split.
  - destruct Hin as [-> | Hin]; [left; reflexivity | right; exact Hin].
  - constructor; assumption.
Qed.

Lemma map_result_Ok_Forall2 {A B} (f : A -> result B) (l : list A) (l' : list B) :
  map_result f l = Ok l' -> Forall2 (fun x y => f x = Ok y) l l'.
Proof.
  revert l'. induction l as [|x l IH]; simpl; intros l' H.
  - inversion H. constructor.
  - destruct (f x) as [y|e] eqn:Hx; [|discriminate].
    destruct (map_result f l) as [ys|e] eqn:Hl; [|discriminate].
    inversion H; subst. constructor; [exact Hx | apply IH; reflexivity].
Qed.

(** A confidence that [confidence_color] accepts is not NaN. *)
Lemma confidence_color_Ok_not_NaN (c : string) (x : npfloat) (cc : conf_color) :
  BucketColorManager_confidence_color c x = Ok cc -> x <> NaN.
Proof. intros H ->. discriminate H. Qed.

(** The confidence of a score [s] under a best score [best] that is not
    zero: the quotient clamped to the unit interval. *)
Lemma confidence_value (s best : Q) :
  ~ (best == 0)%Q ->
  exists q, py_min (py_max (np_div s best) (Fin 0)) (Fin 1) = Fin q
            /\ (q == Qmin (Qmax (s / best) 0) 1)%Q
            /\ (0 <= q)%Q /\ (q <= 1)%Q.
Proof.
  intros Hb. unfold np_div.
  destruct (Qeq_bool best 0) eqn:E; [apply Qeq_bool_iff in E; contradiction|].
  unfold py_max, py_min, fl_lt.
  destruct (Qle_bool 0 (s / best)) eqn:E0; simpl.
  - apply Qle_bool_iff in E0.
    destruct (Qle_bool (s / best) 1) eqn:E1; simpl.
    + apply Qle_bool_iff in E1. exists (s / best)%Q.
      split; [reflexivity|]. split; [|split; assumption].
      rewrite (Q.max_l _ _ E0). rewrite (Q.min_l _ _ E1). reflexivity.
    + exists 1%Q. split; [reflexivity|].
      assert (H1 : (1 <= s / best)%Q).
      { destruct (Qlt_le_dec 1 (s / best)) as [Hlt | Hle].
        - apply Qlt_le_weak; exact Hlt.
        - apply Qle_bool_iff in Hle. congruence. }
      split; [|split; [discriminate | apply Qle_refl]].
      rewrite (Q.max_l _ _ E0). rewrite (Q.min_r _ _ H1). reflexivity.
  - assert (H0 : (s / best <= 0)%Q).
    { destruct (Qlt_le_dec (s / best) 0) as [Hlt | Hle].
      - apply Qlt_le_weak; exact Hlt.
      - apply Qle_bool_iff in Hle. congruence. }
    exists 0%Q. split; [reflexivity|].
    split; [|split; [apply Qle_refl | discriminate]].
    rewrite (Q.max_r _ _ H0). rewrite Q.min_l; [reflexivity | discriminate].
Qed.

Lemma confidence_of_best (best : Q) :
  (best == 0)%Q -> py_min (py_max (np_div best best) (Fin 0)) (Fin 1) = NaN.
Proof.
  intros Hb. unfold np_div. apply Qeq_bool_iff in Hb. rewrite Hb. reflexivity.
Qed.

(** ** Dictionaries *)

Lemma dict_set_same {V} (k : Z) (v : V) (d : dict V) :
  dict_get k d = Some v -> dict_set k v d = d.
Proof.
  induction d as [|[k' v'] d IH]; simpl; [discriminate|].
  destruct (Z.eqb_spec k' k).
  - intros H. inversion H. reflexivity.
  - intros H. rewrite (IH H). reflexivity.
Qed.

Lemma dict_get_set_eq {V} (k : Z) (v : V) (d : dict V) :
  dict_get k (dict_set k v d) = Some v.
Proof.
  induction d as [|[k' v'] d IH]; simpl.
  - rewrite Z.eqb_refl. reflexivity.
  - destruct (Z.eqb_spec k' k) as [->|Hne]; simpl.
    + rewrite Z.eqb_refl. reflexivity.
    + destruct (Z.eqb_spec k' k); [contradiction | exact IH].
Qed.

Lemma dict_get_set_ne {V} (k k' : Z) (v : V) (d : dict V) :
  k <> k' -> dict_get k' (dict_set k v d) = dict_get k' d.
Proof.
  intros Hne. induction d as [|[k0 v0] d IH]; simpl.
  - destruct (Z.eqb_spec k k'); [contradiction | reflexivity].
  - destruct (Z.eqb_spec k0 k) as [->|Hk]; simpl.
    + destruct (Z.eqb_spec k k'); [contradiction | reflexivity].
    + destruct (Z.eqb_spec k0 k'); [reflexivity | exact IH].
Qed.

Lemma dict_keys_set {V} (k : Z) (v v0 : V) (d : dict V) :
  dict_get k d = Some v0 -> dict_keys (dict_set k v d) = dict_keys d.
Proof.
  unfold dict_keys. induction d as [|[k' v'] d IH]; simpl; [discriminate|].
  destruct (Z.eqb_spec k' k); simpl; [reflexivity|].
  intros H. rewrite (IH H). reflexivity.
Qed.

Lemma dict_get_Some_In {V} (k : Z) (v : V) (d : dict V) :
  dict_get k d = Some v -> In (k, v) d.
Proof.
  induction d as [|[k' v'] d IH]; simpl; [discriminate|].
  destruct (Z.eqb_spec k' k) as [->|Hne].
  - intros H. inversion H. left. reflexivity.
  - intros H. right. apply IH. exact H.
Qed.

Lemma dict_get_In_keys {V} (k : Z) (d : dict V) :
  In k (dict_keys d) -> exists v, dict_get k d = Some v.
Proof.
  unfold dict_keys. induction d as [|[k' v'] d IH]; simpl; [contradiction|].
  destruct (Z.eqb_spec k' k) as [->|Hne]; [eauto|].
  intros [H | H]; [contradiction | apply IH; exact H].
Qed.

(** In a dictionary (no key twice) an entry is found under its key. *)
Lemma dict_get_NoDup_In {V} (k : Z) (v : V) (d : dict V) :
  NoDup (dict_keys d) -> In (k, v) d -> dict_get k d = Some v.
Proof.
  unfold dict_keys. induction d as [|[k' v'] d IH]; simpl; [contradiction|].
  intros Hnd [H | H].
  - inversion H; subst. rewrite Z.eqb_refl. reflexivity.
  - apply NoDup_cons in Hnd as [Hnotin Hnd].
    destruct (Z.eqb_spec k' k) as [->|Hne].
    + exfalso. apply Hnotin. apply list_elem_of_In.
      change k with (fst (k, v)). apply in_map. exact H.
    + apply IH; assumption.
Qed.

Lemma dict_get_del_eq {V} (k : Z) (d : dict V) :
  NoDup (dict_keys d) -> dict_get k (dict_del k d) = None.
Proof.
  unfold dict_keys. induction d as [|[k' v'] d IH]; simpl; [reflexivity|].
  intros Hnd. apply NoDup_cons in Hnd as [Hnotin Hnd].
  destruct (Z.eqb_spec k' k) as [->|Hne]; simpl.
  - destruct (dict_get k d) as [v|] eqn:Hg; [|reflexivity].
    exfalso. apply Hnotin. apply list_elem_of_In.
    apply dict_get_Some_In in Hg. change k with (fst (k, v)). apply in_map. exact Hg.
  - destruct (Z.eqb_spec k' k); [contradiction | apply IH; exact Hnd].
Qed.

Lemma dict_get_del_ne {V} (k k' : Z) (d : dict V) :
  k <> k' -> dict_get k' (dict_del k d) = dict_get k' d.
Proof.
  intros Hne. induction d as [|[k0 v0] d IH]; simpl; [reflexivity|].
  destruct (Z.eqb_spec k0 k) as [->|Hk]; simpl.
  - destruct (Z.eqb_spec k k'); [contradiction | reflexivity].
  - destruct (Z.eqb_spec k0 k'); [reflexivity | exact IH].
Qed.

(** ** Frames: what a method leaves as it is *)

Lemma keeps_ret {S A T} (proj : S -> T) (a : A) : keeps proj (ret a).
Proof. intros s. reflexivity. Qed.

Lemma keeps_raise {S A T} (proj : S -> T) (e : exn) : keeps proj (@raise S A e).
Proof. intros s. reflexivity. Qed.

Lemma keeps_get {S T} (proj : S -> T) : keeps proj get.
Proof. intros s. reflexivity. Qed.

Lemma keeps_lift_result {S A T} (proj : S -> T) (r : result A) : keeps proj (lift_result r).
Proof. intros s. reflexivity. Qed.

Lemma keeps_modify {S T} (proj : S -> T) (f : S -> S) :
  (forall s, proj (f s) = proj s) -> keeps proj (modify f).
Proof. intros H s. apply H. Qed.

Lemma keeps_bind {S A B T} (proj : S -> T) (c : M S A) (k : A -> M S B) :
  keeps proj c -> (forall a, keeps proj (k a)) -> keeps proj (bind c k).
Proof.
  intros Hc Hk s. unfold bind. specialize (Hc s).
  destruct (c s) as [[a|e] s1]; simpl in *.
  - rewrite (Hk a s1). exact Hc.
  - exact Hc.
Qed.

Lemma keeps_try_except {S A T} (proj : S -> T) (c h : M S A) (handles : exn -> bool) :
  keeps proj c -> keeps proj h -> keeps proj (try_except c handles h).
Proof.
  intros Hc Hh s. unfold try_except. specialize (Hc s).
  destruct (c s) as [[a|e] s1]; simpl in *; [exact Hc|].
  destruct (handles e); simpl; [rewrite (Hh s1)|]; exact Hc.
Qed.

Lemma keeps_for_each {S A T} (proj : S -> T) (l : list A) (body : A -> M S unit) :
  (forall x, keeps proj (body x)) -> keeps proj (for_each l body).
Proof.
  intros H. induction l as [|x l IH]; simpl.
  - apply keeps_ret.
  - apply keeps_bind; [apply H | intros _; exact IH].
Qed.

(** A method of a component keeps what the write-back of the component
    keeps. *)
Lemma keeps_zoom_frame {S U A T} (proj : S -> T) (get_u : S -> U) (upd : U -> S -> S)
    (c : M U A) :
  (forall u s, proj (upd u s) = proj s) -> keeps proj (zoom get_u upd c).
Proof.
  intros H s. unfold zoom. destruct (c (get_u s)) as [r u']. simpl. apply H.
Qed.

(** A method of a component keeps a part of the component when it does so
    run on the component alone. *)
Lemma keeps_zoom_inner {S U A T} (proj : U -> T) (get_u : S -> U) (upd : U -> S -> S)
    (c : M U A) :
  (forall u s, get_u (upd u s) = u) ->
  keeps proj c -> keeps (fun s => proj (get_u s)) (zoom get_u upd c).
Proof.
  intros Hgu Hc s. unfold zoom. specialize (Hc (get_u s)).
  destruct (c (get_u s)) as [r u']. simpl in *. rewrite Hgu. exact Hc.
Qed.

Lemma keeps_ext {S A T} (proj proj' : S -> T) (c : M S A) :
  (forall s, proj s = proj' s) -> keeps proj c -> keeps proj' c.
Proof. intros He Hc s. rewrite <- !He. apply Hc. Qed.

(** The outcome and the kept part together. *)
Lemma keeps_eq {S A T} (proj : S -> T) (c : M S A) (s s' : S) (r : result A) :
  keeps proj c -> c s = (r, s') -> proj s' = proj s.
Proof. intros H E. specialize (H s). rewrite E in H. exact H. Qed.

Ltac keeps_step :=
  match goal with
  | |- keeps _ (bind _ _) => apply keeps_bind; [|intros ?]
  | |- keeps _ (ret _) => apply keeps_ret
  | |- keeps _ (raise _) => apply keeps_raise
  | |- keeps _ get => apply keeps_get
  | |- keeps _ (lift_result _) => apply keeps_lift_result
  | |- keeps _ (try_except _ _ _) => apply keeps_try_except
  | |- keeps _ (for_each _ _) => apply keeps_for_each; intros ?
  | |- keeps _ (modify _) => apply keeps_modify; intros ?; reflexivity
  | |- keeps _ (put _) => fail
  | |- keeps _ (if ?b then _ else _) => destruct b
  | |- keeps _ (match ?x with _ => _ end) => destruct x
  | |- keeps _ (let '(_, _) := ?x in _) => destruct x
  end.

(** ** Dictionaries up to the order of their entries *)

Lemma dict_get_Some_iff {V} (k : Z) (v : V) (d : dict V) :
  NoDup (dict_keys d) -> dict_get k d = Some v <-> In (k, v) d.
Proof.
  intros Hnd. split; [apply dict_get_Some_In | apply dict_get_NoDup_In; exact Hnd].
Qed.

Lemma dict_keys_perm {V} (d d' : dict V) :
  Permutation d d' -> Permutation (dict_keys d) (dict_keys d').
Proof. intros H. unfold dict_keys. apply Permutation_map. exact H. Qed.

(** The value under a key does not depend on the order of the entries. *)
Lemma dict_get_perm {V} (k : Z) (d d' : dict V) :
  NoDup (dict_keys d) -> Permutation d d' -> dict_get k d = dict_get k d'.
Proof.
  intros Hnd Hp.
  assert (Hnd' : NoDup (dict_keys d')).
  { rewrite <- (dict_keys_perm _ _ Hp). exact Hnd. }
  destruct (dict_get k d) as [v|] eqn:Hg.
  - symmetry. apply dict_get_Some_iff; [exact Hnd'|].
    apply (Permutation_in _ Hp). apply dict_get_Some_In. exact Hg.
  - destruct (dict_get k d') as [v'|] eqn:Hg'; [|reflexivity].
    apply dict_get_Some_iff in Hg'; [|exact Hnd'].
    apply (Permutation_in _ (Permutation_sym Hp)) in Hg'.
    apply dict_get_Some_iff in Hg'; [|exact Hnd]. congruence.
Qed.

Lemma dict_del_filter {V} (k : Z) (d : dict V) :
  NoDup (dict_keys d) ->
  dict_del k d = List.filter (fun e => negb (fst e =? k)) d.
Proof.
  unfold dict_keys. induction d as [|[k' v'] d IH]; simpl; [reflexivity|].
  intros Hnd. apply NoDup_cons in Hnd as [Hnotin Hnd].
  destruct (Z.eqb_spec k' k) as [->|Hne]; simpl.
  - symmetry. apply forallb_filter_id. apply forallb_forall.
    intros [k0 v0] Hin. simpl. destruct (Z.eqb_spec k0 k) as [->|]; [|reflexivity].
    exfalso. apply Hnotin. apply list_elem_of_In.
    change k with (fst (k, v0)). apply in_map. exact Hin.
  - rewrite (IH Hnd). reflexivity.
Qed.

Lemma filter_perm {A} (f : A -> bool) (l l' : list A) :
  Permutation l l' -> Permutation (List.filter f l) (List.filter f l').
Proof.
  induction 1 as [|x l l' _ IH|x y l|l1 l2 l3 _ IH1 _ IH2]; simpl.
  - constructor.
  - destruct (f x); [constructor|]; exact IH.
  - destruct (f x), (f y); try reflexivity. apply perm_swap.
  - etransitivity; eassumption.
Qed.

Lemma dict_del_perm {V} (k : Z) (d d' : dict V) :
  NoDup (dict_keys d) -> Permutation d d' ->
  Permutation (dict_del k d) (dict_del k d').
Proof.
  intros Hnd Hp.
  assert (Hnd' : NoDup (dict_keys d')).
  { rewrite <- (dict_keys_perm _ _ Hp). exact Hnd. }
  rewrite !dict_del_filter by assumption. apply filter_perm. exact Hp.
Qed.

Lemma dict_del_NoDup {V} (k : Z) (d : dict V) :
  NoDup (dict_keys d) -> NoDup (dict_keys (dict_del k d)).
Proof.
  unfold dict_keys. induction d as [|[k' v'] d IH]; simpl; [auto|].
  intros Hnd. apply NoDup_cons in Hnd as [Hnotin Hnd].
  destruct (Z.eqb_spec k' k); [exact Hnd|]. simpl.
  apply NoDup_cons. split; [|apply IH; exact Hnd].
  intros Hin. apply Hnotin. clear -Hin.
  apply list_elem_of_In in Hin. apply list_elem_of_In.
  induction d as [|[k0 v0] d IH]; simpl in *; [contradiction|].
  destruct (Z.eqb_spec k0 k); [right; exact Hin|].
  destruct Hin as [H | H]; [left; exact H | right; apply IH; exact H].
Qed.

Lemma dict_del_absent {V} (k : Z) (d : dict V) :
  dict_get k d = None -> dict_del k d = d.
Proof.
  induction d as [|[k' v'] d IH]; simpl; [reflexivity|].
  destruct (Z.eqb_spec k' k); [discriminate|]. intros H. rewrite (IH H). reflexivity.
Qed.

(** ** The stable sort by display order *)

Lemma insert_by_ordering_perm (x : Z * Z) (l : list (Z * Z)) :
  Permutation (insert_by_ordering x l) (x :: l).
Proof.
  induction l as [|y l IH]; simpl; [reflexivity|].
  destruct (snd y <=? snd x); [|reflexivity].
  rewrite IH. apply perm_swap.
Qed.

Lemma insert_by_ordering_sorted (x : Z * Z) (l : list (Z * Z)) :
  StronglySorted by_ordering l -> StronglySorted by_ordering (insert_by_ordering x l).
Proof.
  induction 1 as [|y l Hl IH Hy]; simpl.
  - constructor; constructor.
  - destruct (Z.leb_spec (snd y) (snd x)) as [Hle | Hgt].
    + constructor; [exact IH|].
      rewrite (insert_by_ordering_perm x l). constructor; [exact Hle | exact Hy].
    + constructor; [constructor; assumption|].
      constructor; [unfold by_ordering; lia|].
      eapply Forall_impl; [exact Hy|]. unfold by_ordering. intros z Hz. lia.
Qed.

Lemma sort_by_ordering_from_perm (l acc : list (Z * Z)) :
  Permutation (fold_left (fun a x => insert_by_ordering x a) l acc) (l ++ acc).
Proof.
  revert acc. induction l as [|x l IH]; intros acc; simpl; [reflexivity|].
  rewrite IH, insert_by_ordering_perm. symmetry. apply Permutation_middle.
Qed.

Lemma sort_by_ordering_perm (l : list (Z * Z)) : Permutation (sort_by_ordering l) l.
Proof.
  unfold sort_by_ordering. rewrite sort_by_ordering_from_perm, app_nil_r. reflexivity.
Qed.

Lemma sort_by_ordering_from_sorted (l acc : list (Z * Z)) :
  StronglySorted by_ordering acc ->
  StronglySorted by_ordering (fold_left (fun a x => insert_by_ordering x a) l acc).
Proof.
  revert acc. induction l as [|x l IH]; intros acc H; simpl; [exact H|].
  apply IH, insert_by_ordering_sorted, H.
Qed.

Lemma sort_by_ordering_sorted (l : list (Z * Z)) :
  StronglySorted by_ordering (sort_by_ordering l).
Proof. apply sort_by_ordering_from_sorted. constructor. Qed.

(** Two lists with the same entries and no display order twice sort to the
    same list. *)
Lemma sort_by_ordering_perm_eq (l l' : list (Z * Z)) :
  NoDup (map snd l) -> Permutation l l' -> sort_by_ordering l = sort_by_ordering l'.
Proof.
  intros Hnd Hp.
  apply (StronglySorted_unique_strong by_ordering).
  - intros x1 x2 H1 H2 H12 H21. unfold by_ordering in *.
    assert (Hs : snd x1 = snd x2) by lia.
    apply list_elem_of_In in H1, H2.
    apply (Permutation_in _ (sort_by_ordering_perm l)) in H1.
    apply (Permutation_in _ (sort_by_ordering_perm l')) in H2.
    apply (Permutation_in _ (Permutation_sym Hp)) in H2.
    clear -Hnd Hs H1 H2.
    induction l as [|y l IH]; simpl in *; [contradiction|].
    apply NoDup_cons in Hnd as [Hnotin Hnd].
    destruct H1 as [-> | H1], H2 as [-> | H2]; try reflexivity.
    + exfalso. apply Hnotin. rewrite Hs. apply list_elem_of_In, in_map, H2.
    + exfalso. apply Hnotin. rewrite <- Hs. apply list_elem_of_In, in_map, H1.
    + apply IH; assumption.
  - apply sort_by_ordering_sorted.
  - apply sort_by_ordering_sorted.
  - rewrite !sort_by_ordering_perm. exact Hp.
Qed.

(** ** CollectionIndex.distances *)

Section IndexProperties.

Context {F : Type} (fzero : F) (fadd : F -> F -> F).

Local Abbreviation CI := (CollectionIndex F).

Lemma map_result_length {A B} (f : A -> result B) (l : list A) (l' : list B) :
  map_result f l = Ok l' -> length l' = length l.
Proof.
  intros H. apply map_result_Ok_Forall2 in H.
  symmetry. eapply Forall2_length. exact H.
Qed.

Lemma map_result_lookup {A B} (f : A -> result B) (l : list A) (l' : list B) (i : nat) (x : A) :
  map_result f l = Ok l' -> l !! i = Some x ->
  exists y, l' !! i = Some y /\ f x = Ok y.
Proof.
  intros H Hx. apply map_result_Ok_Forall2 in H.
  destruct (Forall2_lookup_l _ _ _ _ _ H Hx) as (y & Hy & Hf). eauto.
Qed.

Lemma map_result_total {A B} (f : A -> result B) (l : list A) :
  Forall (fun x => is_ok (f x)) l -> is_ok (map_result f l).
Proof.
  induction 1 as [|x l Hx _ IH]; simpl; [exact I|].
  destruct (f x); [|contradiction]. destruct (map_result f l); [exact I | contradiction].
Qed.

Lemma lookup_repeat {A} (x : A) (k i : nat) :
  (i < k)%nat -> repeat x k !! i = Some x.
Proof.
  revert i. induction k as [|k IH]; intros i Hi; [lia|].
  destruct i as [|i]; simpl; [reflexivity | apply IH; lia].
Qed.

Lemma np_zeros_shape (r c : nat) : has_shape (np_zeros fzero r c) r c.
Proof.
  unfold np_zeros. split.
  - apply repeat_length.
  - apply Forall_forall. intros row Hin. apply list_elem_of_In in Hin.
    apply repeat_spec in Hin. subst. apply repeat_length.
Qed.

Lemma np_zeros_get (r c i j : nat) :
  (i < r)%nat -> (j < c)%nat -> mat_get (np_zeros fzero r c) i j = Some fzero.
Proof.
  intros Hi Hj. unfold mat_get, np_zeros.
  rewrite (lookup_repeat _ r i Hi). apply lookup_repeat. exact Hj.
Qed.

Lemma mat_add_shape (a b : list (list F)) (r c : nat) :
  has_shape a r c -> has_shape b r c -> has_shape (mat_add fadd a b) r c.
Proof.
  intros [Ha Har] [Hb Hbr]. unfold mat_add. split.
  - rewrite length_zip_with. lia.
  - apply Forall_forall. intros row Hin.
    apply list_elem_of_lookup in Hin as [i Hi].
    apply lookup_zip_with_Some in Hi as (ra & rb & -> & Hra & Hrb).
    rewrite length_zip_with.
    rewrite Forall_forall in Har. rewrite Forall_forall in Hbr.
    rewrite (Har ra), (Hbr rb); [lia | |].
    + eapply list_elem_of_lookup_2. exact Hrb.
    + eapply list_elem_of_lookup_2. exact Hra.
Qed.

Lemma mat_add_get (a b : list (list F)) (i j : nat) (x y : F) :
  mat_get a i j = Some x -> mat_get b i j = Some y ->
  mat_get (mat_add fadd a b) i j = Some (fadd x y).
Proof.
  unfold mat_get, mat_add. intros Ha Hb.
  destruct (a !! i) as [ra|] eqn:Hra; [|discriminate].
  destruct (b !! i) as [rb|] eqn:Hrb; [|discriminate].
  rewrite lookup_zip_with, Hra, Hrb. simpl.
  rewrite lookup_zip_with, Ha, Hb. reflexivity.
Qed.

Lemma list_get_Ok {A} (i : nat) (l : list A) (x : A) :
  list_get i l = Ok x <-> l !! i = Some x.
Proof.
  unfold list_get. destruct (l !! i); split; intros H; inversion H; reflexivity.
Qed.

(** One block of the sum: its shape and its entries. *)
Lemma submatrix_spec (ci : CI) (s : nat) (img1 img2 : list Z) (rows cols : list nat)
    (block : list (list F)) :
  codes_of ci img1 s = Ok rows ->
  codes_of ci img2 s = Ok cols ->
  submatrix ci s rows cols = Ok block ->
  has_shape block (length img1) (length img2)
  /\ forall i j a b, img1 !! i = Some a -> img2 !! j = Some b ->
       exists d, mat_get block i j = Some d /\ centroid_distance ci s a b = Ok d.
Proof.
  unfold codes_of, submatrix. intros Hrows Hcols Hblock.
  destruct (list_get s (distance_matrix ci)) as [table|] eqn:Htab; [|discriminate].
  pose proof (map_result_length _ _ _ Hrows) as Lrows.
  pose proof (map_result_length _ _ _ Hcols) as Lcols.
  pose proof (map_result_length _ _ _ Hblock) as Lblock.
  split.
  - split; [lia|].
    apply Forall_forall. intros row Hin.
    apply list_elem_of_lookup in Hin as [i Hi].
    assert (Hr : exists r, rows !! i = Some r).
    { apply lookup_lt_is_Some. rewrite <- Lblock. eapply lookup_lt_Some. exact Hi. }
    destruct Hr as [r Hr].
    destruct (map_result_lookup _ _ _ _ _ Hblock Hr) as (row' & Hrow' & Hf).
    rewrite Hi in Hrow'. inversion Hrow'; subst row'.
    destruct (list_get r table) as [trow|]; [|discriminate].
    apply map_result_length in Hf. lia.
  - intros i j a b Ha Hb.
    destruct (map_result_lookup _ _ _ _ _ Hrows Ha) as (ca & Hca & Hfa).
    destruct (map_result_lookup _ _ _ _ _ Hcols Hb) as (cb & Hcb & Hfb).
    destruct (map_result_lookup _ _ _ _ _ Hblock Hca) as (row & Hrow & Hf).
    destruct (list_get ca table) as [trow|] eqn:Htrow; [|discriminate].
    destruct (map_result_lookup _ _ _ _ _ Hf Hcb) as (d & Hd & Hfd).
    exists d. split.
    + unfold mat_get. rewrite Hrow. exact Hd.
    + unfold centroid_distance. rewrite Htab.
      destruct (np_get a (index ci)) as [codes_a|]; [|discriminate].
      destruct (np_get b (index ci)) as [codes_b|]; [|discriminate].
      rewrite Hfa, Hfb, Htrow. exact Hfd.
Qed.

Lemma accumulate_spec (ci : CI) (img1 img2 : list Z) (subspaces : list nat)
    (d0 d : list (list F)) :
  has_shape d0 (length img1) (length img2) ->
  accumulate fadd ci img1 img2 subspaces d0 = Ok d ->
  has_shape d (length img1) (length img2)
  /\ forall i j a b x0, img1 !! i = Some a -> img2 !! j = Some b ->
       mat_get d0 i j = Some x0 ->
       exists x, mat_get d i j = Some x
                 /\ pq_distance_from fadd ci subspaces a b x0 = Ok x.
Proof.
  revert d0. induction subspaces as [|s rest IH]; intros d0 Hshape H; simpl in H.
  - inversion H; subst. split; [exact Hshape|].
    intros i j a b x0 _ _ Hx0. exists x0. split; [exact Hx0 | reflexivity].
  - destruct (codes_of ci img1 s) as [rows|] eqn:Hrows; [|discriminate].
    destruct (codes_of ci img2 s) as [cols|] eqn:Hcols; [|discriminate].
    destruct (submatrix ci s rows cols) as [block|] eqn:Hblock; [|discriminate].
    destruct (submatrix_spec _ _ _ _ _ _ _ Hrows Hcols Hblock) as [Hbs Hbe].
    destruct (IH _ (mat_add_shape _ _ _ _ Hshape Hbs) H) as [Hds Hde].
    split; [exact Hds|].
    intros i j a b x0 Ha Hb Hx0.
    destruct (Hbe i j a b Ha Hb) as (dd & Hdd & Hcd).
    destruct (Hde i j a b (fadd x0 dd) Ha Hb (mat_add_get _ _ _ _ _ _ Hx0 Hdd))
      as (x & Hx & Hpq).
    exists x. split; [exact Hx|]. simpl. rewrite Hcd. exact Hpq.
Qed.

Lemma item_indexed_code (ci : CI) (a : Z) (s : nat) (table : list (list F)) :
  item_indexed ci a -> distance_matrix ci !! s = Some table ->
  exists c, code_at ci s a = Ok c /\ (c < length table)%nat.
Proof.
  intros (codes & Hget & Hall) Htab.
  destruct (Forall2_lookup_r _ _ _ _ _ Hall Htab) as (c & Hc & Hlt).
  exists c. split; [|exact Hlt].
  unfold code_at. rewrite Hget. apply list_get_Ok.
  apply lookup_take_Some in Hc. tauto.
Qed.

Lemma codes_of_total (ci : CI) (img : list Z) (s : nat) (table : list (list F)) :
  Forall (item_indexed ci) img -> distance_matrix ci !! s = Some table ->
  exists codes, codes_of ci img s = Ok codes /\ Forall (fun c => (c < length table)%nat) codes.
Proof.
  intros Himg Htab. induction Himg as [|a img Ha _ IH].
  - exists []. split; [reflexivity | constructor].
  - destruct IH as (codes & Hcodes & Hall).
    destruct (item_indexed_code _ _ _ _ Ha Htab) as (c & Hc & Hlt).
    exists (c :: codes). split; [|constructor; assumption].
    unfold codes_of in *. simpl. unfold code_at in Hc.
    destruct (np_get a (index ci)); [|discriminate]. rewrite Hc, Hcodes. reflexivity.
Qed.

Lemma submatrix_total (ci : CI) (s : nat) (table : list (list F)) (rows cols : list nat) :
  distance_matrix ci !! s = Some table ->
  Forall (fun row => length row = length table) table ->
  Forall (fun c => (c < length table)%nat) rows ->
  Forall (fun c => (c < length table)%nat) cols ->
  is_ok (submatrix ci s rows cols).
Proof.
  intros Htab Hsq Hrows Hcols. unfold submatrix.
  apply list_get_Ok in Htab. rewrite Htab.
  apply map_result_total. apply Forall_forall. intros r Hr.
  rewrite Forall_forall in Hrows. specialize (Hrows r Hr).
  apply lookup_lt_is_Some in Hrows as [trow Htrow].
  assert (Hlen : length trow = length table).
  { rewrite Forall_forall in Hsq. apply Hsq.
    eapply list_elem_of_lookup_2. exact Htrow. }
  apply list_get_Ok in Htrow. rewrite Htrow.
  apply map_result_total. apply Forall_forall. intros c Hc.
  rewrite Forall_forall in Hcols. specialize (Hcols c Hc).
  rewrite <- Hlen in Hcols. apply lookup_lt_is_Some in Hcols as [x Hx].
  apply list_get_Ok in Hx. rewrite Hx. exact I.
Qed.

Lemma accumulate_total (ci : CI) (img1 img2 : list Z) (subspaces : list nat)
    (d0 : list (list F)) :
  Forall (item_indexed ci) img1 -> Forall (item_indexed ci) img2 -> tables_square ci ->
  Forall (fun s => (s < n_submat ci)%nat) subspaces ->
  is_ok (accumulate fadd ci img1 img2 subspaces d0).
Proof.
  intros H1 H2 Hsq Hsub. revert d0.
  induction Hsub as [|s rest Hs _ IH]; intros d0; simpl; [exact I|].
  apply lookup_lt_is_Some in Hs as [table Htab].
  destruct (codes_of_total _ _ _ _ H1 Htab) as (rows & -> & Hrows).
  destruct (codes_of_total _ _ _ _ H2 Htab) as (cols & -> & Hcols).
  assert (Htsq : Forall (fun row => length row = length table) table).
  { unfold tables_square in Hsq. rewrite Forall_forall in Hsq. apply Hsq.
    eapply list_elem_of_lookup_2. exact Htab. }
  pose proof (submatrix_total _ _ _ _ _ Htab Htsq Hrows Hcols) as Hok.
  destruct (submatrix ci s rows cols); [|contradiction]. apply IH.
Qed.

Lemma map_result_Raise {A B} (f : A -> result B) (l : list A) (e : exn) :
  map_result f l = Raise e -> exists x, In x l /\ f x = Raise e.
Proof.
  induction l as [|x l IH]; simpl; intros H; [discriminate|].
  destruct (f x) as [y|e'] eqn:Hx.
  - destruct (map_result f l) as [ys|e'] eqn:Hl; [discriminate|].
    inversion H; subst. destruct (IH eq_refl) as (x' & Hin & Hx').
    exists x'. split; [right; exact Hin | exact Hx'].
  - inversion H; subst. exists x. split; [left; reflexivity | exact Hx].
Qed.

Lemma list_get_Raise {A} (i : nat) (l : list A) (e : exn) :
  list_get i l = Raise e -> e = IndexError.
Proof. unfold list_get. destruct (l !! i); intros H; inversion H; reflexivity. Qed.

Lemma np_get_Raise {A} (i : Z) (l : list A) (e : exn) :
  np_get i l = Raise e -> e = IndexError.
Proof.
  unfold np_get. destruct (_ <? 0); [intros H; inversion H; reflexivity|].
  destruct (l !! _); intros H; inversion H; reflexivity.
Qed.

Lemma codes_of_Raise (ci : CI) (img : list Z) (s : nat) (e : exn) :
  codes_of ci img s = Raise e -> e = IndexError.
Proof.
  unfold codes_of. intros H. apply map_result_Raise in H as (x & _ & H).
  destruct (np_get x (index ci)) eqn:Hg.
  - eapply list_get_Raise. exact H.
  - inversion H; subst. eapply np_get_Raise. exact Hg.
Qed.

Lemma submatrix_Raise (ci : CI) (s : nat) (rows cols : list nat) (e : exn) :
  submatrix ci s rows cols = Raise e -> e = IndexError.
Proof.
  unfold submatrix. destruct (list_get s (distance_matrix ci)) eqn:Ht.
  - intros H. apply map_result_Raise in H as (r & _ & H).
    destruct (list_get r a) eqn:Hr.
    + apply map_result_Raise in H as (c & _ & H). eapply list_get_Raise. exact H.
    + inversion H; subst. eapply list_get_Raise. exact Hr.
  - intros H. inversion H; subst. eapply list_get_Raise. exact Ht.
Qed.

(** The loop fails only on a lookup outside the arrays. *)
Lemma accumulate_Raise (ci : CI) (img1 img2 : list Z) (subspaces : list nat)
    (d0 : list (list F)) (e : exn) :
  accumulate fadd ci img1 img2 subspaces d0 = Raise e -> e = IndexError.
Proof.
  revert d0. induction subspaces as [|s rest IH]; intros d0; simpl; [discriminate|].
  destruct (codes_of ci img1 s) eqn:H1.
  2:{ intros H. inversion H; subst. eapply codes_of_Raise. exact H1. }
  destruct (codes_of ci img2 s) eqn:H2.
  2:{ intros H. inversion H; subst. eapply codes_of_Raise. exact H2. }
  destruct (submatrix ci s a a0) eqn:H3.
  2:{ intros H. inversion H; subst. eapply submatrix_Raise. exact H3. }
  apply IH.
Qed.

(** C9, as the code has it.  [distances] raises [ValueError] exactly when
    the first set is empty; an empty second set is no error.  For a first
    set that is not empty and items the index covers it returns a matrix of
    one row per item of the first set and one column per item of the second
    (none when the second set is empty), and the entry of two items is the
    sum over the subspaces, taken in their order, of the distance between
    the centroids of the clusters the two items belong to. *)
Theorem CollectionIndex_distances_spec (ci : CI) (img1 img2 : list Z) :
  (img1 = [] -> CollectionIndex_distances fzero fadd ci img1 img2 = Raise ValueError)
  /\ (img1 <> [] ->
      CollectionIndex_distances fzero fadd ci img1 img2 <> Raise ValueError)
  /\ (img1 <> [] ->
      Forall (item_indexed ci) img1 -> Forall (item_indexed ci) img2 ->
      tables_square ci ->
      exists d,
        CollectionIndex_distances fzero fadd ci img1 img2 = Ok d
        /\ has_shape d (length img1) (length img2)
        /\ forall i j a b, img1 !! i = Some a -> img2 !! j = Some b ->
             exists x, mat_get d i j = Some x
                       /\ pq_distance fzero fadd ci a b = Ok x).
Proof.
  unfold CollectionIndex_distances. split; [|split].
  - intros ->. reflexivity.
  - intros Hne. destruct img1 as [|a img1]; [congruence|]. simpl.
    intros H. apply accumulate_Raise in H. discriminate H.
  - intros Hne H1 H2 Hsq.
    destruct img1 as [|a0 img1']; [congruence|]. simpl Nat.eqb. cbv iota.
    set (img1 := a0 :: img1') in *.
    assert (Hsub : Forall (fun s => (s < n_submat ci)%nat) (seq 0 (n_submat ci))).
    { apply Forall_forall. intros s Hs. apply list_elem_of_In, in_seq in Hs. lia. }
    pose proof (accumulate_total ci img1 img2 _
                  (np_zeros fzero (length img1) (length img2)) H1 H2 Hsq Hsub) as Hok.
    destruct (accumulate fadd ci img1 img2 (seq 0 (n_submat ci))
                (np_zeros fzero (length img1) (length img2))) as [d|] eqn:Hacc;
      [|contradiction].
    exists d. split; [reflexivity|].
    destruct (accumulate_spec _ _ _ _ _ _ (np_zeros_shape _ _) Hacc) as [Hshape Hent].
    split; [exact Hshape|].
    intros i j a b Ha Hb.
    apply (Hent i j a b fzero Ha Hb).
    apply np_zeros_get; eapply lookup_lt_Some; eassumption.
Qed.

End IndexProperties.

Section Properties.

Context {model R : Type} `{!Externals model R}.

Local Abbreviation BucketSt := (Bucket model * World R)%type.

(** ** Bucket._bucket_image_confidences and Bucket._train *)

Lemma bucket_image_confidences_Ok (b b' : Bucket model) :
  Bucket__bucket_image_confidences b = (Ok tt, b') ->
  exists mdl best colors,
    svm_model b = Some mdl
    /\ np_max (map (decision_function mdl) (images b)) = Ok best
    /\ map_result (BucketColorManager_confidence_color (color b))
         (map (clamp_conf best) (map (decision_function mdl) (images b))) = Ok colors
    /\ b' = set_img_confidence_colors colors
              (set_img_confidences
                 (map (clamp_conf best) (map (decision_function mdl) (images b)))
                 (set_best_img_svm_score best
                    (set_img_svm_scores (map (decision_function mdl) (images b)) b))).
Proof.
  unfold Bucket__bucket_image_confidences. intros H.
  get_step H b0.
  lift_step H scores Hs.
  unfold Bucket__svm_scores in Hs. destruct (svm_model _) as [mdl|] eqn:Hm in Hs; [|discriminate].
  inv_pure Hs.
  unit_step H. lift_step H best Hb. unit_step H. get_step H b1. unit_step H.
  get_step H b2. lift_step H colors Hc. inv_pure H.
  exists mdl, best, colors. repeat split; assumption.
Qed.

Lemma train_Ok (b : Bucket model) (w : World R) (st' : BucketSt) :
  images b <> [] ->
  Bucket__train (b, w) = (Ok tt, st') ->
  exists mdl, Bucket__bucket_image_confidences (set_svm_model (Some mdl) b) = (Ok tt, fst st').
Proof.
  intros Hne H. unfold Bucket__train in H.
  get_step H st. simpl in H.
  destruct (len (images b) =? 0) eqn:E.
  { apply Z.eqb_eq in E. unfold len in E. destruct (images b); [congruence | simpl in E; lia]. }
  clear E.
  bind_step H aug s1 Haug.
  assert (Hs1 : fst s1 = b).
  { destruct (len (negatives b) <? 2 * len (images b)).
    - apply try_except_Ok in Haug as [Haug | (e & s2 & Hc & _ & Haug)].
      + bind_step Haug smp s2 Hc. inv_pure Haug.
        apply zoom_Ok in Hc as (w' & _ & ->). reflexivity.
      + inv_pure Haug.
        unfold bind in Hc.
        destruct (on_world _ _) as [[x|e'] s3] eqn:Hz; [discriminate|].
        inv_pure Hc. unfold on_world, zoom in Hz. simpl in Hz.
        destruct (on_rng _ _) in Hz. inv_pure Hz. reflexivity.
    - inv_pure Haug. reflexivity. }
  bind_step H train s2 Ht. apply zoom_Ok in Ht as (w2 & _ & ->).
  bind_step H mdl s3 Hf. apply zoom_Ok in Hf as (w3 & _ & ->).
  bind_step H u s4 Hm. apply zoom_Ok in Hm as (b4 & Hm & ->). inv_pure Hm.
  apply zoom_Ok in H as (b5 & H & ->). simpl in *. subst.
  exists mdl. exact H.
Qed.

(** C6.  After a retrain that returned, a bucket with at least one member
    has a classifier; its best score is the largest score of its members; it
    has one confidence per member, the confidence of a member is its score
    over the best score clamped to the unit interval, it lies between 0 and
    1, and it is 1 for a member whose score is the best one. *)
Theorem Bucket_retrain_confidence_bounds
    (b : Bucket model) (w : World R) (st' : BucketSt) :
  images b <> [] ->
  Bucket__train (b, w) = (Ok tt, st') ->
  let b' := fst st' in
  let best := best_img_svm_score b' in
  exists mdl,
    svm_model b' = Some mdl
    /\ images b' = images b
    /\ img_svm_scores b' = map (decision_function mdl) (images b')
    /\ In best (img_svm_scores b')
    /\ Forall (fun s => (s <= best)%Q) (img_svm_scores b')
    /\ length (img_confidences b') = length (images b')
    /\ forall (i : nat) (s : Q),
         img_svm_scores b' !! i = Some s ->
         exists q, img_confidences b' !! i = Some (Fin q)
                   /\ (q == Qmin (Qmax (s / best) 0) 1)%Q
                   /\ (0 <= q)%Q /\ (q <= 1)%Q
                   /\ ((s == best)%Q -> (q == 1)%Q).
Proof.
  intros Hne H b' best.
  apply train_Ok in H as [mdl H]; [|exact Hne].
  apply bucket_image_confidences_Ok in H as (mdl' & bst & colors & Hm & Hmax & Hcol & Hb').
  simpl in Hm. inv_pure Hm. simpl in Hmax, Hcol.
  subst b' best. rewrite Hb'. simpl.
  apply np_max_spec in Hmax as [Hin Hall].
  (* the best score is not zero: its own confidence would be NaN *)
  assert (Hnz : ~ (bst == 0)%Q).
  { intros Hz. apply map_result_Ok_Forall2 in Hcol.
    apply list_elem_of_In in Hin. apply list_elem_of_lookup in Hin as [i Hi].
    assert (Hc : map (clamp_conf bst) (map (decision_function mdl') (images b)) !! i
                 = Some NaN).
    { rewrite list_lookup_fmap, Hi. simpl. unfold clamp_conf.
      rewrite confidence_of_best; [reflexivity | exact Hz]. }
    destruct (Forall2_lookup_l _ _ _ _ _ Hcol Hc) as (cc & _ & Hcc).
    discriminate Hcc. }
  exists mdl'. repeat split; try assumption; try reflexivity.
  - rewrite !length_map. reflexivity.
  - intros i s Hi.
    destruct (confidence_value s bst Hnz) as (q & Hq & Heq & H0 & H1).
    exists q. split; [|split; [exact Heq | split; [exact H0 | split; [exact H1|]]]].
    + rewrite list_lookup_fmap, Hi. simpl. unfold clamp_conf. rewrite Hq. reflexivity.
    + intros Hs. rewrite Heq, Hs.
      assert (Hone : (bst / bst == 1)%Q) by (field; exact Hnz).
      rewrite Hone. rewrite Q.max_l by discriminate. rewrite Q.min_l by apply Qle_refl.
      reflexivity.
Qed.

(** ** Bucket.user_feedback *)

(** C7.  A call of [user_feedback] with three empty lists returns at once:
    the bucket (its members, negatives, classifier, precision and sliding
    windows), the discard pile, the seen set and the state of the random
    number generator are what they were, so nothing was trained and no
    negatives were sampled. *)
Theorem Bucket_user_feedback_empty_is_noop (b : Bucket model) (w : World R) :
  Bucket_user_feedback [] [] [] (b, w) = (Ok tt, (b, w)).
Proof.
  unfold Bucket_user_feedback. simpl. reflexivity.
Qed.

(** ** AIModel._ff_discard *)

(** Records are their fields. *)
Lemma AIModel_eta (m : AIModel model R) :
  set_world (world m) m = m.
Proof. destruct m. reflexivity. Qed.

Lemma set_discard_pile_world (m : AIModel model R) (d : DiscardPile) :
  world (set_world (set_discard_pile d (world m)) m) = set_discard_pile d (world m).
Proof. reflexivity. Qed.

(** A method that leaves the bucket and the world as they are leaves the
    model as it is. *)
Lemma with_bucket_pure {A} (k : Z) (c : M BucketSt A) (m : AIModel model R)
    (b : Bucket model) (r : result A) :
  dict_get k (buckets m) = Some b ->
  c (b, world m) = (r, (b, world m)) ->
  with_bucket k c m = (r, m).
Proof.
  intros Hk Hc. unfold with_bucket. rewrite Hk, Hc.
  rewrite (dict_set_same _ _ _ Hk). destruct m. reflexivity.
Qed.

Lemma collect_discards_trained (m : AIModel model R) (requests : list (Z * Z)) :
  Forall (fun bk => exists b, dict_get (fst bk) (buckets m) = Some b /\ is_trained b = true)
         requests ->
  collect_discards requests m
  = (Ok (concat (map (fun bk => discard_candidates_of m (fst bk) (snd bk)) requests)), m).
Proof.
  induction 1 as [|[b k] rest (bk & Hget & Htr) _ IH]; simpl; [reflexivity|].
  unfold bind.
  assert (Hone : with_bucket b (Bucket_discard_candidates k) m
                 = (Ok (discard_candidates_of m b k), m)).
  { apply with_bucket_pure with (b := bk); [exact Hget|].
    unfold Bucket_discard_candidates, Bucket__top_images, bind, get, ret, raise. simpl.
    unfold discard_candidates_of. simpl in Hget. rewrite Hget.
    unfold is_trained in Htr. destruct (svm_model bk); [reflexivity | discriminate]. }
  rewrite Hone, IH. reflexivity.
Qed.

Lemma trained_buckets_found (m : AIModel model R) :
  NoDup (dict_keys (buckets m)) ->
  Forall (fun b => exists bk, dict_get b (buckets m) = Some bk /\ is_trained bk = true)
         (AIModel__trained_buckets m).
Proof.
  intros Hnd. unfold AIModel__trained_buckets.
  apply Forall_forall. intros b Hb. apply list_elem_of_In in Hb.
  apply in_map_iff in Hb as ([b' bk] & <- & Hin). apply filter_In in Hin as [Hin Htr].
  exists bk. split; [|exact Htr]. apply dict_get_NoDup_In; assumption.
Qed.

Lemma np_incr_prefix_lookup (k : Z) (arr : list Z) (i : nat) (x : Z) :
  0 <= k -> arr !! i = Some x ->
  np_incr_prefix k arr !! i = Some (x + (if Z.of_nat i <? k then 1 else 0)).
Proof.
  intros Hk Hi. unfold np_incr_prefix, py_take.
  destruct (Z.ltb_spec k 0); [lia|].
  rewrite length_take.
  destruct (Z.ltb_spec (Z.of_nat i) k) as [Hlt | Hge].
  - rewrite lookup_app_l.
    + rewrite list_lookup_fmap, lookup_take_lt by lia. rewrite Hi. reflexivity.
    + rewrite length_map, length_take. apply lookup_lt_Some in Hi. lia.
  - apply lookup_lt_Some in Hi as Hlen.
    rewrite lookup_app_r; rewrite length_map, length_take; [|lia].
    rewrite lookup_drop.
    replace (Z.to_nat k `min` length arr + (i - Z.to_nat k `min` length arr))%nat with i by lia.
    rewrite Hi, Z.add_0_r. reflexivity.
Qed.

Lemma np_incr_prefix_length (k : Z) (arr : list Z) :
  length (np_incr_prefix k arr) = length arr.
Proof.
  unfold np_incr_prefix. rewrite length_app, length_map, length_drop.
  assert (length (py_take k arr) <= length arr)%nat; [|lia].
  unfold py_take. destruct (k <? 0); rewrite length_take; lia.
Qed.

(** The count asked of the [i]-th trained bucket. *)
Lemma n_discards_per_bucket_lookup (n_ff : Z) (trained : list Z) (i : nat) (b : Z) :
  trained !! i = Some b ->
  n_discards_per_bucket n_ff trained !! i
  = Some (n_ff / len trained + (if Z.of_nat i <? n_ff mod len trained then 1 else 0)).
Proof.
  intros Hi. unfold n_discards_per_bucket.
  assert (Hpos : 0 < len trained).
  { unfold len. apply lookup_lt_Some in Hi. lia. }
  apply np_incr_prefix_lookup.
  - apply Z.mod_pos_bound. exact Hpos.
  - rewrite list_lookup_fmap, Hi. reflexivity.
Qed.

Lemma concat_map_combine {A B C} (f : A -> B -> list C) (l1 : list A) (l2 : list B) :
  concat (map (fun p => f (fst p) (snd p)) (combine l1 l2)) = concat (zip_with f l1 l2).
Proof.
  revert l2. induction l1 as [|a l1 IH]; intros [|b l2]; simpl; try reflexivity.
  rewrite IH. reflexivity.
Qed.

Lemma Forall_combine_fst {A B} (P : A -> Prop) (l1 : list A) (l2 : list B) :
  Forall P l1 -> Forall (fun p => P (fst p)) (combine l1 l2).
Proof.
  intros H. revert l2. induction H as [|a l1 Ha _ IH]; intros [|b l2]; simpl;
    constructor; [exact Ha | apply IH].
Qed.

(** C4, as the code has it.  With no trained bucket the fast-forward of the
    discard pile raises [ValueError] and changes nothing.  With [T >= 1]
    trained buckets it asks the [i]-th trained bucket, in the order of the
    bucket dictionary (the order of creation), for [n // T] candidates and
    for one more when [i < n mod T], and stages what the buckets return, in
    that order, as the discard pile's fast-forward; nothing else changes. *)
Theorem AIModel_ff_discard_split (m : AIModel model R) (n_ff : Z) :
  NoDup (dict_keys (buckets m)) ->
  let trained := AIModel__trained_buckets m in
  let counts := n_discards_per_bucket n_ff trained in
  trained = map fst (List.filter (fun kb => is_trained (snd kb)) (buckets m))
  /\ (trained = [] -> AIModel__ff_discard n_ff m = (Raise ValueError, m))
  /\ length counts = length trained
  /\ (forall i b, trained !! i = Some b ->
        counts !! i
        = Some (n_ff / len trained + (if Z.of_nat i <? n_ff mod len trained then 1 else 0)))
  /\ (trained <> [] ->
      AIModel__ff_discard n_ff m
      = (Ok tt,
         set_world
           (set_discard_pile
              {| pile := pile (discard_pile (world m));
                 dp_outstanding_ff :=
                   concat (zip_with (discard_candidates_of m) trained counts) |}
              (world m)) m)).
Proof.
  intros Hnd trained counts. split; [reflexivity|]. split; [|split; [|split]].
  - intros Hnil. unfold AIModel__ff_discard, bind, get. fold trained. rewrite Hnil.
    reflexivity.
  - subst counts. unfold n_discards_per_bucket.
    rewrite np_incr_prefix_length, length_map. reflexivity.
  - intros i b Hi. apply n_discards_per_bucket_lookup with (b := b). exact Hi.
  - intros Hne. unfold AIModel__ff_discard, bind, get. fold trained. fold counts.
    destruct (len trained =? 0) eqn:E.
    { apply Z.eqb_eq in E. unfold len in E. destruct trained; [congruence | simpl in E; lia]. }
    rewrite collect_discards_trained.
    + unfold on_model_world, on_discard, DiscardPile_fast_forward, zoom, modify. simpl.
      rewrite concat_map_combine. reflexivity.
    + apply Forall_combine_fst with (P := fun b => exists bk,
        dict_get b (buckets m) = Some bk /\ is_trained bk = true).
      apply trained_buckets_found. exact Hnd.
Qed.

(** ** What the methods of a bucket leave as they are *)

Lemma Bucket_slide_window_keeps {T} (proj : Bucket model -> T) (st : nat) (g : list Z) :
  (forall v b, proj (set_all_suggs v b) = proj b) ->
  (forall v b, proj (set_good_suggs v b) = proj b) ->
  (forall v b, proj (set_model_confidences v b) = proj b) ->
  keeps proj (slide_window st g).
Proof.
  intros H1 H2 H3. unfold slide_window.
  repeat first
    [ apply keeps_modify; intros ?; first [apply H1 | apply H2 | apply H3]
    | keeps_step ].
Qed.

Lemma Bucket_image_confidences_keeps {T} (proj : Bucket model -> T) :
  (forall v b, proj (set_img_svm_scores v b) = proj b) ->
  (forall v b, proj (set_best_img_svm_score v b) = proj b) ->
  (forall v b, proj (set_img_confidences v b) = proj b) ->
  (forall v b, proj (set_img_confidence_colors v b) = proj b) ->
  keeps proj Bucket__bucket_image_confidences.
Proof.
  intros H1 H2 H3 H4. unfold Bucket__bucket_image_confidences.
  repeat first
    [ apply keeps_modify; intros ?; first [apply H1 | apply H2 | apply H3 | apply H4]
    | keeps_step ].
Qed.

Lemma on_bucket_keeps_bucket {A T} (proj : Bucket model -> T) (c : M (Bucket model) A) :
  keeps proj c -> keeps (fun s : BucketSt => proj (fst s)) (on_bucket c).
Proof.
  intros H. unfold on_bucket.
  apply (keeps_zoom_inner proj fst (fun b s => (b, snd s))); [reflexivity | exact H].
Qed.

Lemma on_world_keeps_bucket {A T} (proj : Bucket model -> T) (c : M (World R) A) :
  keeps (fun s : BucketSt => proj (fst s)) (on_world c).
Proof. unfold on_world. apply keeps_zoom_frame. reflexivity. Qed.

Lemma on_bucket_keeps_world {A T} (proj : World R -> T) (c : M (Bucket model) A) :
  keeps (fun s : BucketSt => proj (snd s)) (on_bucket c).
Proof. unfold on_bucket. apply keeps_zoom_frame. reflexivity. Qed.

Lemma on_world_keeps_world {A T} (proj : World R -> T) (c : M (World R) A) :
  keeps proj c -> keeps (fun s : BucketSt => proj (snd s)) (on_world c).
Proof.
  intros H. unfold on_world.
  apply (keeps_zoom_inner proj snd (fun w s => (fst s, w))); [reflexivity | exact H].
Qed.

(** The generator is the only shared object a retrain writes. *)
Lemma on_rng_keeps {A T} (proj : World R -> T) (c : M R A) :
  (forall r w, proj (set_rng r w) = proj w) -> keeps proj (on_rng c).
Proof. intros H. unfold on_rng. apply keeps_zoom_frame. exact H. Qed.

Lemma Bucket_train_keeps_bucket {T} (proj : Bucket model -> T) :
  untouched_by_train proj -> keeps (fun s : BucketSt => proj (fst s)) Bucket__train.
Proof.
  intros (H0 & H1 & H2 & H3 & H4). unfold Bucket__train.
  repeat first
    [ apply on_world_keeps_bucket
    | apply on_bucket_keeps_bucket; first
        [ apply keeps_modify; intros ?; apply H0
        | apply Bucket_image_confidences_keeps; assumption ]
    | keeps_step ].
Qed.

Lemma Bucket_train_keeps_world {T} (proj : World R -> T) :
  (forall r w, proj (set_rng r w) = proj w) ->
  keeps (fun s : BucketSt => proj (snd s)) Bucket__train.
Proof.
  intros H. unfold Bucket__train.
  repeat first
    [ apply on_bucket_keeps_world
    | apply on_world_keeps_world; apply on_rng_keeps; exact H
    | keeps_step ].
Qed.

Lemma Bucket_user_feedback_keeps_world {T} (proj : World R -> T) (g nt bd : list Z) :
  (forall r w, proj (set_rng r w) = proj w) ->
  keeps (fun s : BucketSt => proj (snd s)) (Bucket_user_feedback g nt bd).
Proof.
  intros H. unfold Bucket_user_feedback.
  repeat first
    [ apply on_bucket_keeps_world
    | apply Bucket_train_keeps_world; exact H
    | keeps_step ].
Qed.

Lemma with_bucket_keeps_world {A T} (proj : World R -> T) (k : Z) (c : M BucketSt A) :
  keeps (fun s : BucketSt => proj (snd s)) c ->
  keeps (fun m : AIModel model R => proj (world m)) (with_bucket k c).
Proof.
  intros H m. unfold with_bucket. destruct (dict_get k (buckets m)) as [b|]; [|reflexivity].
  specialize (H (b, world m)). destruct (c (b, world m)) as [r [b' w']]. exact H.
Qed.

(** ** AIModel.user_feedback *)

Lemma bucketwise_append_found (b : Z) (which : bin_name) (img : Z) (acc : feedback_acc)
    (f : bins) :
  dict_get b (bucketwise_feedback acc) = Some f ->
  bucketwise_append b which img acc
  = (Ok tt, {| bucketwise_feedback :=
                 dict_set b (bin_append which img f) (bucketwise_feedback acc);
               discarded_img := discarded_img acc;
               fb_seen_images := fb_seen_images acc |}).
Proof.
  intros H. unfold bucketwise_append, bind, get, lift_result, dict_lookup. rewrite H.
  reflexivity.
Qed.

Lemma classify_entry_seen (outstanding : dict img_info) (img a : Z) (acc acc' : feedback_acc) :
  classify_entry outstanding img a acc = (Ok tt, acc') ->
  fb_seen_images acc' = fb_seen_images acc ++ [img].
Proof.
  unfold classify_entry. intros H.
  bind_step H u s1 Hc. inv_pure H. simpl. f_equal.
  assert (Hk : keeps fb_seen_images
                 (if a =? DISCARD_PILE_BUCKET_ID
                  then bind (modify (fun acc0 =>
                         {| bucketwise_feedback := bucketwise_feedback acc0;
                            discarded_img := discarded_img acc0 ++ [img];
                            fb_seen_images := fb_seen_images acc0 |}))
                         (fun _ => match suggested_bucket_of outstanding img with
                                   | Some sb =>
                                       if truthy (suggested_bucket_of outstanding img)
                                       then bucketwise_append sb BadBin img else ret tt
                                   | None => ret tt
                                   end)
                  else match suggested_bucket_of outstanding img with
                       | Some sb =>
                           if negb (truthy (suggested_bucket_of outstanding img))
                           then bucketwise_append a NeutralBin img
                           else if a =? sb then bucketwise_append sb GoodBin img
                                else bind (bucketwise_append a NeutralBin img)
                                       (fun _ => bucketwise_append sb BadBin img)
                       | None => bucketwise_append a NeutralBin img
                       end)).
  { assert (Hb : forall b w, keeps fb_seen_images (bucketwise_append b w img)).
    { intros b w s. unfold bucketwise_append, bind, get, lift_result, dict_lookup. simpl.
      destruct (dict_get b (bucketwise_feedback s)); reflexivity. }
    repeat first [ apply Hb | keeps_step ]. }
  eapply keeps_eq; [exact Hk | exact Hc].
Qed.

Lemma classify_feedback_seen (outstanding : dict img_info)
    (user_feedback : list (Z * option Z)) (acc acc' : feedback_acc) :
  classify_feedback outstanding user_feedback acc = (Ok tt, acc') ->
  fb_seen_images acc' = fb_seen_images acc ++ judged user_feedback.
Proof.
  unfold classify_feedback, judged.
  revert acc. induction user_feedback as [|[img [a|]] fb IH]; intros acc H; simpl in H.
  - inv_pure H. simpl. rewrite app_nil_r. reflexivity.
  - bind_step H u s1 Hc. destruct u.
    apply classify_entry_seen in Hc. apply IH in H. simpl.
    rewrite H, Hc, <- app_assoc. reflexivity.
  - bind_step H u s1 Hc. inv_pure Hc. apply IH in H. exact H.
Qed.

Lemma dispatch_feedback_keeps_seen (acc : feedback_acc) :
  keeps (fun m : AIModel model R => seen_images (world m)) (dispatch_feedback acc).
Proof.
  unfold dispatch_feedback.
  apply keeps_bind.
  - apply keeps_for_each. intros bf.
    apply (with_bucket_keeps_world seen_images).
    apply (Bucket_user_feedback_keeps_world seen_images). reflexivity.
  - intros _. unfold on_model_world.
    apply (keeps_zoom_inner seen_images world set_world); [reflexivity|].
    unfold on_discard. apply keeps_zoom_frame. reflexivity.
Qed.

(** The five rows of the classification table, for one entry of the
    feedback whose target is not null, in terms of the bins, the list of
    discarded images and the list of seen images that [user_feedback]
    builds; [B] and [C] are buckets of the session, which is what the rows
    need: the bins of a bucket that is no longer there are not found.  And
    for the whole call:
    when the classification finds its buckets and the buckets' handlers
    return, the seen set after the call is the seen set before it plus the
    images of all entries that are not null. *)
Theorem AIModel_user_feedback_classification
    (outstanding : dict img_info) (acc : feedback_acc) (img : Z)
    (m : AIModel model R) (user_feedback : list (Z * option Z)) :
  let suggested := suggested_bucket_of outstanding img in
  let bw := bucketwise_feedback acc in
  let after bw' discarded' :=
    (Ok tt, {| bucketwise_feedback := bw'; discarded_img := discarded';
               fb_seen_images := fb_seen_images acc ++ [img] |}) in
  (* discard, not suggested for a bucket *)
  (truthy suggested = false ->
   classify_entry outstanding img DISCARD_PILE_BUCKET_ID acc
   = after bw (discarded_img acc ++ [img]))
  (* discard, suggested for B *)
  /\ (forall B fB, suggested = Some B -> B <> DISCARD_PILE_BUCKET_ID ->
        dict_get B bw = Some fB ->
        classify_entry outstanding img DISCARD_PILE_BUCKET_ID acc
        = after (dict_set B (bin_append BadBin img fB) bw) (discarded_img acc ++ [img]))
  (* bucket C, not suggested for a bucket *)
  /\ (forall C fC, C <> DISCARD_PILE_BUCKET_ID -> truthy suggested = false ->
        dict_get C bw = Some fC ->
        classify_entry outstanding img C acc
        = after (dict_set C (bin_append NeutralBin img fC) bw) (discarded_img acc))
  (* bucket C, suggested for C *)
  /\ (forall C fC, C <> DISCARD_PILE_BUCKET_ID -> suggested = Some C ->
        dict_get C bw = Some fC ->
        classify_entry outstanding img C acc
        = after (dict_set C (bin_append GoodBin img fC) bw) (discarded_img acc))
  (* bucket C, suggested for another bucket B *)
  /\ (forall C B fC fB, C <> DISCARD_PILE_BUCKET_ID -> B <> DISCARD_PILE_BUCKET_ID ->
        B <> C -> suggested = Some B ->
        dict_get C bw = Some fC -> dict_get B bw = Some fB ->
        classify_entry outstanding img C acc
        = after (dict_set B (bin_append BadBin img fB)
                   (dict_set C (bin_append NeutralBin img fC) bw))
                (discarded_img acc))
  (* the whole call *)
  /\ (forall acc' m1,
        classify_feedback (ai_outstanding_suggs m) user_feedback (initial_feedback_acc m)
        = (Ok tt, acc') ->
        dispatch_feedback acc' m = (Ok tt, m1) ->
        fb_seen_images acc' = judged user_feedback
        /\ seen (seen_images (world (snd (AIModel_user_feedback user_feedback m))))
           = seen (seen_images (world m)) ∪ list_to_set (judged user_feedback)).
Proof.
  intros suggested bw after. subst after bw.
  split; [|split; [|split; [|split; [|split]]]].
  - intros Hf. unfold classify_entry, bind, modify, ret. simpl. fold suggested.
    destruct suggested as [sb|]; [|reflexivity]. rewrite Hf. reflexivity.
  - intros B fB Hs HB Hget. unfold classify_entry, DISCARD_PILE_BUCKET_ID in *.
    fold suggested. rewrite Hs. simpl.
    destruct (Z.eqb_spec B 0); [contradiction|]. simpl.
    unfold bind, modify.
    erewrite bucketwise_append_found by (simpl; exact Hget). reflexivity.
  - intros C fC HC Hf Hget. unfold classify_entry, DISCARD_PILE_BUCKET_ID in *.
    fold suggested.
    destruct (Z.eqb_spec C 0); [contradiction|].
    unfold bind, modify.
    destruct suggested as [sb|]; [rewrite Hf; simpl|];
      erewrite bucketwise_append_found by (simpl; exact Hget); reflexivity.
  - intros C fC HC Hs Hget. unfold classify_entry, DISCARD_PILE_BUCKET_ID in *.
    fold suggested. rewrite Hs.
    destruct (Z.eqb_spec C 0); [contradiction|]. simpl.
    destruct (Z.eqb_spec C 0); [contradiction|]. simpl. rewrite Z.eqb_refl.
    unfold bind, modify.
    erewrite bucketwise_append_found by (simpl; exact Hget). reflexivity.
  - intros C B fC fB HC HB HBC Hs HgC HgB.
    unfold classify_entry, DISCARD_PILE_BUCKET_ID in *. fold suggested. rewrite Hs.
    destruct (Z.eqb_spec C 0); [contradiction|]. simpl.
    destruct (Z.eqb_spec B 0); [contradiction|]. simpl.
    destruct (Z.eqb_spec C B); [congruence|].
    unfold bind, modify.
    erewrite bucketwise_append_found by (simpl; exact HgC).
    erewrite bucketwise_append_found
      by (simpl; rewrite dict_get_set_ne by congruence; exact HgB).
    reflexivity.
  - intros acc' m1 Hcl Hd.
    pose proof (classify_feedback_seen _ _ _ _ Hcl) as Hseen. simpl in Hseen.
    split; [exact Hseen|].
    unfold AIModel_user_feedback, bind at 1, get. rewrite Hcl.
    unfold bind. rewrite Hd.
    pose proof (keeps_eq _ _ _ _ _ (dispatch_feedback_keeps_seen acc') Hd) as Hk.
    simpl in Hk.
    unfold on_model_world, on_seen, zoom.
    destruct (SeenImages_update (fb_seen_images acc') (seen_images (world m1)))
      as [r s'] eqn:Hu.
    pose proof (SeenImages_update_state (seen_images (world m1)) (fb_seen_images acc')) as Hst.
    rewrite Hu in Hst. simpl in Hst. simpl. rewrite Hst. simpl.
    rewrite Hk, Hseen. reflexivity.
Qed.

(** ** AIModel.transfer_images *)

Lemma with_bucket_Ok {A} (k : Z) (c : M BucketSt A) (m m' : AIModel model R) (a : A) :
  with_bucket k c m = (Ok a, m') ->
  exists b b' w',
    dict_get k (buckets m) = Some b
    /\ c (b, world m) = (Ok a, (b', w'))
    /\ m' = set_world w' (set_buckets (dict_set k b' (buckets m)) m).
Proof.
  unfold with_bucket. destruct (dict_get k (buckets m)) as [b|] eqn:Hk; [|discriminate].
  destruct (c (b, world m)) as [r [b' w']] eqn:Hc. intros H. inv_pure H.
  exists b, b', w'. repeat split. exact Hc.
Qed.

Lemma on_bucket_Ok {A} (c : M (Bucket model) A) (s s' : BucketSt) (a : A) :
  on_bucket c s = (Ok a, s') ->
  exists b', c (fst s) = (Ok a, b') /\ s' = (b', snd s).
Proof. unfold on_bucket. intros H. apply zoom_Ok in H. exact H. Qed.

Lemma py_index_Ok (x : Z) (l : list Z) (i : nat) :
  py_index x l = Ok i -> l !! i = Some x.
Proof.
  revert i. induction l as [|y l IH]; simpl; intros i H; [discriminate|].
  destruct (Z.eqb_spec y x) as [->|Hne].
  - inv_pure H. reflexivity.
  - destruct (py_index x l) as [j|]; [|discriminate]. inv_pure H. simpl. apply IH. reflexivity.
Qed.

Lemma py_del_Ok {A} (i : nat) (l l' : list A) :
  py_del i l = Ok l' -> l' = delete i l.
Proof. unfold py_del. destruct (Nat.ltb i (length l)); intros H; inv_pure H. reflexivity. Qed.

(** Removing one image takes one occurrence of it out of the members or,
    failing that, out of the staged fast-forward. *)
Lemma Bucket_remove_one_Ok (img : Z) (b b' : Bucket model) :
  Bucket_remove_one img b = (Ok tt, b') ->
  Permutation (images b ++ outstanding_ff b) (img :: images b' ++ outstanding_ff b').
Proof.
  unfold Bucket_remove_one. intros H. get_step H b0.
  destruct (py_index img (images b)) as [i|] eqn:Hi.
  - apply py_index_Ok in Hi.
    lift_step H l Hl. apply py_del_Ok in Hl. unit_step H.
    get_step H b1. lift_step H c Hc. unit_step H.
    get_step H b2. lift_step H cc Hcc. inv_pure H. simpl.
    change (img :: delete i (images b) ++ outstanding_ff b)
      with ((img :: delete i (images b)) ++ outstanding_ff b).
    apply Permutation_app_tail. apply delete_Permutation. exact Hi.
  - destruct (py_index img (outstanding_ff b)) as [i|] eqn:Hf; [|discriminate].
    apply py_index_Ok in Hf.
    unit_step H. get_step H b1. lift_step H l Hl. apply py_del_Ok in Hl. unit_step H.
    get_step H b2. lift_step H c Hc. unit_step H.
    get_step H b3. lift_step H cc Hcc. inv_pure H. simpl in *.
    rewrite (delete_Permutation _ _ _ Hf) at 1.
    symmetry. apply Permutation_middle.
Qed.

Lemma Bucket_remove_loop_Ok (imgs : list Z) (b b' : Bucket model) :
  for_each imgs Bucket_remove_one b = (Ok tt, b') ->
  Permutation (images b ++ outstanding_ff b) (imgs ++ images b' ++ outstanding_ff b').
Proof.
  revert b. induction imgs as [|img imgs IH]; intros b H; simpl in H.
  - inv_pure H. reflexivity.
  - bind_step H u b1 H1. destruct u.
    apply Bucket_remove_one_Ok in H1. apply IH in H.
    rewrite H1. simpl. constructor. exact H.
Qed.

Lemma untouched_images : untouched_by_train (@images model).
Proof. repeat split. Qed.

Lemma untouched_outstanding_ff : untouched_by_train (@outstanding_ff model).
Proof. repeat split. Qed.

Lemma Bucket_remove_images_Ok (imgs : list Z) (s s' : BucketSt) :
  Bucket_remove_images imgs s = (Ok tt, s') ->
  Permutation (images (fst s) ++ outstanding_ff (fst s))
              (imgs ++ images (fst s') ++ outstanding_ff (fst s')).
Proof.
  unfold Bucket_remove_images. intros H.
  bind_step H u s1 Hl. destruct u.
  apply on_bucket_Ok in Hl as (b1 & Hl & ->).
  apply Bucket_remove_loop_Ok in Hl.
  pose proof (keeps_eq _ _ _ _ _ (Bucket_train_keeps_bucket _ untouched_images) H) as Hi.
  pose proof (keeps_eq _ _ _ _ _ (Bucket_train_keeps_bucket _ untouched_outstanding_ff) H) as Hf.
  simpl in Hi, Hf. rewrite Hi, Hf. exact Hl.
Qed.

Lemma on_bucket_modify (f : Bucket model -> Bucket model) (s : BucketSt) :
  on_bucket (modify f) s = (Ok tt, (f (fst s), snd s)).
Proof. reflexivity. Qed.

(** A neutral assignment appends the images to the members. *)
Lemma Bucket_user_feedback_neutral_Ok (imgs : list Z) (s s' : BucketSt) :
  Bucket_user_feedback [] imgs [] s = (Ok tt, s') ->
  images (fst s') = images (fst s) ++ imgs.
Proof.
  unfold Bucket_user_feedback. simpl.
  destruct (len imgs =? 0) eqn:E.
  { intros H. inv_pure H. apply Z.eqb_eq in E. unfold len in E.
    destruct imgs; [rewrite app_nil_r; reflexivity | simpl in E; lia]. }
  intros H. destruct s as [b w]. get_step H s0. simpl in H.
  assert (Htail : forall (b1 : Bucket model) nt,
    images b1 = images b ->
    ((on_bucket (modify (fun b0 => set_images (images b0 ++ []) b0)) ;;;
      on_bucket (modify (fun b0 => set_n_good_suggs (n_good_suggs b0 + len (@nil Z)) b0)) ;;;
      on_bucket (modify (fun b0 =>
        set_n_judged_suggs (n_judged_suggs b0 + (len (@nil Z) + len (@nil Z))) b0)) ;;;
      (if expsearch b
       then on_bucket (for_each [EXPSEARCH_SUGG_SVM; EXPSEARCH_SUGG_INDEX]
                         (fun st => slide_window st []))
       else ret tt) ;;;
      on_bucket (modify (fun b0 =>
        set_precision (if n_judged_suggs b0 =? 0 then 1%Q
                       else (inject_Z (n_good_suggs b0) / inject_Z (n_judged_suggs b0))%Q)
          b0)) ;;;
      on_bucket (modify (fun b0 => set_images (images b0 ++ nt) b0)) ;;;
      on_bucket (modify (fun b0 => set_negatives (negatives b0 ++ []) b0)) ;;;
      on_bucket (modify (set_active_suggs None)) ;;;
      Bucket__train)%monad (b1, w) = (Ok tt, s')) ->
    images (fst s') = images b ++ nt).
  { intros b1 nt H1 Ht.
    bind_step Ht u2 s2 H2. rewrite on_bucket_modify in H2. inv_pure H2.
    bind_step Ht u3 s3 H3. rewrite on_bucket_modify in H3. inv_pure H3.
    bind_step Ht u4 s4 H4. rewrite on_bucket_modify in H4. inv_pure H4.
    bind_step Ht u5 s5 H5.
    assert (H5' : images (fst s5) = images b).
    { destruct (expsearch b).
      - apply on_bucket_Ok in H5 as (b5 & H5 & ->). simpl in *.
        assert (Hk : keeps (@images model)
                       (for_each [EXPSEARCH_SUGG_SVM; EXPSEARCH_SUGG_INDEX]
                          (fun st => slide_window st []))).
        { apply keeps_for_each. intros st. apply Bucket_slide_window_keeps; reflexivity. }
        rewrite (keeps_eq _ _ _ _ _ Hk H5). simpl. rewrite H1. apply app_nil_r.
      - inv_pure H5. simpl. rewrite H1. apply app_nil_r. }
    bind_step Ht u6 s6 H6. rewrite on_bucket_modify in H6. inv_pure H6.
    bind_step Ht u7 s7 H7. rewrite on_bucket_modify in H7. inv_pure H7.
    bind_step Ht u8 s8 H8. rewrite on_bucket_modify in H8. inv_pure H8.
    bind_step Ht u9 s9 H9. rewrite on_bucket_modify in H9. inv_pure H9.
    pose proof (keeps_eq _ _ _ _ _ (Bucket_train_keeps_bucket _ untouched_images) Ht) as Hi.
    simpl in Hi. rewrite Hi, H5'. reflexivity. }
  destruct (oracle_mode b); simpl in H.
  - bind_step H u s1 Hal. inv_pure Hal. apply (Htail b imgs eq_refl). exact H.
  - bind_step H u s1 Hal.
    bind_step Hal u' s2 Ha. rewrite on_bucket_modify in Ha. inv_pure Ha.
    rewrite on_bucket_modify in Hal. inv_pure Hal. simpl in H.
    pose proof (Htail (set_outstanding_al_queries []
                         (set_negatives (negatives b ++ []) b)) (imgs ++ []) eq_refl) as Hr.
    rewrite (Hr H), app_nil_r. reflexivity.
Qed.

Lemma catch_KeyError_Ok {S A} (c : M S A) (s s' : S) (a : A) :
  catch_KeyError c s = (Ok a, s') -> c s = (Ok a, s').
Proof.
  unfold catch_KeyError. intros H.
  apply try_except_Ok in H as [H | (e & s1 & _ & _ & H)]; [exact H | discriminate H].
Qed.

Lemma py_index_absent (x : Z) (l : list Z) : x ∉ l -> py_index x l = Raise ValueError.
Proof.
  induction l as [|y l IH]; intros Hn; simpl; [reflexivity|].
  apply not_elem_of_cons in Hn as [Hne Hn].
  destruct (Z.eqb_spec y x) as [->|_]; [contradiction|].
  rewrite (IH Hn). reflexivity.
Qed.

(** An image that is neither a member nor staged cannot be removed: the
    bucket is left as it is. *)
Lemma Bucket_remove_one_absent (img : Z) (b : Bucket model) :
  img ∉ images b -> img ∉ outstanding_ff b ->
  Bucket_remove_one img b = (Raise ValueError, b).
Proof.
  intros Hi Hf. unfold Bucket_remove_one, bind, get.
  rewrite (py_index_absent _ _ Hi), (py_index_absent _ _ Hf). reflexivity.
Qed.

Lemma for_each_app_raise {S A} (body : A -> M S unit) (pre post : list A) (x : A)
    (s s1 : S) (e : exn) :
  for_each pre body s = (Ok tt, s1) -> body x s1 = (Raise e, s1) ->
  for_each (pre ++ x :: post) body s = (Raise e, s1).
Proof.
  revert s. induction pre as [|y pre IH]; intros s Hpre Hx; simpl in *.
  - inv_pure Hpre. unfold bind. rewrite Hx. reflexivity.
  - unfold bind in *. destruct (body y s) as [[[]|e'] s'] eqn:Hy; [|discriminate Hpre].
    apply IH; assumption.
Qed.

(** What [_train] writes is not touched by the removal of an image. *)
Lemma Bucket_remove_one_keeps_model (img : Z) :
  keeps (fun b : Bucket model => (svm_model b, img_svm_scores b, best_img_svm_score b))
        (Bucket_remove_one img).
Proof. unfold Bucket_remove_one. repeat keeps_step. Qed.

Lemma Bucket_remove_images_keeps_pile (imgs : list Z) :
  keeps (fun s : BucketSt => discard_pile (snd s)) (Bucket_remove_images imgs).
Proof.
  unfold Bucket_remove_images. apply keeps_bind.
  - apply on_bucket_keeps_world.
  - intros _. apply (Bucket_train_keeps_world discard_pile). reflexivity.
Qed.

Lemma Bucket_user_feedback_keeps_outstanding_ff (g nt bd : list Z) :
  keeps (fun s : BucketSt => outstanding_ff (fst s)) (Bucket_user_feedback g nt bd).
Proof.
  unfold Bucket_user_feedback.
  repeat first
    [ apply on_bucket_keeps_bucket; first
        [ apply keeps_modify; intros ?; reflexivity
        | apply keeps_for_each; intros ?; apply Bucket_slide_window_keeps; reflexivity ]
    | apply (Bucket_train_keeps_bucket _ untouched_outstanding_ff)
    | keeps_step ].
Qed.

Lemma transfer_move_unfold (imgs : list Z) (src dst : Z) (m : AIModel model R) :
  src <> DISCARD_PILE_BUCKET_ID ->
  AIModel_transfer_images imgs src dst "move" m
  = catch_KeyError
      (with_bucket src (Bucket_remove_images imgs) ;;;
       (if dst =? DISCARD_PILE_BUCKET_ID
        then on_model_world (on_discard (DiscardPile_discard_images imgs))
        else with_bucket dst (Bucket_user_feedback [] imgs [])))%monad m.
Proof.
  intros Hs. unfold AIModel_transfer_images.
  rewrite (bool_decide_eq_true_2 ("move"%string = "move"%string)) by reflexivity.
  rewrite (bool_decide_eq_false_2 ("move"%string = "copy"%string)) by discriminate.
  destruct (Z.eqb_spec src DISCARD_PILE_BUCKET_ID); [contradiction|]. reflexivity.
Qed.

(** C8, as the code has it.  [transfer_images] rejects a mode that is
    neither move nor copy, a copy that touches the discard pile, a move out
    of an unknown bucket and a copy into an unknown bucket before it changes
    anything: the model after the raise is the model before the call.  A
    move between two buckets that returns has taken one occurrence of each
    image out of the source (its members or its staged fast-forward) and
    appended the images to the members of the destination, and has left
    every other bucket and the discard pile as they were; when the source
    is the destination, the images end up as the last members; when the
    destination is the discard pile, they are appended to the pile.  A move
    that raises once the removal has begun is not undone.  When an image of
    the list is neither a member nor staged in the source once the images
    before it are removed, the call raises [ValueError] and the model after
    it is the model before with those images removed from the source, whose
    classifier and scores are those of before (it is not retrained).  When
    the destination is no bucket, the call raises [ValueError] and the
    model after it is the model the removal has left: all images are out of
    the source and in no bucket, nor in the discard pile. *)
Theorem AIModel_transfer_images_spec
    (m : AIModel model R) (imgs : list Z) (src dst : Z) (mode : string) :
  (mode <> "move"%string -> mode <> "copy"%string ->
   AIModel_transfer_images imgs src dst mode m = (Raise ValueError, m))
  /\ (mode = "copy"%string ->
      src = DISCARD_PILE_BUCKET_ID \/ dst = DISCARD_PILE_BUCKET_ID ->
      AIModel_transfer_images imgs src dst mode m = (Raise ValueError, m))
  /\ (mode = "move"%string -> src <> DISCARD_PILE_BUCKET_ID ->
      dict_get src (buckets m) = None ->
      AIModel_transfer_images imgs src dst mode m = (Raise ValueError, m))
  /\ (mode = "copy"%string -> src <> DISCARD_PILE_BUCKET_ID ->
      dst <> DISCARD_PILE_BUCKET_ID -> dict_get dst (buckets m) = None ->
      AIModel_transfer_images imgs src dst mode m = (Raise ValueError, m))
  /\ (mode = "move"%string -> src <> DISCARD_PILE_BUCKET_ID ->
      dst <> DISCARD_PILE_BUCKET_ID -> src <> dst ->
      forall m', AIModel_transfer_images imgs src dst mode m = (Ok tt, m') ->
      exists bs bd bs' bd',
        dict_get src (buckets m) = Some bs
        /\ dict_get dst (buckets m) = Some bd
        /\ dict_get src (buckets m') = Some bs'
        /\ dict_get dst (buckets m') = Some bd'
        /\ Permutation (images bs ++ outstanding_ff bs)
                       (imgs ++ images bs' ++ outstanding_ff bs')
        /\ images bd' = images bd ++ imgs
        /\ outstanding_ff bd' = outstanding_ff bd
        /\ (forall k, k <> src -> k <> dst ->
              dict_get k (buckets m') = dict_get k (buckets m))
        /\ discard_pile (world m') = discard_pile (world m))
  /\ (mode = "move"%string -> src <> DISCARD_PILE_BUCKET_ID -> src = dst ->
      forall m', AIModel_transfer_images imgs src dst mode m = (Ok tt, m') ->
      exists bs bs1 bs' : Bucket model,
        dict_get src (buckets m) = Some bs
        /\ Permutation (images bs ++ outstanding_ff bs)
                       (imgs ++ images bs1 ++ outstanding_ff bs1)
        /\ dict_get src (buckets m') = Some bs'
        /\ images bs' = images bs1 ++ imgs
        /\ outstanding_ff bs' = outstanding_ff bs1
        /\ (forall k, k <> src -> dict_get k (buckets m') = dict_get k (buckets m))
        /\ discard_pile (world m') = discard_pile (world m))
  /\ (mode = "move"%string -> src <> DISCARD_PILE_BUCKET_ID ->
      dst = DISCARD_PILE_BUCKET_ID ->
      forall m', AIModel_transfer_images imgs src dst mode m = (Ok tt, m') ->
      exists bs bs' : Bucket model,
        dict_get src (buckets m) = Some bs
        /\ dict_get src (buckets m') = Some bs'
        /\ Permutation (images bs ++ outstanding_ff bs)
                       (imgs ++ images bs' ++ outstanding_ff bs')
        /\ pile (discard_pile (world m')) = pile (discard_pile (world m)) ++ imgs
        /\ dp_outstanding_ff (discard_pile (world m'))
           = dp_outstanding_ff (discard_pile (world m))
        /\ (forall k, k <> src -> dict_get k (buckets m') = dict_get k (buckets m)))
  /\ (mode = "move"%string -> src <> DISCARD_PILE_BUCKET_ID ->
      forall (bs bs1 : Bucket model) (pre post : list Z) (x : Z),
        dict_get src (buckets m) = Some bs ->
        imgs = pre ++ x :: post ->
        for_each pre Bucket_remove_one bs = (Ok tt, bs1) ->
        x ∉ images bs1 -> x ∉ outstanding_ff bs1 ->
        AIModel_transfer_images imgs src dst mode m
        = (Raise ValueError, set_buckets (dict_set src bs1 (buckets m)) m)
        /\ Permutation (images bs ++ outstanding_ff bs)
                       (pre ++ images bs1 ++ outstanding_ff bs1)
        /\ svm_model bs1 = svm_model bs
        /\ img_svm_scores bs1 = img_svm_scores bs)
  /\ (mode = "move"%string -> src <> DISCARD_PILE_BUCKET_ID ->
      dst <> DISCARD_PILE_BUCKET_ID -> dict_get dst (buckets m) = None ->
      forall m1, with_bucket src (Bucket_remove_images imgs) m = (Ok tt, m1) ->
        AIModel_transfer_images imgs src dst mode m = (Raise ValueError, m1)
        /\ exists bs bs' : Bucket model,
             dict_get src (buckets m) = Some bs
             /\ dict_get src (buckets m1) = Some bs'
             /\ Permutation (images bs ++ outstanding_ff bs)
                            (imgs ++ images bs' ++ outstanding_ff bs')
             /\ (forall k, k <> src -> dict_get k (buckets m1) = dict_get k (buckets m))
             /\ discard_pile (world m1) = discard_pile (world m)).
Proof.
  split; [|split; [|split; [|split; [|split; [|split; [|split; [|split]]]]]]].
  - intros Hm Hc. unfold AIModel_transfer_images.
    rewrite (bool_decide_eq_false_2 _ Hm), (bool_decide_eq_false_2 _ Hc). reflexivity.
  - unfold DISCARD_PILE_BUCKET_ID.
    intros -> Hd. unfold AIModel_transfer_images, DISCARD_PILE_BUCKET_ID. simpl.
    destruct Hd as [-> | ->]; simpl; [reflexivity|].
    rewrite orb_true_r. reflexivity.
  - intros -> Hs Hg. rewrite transfer_move_unfold by exact Hs.
    unfold catch_KeyError, try_except, bind, with_bucket. rewrite Hg. reflexivity.
  - unfold DISCARD_PILE_BUCKET_ID.
    intros -> Hs Hd Hg. unfold AIModel_transfer_images, DISCARD_PILE_BUCKET_ID. simpl.
    destruct (Z.eqb_spec src 0); [contradiction|].
    destruct (Z.eqb_spec dst 0); [contradiction|]. simpl.
    unfold catch_KeyError, try_except, bind, ret, with_bucket. rewrite Hg. reflexivity.
  - intros -> Hs Hd Hsd m' H. rewrite transfer_move_unfold in H by exact Hs.
    destruct (Z.eqb_spec dst DISCARD_PILE_BUCKET_ID); [contradiction|].
    apply catch_KeyError_Ok in H.
    bind_step H u m1 Hrm. destruct u.
    apply with_bucket_Ok in Hrm as (bs & bs' & w1 & Hgs & Hrm & ->).
    apply with_bucket_Ok in H as (bd & bd' & w2 & Hgd & Hfb & ->).
    simpl in Hgd, Hfb. rewrite dict_get_set_ne in Hgd by exact Hsd.
    pose proof (Bucket_remove_images_Ok _ _ _ Hrm) as Hperm. simpl in Hperm.
    pose proof (Bucket_user_feedback_neutral_Ok _ _ _ Hfb) as Himg. simpl in Himg.
    pose proof (keeps_eq _ _ _ _ _ (Bucket_user_feedback_keeps_outstanding_ff _ _ _) Hfb)
      as Hff.
    pose proof (keeps_eq _ _ _ _ _ (Bucket_remove_images_keeps_pile _) Hrm) as Hdp1.
    pose proof (keeps_eq _ _ _ _ _
                  (Bucket_user_feedback_keeps_world discard_pile [] imgs []
                     (fun _ _ => eq_refl)) Hfb) as Hdp2.
    simpl in Hff, Hdp1, Hdp2.
    exists bs, bd, bs', bd'. simpl.
    split; [exact Hgs|]. split; [exact Hgd|].
    split; [rewrite dict_get_set_ne by congruence; apply dict_get_set_eq|].
    split; [apply dict_get_set_eq|].
    split; [exact Hperm|]. split; [exact Himg|]. split; [exact Hff|].
    split.
    + intros k Hks Hkd. rewrite !dict_get_set_ne by congruence. reflexivity.
    + rewrite Hdp2. exact Hdp1.
  - intros -> Hs <- m' H. rewrite transfer_move_unfold in H by exact Hs.
    destruct (Z.eqb_spec src DISCARD_PILE_BUCKET_ID); [contradiction|].
    apply catch_KeyError_Ok in H.
    bind_step H u m1 Hrm. destruct u.
    apply with_bucket_Ok in Hrm as (bs & bs1 & w1 & Hgs & Hrm & ->).
    apply with_bucket_Ok in H as (bd & bs' & w2 & Hgd & Hfb & ->).
    simpl in Hgd, Hfb. rewrite dict_get_set_eq in Hgd. injection Hgd as <-.
    pose proof (Bucket_remove_images_Ok _ _ _ Hrm) as Hperm. simpl in Hperm.
    pose proof (Bucket_user_feedback_neutral_Ok _ _ _ Hfb) as Himg. simpl in Himg.
    pose proof (keeps_eq _ _ _ _ _ (Bucket_user_feedback_keeps_outstanding_ff _ _ _) Hfb)
      as Hff.
    pose proof (keeps_eq _ _ _ _ _ (Bucket_remove_images_keeps_pile _) Hrm) as Hdp1.
    pose proof (keeps_eq _ _ _ _ _
                  (Bucket_user_feedback_keeps_world discard_pile [] imgs []
                     (fun _ _ => eq_refl)) Hfb) as Hdp2.
    simpl in Hff, Hdp1, Hdp2.
    exists bs, bs1, bs'. simpl.
    split; [exact Hgs|]. split; [exact Hperm|].
    split; [apply dict_get_set_eq|].
    split; [exact Himg|]. split; [exact Hff|].
    split.
    + intros k Hks. rewrite !dict_get_set_ne by congruence. reflexivity.
    + rewrite Hdp2. exact Hdp1.
  - intros -> Hs -> m' H. rewrite transfer_move_unfold in H by exact Hs.
    rewrite Z.eqb_refl in H.
    apply catch_KeyError_Ok in H.
    bind_step H u m1 Hrm. destruct u.
    apply with_bucket_Ok in Hrm as (bs & bs' & w1 & Hgs & Hrm & ->).
    pose proof (Bucket_remove_images_Ok _ _ _ Hrm) as Hperm. simpl in Hperm.
    pose proof (keeps_eq _ _ _ _ _ (Bucket_remove_images_keeps_pile _) Hrm) as Hdp1.
    simpl in Hdp1.
    inv_pure H. cbn. rewrite Hdp1.
    exists bs, bs'.
    split; [exact Hgs|]. split; [apply dict_get_set_eq|]. split; [exact Hperm|].
    split; [reflexivity|]. split; [reflexivity|].
    intros k Hk. apply dict_get_set_ne. congruence.
  - intros -> Hs bs bs1 pre post x Hgs -> Hpre Hi Hf.
    assert (Hloop : for_each (pre ++ x :: post) Bucket_remove_one bs
                    = (Raise ValueError, bs1)).
    { apply (for_each_app_raise _ _ _ _ _ _ _ Hpre).
      apply Bucket_remove_one_absent; assumption. }
    split; [|split].
    + rewrite transfer_move_unfold by exact Hs.
      unfold catch_KeyError, try_except, bind, with_bucket. rewrite Hgs.
      unfold Bucket_remove_images, bind, on_bucket, zoom. cbn [fst snd]. rewrite Hloop.
      cbn. destruct m; reflexivity.
    + apply Bucket_remove_loop_Ok in Hpre. exact Hpre.
    + assert (Hk : keeps (fun b : Bucket model =>
                            (svm_model b, img_svm_scores b, best_img_svm_score b))
                         (for_each pre Bucket_remove_one)).
      { apply keeps_for_each. intros img. apply Bucket_remove_one_keeps_model. }
      pose proof (keeps_eq _ _ _ _ _ Hk Hpre) as E. injection E as E1 E2 _.
      split; assumption.
  - intros -> Hs Hd Hnone m1 Hrm. split.
    + rewrite transfer_move_unfold by exact Hs.
      destruct (Z.eqb_spec dst DISCARD_PILE_BUCKET_ID); [contradiction|].
      unfold catch_KeyError, try_except, bind. rewrite Hrm.
      apply with_bucket_Ok in Hrm as (bs & bs' & w1 & Hgs & _ & ->).
      unfold with_bucket. cbn [buckets set_world set_buckets].
      rewrite dict_get_set_ne by congruence. rewrite Hnone. reflexivity.
    + apply with_bucket_Ok in Hrm as (bs & bs' & w1 & Hgs & Hrm & ->).
      exists bs, bs'. split; [exact Hgs|]. cbn [buckets set_world set_buckets world].
      split; [apply dict_get_set_eq|]. split.
      { exact (Bucket_remove_images_Ok _ _ _ Hrm). }
      split.
      { intros k Hk. apply dict_get_set_ne. congruence. }
      exact (keeps_eq _ _ _ _ _ (Bucket_remove_images_keeps_pile _) Hrm).
Qed.

(** ** AIModel.suggest and the caller's request *)

Local Abbreviation SuggestSt := (AIModel model R * dict Z)%type.

Lemma on_model_keeps_request {A} (c : M (AIModel model R) A) :
  keeps (fun s : SuggestSt => snd s) (on_model c).
Proof. unfold on_model. apply keeps_zoom_frame. reflexivity. Qed.

Lemma suggest_for_bucket_keeps_request (refresh : bool) (b : Z) (suggs : list img_info) :
  keeps (fun s : SuggestSt => snd s) (suggest_for_bucket refresh b suggs).
Proof.
  unfold suggest_for_bucket.
  repeat first [ apply on_model_keeps_request | keeps_step ].
Qed.

Lemma suggest_loop_keeps_request (refresh : bool) (bs : list Z) (suggs : list img_info) :
  keeps (fun s : SuggestSt => snd s) (suggest_loop refresh bs suggs).
Proof.
  revert suggs. induction bs as [|b bs IH]; intros suggs; simpl.
  - apply keeps_ret.
  - apply keeps_bind; [apply suggest_for_bucket_keeps_request | intros a; apply IH].
Qed.

Lemma suggest_rest_keeps_request (refresh : bool) (suggs_randexp : list img_info) :
  keeps (fun s : SuggestSt => snd s) (suggest_rest refresh suggs_randexp).
Proof.
  unfold suggest_rest.
  repeat first
    [ apply on_model_keeps_request | apply suggest_loop_keeps_request | keeps_step ].
Qed.

(** [suggest], by the outcome of the exploration request. *)
Lemma AIModel_suggest_unfold (refresh : bool) (m : AIModel model R) (req : dict Z) :
  AIModel_suggest refresh (m, req)
  = match dict_get RANDOM_EXPLORE_REQUEST req with
    | Some n_suggs_randexp =>
        match RandomizedExplorer_suggest n_suggs_randexp refresh (world m) with
        | (Ok r, w') =>
            suggest_rest refresh r (set_world w' m, dict_del RANDOM_EXPLORE_REQUEST req)
        | (Raise e, w') => (Raise e, (set_world w' m, req))
        end
    | None => suggest_rest refresh [] (m, req)
    end.
Proof.
  unfold AIModel_suggest, suggest_rest. unfold bind at 1. unfold get at 1. simpl snd.
  destruct (dict_get RANDOM_EXPLORE_REQUEST req) as [k|].
  - unfold bind at 1. unfold bind at 1.
    unfold on_model at 1, on_model_world at 1, zoom. simpl.
    destruct (RandomizedExplorer_suggest k refresh (world m)) as [[r|e] w']; reflexivity.
  - reflexivity.
Qed.

(** C10, as the code has it.  A request that has the exploration sentinel
    among its keys: when
    the randomized explorer serves the exploration request, the caller's
    dictionary after the call is the dictionary before it with the
    sentinel's entry deleted (the sentinel is no key of it any more, every
    other key has the value it had, in the order it had), whether the rest
    of the call returns or raises.  The deletion comes after the explorer's
    call: when that call raises, the dictionary is as it was. *)
Theorem AIModel_suggest_deletes_sentinel
    (refresh : bool) (m : AIModel model R) (req : dict Z) (n_suggs_randexp : Z) :
  NoDup (dict_keys req) ->
  dict_get RANDOM_EXPLORE_REQUEST req = Some n_suggs_randexp ->
  let explored := fst (RandomizedExplorer_suggest n_suggs_randexp refresh (world m)) in
  let req' := snd (snd (AIModel_suggest refresh (m, req))) in
  (is_ok explored ->
   req' = dict_del RANDOM_EXPLORE_REQUEST req
   /\ dict_get RANDOM_EXPLORE_REQUEST req' = None
   /\ (forall k, k <> RANDOM_EXPLORE_REQUEST -> dict_get k req' = dict_get k req))
  /\ (is_raise explored ->
      req' = req /\ is_raise (fst (AIModel_suggest refresh (m, req)))).
Proof.
  intros Hnd Hget explored req'. subst explored req'.
  rewrite AIModel_suggest_unfold, Hget.
  destruct (RandomizedExplorer_suggest n_suggs_randexp refresh (world m)) as [[r|e] w'];
    simpl; split; try contradiction.
  - intros _.
    rewrite (suggest_rest_keeps_request refresh r
               (set_world w' m, dict_del RANDOM_EXPLORE_REQUEST req)). simpl.
    split; [reflexivity|]. split.
    + apply dict_get_del_eq. exact Hnd.
    + intros k Hk. apply dict_get_del_ne. congruence.
  - intros _. split; [reflexivity | exact I].
Qed.

(** ** AIModel.suggest: the order of the suggestions *)

Lemma on_model_run {A} (c : M (AIModel model R) A) (m : AIModel model R) (d : dict Z) :
  on_model c (m, d) = (fst (c m), (snd (c m), d)).
Proof. unfold on_model, zoom. simpl. destruct (c m). reflexivity. Qed.

Lemma bind_run {S A B} (c : M S A) (k : A -> M S B) (s : S) :
  bind c k s = match c s with
               | (Ok a, s') => k a s'
               | (Raise e, s') => (Raise e, s')
               end.
Proof. unfold bind. destruct (c s) as [[a|e] s']; reflexivity. Qed.

(** The loop reads the request through its lookups only. *)
Lemma suggest_for_bucket_request_ext (refresh : bool) (d d' : dict Z) :
  (forall k, dict_get k d = dict_get k d') ->
  forall b suggs m, exists r m2,
    suggest_for_bucket refresh b suggs (m, d) = (r, (m2, d))
    /\ suggest_for_bucket refresh b suggs (m, d') = (r, (m2, d')).
Proof.
  intros Hext b suggs m. unfold suggest_for_bucket.
  rewrite !bind_run. unfold get. simpl snd.
  rewrite !bind_run. unfold lift_result, dict_lookup. rewrite <- Hext.
  destruct (dict_get b d) as [n_b|]; [|eauto].
  destruct (n_b =? 0); [unfold ret; eauto|].
  rewrite !bind_run, !on_model_run.
  match goal with |- context [fst (?c m)] => destruct (c m) as [[got|e] m1] end; simpl;
    [|eauto].
  destruct (len (suggs ++ got) <? n_b); [|unfold ret; eauto].
  rewrite !bind_run, !on_model_run.
  match goal with |- context [fst (?c m1)] => destruct (c m1) as [[extra|e] m2] end; simpl;
    unfold ret; eauto.
Qed.

Lemma suggest_loop_request_ext (refresh : bool) (d d' : dict Z) :
  (forall k, dict_get k d = dict_get k d') ->
  forall bs suggs m, exists r m2,
    suggest_loop refresh bs suggs (m, d) = (r, (m2, d))
    /\ suggest_loop refresh bs suggs (m, d') = (r, (m2, d')).
Proof.
  intros Hext bs. induction bs as [|b bs IH]; intros suggs m; simpl.
  - unfold ret. eauto.
  - destruct (suggest_for_bucket_request_ext refresh d d' Hext b suggs m)
      as (r & m1 & H1 & H2).
    unfold bind. rewrite H1, H2. destruct r as [suggs'|e]; [apply IH | eauto].
Qed.

Lemma bucket_orderings_of_spec (bs : dict (Bucket model)) (req : dict Z) :
  bucket_orderings_of bs req
  = if forallb (fun b => dict_mem b bs) (dict_keys req)
    then Ok (map (fun b => (b, ordering_in bs b)) (dict_keys req))
    else Raise KeyError.
Proof.
  unfold bucket_orderings_of. induction (dict_keys req) as [|b l IH]; simpl; [reflexivity|].
  unfold dict_mem at 1, ordering_in at 1.
  destruct (dict_get b bs) as [bk|]; simpl; [|reflexivity].
  rewrite IH. destruct (forallb _ l); reflexivity.
Qed.

Lemma forallb_perm {A} (f : A -> bool) (l l' : list A) :
  Permutation l l' -> forallb f l = forallb f l'.
Proof.
  induction 1 as [|x l l' _ IH|x y l|l1 l2 l3 _ IH1 _ IH2]; simpl.
  - reflexivity.
  - rewrite IH. reflexivity.
  - destruct (f x), (f y); reflexivity.
  - congruence.
Qed.

(** The part of [suggest] after the exploration request, run on a state. *)
Lemma suggest_rest_run (refresh : bool) (r : list img_info) (m : AIModel model R)
    (d : dict Z) :
  suggest_rest refresh r (m, d)
  = if forallb (fun b => dict_mem b (buckets m)) (dict_keys d)
    then
      match suggest_loop refresh
              (map fst (sort_by_ordering
                          (map (fun b => (b, ordering_in (buckets m) b)) (dict_keys d))))
              [] (m, d) with
      | (Ok suggs, st) =>
          match on_model (AIModel__record_outstanding_suggs (suggs ++ r)) st with
          | (Ok _, st') => (Ok (suggs ++ r), st')
          | (Raise e, st') => (Raise e, st')
          end
      | (Raise e, st) => (Raise e, st)
      end
    else (Raise ValueError, (m, d)).
Proof.
  unfold suggest_rest. rewrite bind_run. unfold get. simpl fst. simpl snd.
  rewrite bind_run. unfold try_except, lift_result.
  rewrite bucket_orderings_of_spec.
  destruct (forallb _ (dict_keys d)); [|reflexivity].
  rewrite bind_run.
  destruct (suggest_loop _ _ _ _) as [[suggs|e] st]; [|reflexivity].
  rewrite bind_run.
  destruct (on_model _ st) as [[u|e] st']; reflexivity.
Qed.

(** The part of [suggest] after the exploration request gives one result
    and one model for two requests with the same entries, when no two of
    the requested buckets have one display order. *)
Lemma suggest_rest_perm (refresh : bool) (r : list img_info) (m : AIModel model R)
    (d d' : dict Z) :
  NoDup (dict_keys d) -> Permutation d d' ->
  NoDup (map (ordering_in (buckets m)) (dict_keys d)) ->
  fst (suggest_rest refresh r (m, d')) = fst (suggest_rest refresh r (m, d))
  /\ fst (snd (suggest_rest refresh r (m, d'))) = fst (snd (suggest_rest refresh r (m, d))).
Proof.
  intros Hnd Hp Hord. rewrite !suggest_rest_run.
  rewrite <- (forallb_perm _ _ _ (dict_keys_perm _ _ Hp)).
  destruct (forallb _ (dict_keys d)); [|split; reflexivity].
  assert (Hs : sort_by_ordering (map (fun b => (b, ordering_in (buckets m) b)) (dict_keys d'))
               = sort_by_ordering (map (fun b => (b, ordering_in (buckets m) b)) (dict_keys d))).
  { symmetry. apply sort_by_ordering_perm_eq.
    - rewrite map_map. simpl. exact Hord.
    - apply Permutation_map, dict_keys_perm, Hp. }
  rewrite Hs.
  destruct (suggest_loop_request_ext refresh d d' (fun k => dict_get_perm k d d' Hnd Hp)
              (map fst (sort_by_ordering
                          (map (fun b => (b, ordering_in (buckets m) b)) (dict_keys d))))
              [] m) as (res & m2 & H1 & H2).
  rewrite H1, H2.
  destruct res as [suggs|e]; [|split; reflexivity].
  rewrite !on_model_run. simpl.
  destruct (AIModel__record_outstanding_suggs (suggs ++ r) m2) as [[u|e] m3]; simpl;
    split; reflexivity.
Qed.

(** *** The entries of a suggestion list and the bucket they name *)

Lemma image_list_entries_bucket (bucket_id : Z) (imgs : list Z)
    (confs : list (option npfloat)) (colors : list (option conf_color))
    (is_ff is_al : list bool) :
  Forall (fun i => bucket i = bucket_id)
         (image_list_entries bucket_id imgs confs colors is_ff is_al).
Proof.
  revert confs colors is_ff is_al.
  induction imgs as [|i imgs IH]; intros [|c confs] [|cc colors] [|ff is_ff] [|al is_al];
    simpl; constructor; [reflexivity | apply IH].
Qed.

Lemma ImageList_image_list_bucket (bucket_id : Z) (imgs : list Z)
    (confs : list (option npfloat)) (colors : list (option conf_color))
    (is_ff is_al : option (list bool)) (l : list img_info) :
  ImageList_image_list bucket_id imgs confs colors is_ff is_al = Ok l ->
  Forall (fun i => bucket i = bucket_id) l.
Proof.
  unfold ImageList_image_list. destruct (forallb _ _); intros H; inv_pure H.
  apply image_list_entries_bucket.
Qed.

(** The entries of the randomized explorer name the discard pile. *)
Lemma RandomizedExplorer_suggest_bucket (n_suggs : Z) (refresh : bool) (w w' : World R)
    (l : list img_info) :
  RandomizedExplorer_suggest n_suggs refresh w = (Ok l, w') ->
  Forall (fun i => bucket i = DISCARD_PILE_BUCKET_ID) l.
Proof.
  unfold RandomizedExplorer_suggest. intros H.
  bind_step H imgs w1 Hi. apply lift_result_Ok in H as [H _].
  eapply ImageList_image_list_bucket. exact H.
Qed.

Lemma Bucket_suggest_keeps_id (n_suggs : Z) :
  keeps (fun s : BucketSt => id_ (fst s)) (Bucket_suggest n_suggs).
Proof.
  unfold Bucket_suggest.
  repeat first
    [ apply on_world_keeps_bucket
    | apply on_bucket_keeps_bucket; apply keeps_modify; intros ?; reflexivity
    | keeps_step ].
Qed.

(** The entries a bucket suggests name the bucket. *)
Lemma Bucket_suggest_bucket (n_suggs : Z) (s s' : BucketSt) (l : list img_info) :
  Bucket_suggest n_suggs s = (Ok l, s') ->
  Forall (fun i => bucket i = id_ (fst s)) l.
Proof.
  intros H.
  pose proof (keeps_eq _ _ _ _ _ (Bucket_suggest_keeps_id n_suggs) H) as Hid. simpl in Hid.
  unfold Bucket_suggest in H. get_step H s0.
  destruct (svm_model (fst s)) as [mdl|]; [|discriminate].
  bind_step H al s1 Hal. bind_step H chan s2 Hch. get_step H s3.
  lift_step H scores Hsc. lift_step H colors Hco. lift_step H l' Hl.
  bind_step H u s4 Hu. rewrite on_bucket_modify in Hu. inv_pure Hu. inv_pure H.
  simpl in Hid. rewrite <- Hid.
  eapply ImageList_image_list_bucket. exact Hl.
Qed.

Lemma keys_are_ids_set (bs : dict (Bucket model)) (k : Z) (b : Bucket model) :
  keys_are_ids bs -> id_ b = k -> keys_are_ids (dict_set k b bs).
Proof.
  intros H Hb k' b' Hg. destruct (Z.eq_dec k k') as [<-|Hne].
  - rewrite dict_get_set_eq in Hg. injection Hg as <-. exact Hb.
  - rewrite dict_get_set_ne in Hg by exact Hne. apply H. exact Hg.
Qed.

Lemma keys_are_ids_Forall (bs : dict (Bucket model)) :
  Forall (fun kb => id_ (snd kb) = fst kb) bs -> keys_are_ids bs.
Proof.
  intros H k b Hg. apply dict_get_Some_In in Hg.
  rewrite Forall_forall in H. apply list_elem_of_In in Hg. exact (H _ Hg).
Qed.

Lemma with_bucket_suggest (b n_b : Z) (m : AIModel model R) :
  keys_are_ids (buckets m) ->
  keys_are_ids (buckets (snd (with_bucket b (Bucket_suggest n_b) m)))
  /\ forall l, fst (with_bucket b (Bucket_suggest n_b) m) = Ok l ->
       Forall (fun i => bucket i = b) l.
Proof.
  intros Hk. unfold with_bucket.
  destruct (dict_get b (buckets m)) as [bk|] eqn:Hg; [|split; [exact Hk | discriminate]].
  destruct (Bucket_suggest n_b (bk, world m)) as [r [b' w']] eqn:Hs. simpl.
  pose proof (keeps_eq _ _ _ _ _ (Bucket_suggest_keeps_id n_b) Hs) as Hid. simpl in Hid.
  split.
  - apply keys_are_ids_set; [exact Hk|]. rewrite Hid. apply Hk. exact Hg.
  - intros l ->. apply Bucket_suggest_bucket in Hs. simpl in Hs.
    rewrite (Hk _ _ Hg) in Hs. exact Hs.
Qed.

Lemma explorer_keeps_buckets (n_suggs : Z) (refresh : bool) (m : AIModel model R) :
  buckets (snd (on_model_world (RandomizedExplorer_suggest n_suggs refresh) m)) = buckets m.
Proof.
  unfold on_model_world, zoom.
  destruct (RandomizedExplorer_suggest n_suggs refresh (world m)). reflexivity.
Qed.

Lemma explorer_bucket (n_suggs : Z) (refresh : bool) (m : AIModel model R) (l : list img_info) :
  fst (on_model_world (RandomizedExplorer_suggest n_suggs refresh) m) = Ok l ->
  Forall (fun i => bucket i = DISCARD_PILE_BUCKET_ID) l.
Proof.
  unfold on_model_world, zoom.
  destruct (RandomizedExplorer_suggest n_suggs refresh (world m)) as [r w'] eqn:He.
  simpl. intros ->. eapply RandomizedExplorer_suggest_bucket. exact He.
Qed.

(** *** Which exceptions a computation raises *)

Lemma never_raises_ret {S A} (e : exn) (a : A) : never_raises e (@ret S A a).
Proof. intros s. discriminate. Qed.

Lemma never_raises_get {S} (e : exn) : never_raises e (@get S).
Proof. intros s. discriminate. Qed.

Lemma never_raises_modify {S} (e : exn) (f : S -> S) : never_raises e (modify f).
Proof. intros s. discriminate. Qed.

Lemma never_raises_raise {S A} (e e' : exn) : e' <> e -> never_raises e (@raise S A e').
Proof. intros Hne s. simpl. congruence. Qed.

Lemma never_raises_lift_result {S A} (e : exn) (r : result A) :
  r <> Raise e -> never_raises e (@lift_result S A r).
Proof. intros Hne s. exact Hne. Qed.

Lemma never_raises_bind {S A B} (e : exn) (c : M S A) (k : A -> M S B) :
  never_raises e c -> (forall a, never_raises e (k a)) -> never_raises e (bind c k).
Proof.
  intros Hc Hk s. unfold bind. specialize (Hc s).
  destruct (c s) as [[a|e'] s']; [apply Hk|].
  simpl in *. congruence.
Qed.

Lemma never_raises_zoom {S T A} (e : exn) (proj : S -> T) (upd : T -> S -> S) (c : M T A) :
  never_raises e c -> never_raises e (zoom proj upd c).
Proof.
  intros Hc s. unfold zoom. specialize (Hc (proj s)).
  destruct (c (proj s)) as [r t']. exact Hc.
Qed.

Lemma never_raises_try_except {S A} (e : exn) (c h : M S A) (handles : exn -> bool) :
  never_raises e c -> never_raises e h -> never_raises e (try_except c handles h).
Proof.
  intros Hc Hh s. unfold try_except. specialize (Hc s).
  destruct (c s) as [[a|e'] s']; [discriminate|].
  destruct (handles e'); [apply Hh | exact Hc].
Qed.

Lemma never_raises_draw {S A} (e : exn) (f : S -> A * S) :
  never_raises e (fun r => let '(k, r') := f r in (Ok k, r')).
Proof. intros s. destruct (f s). discriminate. Qed.

Lemma map_result_never_raises {A B} (e : exn) (f : A -> result B) (l : list A) :
  (forall x, f x <> Raise e) -> map_result f l <> Raise e.
Proof.
  intros Hf. induction l as [|x l IH]; simpl; [discriminate|].
  specialize (Hf x). destruct (f x) as [y|e1]; [|congruence].
  destruct (map_result f l) as [ys|e2]; [discriminate | congruence].
Qed.

Lemma random_sample_never_raises (population : list Z) (k : Z) :
  never_raises (S := R) BucketNotActiveError (random_sample population k).
Proof.
  intros r. unfold random_sample.
  destruct ((k <? 0) || (len population <? k)); [discriminate|].
  destruct (sample_choice population (Z.to_nat k) r). discriminate.
Qed.

Ltac quiet_step :=
  first
    [ apply never_raises_bind; [|intros ?]
    | apply never_raises_ret
    | apply never_raises_get
    | apply never_raises_modify
    | apply never_raises_zoom
    | apply never_raises_draw
    | apply never_raises_raise; discriminate
    | apply never_raises_lift_result
    | apply random_sample_never_raises ].

(** The randomized explorer has no error of an untrained bucket of its
    own. *)
Lemma RandomizedExplorer_suggest_images_quiet (n_suggs : Z) (refresh : bool) (prev : list Z) :
  collaborators_quiet ->
  never_raises BucketNotActiveError
    (RandomizedExplorer_suggest_images (R := R) n_suggs refresh prev).
Proof.
  intros [Hrank _]. unfold RandomizedExplorer_suggest_images.
  apply never_raises_bind; [apply never_raises_get | intros w].
  destruct (0 <? (if refresh then n_suggs else _)); [|apply never_raises_ret].
  apply never_raises_bind.
  { unfold on_rng. apply never_raises_zoom. unfold SeenImages_random_unseen_images.
    destruct (len _ =? 0); [apply never_raises_raise; discriminate|].
    destruct (len _ <? _); [apply never_raises_ret | apply random_sample_never_raises]. }
  intros cands. apply never_raises_bind.
  { apply never_raises_try_except.
    - apply never_raises_bind; [|intros ?; apply never_raises_ret].
      apply never_raises_lift_result. apply Hrank.
    - unfold on_rng. apply never_raises_zoom. apply random_sample_never_raises. }
  intros new. repeat quiet_step.
Qed.

(** A bucket with a classifier does not report that it has none. *)
Lemma Bucket_suggest_trained_quiet (n_suggs : Z) (s : BucketSt) :
  collaborators_quiet -> svm_model (fst s) <> None ->
  fst (Bucket_suggest n_suggs s) <> Raise BucketNotActiveError.
Proof.
  intros Hq Htr. pose proof Hq as [_ Hnn]. unfold Bucket_suggest.
  rewrite bind_run. unfold get.
  destruct (svm_model (fst s)) as [mdl|]; [clear Htr | contradiction].
  refine ((_ : never_raises BucketNotActiveError _) s).
  apply never_raises_bind.
  { destruct (oracle_mode (fst s)); repeat quiet_step. }
  intros al. apply never_raises_bind.
  { destruct (expsearch (fst s)); [|apply never_raises_ret].
    apply never_raises_bind.
    { apply never_raises_lift_result. unfold list_get. destruct (_ !! _); discriminate. }
    intros c1. apply never_raises_bind.
    { apply never_raises_lift_result. unfold list_get. destruct (_ !! _); discriminate. }
    intros c2. apply never_raises_bind; [repeat quiet_step|]. intros split.
    apply never_raises_bind; [apply never_raises_get|]. intros s1.
    apply never_raises_bind.
    { unfold on_world, on_rng. apply never_raises_zoom, never_raises_zoom.
      intros r. apply Hnn. }
    intros idx. apply never_raises_bind.
    { unfold on_world. apply never_raises_zoom.
      apply RandomizedExplorer_suggest_images_quiet. exact Hq. }
    intros rand. repeat quiet_step. }
  intros imgs. apply never_raises_bind; [apply never_raises_get|]. intros s2.
  apply never_raises_bind.
  { apply never_raises_lift_result. unfold Bucket__svm_scores.
    destruct (svm_model (fst s2)); discriminate. }
  intros scores. apply never_raises_bind.
  { apply never_raises_lift_result. unfold confidence_colors.
    apply map_result_never_raises. intros x.
    unfold BucketColorManager_confidence_color, py_int.
    destruct (fl_affine _ _ _); discriminate. }
  intros colors. apply never_raises_bind.
  { apply never_raises_lift_result. unfold ImageList_image_list.
    destruct (forallb _ _); discriminate. }
  intros l. repeat quiet_step.
Qed.

(** A bucket without a classifier reports it and is left as it is. *)
Lemma Bucket_suggest_untrained (n_suggs : Z) (s : BucketSt) :
  svm_model (fst s) = None ->
  Bucket_suggest n_suggs s = (Raise BucketNotActiveError, s).
Proof.
  intros Hn. unfold Bucket_suggest. rewrite bind_run. unfold get. rewrite Hn. reflexivity.
Qed.

Lemma Bucket_suggest_keeps_svm_model (n_suggs : Z) :
  keeps (fun s : BucketSt => svm_model (fst s)) (Bucket_suggest n_suggs).
Proof.
  unfold Bucket_suggest.
  repeat first
    [ apply on_world_keeps_bucket
    | apply on_bucket_keeps_bucket; apply keeps_modify; intros ?; reflexivity
    | keeps_step ].
Qed.

(** *** The length of a suggestion list *)

Lemma image_list_entries_length (bucket_id : Z) (imgs : list Z)
    (confs : list (option npfloat)) (colors : list (option conf_color))
    (is_ff is_al : list bool) :
  length colors = length confs -> length is_ff = length confs ->
  length is_al = length confs -> length imgs = length confs ->
  length (image_list_entries bucket_id imgs confs colors is_ff is_al) = length confs.
Proof.
  revert confs colors is_ff is_al.
  induction imgs as [|i imgs IH]; intros [|c confs] [|cc colors] [|ff is_ff] [|al is_al];
    simpl; intros H1 H2 H3 H4; try discriminate; [reflexivity|].
  f_equal. apply IH; congruence.
Qed.

Lemma ImageList_image_list_length (bucket_id : Z) (imgs : list Z)
    (confs : list (option npfloat)) (colors : list (option conf_color))
    (is_ff is_al : option (list bool)) (l : list img_info) :
  ImageList_image_list bucket_id imgs confs colors is_ff is_al = Ok l ->
  length l = length confs.
Proof.
  unfold ImageList_image_list. cbn [forallb].
  destruct (Nat.eqb_spec (length imgs) (length imgs)) as [_|]; [|discriminate].
  destruct (Nat.eqb_spec (length imgs) (length confs)) as [E1|]; [|discriminate].
  destruct (Nat.eqb_spec (length imgs) (length colors)) as [E2|]; [|discriminate].
  destruct (Nat.eqb_spec (length imgs) (length (flags_or_default is_ff imgs))) as [E3|];
    [|discriminate].
  destruct (Nat.eqb_spec (length imgs) (length (flags_or_default is_al imgs))) as [E4|];
    [|discriminate].
  simpl. intros H. injection H as <-.
  apply image_list_entries_length; congruence.
Qed.

(** What the randomized explorer returns has the requested number of
    entries, and they name the discard pile. *)
Lemma RandomizedExplorer_suggest_entries (n_suggs : Z) (refresh : bool) (w w' : World R)
    (l : list img_info) :
  RandomizedExplorer_suggest n_suggs refresh w = (Ok l, w') ->
  explorer_entries n_suggs l.
Proof.
  intros H. split; [|exact (RandomizedExplorer_suggest_bucket _ _ _ _ _ H)].
  unfold RandomizedExplorer_suggest in H.
  bind_step H imgs w1 Hi. apply lift_result_Ok in H as [H _].
  apply ImageList_image_list_length in H. rewrite H. apply repeat_length.
Qed.

Lemma explorer_entries_of (n_suggs : Z) (refresh : bool) (m : AIModel model R)
    (l : list img_info) :
  fst (on_model_world (RandomizedExplorer_suggest n_suggs refresh) m) = Ok l ->
  explorer_entries n_suggs l.
Proof.
  unfold on_model_world, zoom.
  destruct (RandomizedExplorer_suggest n_suggs refresh (world m)) as [r w'] eqn:He.
  simpl. intros ->. eapply RandomizedExplorer_suggest_entries. exact He.
Qed.

(** *** The segments of the list *)

Lemma same_classifiers_refl (bs : dict (Bucket model)) : same_classifiers bs bs.
Proof. intros k. reflexivity. Qed.

Lemma same_classifiers_set (bs0 bs : dict (Bucket model)) (k : Z) (b b' : Bucket model) :
  same_classifiers bs0 bs -> dict_get k bs = Some b -> svm_model b' = svm_model b ->
  same_classifiers bs0 (dict_set k b' bs).
Proof.
  intros H Hg Hb k'. rewrite <- (H k'). destruct (Z.eq_dec k k') as [<-|Hne].
  - rewrite dict_get_set_eq, Hg. simpl. rewrite Hb. reflexivity.
  - rewrite dict_get_set_ne by exact Hne. reflexivity.
Qed.

(** The bucket's own call of one turn of the loop: what it leaves of the
    buckets, and what it returns. *)
Lemma with_bucket_suggest_classifiers (b n_b : Z) (bs0 : dict (Bucket model))
    (m : AIModel model R) :
  same_classifiers bs0 (buckets m) ->
  same_classifiers bs0 (buckets (snd (with_bucket b (Bucket_suggest n_b) m))).
Proof.
  intros Hs. unfold with_bucket.
  destruct (dict_get b (buckets m)) as [bk|] eqn:Hg; [|exact Hs].
  destruct (Bucket_suggest n_b (bk, world m)) as [r [b' w']] eqn:Hrun. simpl.
  pose proof (keeps_eq _ _ _ _ _ (Bucket_suggest_keeps_svm_model n_b) Hrun) as Hm.
  simpl in Hm. eapply same_classifiers_set; eassumption.
Qed.

Lemma with_bucket_suggest_outcome (b n_b : Z) (m : AIModel model R) (bk : Bucket model) :
  dict_get b (buckets m) = Some bk ->
  match svm_model bk with
  | None => with_bucket b (Bucket_suggest n_b) m
            = (Raise BucketNotActiveError,
               set_world (world m) (set_buckets (dict_set b bk (buckets m)) m))
  | Some _ => collaborators_quiet ->
              fst (with_bucket b (Bucket_suggest n_b) m) <> Raise BucketNotActiveError
  end.
Proof.
  intros Hg. unfold with_bucket. rewrite Hg.
  destruct (svm_model bk) as [mdl|] eqn:Hm.
  - intros Hq.
    pose proof (Bucket_suggest_trained_quiet n_b (bk, world m) Hq) as H.
    destruct (Bucket_suggest n_b (bk, world m)) as [r [b' w']]. simpl in *.
    apply H. rewrite Hm. discriminate.
  - rewrite (Bucket_suggest_untrained n_b (bk, world m) Hm). reflexivity.
Qed.

(** One turn of the loop appends the segment of its bucket. *)
Lemma suggest_for_bucket_segment (refresh : bool) (b : Z) (suggs suggs' : list img_info)
    (bs0 : dict (Bucket model)) (bk0 : Bucket model) (m : AIModel model R) (d : dict Z)
    (st' : SuggestSt) :
  keys_are_ids (buckets m) ->
  same_classifiers bs0 (buckets m) ->
  dict_get b bs0 = Some bk0 ->
  suggest_for_bucket refresh b suggs (m, d) = (Ok suggs', st') ->
  keys_are_ids (buckets (fst st'))
  /\ same_classifiers bs0 (buckets (fst st'))
  /\ snd st' = d
  /\ exists seg, suggs' = suggs ++ seg /\ bucket_segment bs0 d b suggs seg.
Proof.
  intros Hk Hs Hb0 H.
  assert (Hbm : exists bk, dict_get b (buckets m) = Some bk /\ svm_model bk = svm_model bk0).
  { specialize (Hs b). rewrite Hb0 in Hs.
    destruct (dict_get b (buckets m)) as [bk|]; [|discriminate Hs].
    exists bk. split; [reflexivity|]. simpl in Hs. congruence. }
  destruct Hbm as (bk & Hbm & Hsvm).
  unfold suggest_for_bucket in H.
  get_step H s0. lift_step H n_b Hn. simpl in H, Hn.
  assert (Hget : dict_get b d = Some n_b).
  { unfold dict_lookup in Hn. destruct (dict_get b d); inv_pure Hn. reflexivity. }
  destruct (Z.eqb_spec n_b 0) as [Hz|Hnz].
  { inv_pure H. simpl. split; [exact Hk|]. split; [exact Hs|]. split; [reflexivity|].
    exists []. rewrite app_nil_r. split; [reflexivity|].
    exists bk0, 0, [], []. split; [exact Hb0|]. split; [exact Hget|].
    split; [reflexivity|]. split.
    { destruct (svm_model bk0); [split; [constructor | intros _; constructor]|].
      split; [reflexivity | constructor]. }
    split; [|reflexivity]. split; [|constructor].
    simpl. unfold len. lia. }
  bind_step H got s1 Hgot. rewrite on_model_run in Hgot. inv_pure Hgot.
  match goal with
  | Hf : fst (try_except ?c ?h ?k m) = Ok got |- _ =>
      assert (Hstep : keys_are_ids (buckets (snd (try_except c h k m)))
                      /\ same_classifiers bs0 (buckets (snd (try_except c h k m)))
                      /\ match svm_model bk0 with
                         | None => explorer_entries n_b got
                         | Some _ =>
                             Forall (names_bucket_or_pile b) got
                             /\ (collaborators_quiet -> Forall (fun i => bucket i = b) got)
                         end)
  end.
  { unfold try_except in *.
    destruct (with_bucket_suggest b n_b m Hk) as [Hk1 Hl].
    pose proof (with_bucket_suggest_classifiers b n_b bs0 m Hs) as Hs1.
    pose proof (with_bucket_suggest_outcome b n_b m bk Hbm) as Hout.
    rewrite Hsvm in Hout.
    destruct (with_bucket b (Bucket_suggest n_b) m) as [[l|e] m1]; simpl in *.
    - inv_pure H1. split; [exact Hk1|]. split; [exact Hs1|].
      destruct (svm_model bk0); [|discriminate Hout].
      split; [|intros _; apply Hl; reflexivity].
      eapply Forall_impl; [apply Hl; reflexivity|]. intros i Hi. left. exact Hi.
    - destruct e; try discriminate.
      split; [unfold keys_are_ids; rewrite explorer_keeps_buckets; exact Hk1|].
      split; [rewrite explorer_keeps_buckets; exact Hs1|].
      destruct (svm_model bk0).
      + split.
        * eapply Forall_impl; [eapply explorer_bucket; exact H1|].
          intros i Hi. right. exact Hi.
        * intros Hq. exfalso. apply (Hout Hq). reflexivity.
      + eapply explorer_entries_of. exact H1. }
  destruct Hstep as (Hk1 & Hs1 & Hgot).
  match type of Hk1 with keys_are_ids (buckets ?mm) => set (m1 := mm) in * end.
  destruct (Z.ltb_spec (len (suggs ++ got)) n_b) as [Hlt|Hge].
  - bind_step H extra s2 Hex. rewrite on_model_run in Hex. inv_pure Hex. inv_pure H.
    simpl. split; [unfold keys_are_ids; rewrite explorer_keeps_buckets; exact Hk1|].
    split; [rewrite explorer_keeps_buckets; exact Hs1|]. split; [reflexivity|].
    exists (got ++ extra). rewrite app_assoc. split; [reflexivity|].
    exists bk0, n_b, got, extra. split; [exact Hb0|]. split; [exact Hget|].
    split; [reflexivity|]. split; [exact Hgot|].
    split; [eapply explorer_entries_of; exact H2 | intros; contradiction].
  - inv_pure H. simpl. split; [exact Hk1|]. split; [exact Hs1|]. split; [reflexivity|].
    exists got. split; [reflexivity|].
    exists bk0, n_b, got, []. split; [exact Hb0|]. split; [exact Hget|].
    split; [rewrite app_nil_r; reflexivity|]. split; [exact Hgot|].
    split; [|intros; contradiction]. split; [|constructor].
    simpl. lia.
Qed.

Lemma suggest_loop_segments (refresh : bool) (bs : list Z) (suggs0 suggs : list img_info)
    (bs0 : dict (Bucket model)) (m : AIModel model R) (d : dict Z) (st' : SuggestSt) :
  keys_are_ids (buckets m) ->
  same_classifiers bs0 (buckets m) ->
  Forall (fun b => dict_mem b bs0 = true) bs ->
  suggest_loop refresh bs suggs0 (m, d) = (Ok suggs, st') ->
  exists segs, suggs = suggs0 ++ concat segs /\ segments_in_order bs0 d bs suggs0 segs.
Proof.
  revert suggs0 m. induction bs as [|b bs IH]; intros suggs0 m Hk Hs Hmem H; simpl in H.
  - inv_pure H. exists []. simpl. rewrite app_nil_r. split; [reflexivity | exact I].
  - bind_step H suggs1 st1 H1.
    apply Forall_cons in Hmem as [Hb Hmem]. unfold dict_mem in Hb.
    destruct (dict_get b bs0) as [bk0|] eqn:Hb0; [clear Hb | discriminate Hb].
    destruct (suggest_for_bucket_segment _ _ _ _ _ _ _ _ _ Hk Hs Hb0 H1)
      as (Hk1 & Hs1 & Hd & seg & -> & Hseg).
    destruct st1 as [m1 d1]. simpl in Hk1, Hs1, Hd. subst d1.
    destruct (IH _ _ Hk1 Hs1 Hmem H) as (segs & -> & Hsegs).
    exists (seg :: segs). simpl. rewrite app_assoc. split; [reflexivity|].
    split; assumption.
Qed.

(** The entries of a bucket's segment name the bucket or the discard
    pile. *)
Lemma bucket_segment_names (bs : dict (Bucket model)) (req : dict Z) (b : Z)
    (before seg : list img_info) :
  bucket_segment bs req b before seg -> Forall (names_bucket_or_pile b) seg.
Proof.
  intros (bk & n_b & got & extra & _ & _ & -> & Hgot & [_ Hextra] & _).
  apply Forall_app. split.
  - destruct (svm_model bk); [exact (proj1 Hgot)|].
    destruct Hgot as [_ Hgot]. eapply Forall_impl; [exact Hgot|].
    intros i Hi. right. exact Hi.
  - eapply Forall_impl; [exact Hextra|]. intros i Hi. right. exact Hi.
Qed.

Lemma segments_in_order_names (bs : dict (Bucket model)) (req : dict Z) (order : list Z)
    (before : list img_info) (segs : list (list img_info)) :
  segments_in_order bs req order before segs ->
  Forall2 (fun b seg => Forall (names_bucket_or_pile b) seg) order segs.
Proof.
  revert before segs. induction order as [|b order IH]; intros before [|seg segs] H;
    simpl in H; try contradiction; [constructor|].
  destruct H as [Hseg Hrest]. constructor.
  - eapply bucket_segment_names. exact Hseg.
  - eapply IH. exact Hrest.
Qed.

(** The segments read the request at their buckets only. *)
Lemma segments_in_order_request_ext (bs : dict (Bucket model)) (d req : dict Z)
    (order : list Z) (before : list img_info) (segs : list (list img_info)) :
  Forall (fun b => dict_get b d = dict_get b req) order ->
  segments_in_order bs d order before segs ->
  segments_in_order bs req order before segs.
Proof.
  revert before segs. induction order as [|b order IH]; intros before [|seg segs] Hext H;
    simpl in *; try contradiction; [exact I|].
  apply Forall_cons in Hext as [Hb Hext]. destruct H as [Hseg Hrest].
  split; [|apply IH; assumption].
  destruct Hseg as (bk & n_b & got & extra & H1 & H2 & H3).
  exists bk, n_b, got, extra. split; [exact H1|]. split; [congruence | exact H3].
Qed.

Lemma sorted_keys_in_display_order (g : Z -> Z) (l : list (Z * Z)) :
  StronglySorted by_ordering l -> Forall (fun x => snd x = g (fst x)) l ->
  StronglySorted (fun a b => g a <= g b) (map fst l).
Proof.
  induction 1 as [|x l Hl IH Hx]; intros Hf; simpl; [constructor|].
  apply Forall_cons in Hf as [Hgx Hf].
  constructor; [apply IH; exact Hf|].
  apply Forall_map. rewrite Forall_forall in Hx, Hf. apply Forall_forall.
  intros y Hy. simpl. specialize (Hx y Hy). specialize (Hf y Hy).
  unfold by_ordering in Hx. lia.
Qed.

(** The order in which [suggest] goes over the requested buckets. *)
Lemma suggest_order_spec (bs : dict (Bucket model)) (d : dict Z) :
  let order := map fst (sort_by_ordering (map (fun b => (b, ordering_in bs b)) (dict_keys d))) in
  Permutation order (dict_keys d)
  /\ StronglySorted (fun a b => ordering_in bs a <= ordering_in bs b) order.
Proof.
  simpl. split.
  - rewrite sort_by_ordering_perm, map_map. simpl. rewrite map_id. reflexivity.
  - apply sorted_keys_in_display_order; [apply sort_by_ordering_sorted|].
    rewrite sort_by_ordering_perm. apply Forall_map, Forall_forall. reflexivity.
Qed.

(** C2.  A call of [suggest] that returns, on a model whose buckets are
    stored under their identifiers.  The list it returns is a sequence of
    segments, one for each requested bucket (the keys of the request other
    than the sentinel), followed by the exploration suggestions.  The
    segments stand in ascending display order of their buckets.  The
    segment of a bucket is what stands for the bucket's own suggestions
    followed by the top-up: where the bucket has no classifier, the
    randomized explorer's stand-in of as many entries as were requested for
    the bucket, each naming the discard pile, stands in the bucket's place;
    the own suggestions of a bucket with a classifier name the bucket; the
    top-up is what the explorer returns for the requested count less the
    length of the whole list so far, and names the discard pile.  The
    exploration suggestions are the last entries of the list: they are what
    the randomized explorer returns for the sentinel's count on the model
    as it is before the call, that many entries naming the discard pile,
    and there are none if the request has no sentinel.  And the order of
    the entries of the request does not matter: when no two requested
    buckets have one display order, a request with the same entries in
    another order gives the same list and leaves the same model. *)
Theorem AIModel_suggest_order
    (refresh : bool) (m m' : AIModel model R) (req req' : dict Z) (suggs : list img_info) :
  keys_are_ids (buckets m) ->
  NoDup (dict_keys req) ->
  AIModel_suggest refresh (m, req) = (Ok suggs, (m', req')) ->
  (exists (order : list Z) (segs : list (list img_info)) (explore : list img_info),
      suggs = concat segs ++ explore
      /\ Permutation order (requested_buckets req)
      /\ StronglySorted
           (fun a b => ordering_in (buckets m) a <= ordering_in (buckets m) b) order
      /\ Forall2 (fun b seg => Forall (names_bucket_or_pile b) seg) order segs
      /\ Forall (fun i => bucket i = DISCARD_PILE_BUCKET_ID) explore
      /\ (dict_get RANDOM_EXPLORE_REQUEST req = None -> explore = [])
      /\ segments_in_order (buckets m) req order [] segs
      /\ (forall n_suggs_randexp,
            dict_get RANDOM_EXPLORE_REQUEST req = Some n_suggs_randexp ->
            fst (RandomizedExplorer_suggest n_suggs_randexp refresh (world m)) = Ok explore
            /\ length explore = Z.to_nat n_suggs_randexp))
  /\ (forall shuffled : dict Z,
        Permutation req shuffled ->
        NoDup (map (ordering_in (buckets m)) (requested_buckets req)) ->
        fst (AIModel_suggest refresh (m, shuffled)) = Ok suggs
        /\ fst (snd (AIModel_suggest refresh (m, shuffled))) = m').
Proof.
  intros Hk Hnd Hrun.
  assert (Hstruct : forall r m0 d out st',
    keys_are_ids (buckets m0) ->
    suggest_rest refresh r (m0, d) = (Ok out, st') ->
    exists order segs,
      out = concat segs ++ r
      /\ Permutation order (dict_keys d)
      /\ StronglySorted
           (fun a b => ordering_in (buckets m0) a <= ordering_in (buckets m0) b) order
      /\ segments_in_order (buckets m0) d order [] segs).
  { intros r m0 d out st' Hk0 H. rewrite suggest_rest_run in H.
    destruct (forallb _ (dict_keys d)) eqn:Hmem; [|discriminate].
    destruct (suggest_loop _ _ _ _) as [[suggs0|e] st] eqn:Hloop; [|discriminate].
    destruct (on_model _ st) as [[u|e] st1]; [|discriminate].
    injection H as <- _.
    destruct (suggest_order_spec (buckets m0) d) as [Hperm Hsorted].
    assert (Hall : Forall (fun b => dict_mem b (buckets m0) = true)
                     (map fst (sort_by_ordering
                                 (map (fun b => (b, ordering_in (buckets m0) b))
                                      (dict_keys d))))).
    { rewrite Hperm. apply Forall_forall. intros b Hb.
      rewrite forallb_forall in Hmem. apply Hmem, list_elem_of_In, Hb. }
    destruct (suggest_loop_segments _ _ _ _ (buckets m0) _ _ _ Hk0
                (same_classifiers_refl _) Hall Hloop)
      as (segs & -> & Hsegs).
    eexists _, segs. split; [reflexivity|]. split; [exact Hperm|].
    split; [exact Hsorted | exact Hsegs]. }
  split.
  - rewrite AIModel_suggest_unfold in Hrun. unfold requested_buckets.
    destruct (dict_get RANDOM_EXPLORE_REQUEST req) as [n|] eqn:Hget.
    + destruct (RandomizedExplorer_suggest n refresh (world m)) as [[r|e] w'] eqn:Hexp;
        [|discriminate].
      destruct (Hstruct r (set_world w' m) _ _ _ Hk Hrun) as (order & segs & H1 & H2 & H3 & H4).
      simpl in H3, H4.
      assert (Hext : Forall (fun b => dict_get b (dict_del RANDOM_EXPLORE_REQUEST req)
                                      = dict_get b req) order).
      { rewrite H2. apply Forall_forall. intros b Hb.
        apply dict_get_del_ne. intros <-.
        apply list_elem_of_In, dict_get_In_keys in Hb as [v Hv].
        rewrite (dict_get_del_eq _ _ Hnd) in Hv. discriminate Hv. }
      pose proof (segments_in_order_request_ext _ _ _ _ _ _ Hext H4) as H5.
      destruct (RandomizedExplorer_suggest_entries _ _ _ _ _ Hexp) as [Hlen Hpile].
      exists order, segs, r.
      split; [exact H1|]. split; [exact H2|]. split; [exact H3|].
      split; [exact (segments_in_order_names _ _ _ _ _ H5)|].
      split; [exact Hpile|]. split; [discriminate|]. split; [exact H5|].
      intros n' Hn'. injection Hn' as <-. rewrite Hexp. split; [reflexivity | exact Hlen].
    + rewrite (dict_del_absent _ _ Hget).
      destruct (Hstruct [] m _ _ _ Hk Hrun) as (order & segs & H1 & H2 & H3 & H4).
      exists order, segs, [].
      split; [exact H1|]. split; [exact H2|]. split; [exact H3|].
      split; [exact (segments_in_order_names _ _ _ _ _ H4)|].
      split; [constructor|]. split; [reflexivity|]. split; [exact H4|].
      intros n' Hn'. discriminate Hn'.
  - intros shuffled Hp Hord. unfold requested_buckets in Hord.
    rewrite AIModel_suggest_unfold in Hrun. rewrite AIModel_suggest_unfold.
    rewrite <- (dict_get_perm RANDOM_EXPLORE_REQUEST req shuffled Hnd Hp).
    destruct (dict_get RANDOM_EXPLORE_REQUEST req) as [n|] eqn:Hget.
    + destruct (RandomizedExplorer_suggest n refresh (world m)) as [[r|e] w'] eqn:Hexp;
        [|discriminate].
      destruct (suggest_rest_perm refresh r (set_world w' m)
                  (dict_del RANDOM_EXPLORE_REQUEST req)
                  (dict_del RANDOM_EXPLORE_REQUEST shuffled)) as [E1 E2].
      * apply dict_del_NoDup, Hnd.
      * apply dict_del_perm; assumption.
      * exact Hord.
      * rewrite E1, E2, Hrun. split; reflexivity.
    + rewrite (dict_del_absent _ _ Hget) in Hord.
      destruct (suggest_rest_perm refresh [] m req shuffled Hnd Hp Hord) as [E1 E2].
      rewrite E1, E2, Hrun. split; reflexivity.
Qed.

(** ** AIModel.suggest: the top-up *)

(** The test before the top-up compares the requested count of the bucket
    with the length of the whole list so far: once the list is as long as
    the count, what the bucket returned is appended and nothing is added. *)
Lemma suggest_for_bucket_no_top_up (refresh : bool) (b n_b : Z) (suggs got : list img_info)
    (m m1 : AIModel model R) (d : dict Z) :
  dict_get b d = Some n_b -> n_b <> 0 ->
  with_bucket b (Bucket_suggest n_b) m = (Ok got, m1) ->
  n_b <= len (suggs ++ got) ->
  suggest_for_bucket refresh b suggs (m, d) = (Ok (suggs ++ got), (m1, d)).
Proof.
  intros Hget Hn Hb Hlen. unfold suggest_for_bucket.
  rewrite bind_run. unfold get. simpl snd.
  rewrite bind_run. unfold lift_result, dict_lookup. rewrite Hget.
  destruct (Z.eqb_spec n_b 0) as [|_]; [contradiction|].
  rewrite bind_run, on_model_run. unfold try_except. rewrite Hb. simpl.
  destruct (Z.ltb_spec (len (suggs ++ got)) n_b) as [Hlt|_]; [lia | reflexivity].
Qed.
End Properties.

(** * More about dictionaries *)

(** A dictionary is its entry for a key and the rest. *)
Lemma dict_get_perm_del {V} (k : Z) (v : V) (d : dict V) :
  dict_get k d = Some v -> Permutation d ((k, v) :: dict_del k d).
Proof.
  induction d as [|[k' v'] d IH]; simpl; [discriminate|].
  destruct (Z.eqb_spec k' k) as [->|Hne]; intros H.
  - injection H as ->. reflexivity.
  - rewrite (IH H) at 1. apply perm_swap.
Qed.

Lemma dict_set_perm_del {V} (k : Z) (v v0 : V) (d : dict V) :
  dict_get k d = Some v0 -> Permutation (dict_set k v d) ((k, v) :: dict_del k d).
Proof.
  induction d as [|[k' v'] d IH]; simpl; [discriminate|].
  destruct (Z.eqb_spec k' k) as [->|Hne]; intros H.
  - reflexivity.
  - rewrite (IH H). apply perm_swap.
Qed.

(** A new key goes to the end. *)
Lemma dict_set_absent {V} (k : Z) (v : V) (d : dict V) :
  dict_get k d = None -> dict_set k v d = d ++ [(k, v)].
Proof.
  induction d as [|[k' v'] d IH]; simpl; [reflexivity|].
  destruct (Z.eqb_spec k' k) as [->|Hne]; [discriminate|].
  intros H. rewrite (IH H). reflexivity.
Qed.

Lemma dict_del_set_comm {V} (k k' : Z) (v : V) (d : dict V) :
  k <> k' -> dict_del k' (dict_set k v d) = dict_set k v (dict_del k' d).
Proof.
  intros Hne. induction d as [|[k0 v0] d IH]; simpl.
  - destruct (Z.eqb_spec k k'); [contradiction | reflexivity].
  - destruct (Z.eqb_spec k0 k) as [->|Hk]; simpl.
    + destruct (Z.eqb_spec k k'); [contradiction|]. simpl.
      rewrite Z.eqb_refl. reflexivity.
    + destruct (Z.eqb_spec k0 k') as [->|Hk']; simpl; [reflexivity|].
      destruct (Z.eqb_spec k0 k); [contradiction|]. rewrite IH. reflexivity.
Qed.

Lemma dict_get_None_keys {V} (k : Z) (d : dict V) :
  dict_get k d = None <-> k ∉ dict_keys d.
Proof.
  unfold dict_keys. induction d as [|[k' v'] d IH]; simpl.
  - split; [intros _; apply not_elem_of_nil | reflexivity].
  - rewrite not_elem_of_cons. destruct (Z.eqb_spec k' k) as [->|Hne].
    + split; [discriminate | intros [H _]; contradiction].
    + rewrite IH. split; [intros H; split; [congruence | exact H] | tauto].
Qed.

Lemma dict_get_lookup {V} (k : Z) (v : V) (d : dict V) :
  dict_get k d = Some v -> (k, v) ∈ d.
Proof. intros H. apply list_elem_of_In, dict_get_Some_In, H. Qed.

Lemma dict_set_set {V} (k : Z) (v v' : V) (d : dict V) :
  dict_set k v (dict_set k v' d) = dict_set k v d.
Proof.
  induction d as [|[k0 v0] d IH]; simpl.
  - rewrite Z.eqb_refl. reflexivity.
  - destruct (Z.eqb_spec k0 k) as [->|Hne]; simpl.
    + rewrite Z.eqb_refl. reflexivity.
    + destruct (Z.eqb_spec k0 k); [contradiction|]. rewrite IH. reflexivity.
Qed.

(** Writes under two keys that are there commute. *)
Lemma dict_set_comm {V} (k k' : Z) (v v' v0 : V) (d : dict V) :
  k <> k' -> dict_get k d = Some v0 ->
  dict_set k v (dict_set k' v' d) = dict_set k' v' (dict_set k v d).
Proof.
  intros Hne. induction d as [|[k0 w] d IH]; simpl; [discriminate|].
  destruct (Z.eqb_spec k0 k) as [->|Hk]; simpl.
  - intros _. destruct (Z.eqb_spec k k'); [contradiction|]. simpl.
    rewrite Z.eqb_refl. reflexivity.
  - intros Hg. destruct (Z.eqb_spec k0 k') as [->|Hk']; simpl.
    + destruct (Z.eqb_spec k' k); [congruence|]. reflexivity.
    + destruct (Z.eqb_spec k0 k); [contradiction|]. rewrite (IH Hg). reflexivity.
Qed.

(** * Bucket management *)

(** ** BucketColorManager *)

Lemma first_free_from (pre t : list bool) :
  Forall (fun b => b = true) pre ->
  first_free (seq (length pre) (length t)) (pre ++ t)
  = Ok (match list_find (fun b => b = false) t with
        | Some (i, _) => Some (length pre + i)%nat
        | None => None
        end).
Proof.
  revert pre. induction t as [|b t IH]; intros pre Hpre; simpl; [reflexivity|].
  rewrite lookup_app_r by lia. replace (length pre - length pre)%nat with O by lia.
  simpl. destruct b; simpl.
  - replace (pre ++ true :: t) with ((pre ++ [true]) ++ t) by (rewrite <- app_assoc; reflexivity).
    replace (S (length pre)) with (length (pre ++ [true])) by (rewrite length_app; simpl; lia).
    rewrite IH by (apply Forall_app; split; [exact Hpre | repeat constructor]).
    destruct (list_find _ t) as [[i x]|]; simpl; [|reflexivity].
    rewrite length_app. simpl. do 2 f_equal. lia.
  - do 2 f_equal. lia.
Qed.

(** The scan of [assign_color] stops at the first flag that is down. *)
Lemma first_free_found (t : list bool) (i : nat) :
  (i < N_COLORS)%nat -> t !! i = Some false ->
  (forall j, (j < i)%nat -> t !! j = Some true) ->
  first_free (seq 0 N_COLORS) t = Ok (Some i).
Proof.
  intros Hi Hfree Hbefore.
  assert (Hgen : forall k indices,
            (forall j, (k <= j < i)%nat -> t !! j = Some true) -> (k <= i)%nat ->
            (i < k + length indices)%nat -> indices = seq k (length indices) ->
            first_free indices t = Ok (Some i)).
  { intros k indices. revert k.
    induction indices as [|x indices IH]; intros k Hb Hk Hlen Hseq; simpl in *; [lia|].
    injection Hseq as -> Hseq.
    destruct (Nat.eq_dec k i) as [->|Hne].
    - rewrite Hfree. reflexivity.
    - rewrite (Hb k) by lia. apply (IH (S k)); [intros j Hj; apply Hb; lia | lia | lia | exact Hseq]. }
  apply (Hgen O); [intros j Hj; apply Hbefore; lia | lia | rewrite length_seq; lia |].
  rewrite length_seq. reflexivity.
Qed.

(** With every flag up the scan finds nothing. *)
Lemma first_free_none (t : list bool) :
  (forall j, (j < N_COLORS)%nat -> t !! j = Some true) ->
  first_free (seq 0 N_COLORS) t = Ok None.
Proof.
  intros H.
  assert (Hgen : forall indices, Forall (fun j => (j < N_COLORS)%nat) indices ->
                                 first_free indices t = Ok None).
  { induction indices as [|x indices IH]; intros Hf; simpl; [reflexivity|].
    apply Forall_cons in Hf as [Hx Hf]. rewrite (H x Hx). apply IH, Hf. }
  apply Hgen. apply Forall_forall. intros j Hj. apply elem_of_seq in Hj. lia.
Qed.

Lemma str_index_COLORS_HEX (i : nat) (c : string) :
  COLORS_HEX !! i = Some c -> str_index c COLORS_HEX = Ok i.
Proof.
  intros H.
  do 7 (destruct i as [|i]; [injection H as <-; reflexivity|]).
  discriminate H.
Qed.

Lemma str_index_Ok (x : string) (l : list string) (i : nat) :
  str_index x l = Ok i -> l !! i = Some x.
Proof.
  revert i. induction l as [|y l IH]; intros i H; simpl in H; [discriminate|].
  destruct (String.eqb_spec y x) as [->|Hne].
  - injection H as <-. reflexivity.
  - destruct (str_index x l) as [j|e]; [|discriminate].
    injection H as <-. simpl. apply IH. reflexivity.
Qed.

Lemma str_index_Raise (x : string) (l : list string) (e : exn) :
  str_index x l = Raise e -> x ∉ l.
Proof.
  induction l as [|y l IH]; intros H; simpl in H; [apply not_elem_of_nil|].
  destruct (String.eqb_spec y x) as [->|Hne]; [discriminate|].
  destruct (str_index x l) as [j|e'] eqn:E; [discriminate|].
  apply not_elem_of_cons. split; [congruence | apply IH; exact H].
Qed.

(** [assign_color] with a free base colour, run on a state. *)
Lemma assign_color_base {R} `{!ColorDraws R} (mgr : BucketColorManager) (r : R) (i : nat) :
  (i < N_COLORS)%nat -> taken mgr !! i = Some false ->
  (forall j, (j < i)%nat -> taken mgr !! j = Some true) ->
  exists c, COLORS_HEX !! i = Some c
            /\ BucketColorManager_assign_color (mgr, r)
               = (Ok c, ({| taken := <[i := true]> (taken mgr) |}, r)).
Proof.
  intros Hi Hfree Hbefore.
  destruct (COLORS_HEX !! i) as [c|] eqn:Hc;
    [|apply lookup_ge_None in Hc; unfold N_COLORS in Hi; lia].
  exists c. split; [reflexivity|].
  assert (Hlt : (i < length (taken mgr))%nat) by (apply lookup_lt_is_Some; eauto).
  apply Nat.ltb_lt in Hlt.
  unfold BucketColorManager_assign_color. rewrite bind_run. unfold get. simpl fst. simpl snd.
  rewrite bind_run. unfold lift_result at 1.
  rewrite (first_free_found _ i Hi Hfree Hbefore).
  rewrite bind_run. unfold lift_result at 1, set_index. rewrite Hlt.
  rewrite bind_run. unfold put, lift_result, at_index. rewrite Hc. reflexivity.
Qed.

Lemma trunc_bounds (q : Q) :
  (0 <= q)%Q -> (inject_Z (trunc q) <= q)%Q /\ (q < inject_Z (trunc q) + 1)%Q.
Proof.
  intros Hq. assert (E : trunc q = Qfloor q).
  { unfold trunc. destruct q as [a b]. simpl. apply Z.quot_div_nonneg; [|lia].
    unfold Qle in Hq. simpl in Hq. lia. }
  rewrite E. split; [apply Qfloor_le|].
  pose proof (Qlt_floor q) as H. rewrite inject_Z_plus in H. exact H.
Qed.

Lemma format_02x_byte (z : Z) : 0 <= z <= 255 -> format_02x z = byte_hex z.
Proof.
  intros Hz. unfold format_02x, byte_hex.
  destruct (Z.ltb_spec z 0) as [|_]; [lia|].
  destruct (Z.ltb_spec z 16) as [Hlt|Hge].
  - rewrite Z.div_small, Z.mod_small by lia. reflexivity.
  - assert (H4 : 4 <= Z.log2 z) by (apply Z.log2_le_pow2; simpl; lia).
    destruct (Z.to_nat (Z.log2 z)) as [|f] eqn:E; [lia|].
    simpl hex_digits. destruct (Z.ltb_spec z 16) as [|_]; [lia|].
    destruct f as [|f]; [lia|]. simpl hex_digits.
    destruct (Z.ltb_spec (z / 16) 16) as [_|Hbig]; [reflexivity|].
    assert (z / 16 < 16) by (apply Z.div_lt_upper_bound; lia). lia.
Qed.

Lemma hex_digit_inv (d : Z) :
  0 <= d < 16 -> exists c, hex_digit d = String c "" /\ hexval c = d.
Proof.
  intros Hd.
  assert (H : d = 0 \/ d = 1 \/ d = 2 \/ d = 3 \/ d = 4 \/ d = 5 \/ d = 6 \/ d = 7 \/ d = 8
              \/ d = 9 \/ d = 10 \/ d = 11 \/ d = 12 \/ d = 13 \/ d = 14 \/ d = 15) by lia.
  repeat (destruct H as [-> | H]; [eexists; split; reflexivity|]).
  subst d. eexists; split; reflexivity.
Qed.

Lemma rgb_hex_shape (a b c : Z) :
  0 <= a <= 255 -> 0 <= b <= 255 -> 0 <= c <= 255 ->
  String.length (rgb_hex (a, b, c)) = 7%nat
  /\ rgb_of_hex (rgb_hex (a, b, c)) = Some (a, b, c).
Proof.
  intros Ha Hb Hc. unfold rgb_hex, byte_hex.
  destruct (hex_digit_inv (a / 16)) as (a1 & -> & Ea1);
    [split; [apply Z.div_pos; lia | apply Z.div_lt_upper_bound; lia]|].
  destruct (hex_digit_inv (a mod 16)) as (a2 & -> & Ea2); [apply Z.mod_pos_bound; lia|].
  destruct (hex_digit_inv (b / 16)) as (b1 & -> & Eb1);
    [split; [apply Z.div_pos; lia | apply Z.div_lt_upper_bound; lia]|].
  destruct (hex_digit_inv (b mod 16)) as (b2 & -> & Eb2); [apply Z.mod_pos_bound; lia|].
  destruct (hex_digit_inv (c / 16)) as (c1 & -> & Ec1);
    [split; [apply Z.div_pos; lia | apply Z.div_lt_upper_bound; lia]|].
  destruct (hex_digit_inv (c mod 16)) as (c2 & -> & Ec2); [apply Z.mod_pos_bound; lia|].
  split; [reflexivity|].
  simpl. rewrite Ea1, Ea2, Eb1, Eb2, Ec1, Ec2.
  rewrite <- !Z.div_mod by lia. reflexivity.
Qed.

Lemma trunc_range (q : Q) (k : Z) :
  (0 <= q)%Q -> (q <= inject_Z k)%Q -> 0 <= trunc q <= k.
Proof.
  intros H0 Hk. assert (E : trunc q = Qfloor q).
  { unfold trunc. destruct q as [a b]. simpl. apply Z.quot_div_nonneg; [|lia].
    unfold Qle in H0. simpl in H0. lia. }
  rewrite E. split.
  - change 0 with (Qfloor 0). apply Qfloor_resp_le, H0.
  - rewrite <- (Qfloor_Z k). apply Qfloor_resp_le, Hk.
Qed.

(** The table of base colours in hexadecimal is the table of their
    coordinates. *)
Lemma COLORS_HEX_RGB : COLORS_HEX = map rgb_hex COLORS_RGB.
Proof. reflexivity. Qed.

Ltac base_color_cases H :=
  repeat (apply elem_of_cons in H as [H | H]); [..| apply elem_of_nil in H; contradiction].

(** A colour of the fallback of [assign_color] has the form [#rrggbb] and
    is none of the base colours. *)
Lemma fallback_not_base (color : Z * Z * Z) (shade : bool) (coef : Q) :
  color ∈ COLORS_RGB -> (3 # 10 <= coef)%Q -> (coef <= 9 # 10)%Q ->
  let '(cr, cg, cb) := color in
  let change (coord : Z) : Z :=
    if shade then trunc (coef * inject_Z coord)
    else trunc (inject_Z coord + inject_Z (255 - coord) * coef) in
  let c := ("#" ++ format_02x (change cr) ++ format_02x (change cg)
                ++ format_02x (change cb))%string in
  String.length c = 7%nat /\ c ∉ COLORS_HEX.
Proof.
  intros Hin Hlo Hhi. destruct color as [[cr cg] cb]. intros change c.
  assert (Hq : forall coord, 0 <= coord <= 255 ->
             (0 <= (if shade then coef * inject_Z coord
                    else inject_Z coord + inject_Z (255 - coord) * coef))%Q
             /\ ((if shade then coef * inject_Z coord
                  else inject_Z coord + inject_Z (255 - coord) * coef) <= inject_Z 255)%Q).
  { intros coord Hc.
    assert (0 <= inject_Z coord)%Q by (rewrite (Zle_Qle 0) in Hc; tauto).
    assert (inject_Z coord <= 255)%Q by (destruct Hc as [_ Hc]; rewrite Zle_Qle in Hc; exact Hc).
    unfold Z.sub. rewrite inject_Z_plus, inject_Z_opp. change (inject_Z 255) with 255%Q.
    destruct shade; split; nra. }
  assert (Hbyte : forall coord, 0 <= coord <= 255 -> 0 <= change coord <= 255).
  { intros coord Hc. destruct (Hq coord Hc) as [H0 H255]. unfold change.
    destruct shade; apply trunc_range; assumption. }
  assert (Hrange : 0 <= cr <= 255 /\ 0 <= cg <= 255 /\ 0 <= cb <= 255).
  { base_color_cases Hin; injection Hin as -> -> ->; lia. }
  destruct Hrange as (Hr & Hg & Hb).
  assert (Ec : c = rgb_hex (change cr, change cg, change cb)).
  { unfold c, rgb_hex. rewrite !format_02x_byte by (apply Hbyte; assumption). reflexivity. }
  destruct (rgb_hex_shape (change cr) (change cg) (change cb)) as [Hlen Hparse];
    try (apply Hbyte; assumption).
  rewrite Ec. split; [exact Hlen|].
  intros Hbase. rewrite COLORS_HEX_RGB in Hbase.
  apply list_elem_of_fmap in Hbase as (T & Heq & HT).
  apply (f_equal rgb_of_hex) in Heq. rewrite Hparse in Heq.
  assert (Er : forall coord, 0 <= coord <= 255 ->
             (inject_Z (change coord)
              <= (if shade then coef * inject_Z coord
                  else inject_Z coord + inject_Z (255 - coord) * coef))%Q
             /\ ((if shade then coef * inject_Z coord
                  else inject_Z coord + inject_Z (255 - coord) * coef)
                 < inject_Z (change coord) + 1)%Q).
  { intros coord Hc. destruct (Hq coord Hc) as [H0 _]. unfold change.
    destruct shade; apply trunc_bounds; exact H0. }
  pose proof (Er cr Hr) as [Lr Ur]. pose proof (Er cg Hg) as [Lg Ug].
  pose proof (Er cb Hb) as [Lb Ub].
  clear Er Hq Hbyte Hparse Hlen Ec. clearbody change. clear c.
  base_color_cases Hin; injection Hin as -> -> ->;
    base_color_cases HT; subst T; vm_compute in Heq; injection Heq as Hcr Hcg Hcb;
    rewrite Hcr in Lr, Ur; rewrite Hcg in Lg, Ug; rewrite Hcb in Lb, Ub;
    destruct shade; unfold Z.sub in *; rewrite ?inject_Z_plus, ?inject_Z_opp in *;
    unfold inject_Z in *; lra.
Qed.

(** ** The buckets of a session *)

Section ManagementProperties.

Context {model R : Type} `{!Externals model R} `{!ColorDraws R}.

Local Abbreviation BucketSt := (Bucket model * World R)%type.

(** *** No method of a bucket changes what bucket management reads *)

Ltac frame_step :=
  first
    [ apply on_world_keeps_bucket
    | apply on_bucket_keeps_bucket
    | apply Bucket_train_keeps_bucket; repeat split; reflexivity
    | apply Bucket_slide_window_keeps; reflexivity
    | keeps_step ].

Lemma Bucket_user_feedback_keeps_frame (g nt bd : list Z) :
  keeps (fun s : BucketSt => bucket_frame (fst s)) (Bucket_user_feedback g nt bd).
Proof. unfold Bucket_user_feedback. repeat frame_step. Qed.

Lemma Bucket_remove_images_keeps_frame (imgs : list Z) :
  keeps (fun s : BucketSt => bucket_frame (fst s)) (Bucket_remove_images imgs).
Proof. unfold Bucket_remove_images, Bucket_remove_one. repeat frame_step. Qed.

Lemma Bucket_suggest_keeps_frame (n_suggs : Z) :
  keeps (fun s : BucketSt => bucket_frame (fst s)) (Bucket_suggest n_suggs).
Proof. unfold Bucket_suggest. repeat frame_step. Qed.

Lemma Bucket_top_images_keeps_frame (highest : bool) (n_top : option Z) :
  keeps (fun s : BucketSt => bucket_frame (fst s)) (Bucket__top_images highest n_top).
Proof. unfold Bucket__top_images. repeat frame_step. Qed.

Lemma Bucket_fast_forward_keeps_frame (n_ff : Z) :
  keeps (fun s : BucketSt => bucket_frame (fst s)) (Bucket_fast_forward n_ff).
Proof.
  unfold Bucket_fast_forward.
  repeat first [apply Bucket_top_images_keeps_frame | frame_step].
Qed.

Lemma Bucket_ff_commit_keeps_frame :
  keeps (fun s : BucketSt => bucket_frame (fst s)) Bucket_ff_commit.
Proof.
  unfold Bucket_ff_commit.
  repeat first
    [ frame_step
    | intros s;
      pose proof (Bucket_user_feedback_keeps_frame
                    (outstanding_ff (fst a)) [] (bad_ff (fst a)) s) as Hk;
      destruct (Bucket_user_feedback _ _ _ s) as [r [b' w']]; exact Hk ].
Qed.

(** *** Nor does a call that works inside the buckets *)

Lemma skeleton_dict_set (k : Z) (b b' : Bucket model) (bs : dict (Bucket model)) :
  dict_get k bs = Some b -> bucket_frame b' = bucket_frame b ->
  map (fun kb => (fst kb, bucket_frame (snd kb))) (dict_set k b' bs)
  = map (fun kb => (fst kb, bucket_frame (snd kb))) bs.
Proof.
  intros Hg Hf. induction bs as [|[k0 b0] bs IH]; simpl in *; [discriminate|].
  destruct (Z.eqb_spec k0 k) as [->|Hne]; simpl.
  - injection Hg as ->. rewrite Hf. reflexivity.
  - rewrite (IH Hg). reflexivity.
Qed.

Lemma with_bucket_keeps_frame {A} (k : Z) (c : M BucketSt A) :
  keeps (fun s : BucketSt => bucket_frame (fst s)) c ->
  keeps (@frame_of model R) (with_bucket k c).
Proof.
  intros H m. unfold with_bucket.
  destruct (dict_get k (buckets m)) as [b|] eqn:Hg; [|reflexivity].
  specialize (H (b, world m)). destruct (c (b, world m)) as [r [b' w']]. simpl in *.
  unfold frame_of, skeleton. simpl. rewrite (skeleton_dict_set k b b' _ Hg H). reflexivity.
Qed.

Lemma on_model_world_keeps_frame {A} (c : M (World R) A) :
  keeps (@frame_of model R) (on_model_world c).
Proof. unfold on_model_world. apply keeps_zoom_frame. reflexivity. Qed.

Ltac core_step :=
  first
    [ apply on_model_world_keeps_frame
    | apply with_bucket_keeps_frame;
      first [ apply Bucket_user_feedback_keeps_frame
            | apply Bucket_remove_images_keeps_frame
            | apply Bucket_suggest_keeps_frame
            | apply Bucket_top_images_keeps_frame
            | apply Bucket_fast_forward_keeps_frame
            | apply Bucket_ff_commit_keeps_frame ]
    | keeps_step ].

Lemma AIModel_user_feedback_keeps_frame (fb : list (Z * option Z)) :
  keeps (@frame_of model R) (AIModel_user_feedback fb).
Proof.
  unfold AIModel_user_feedback, dispatch_feedback.
  apply keeps_bind; [apply keeps_get|]. intros m.
  destruct (classify_feedback _ _ _) as [[u|e] acc]; repeat core_step.
Qed.

Lemma AIModel_transfer_images_keeps_frame (imgs : list Z) (src dst : Z) (mode : string) :
  keeps (@frame_of model R) (AIModel_transfer_images imgs src dst mode).
Proof. unfold AIModel_transfer_images, catch_KeyError. repeat core_step. Qed.

Lemma collect_discards_keeps_frame (requests : list (Z * Z)) :
  keeps (@frame_of model R) (collect_discards requests).
Proof.
  induction requests as [|[b k] rest IH]; simpl; [apply keeps_ret|].
  unfold Bucket_discard_candidates.
  repeat first [exact IH | core_step].
Qed.

Lemma AIModel_fast_forward_keeps_frame (bucket_id n_ff : Z) :
  keeps (@frame_of model R) (AIModel_fast_forward bucket_id n_ff).
Proof.
  unfold AIModel_fast_forward, AIModel__ff_discard.
  repeat first [apply collect_discards_keeps_frame | core_step].
Qed.

Lemma AIModel_ff_commit_keeps_frame (bucket_id : Z) :
  keeps (@frame_of model R) (AIModel_ff_commit bucket_id).
Proof. unfold AIModel_ff_commit, catch_KeyError. repeat core_step. Qed.

Lemma on_model_keeps_frame {A} (c : M (AIModel model R) A) :
  keeps (@frame_of model R) c ->
  keeps (fun s : AIModel model R * dict Z => frame_of (fst s)) (on_model c).
Proof.
  intros H. unfold on_model.
  apply (keeps_zoom_inner (@frame_of model R) fst (fun m s => (m, snd s))); [reflexivity | exact H].
Qed.

Lemma on_request_keeps_frame {A} (c : M (dict Z) A) :
  keeps (fun s : AIModel model R * dict Z => frame_of (fst s)) (on_request c).
Proof. unfold on_request. apply keeps_zoom_frame. reflexivity. Qed.

Ltac suggest_step :=
  first
    [ apply on_request_keeps_frame
    | apply on_model_keeps_frame;
      first [ apply keeps_modify; intros ?; reflexivity | repeat core_step ]
    | keeps_step ].

Lemma suggest_loop_keeps_frame (refresh : bool) (bs : list Z) (suggs : list img_info) :
  keeps (fun s : AIModel model R * dict Z => frame_of (fst s))
        (suggest_loop refresh bs suggs).
Proof.
  revert suggs. induction bs as [|b bs IH]; intros suggs; simpl; [apply keeps_ret|].
  apply keeps_bind; [|intros a; apply IH].
  unfold suggest_for_bucket. repeat suggest_step.
Qed.

Lemma AIModel_suggest_keeps_frame (refresh : bool) :
  keeps (fun s : AIModel model R * dict Z => frame_of (fst s)) (AIModel_suggest refresh).
Proof.
  unfold AIModel_suggest, AIModel__record_outstanding_suggs.
  repeat first [apply suggest_loop_keeps_frame | suggest_step].
Qed.

(** *** The invariant is a property of the frame and the colour flags *)

Lemma filter_map_frame {A B} (f : A -> B) (p : A -> bool) (q : B -> bool) (l : list A) :
  (forall x, p x = q (f x)) ->
  map f (List.filter p l) = List.filter q (map f l).
Proof.
  intros H. induction l as [|x l IH]; simpl; [reflexivity|].
  rewrite <- H. destruct (p x); simpl; rewrite IH; reflexivity.
Qed.

Lemma frame_keys (m : AIModel model R) : dict_keys (buckets m) = map fst (skeleton m).
Proof. unfold dict_keys, skeleton. rewrite map_map. reflexivity. Qed.

Lemma frame_orderings (m : AIModel model R) :
  bucket_orderings m = map (fun e => snd (fst (fst (snd e)))) (skeleton m).
Proof. unfold bucket_orderings, skeleton. rewrite map_map. reflexivity. Qed.

Lemma frame_colors (m : AIModel model R) :
  bucket_colors m = map (fun e => snd (snd e)) (skeleton m).
Proof. unfold bucket_colors, skeleton. rewrite map_map. reflexivity. Qed.

Lemma frame_len (m : AIModel model R) : len (buckets m) = len (skeleton m).
Proof. unfold len, skeleton. rewrite length_map. reflexivity. Qed.

Lemma frame_active (m : AIModel model R) :
  AIModel__active_buckets m
  = map fst (List.filter (fun e => snd (fst (snd e))) (skeleton m)).
Proof.
  unfold AIModel__active_buckets, skeleton.
  rewrite <- (filter_map_frame (fun kb => (fst kb, bucket_frame (snd kb)))
                (fun kb => active (snd kb))) by reflexivity.
  rewrite map_map. reflexivity.
Qed.

Lemma frame_ids (m : AIModel model R) (next : Z) :
  Forall (fun kb => id_ (snd kb) = fst kb /\ INIT_BUCKET_ID <= fst kb < next) (buckets m)
  <-> Forall (fun e => fst (fst (fst (snd e))) = fst e /\ INIT_BUCKET_ID <= fst e < next)
             (skeleton m).
Proof. unfold skeleton. rewrite Forall_map. reflexivity. Qed.

Lemma session_wf_frames (s : AIModelMgr model R) :
  session_wf s
  <-> frames_wf (skeleton (am_model s)) (next_bucket_id (am_model s))
                (taken (am_color_mgr s)).
Proof.
  unfold session_wf, frames_wf, base_colors_in_use.
  rewrite !frame_keys, !frame_ids, !frame_orderings, !frame_len, !frame_active,
    !frame_colors.
  unfold len at 2. rewrite length_map. reflexivity.
Qed.

Lemma session_wf_frame (s s' : AIModelMgr model R) :
  frame_of (am_model s') = frame_of (am_model s) ->
  am_color_mgr s' = am_color_mgr s ->
  session_wf s -> session_wf s'.
Proof.
  unfold frame_of. intros Hf Hc. injection Hf as Hsk Hnext.
  rewrite !session_wf_frames, Hsk, Hnext, Hc. tauto.
Qed.

Lemma on_core_run {A} (c : M (AIModel model R) A) (s : AIModelMgr model R) :
  on_core c s
  = (fst (c (am_model s)),
     {| am_model := snd (c (am_model s)); am_color_mgr := am_color_mgr s;
        am_config := am_config s |}).
Proof. unfold on_core, zoom. destruct (c (am_model s)). reflexivity. Qed.

Lemma session_wf_on_core {A} (c : M (AIModel model R) A) (s : AIModelMgr model R) :
  keeps (@frame_of model R) c -> session_wf s -> session_wf (snd (on_core c s)).
Proof.
  intros Hk. rewrite on_core_run. simpl.
  apply session_wf_frame; [apply Hk | reflexivity].
Qed.

Lemma frames_wf_perm (sk sk' : list (Z * (Z * Z * bool * string))) (next : Z)
    (flags : list bool) :
  Permutation sk sk' -> frames_wf sk next flags -> frames_wf sk' next flags.
Proof.
  intros Hp (H1 & H2 & H3 & H4 & H5 & H6 & H7 & H8).
  assert (Hlen : len sk' = len sk).
  { unfold len. rewrite (Permutation_length Hp). reflexivity. }
  assert (Hcol : Permutation
                   (filter (fun c => c ∈ COLORS_HEX) (map (fun e => snd (snd e)) sk))
                   (filter (fun c => c ∈ COLORS_HEX) (map (fun e => snd (snd e)) sk'))).
  { apply filter_Permutation, Permutation_map, Hp. }
  unfold frames_wf. rewrite Hlen. repeat split.
  - rewrite <- (Permutation_map fst Hp). exact H1.
  - rewrite <- Hp. exact H2.
  - rewrite <- (Permutation_map _ Hp). exact H3.
  - unfold len. rewrite <- (Permutation_length (filter_perm _ _ _ Hp)). exact H4.
  - exact H5.
  - exact H6.
  - rewrite <- Hcol. exact H7.
  - intros Ht. rewrite <- Hcol. apply (H8 i c H). exact Ht.
  - intros Ht. rewrite <- Hcol in Ht. apply (H8 i c H). exact Ht.
Qed.

Lemma skeleton_entries (m : AIModel model R) : skeleton m = map frame_entry (buckets m).
Proof. reflexivity. Qed.

Lemma with_bucket_only_run {A} (k : Z) (c : M (Bucket model) A) (m : AIModel model R)
    (b : Bucket model) :
  dict_get k (buckets m) = Some b ->
  with_bucket_only k c m
  = (fst (c b), set_buckets (dict_set k (snd (c b)) (buckets m)) m).
Proof. intros H. unfold with_bucket_only. rewrite H. destruct (c b). reflexivity. Qed.

(** *** toggle_bucket *)

Lemma AIModel_toggle_bucket_run (k : Z) (m : AIModel model R) :
  AIModel_toggle_bucket k m
  = match dict_get k (buckets m) with
    | None => (Raise ValueError, m)
    | Some b =>
        if negb (active b) && (N_MAX_ACTIVE_BUCKETS <=? len (AIModel__active_buckets m))
        then (Raise ValueError, m)
        else (Ok {| note_bucket_id := k; note_bucket_name := name b;
                    note_is_now_active := negb (active b) |},
              set_buckets (dict_set k (set_active (negb (active b)) b) (buckets m)) m)
    end.
Proof.
  unfold AIModel_toggle_bucket. rewrite bind_run. unfold get.
  destruct (dict_get k (buckets m)) as [b|] eqn:Hg; [|reflexivity].
  destruct (negb (active b) && _); [reflexivity|].
  rewrite bind_run, (with_bucket_only_run _ _ _ _ Hg). reflexivity.
Qed.

Lemma frames_wf_toggle (k : Z) (m : AIModel model R) (b : Bucket model)
    (flags : list bool) :
  dict_get k (buckets m) = Some b ->
  negb (active b) && (N_MAX_ACTIVE_BUCKETS <=? len (AIModel__active_buckets m)) = false ->
  frames_wf (skeleton m) (next_bucket_id m) flags ->
  frames_wf (map frame_entry (dict_set k (set_active (negb (active b)) b) (buckets m)))
            (next_bucket_id m) flags.
Proof.
  intros Hg Hguard Hwf.
  assert (Hact : len (AIModel__active_buckets m)
                 = len (List.filter (fun e => snd (fst (snd e))) (skeleton m))).
  { rewrite frame_active. unfold len. rewrite length_map. reflexivity. }
  rewrite Hact in Hguard.
  pose proof (Permutation_map frame_entry (dict_get_perm_del _ _ _ Hg)) as Hold.
  pose proof (Permutation_map frame_entry
                (dict_set_perm_del k (set_active (negb (active b)) b) b _ Hg)) as Hnew.
  rewrite skeleton_entries in Hwf, Hguard.
  apply (frames_wf_perm _ _ _ _ Hold) in Hwf.
  apply (frames_wf_perm _ _ _ _ (Permutation_sym Hnew)).
  assert (Hlenf : len (List.filter (fun e => snd (fst (snd e))) (map frame_entry (buckets m)))
                  = len (List.filter (fun e => snd (fst (snd e)))
                           (map frame_entry ((k, b) :: dict_del k (buckets m))))).
  { unfold len. rewrite (Permutation_length (filter_perm _ _ _ Hold)). reflexivity. }
  rewrite Hlenf in Hguard. clear Hold Hnew Hlenf Hact.
  destruct Hwf as (H1 & H2 & H3 & H4 & H5 & H6 & H7 & H8).
  simpl in *. unfold frames_wf. simpl. repeat split; try assumption.
  - apply Forall_cons in H2 as [H2 H2']. constructor; assumption.
  - unfold len, N_MAX_ACTIVE_BUCKETS in *.
    destruct (active b); simpl in *; [lia|].
    destruct (Z.leb_spec 7 (Z.of_nat (length
                (List.filter (fun e : Z * (Z * Z * bool * string) => snd (fst (snd e)))
                   (map frame_entry (dict_del k (buckets m))))))); [discriminate | lia].
  - apply H8. exact H.
  - apply H8. exact H.
Qed.

(** *** swap_buckets *)

Lemma set_buckets_same (m : AIModel model R) : set_buckets (buckets m) m = m.
Proof. destruct m. reflexivity. Qed.

Lemma set_ordering_same (b : Bucket model) : set_ordering (ordering b) b = b.
Proof. destruct b. reflexivity. Qed.

Lemma set_active_same (b : Bucket model) : set_active (active b) b = b.
Proof. destruct b. reflexivity. Qed.

Lemma AIModel_swap_buckets_run (k1 k2 : Z) (m : AIModel model R) :
  AIModel_swap_buckets k1 k2 m
  = match dict_get k1 (buckets m), dict_get k2 (buckets m) with
    | Some b1, Some b2 =>
        (Ok (k1, name b1, k2, name b2),
         set_buckets (dict_set k2 (set_ordering (ordering b1) b2)
                        (dict_set k1 (set_ordering (ordering b2) b1) (buckets m))) m)
    | _, _ => (Raise ValueError, m)
    end.
Proof.
  unfold AIModel_swap_buckets. rewrite bind_run. unfold get.
  destruct (dict_get k1 (buckets m)) as [b1|] eqn:H1; [|reflexivity].
  destruct (dict_get k2 (buckets m)) as [b2|] eqn:H2; [|reflexivity].
  rewrite bind_run, (with_bucket_only_run _ _ _ _ H1). simpl.
  rewrite bind_run.
  destruct (Z.eq_dec k1 k2) as [<-|Hne].
  - rewrite (with_bucket_only_run _ _ _ (set_ordering (ordering b2) b1))
      by (simpl; apply dict_get_set_eq).
    simpl. rewrite H1 in H2. injection H2 as <-. reflexivity.
  - rewrite (with_bucket_only_run _ _ _ b2)
      by (simpl; rewrite dict_get_set_ne by exact Hne; exact H2).
    reflexivity.
Qed.

Lemma swap_entries (k1 k2 : Z) (b1 b2 : Bucket model) (bs : dict (Bucket model)) :
  k1 <> k2 -> dict_get k1 bs = Some b1 -> dict_get k2 bs = Some b2 ->
  Permutation bs ((k2, b2) :: (k1, b1) :: dict_del k1 (dict_del k2 bs))
  /\ forall b1' b2',
       Permutation (dict_set k2 b2' (dict_set k1 b1' bs))
                   ((k2, b2') :: (k1, b1') :: dict_del k1 (dict_del k2 bs)).
Proof.
  intros Hne H1 H2. split.
  - rewrite (dict_get_perm_del _ _ _ H2) at 1. constructor.
    apply dict_get_perm_del. rewrite dict_get_del_ne by congruence. exact H1.
  - intros b1' b2'.
    rewrite (dict_set_perm_del k2 b2' b2)
      by (rewrite dict_get_set_ne by exact Hne; exact H2).
    constructor. rewrite dict_del_set_comm by exact Hne.
    apply (dict_set_perm_del k1 b1' b1).
    rewrite dict_get_del_ne by congruence. exact H1.
Qed.

Lemma frames_wf_swap (k1 k2 : Z) (m : AIModel model R) (b1 b2 : Bucket model)
    (flags : list bool) :
  dict_get k1 (buckets m) = Some b1 -> dict_get k2 (buckets m) = Some b2 ->
  frames_wf (skeleton m) (next_bucket_id m) flags ->
  frames_wf (map frame_entry
               (dict_set k2 (set_ordering (ordering b1) b2)
                  (dict_set k1 (set_ordering (ordering b2) b1) (buckets m))))
            (next_bucket_id m) flags.
Proof.
  intros Hg1 Hg2 Hwf. destruct (Z.eq_dec k1 k2) as [<-|Hne].
  - rewrite Hg1 in Hg2. injection Hg2 as <-.
    rewrite dict_set_set, set_ordering_same, (dict_set_same _ _ _ Hg1). exact Hwf.
  - destruct (swap_entries k1 k2 b1 b2 _ Hne Hg1 Hg2) as [Hold Hnew].
    specialize (Hnew (set_ordering (ordering b2) b1) (set_ordering (ordering b1) b2)).
    apply (Permutation_map frame_entry) in Hold, Hnew.
    rewrite skeleton_entries in Hwf.
    apply (frames_wf_perm _ _ _ _ Hold) in Hwf.
    apply (frames_wf_perm _ _ _ _ (Permutation_sym Hnew)).
    clear Hold Hnew.
    destruct Hwf as (H1 & H2 & H3 & H4 & H5 & H6 & H7 & H8).
    simpl in *. unfold frames_wf. simpl. repeat split; try assumption.
    + apply Forall_cons in H2 as [Ha H2]. apply Forall_cons in H2 as [Hb H2].
      constructor; [exact Ha|]. constructor; [exact Hb | exact H2].
    + etransitivity; [apply perm_swap | exact H3].
    + destruct (active b1), (active b2); exact H4.
    + apply H8. exact H.
    + apply H8. exact H.
Qed.

(** *** rename_bucket *)

Lemma AIModel_rename_bucket_run (k : Z) (new_name : string) (m : AIModel model R) :
  AIModel_rename_bucket k new_name m
  = match dict_get k (buckets m) with
    | None => (Raise ValueError, m)
    | Some b =>
        if MAX_BUCKET_NAME_LENGTH <? Z.of_nat (py_str_len new_name)
        then (Raise ValueError, m)
        else (Ok (k, name b, new_name),
              set_buckets (dict_set k (set_name new_name b) (buckets m)) m)
    end.
Proof.
  unfold AIModel_rename_bucket. rewrite bind_run. unfold get.
  destruct (dict_get k (buckets m)) as [b|] eqn:Hg; [|reflexivity].
  rewrite bind_run, (with_bucket_only_run _ _ _ _ Hg). unfold Bucket_rename.
  destruct (MAX_BUCKET_NAME_LENGTH <? _); simpl.
  - rewrite (dict_set_same _ _ _ Hg), set_buckets_same. reflexivity.
  - rewrite bind_run. unfold get. rewrite bind_run. unfold lift_result, dict_lookup. simpl.
    rewrite dict_get_set_eq. reflexivity.
Qed.

Lemma AIModel_rename_bucket_keeps_frame (k : Z) (new_name : string) :
  keeps (@frame_of model R) (AIModel_rename_bucket k new_name).
Proof.
  intros m. rewrite AIModel_rename_bucket_run.
  destruct (dict_get k (buckets m)) as [b|] eqn:Hg; [|reflexivity].
  destruct (MAX_BUCKET_NAME_LENGTH <? _); [reflexivity|].
  unfold frame_of, skeleton. simpl.
  rewrite (skeleton_dict_set k b (set_name new_name b) _ Hg) by reflexivity. reflexivity.
Qed.

(** *** delete_bucket *)

Lemma relinquish_color_run (c : string) (mgr : BucketColorManager) :
  length (taken mgr) = N_COLORS ->
  BucketColorManager_relinquish_color c mgr
  = (Ok tt, match str_index c COLORS_HEX with
            | Ok i => {| taken := <[i := false]> (taken mgr) |}
            | Raise _ => mgr
            end).
Proof.
  intros Hlen. unfold BucketColorManager_relinquish_color.
  destruct (str_index c COLORS_HEX) as [i|e] eqn:Hi; [|reflexivity].
  apply str_index_Ok in Hi. apply lookup_lt_Some in Hi.
  rewrite bind_run. unfold get. rewrite bind_run. unfold lift_result, set_index.
  fold N_COLORS in Hi. rewrite <- Hlen in Hi. apply Nat.ltb_lt in Hi. rewrite Hi.
  reflexivity.
Qed.

Lemma AIModel_delete_bucket_run (k : Z) (s : AIModelMgr model R) :
  length (taken (am_color_mgr s)) = N_COLORS ->
  AIModel_delete_bucket k s
  = if len (buckets (am_model s)) =? 1 then (Raise ValueError, s)
    else match dict_get k (buckets (am_model s)) with
         | None => (Raise ValueError, s)
         | Some b =>
             (Ok (k, name b),
              {| am_model :=
                   set_buckets (map (shift_entry (ordering b))
                                    (dict_del k (buckets (am_model s)))) (am_model s);
                 am_color_mgr :=
                   match str_index (color b) COLORS_HEX with
                   | Ok i => {| taken := <[i := false]> (taken (am_color_mgr s)) |}
                   | Raise _ => am_color_mgr s
                   end;
                 am_config := am_config s |})
         end.
Proof.
  intros Hlen. unfold AIModel_delete_bucket. rewrite bind_run. unfold get.
  destruct (len (buckets (am_model s)) =? 1); [reflexivity|].
  destruct (dict_get k (buckets (am_model s))) as [b|]; [|reflexivity].
  rewrite bind_run. unfold on_color_mgr, zoom, Bucket_delete.
  rewrite (relinquish_color_run _ _ Hlen).
  rewrite bind_run, on_core_run. simpl.
  rewrite bind_run, on_core_run. simpl. reflexivity.
Qed.

(** Taking one number out of the numbers below [n + 1] and moving the
    larger ones down by one gives the numbers below [n]. *)
Lemma orderings_after_deletion (o : Z) (l : list Z) :
  Permutation (o :: l) (py_range (len (o :: l))) ->
  Permutation (map (fun x => if o <? x then x - 1 else x) l) (py_range (len l)).
Proof.
  unfold py_range, len. simpl length. rewrite !Nat2Z.id. intros Hp.
  assert (Hin : o ∈ map Z.of_nat (seq 0 (S (length l)))).
  { rewrite <- Hp. apply elem_of_cons. left. reflexivity. }
  apply list_elem_of_fmap in Hin as (j & -> & Hj). apply elem_of_seq in Hj.
  assert (Hsplit : seq 0 (S (length l))
                   = seq 0 j ++ j :: seq (S j) (length l - j)).
  { replace (S (length l)) with (j + S (length l - j))%nat by lia.
    rewrite seq_app. reflexivity. }
  rewrite Hsplit, map_app in Hp. simpl in Hp.
  rewrite <- Permutation_middle in Hp. apply Permutation_cons_inv in Hp.
  assert (Hn : seq 0 (length l) = seq 0 j ++ seq j (length l - j)).
  { replace (length l) with (j + (length l - j))%nat at 1 by lia.
    rewrite seq_app. reflexivity. }
  rewrite Hn. remember (length l - j)%nat as m eqn:Hm. clear Hm Hn Hsplit Hj.
  rewrite Hp, !map_app. apply Permutation_app.
  - rewrite map_map. erewrite map_ext_in; [reflexivity|].
    intros x Hx. apply in_seq in Hx. simpl.
    destruct (Z.ltb_spec (Z.of_nat j) (Z.of_nat x)); [lia | reflexivity].
  - rewrite map_map, <- seq_shift, map_map.
    erewrite map_ext_in; [reflexivity|].
    intros x Hx. apply in_seq in Hx. simpl.
    destruct (Z.ltb_spec (Z.of_nat j) (Z.of_nat (S x))); lia.
Qed.

Lemma shift_entry_frame (o : Z) (l : dict (Bucket model)) :
  map frame_entry (map (shift_entry o) l) = map (shift_frame o) (map frame_entry l).
Proof.
  rewrite !map_map. apply map_ext. intros [k b].
  unfold shift_entry, frame_entry, bucket_frame, shift_frame,
    Bucket_update_ordering_after_deletion. simpl.
  destruct (o <? ordering b); reflexivity.
Qed.

Lemma COLORS_HEX_NoDup : NoDup COLORS_HEX.
Proof. apply (bool_decide_unpack _). vm_compute. exact I. Qed.

Lemma COLORS_HEX_inj (i j : nat) (c : string) :
  COLORS_HEX !! i = Some c -> COLORS_HEX !! j = Some c -> i = j.
Proof. intros Hi Hj. exact (NoDup_lookup _ _ _ _ COLORS_HEX_NoDup Hi Hj). Qed.

Lemma frames_wf_delete (k i o : Z) (a : bool) (c : string)
    (rest : list (Z * (Z * Z * bool * string))) (next : Z) (flags : list bool) :
  frames_wf ((k, (i, o, a, c)) :: rest) next flags ->
  rest <> [] ->
  frames_wf (map (shift_frame o) rest) next
            (match str_index c COLORS_HEX with
             | Ok j => <[j := false]> flags
             | Raise _ => flags
             end).
Proof.
  intros (H1 & H2 & H3 & H4 & H5 & H6 & H7 & H8) Hne.
  assert (Hfst : map fst (map (shift_frame o) rest) = map fst rest).
  { rewrite map_map. apply map_ext. intros [k' [[[i' o'] a'] c']]. reflexivity. }
  assert (Hcol : map (fun e => snd (snd e)) (map (shift_frame o) rest)
                 = map (fun e => snd (snd e)) rest).
  { rewrite map_map. apply map_ext. intros [k' [[[i' o'] a'] c']]. reflexivity. }
  assert (Hord : map (fun e => snd (fst (fst (snd e)))) (map (shift_frame o) rest)
                 = map (fun x => if o <? x then x - 1 else x)
                       (map (fun e => snd (fst (fst (snd e)))) rest)).
  { rewrite !map_map. apply map_ext. intros [k' [[[i' o'] a'] c']]. reflexivity. }
  assert (Hact : List.filter (fun e => snd (fst (snd e))) (map (shift_frame o) rest)
                 = map (shift_frame o) (List.filter (fun e => snd (fst (snd e))) rest)).
  { clear. induction rest as [|[k' [[[i' o'] a'] c']] rest IH]; [reflexivity|].
    simpl. destruct a'; simpl; rewrite IH; reflexivity. }
  assert (Hlen : len (map (shift_frame o) rest) = len rest).
  { unfold len. rewrite length_map. reflexivity. }
  unfold frames_wf. rewrite Hfst, Hcol, Hord, Hact, Hlen.
  change (NoDup (k :: map fst rest)) in H1.
  change (Permutation (o :: map (fun e => snd (fst (fst (snd e)))) rest)
            (py_range (len ((k, (i, o, a, c)) :: rest)))) in H3.
  replace (len ((k, (i, o, a, c)) :: rest))
    with (len (o :: map (fun e => snd (fst (fst (snd e)))) rest)) in H3
    by (unfold len; simpl; rewrite length_map; reflexivity).
  change (len (if a then (k, (i, o, a, c))
                           :: List.filter (fun e => snd (fst (snd e))) rest
               else List.filter (fun e => snd (fst (snd e))) rest)
          <= N_MAX_ACTIVE_BUCKETS) in H4.
  change (NoDup (filter (fun c => c ∈ COLORS_HEX)
                   (c :: map (fun e => snd (snd e)) rest))) in H7.
  change (forall i c0, COLORS_HEX !! i = Some c0 ->
            (flags !! i = Some true
             <-> c0 ∈ filter (fun c => c ∈ COLORS_HEX)
                        (c :: map (fun e => snd (snd e)) rest))) in H8.
  repeat split.
  - apply NoDup_cons in H1 as [_ H1]. exact H1.
  - apply Forall_cons in H2 as [_ H2]. apply Forall_map.
    eapply Forall_impl; [exact H2|]. intros [k' [[[i' o'] a'] c']]. simpl. tauto.
  - pose proof (orderings_after_deletion o _ H3) as Hp.
    unfold len in Hp |- *. rewrite length_map in Hp. exact Hp.
  - unfold len in *. rewrite length_map. destruct a; simpl length in H4; lia.
  - unfold len. destruct rest; [contradiction | simpl; lia].
  - destruct (str_index c COLORS_HEX); [rewrite length_insert|]; exact H6.
  - rewrite filter_cons in H7. destruct (decide (c ∈ COLORS_HEX)); [|exact H7].
    apply NoDup_cons in H7 as [_ H7]. exact H7.
  - intros Hflag. destruct (str_index c COLORS_HEX) as [j|e] eqn:Hj.
    + apply str_index_Ok in Hj.
      destruct (decide (i0 = j)) as [->|Hij].
      * rewrite list_lookup_insert_eq in Hflag
          by (apply lookup_lt_Some in Hj; fold N_COLORS in Hj; lia).
        discriminate.
      * rewrite list_lookup_insert_ne in Hflag by congruence.
        apply (H8 _ _ H) in Hflag. rewrite filter_cons in Hflag.
        destruct (decide (c ∈ COLORS_HEX)) as [_|Hn].
        -- apply elem_of_cons in Hflag as [->|Hflag]; [|exact Hflag].
           exfalso. apply Hij. exact (COLORS_HEX_inj _ _ _ H Hj).
        -- exact Hflag.
    + apply str_index_Raise in Hj. apply (H8 _ _ H) in Hflag.
      rewrite filter_cons in Hflag. destruct (decide (c ∈ COLORS_HEX)); tauto.
  - intros Hin. destruct (str_index c COLORS_HEX) as [j|e] eqn:Hj.
    + apply str_index_Ok in Hj.
      assert (Hc : c ∈ COLORS_HEX) by (eapply list_elem_of_lookup_2; exact Hj).
      rewrite filter_cons in H7, H8. destruct (decide (c ∈ COLORS_HEX)); [|contradiction].
      apply NoDup_cons in H7 as [Hnotin H7].
      destruct (decide (i0 = j)) as [->|Hij].
      * exfalso. rewrite Hj in H. injection H as ->. contradiction.
      * rewrite list_lookup_insert_ne by congruence. apply (H8 _ _ H).
        apply elem_of_cons. right. exact Hin.
    + apply str_index_Raise in Hj. apply (H8 _ _ H). rewrite filter_cons.
      destruct (decide (c ∈ COLORS_HEX)); [contradiction | exact Hin].
Qed.

Lemma session_wf_delete (k : Z) (s : AIModelMgr model R) :
  session_wf s -> session_wf (snd (AIModel_delete_bucket k s)).
Proof.
  intros Hwf. pose proof Hwf as Hfr. apply session_wf_frames in Hfr.
  assert (Hlen : length (taken (am_color_mgr s)) = N_COLORS) by apply Hfr.
  rewrite (AIModel_delete_bucket_run _ _ Hlen).
  destruct (Z.eqb_spec (len (buckets (am_model s))) 1) as [|Hn]; [exact Hwf|].
  destruct (dict_get k (buckets (am_model s))) as [b|] eqn:Hg; [|exact Hwf].
  pose proof (Permutation_map frame_entry (dict_get_perm_del _ _ _ Hg)) as Hold.
  rewrite skeleton_entries in Hfr.
  apply (frames_wf_perm _ _ _ _ Hold) in Hfr.
  assert (Hne : map frame_entry (dict_del k (buckets (am_model s))) <> []).
  { intros Hnil. apply map_eq_nil in Hnil. apply Hn.
    unfold len. rewrite (Permutation_length (dict_get_perm_del _ _ _ Hg)), Hnil.
    reflexivity. }
  pose proof (frames_wf_delete k (id_ b) (ordering b) (active b) (color b) _ _ _
                Hfr Hne) as Hres.
  apply session_wf_frames. rewrite skeleton_entries.
  destruct (str_index (color b) COLORS_HEX); cbn [snd am_model am_color_mgr taken];
    unfold set_buckets; cbn [buckets next_bucket_id];
    rewrite shift_entry_frame; exact Hres.
Qed.

(** *** create_bucket *)

Lemma taken_cases (t : list bool) :
  (exists i, (i < length t)%nat /\ t !! i = Some false
             /\ forall j, (j < i)%nat -> t !! j = Some true)
  \/ (forall j, (j < length t)%nat -> t !! j = Some true).
Proof.
  induction t as [|b t IH].
  - right. simpl. intros j Hj. lia.
  - destruct b.
    + destruct IH as [(i & Hi & Hf & Hb)|Hall].
      * left. exists (S i). simpl. split; [lia|]. split; [exact Hf|].
        intros [|j] Hj; [reflexivity | apply Hb; lia].
      * right. intros [|j] Hj; [reflexivity | apply Hall; simpl in Hj; lia].
    + left. exists O. simpl. split; [lia|]. split; [reflexivity|]. intros j Hj. lia.
Qed.

Lemma assign_color_fallback (mgr : BucketColorManager) (r : R) :
  (forall j, (j < N_COLORS)%nat -> taken mgr !! j = Some true) ->
  BucketColorManager_assign_color (mgr, r)
  = let '((color, shade, change_coef), r') := color_draws r in
    let '(cr, cg, cb) := color in
    let change (coord : Z) : Z :=
      if shade then trunc (change_coef * inject_Z coord)
      else trunc (inject_Z coord + inject_Z (255 - coord) * change_coef) in
    (Ok ("#" ++ format_02x (change cr) ++ format_02x (change cg)
             ++ format_02x (change cb))%string, (mgr, r')).
Proof.
  intros Hall. unfold BucketColorManager_assign_color.
  rewrite bind_run. unfold get. simpl fst. simpl snd.
  rewrite bind_run. unfold lift_result at 1. rewrite (first_free_none _ Hall).
  destruct (color_draws r) as [[[[[cr cg] cb] shade] coef] r'].
  rewrite bind_run. reflexivity.
Qed.

(** What [assign_color] gives on a manager with a flag per base colour:
    the first free base colour, whose flag goes up, or a colour that is no
    base colour, the flags unchanged. *)
Lemma assign_color_outcome (mgr : BucketColorManager) (r : R) :
  color_draws_in_range -> length (taken mgr) = N_COLORS ->
  exists c flags' r',
    BucketColorManager_assign_color (mgr, r) = (Ok c, ({| taken := flags' |}, r'))
    /\ ((exists i, COLORS_HEX !! i = Some c /\ taken mgr !! i = Some false
                   /\ (forall j, (j < i)%nat -> taken mgr !! j = Some true)
                   /\ flags' = <[i := true]> (taken mgr) /\ r' = r)
        \/ ((c ∉ COLORS_HEX) /\ String.length c = 7%nat /\ flags' = taken mgr
            /\ (forall j, (j < N_COLORS)%nat -> taken mgr !! j = Some true)
            /\ r' = snd (color_draws r))).
Proof.
  intros Hdraws Hlen.
  destruct (taken_cases (taken mgr)) as [(i & Hi & Hf & Hb)|Hall].
  - rewrite Hlen in Hi.
    destruct (assign_color_base mgr r i Hi Hf Hb) as (c & Hc & Hrun).
    exists c, (<[i := true]> (taken mgr)), r. split; [exact Hrun|].
    left. exists i. repeat split; assumption.
  - rewrite Hlen in Hall. rewrite (assign_color_fallback _ _ Hall).
    specialize (Hdraws r).
    destruct (color_draws r) as [[[[[cr cg] cb] shade] coef] r'].
    destruct Hdraws as (Hin & Hlo & Hhi).
    pose proof (fallback_not_base (cr, cg, cb) shade coef Hin Hlo Hhi) as [Hl Hn].
    eexists _, (taken mgr), r'. split; [destruct mgr; reflexivity|].
    right. repeat split; assumption.
Qed.

Lemma py_range_succ (n : Z) : 0 <= n -> py_range (n + 1) = py_range n ++ [n].
Proof.
  intros Hn. unfold py_range.
  replace (Z.to_nat (n + 1)) with (Z.to_nat n + 1)%nat by lia.
  rewrite seq_app, map_app. simpl. rewrite Z2Nat.id by exact Hn. reflexivity.
Qed.

Lemma frames_wf_create (sk : list (Z * (Z * Z * bool * string))) (next : Z)
    (flags flags' : list bool) (c : string) :
  NoDup (map fst sk) ->
  Forall (fun e => fst (fst (fst (snd e))) = fst e
                   /\ INIT_BUCKET_ID <= fst e < next) sk ->
  Permutation (map (fun e => snd (fst (fst (snd e)))) sk) (py_range (len sk)) ->
  len (List.filter (fun e => snd (fst (snd e))) sk) <= N_MAX_ACTIVE_BUCKETS ->
  length flags = N_COLORS ->
  NoDup (filter (fun c => c ∈ COLORS_HEX) (map (fun e => snd (snd e)) sk)) ->
  (forall i c, COLORS_HEX !! i = Some c ->
     (flags !! i = Some true
      <-> c ∈ filter (fun c => c ∈ COLORS_HEX) (map (fun e => snd (snd e)) sk))) ->
  INIT_BUCKET_ID <= next ->
  ((exists i, COLORS_HEX !! i = Some c /\ flags !! i = Some false
              /\ flags' = <[i := true]> flags)
   \/ ((c ∉ COLORS_HEX) /\ flags' = flags)) ->
  frames_wf
    (sk ++ [(next, (next, len sk,
                    negb (N_MAX_ACTIVE_BUCKETS
                          <=? len (List.filter (fun e => snd (fst (snd e))) sk)), c))])
    (next + 1) flags'.
Proof.
  intros H1 H2 H3 H4 H6 H7 H8 Hnext Hc.
  assert (Hfresh : next ∉ map fst sk).
  { intros Hin. apply list_elem_of_fmap in Hin as (e & He & Hin).
    rewrite Forall_forall in H2. apply H2 in Hin. lia. }
  unfold frames_wf.
  rewrite !map_app, List.filter_app. cbn [map fst snd List.filter].
  assert (Hlen : len (sk ++ [(next, (next, len sk,
                    negb (N_MAX_ACTIVE_BUCKETS
                          <=? len (List.filter (fun e => snd (fst (snd e))) sk)), c))])
                 = len sk + 1).
  { unfold len. rewrite length_app. simpl. lia. }
  rewrite Hlen. rewrite filter_app.
  repeat split.
  - apply NoDup_app. split; [exact H1|]. split.
    + intros x Hx Hx'. apply list_elem_of_singleton in Hx'. subst x. contradiction.
    + apply NoDup_singleton.
  - apply Forall_app. split.
    + eapply Forall_impl; [exact H2|]. simpl. intros e He. lia.
    + repeat constructor; simpl; lia.
  - rewrite py_range_succ by (unfold len; lia).
    apply Permutation_app; [exact H3 | reflexivity].
  - unfold len in *. rewrite length_app.
    destruct (Z.leb_spec N_MAX_ACTIVE_BUCKETS
                (Z.of_nat (length (List.filter (fun e : Z * (Z * Z * bool * string)
                                                => snd (fst (snd e))) sk))));
      simpl; lia.
  - unfold len. lia.
  - destruct Hc as [(i & _ & _ & ->)|[_ ->]]; [rewrite length_insert|]; exact H6.
  - rewrite filter_cons, filter_nil.
    destruct (decide (c ∈ COLORS_HEX)) as [Hin|Hn]; [|rewrite app_nil_r; exact H7].
    apply NoDup_app. split; [exact H7|]. split; [|apply NoDup_singleton].
    intros x Hx Hx'. apply list_elem_of_singleton in Hx'. subst x.
    destruct Hc as [(i & Hi & Hf & _)|[Hn _]]; [|contradiction].
    apply (H8 _ _ Hi) in Hx. congruence.
  - intros Hflag. rewrite filter_cons, filter_nil. apply elem_of_app.
    destruct Hc as [(j & Hj & Hf & ->)|[Hn ->]].
    + destruct (decide (i = j)) as [->|Hij].
      * right. rewrite H in Hj. injection Hj as ->.
        destruct (decide (c ∈ COLORS_HEX)) as [_|Hn]; [apply list_elem_of_singleton; reflexivity|].
        exfalso. apply Hn. eapply list_elem_of_lookup_2. exact H.
      * rewrite list_lookup_insert_ne in Hflag by congruence.
        left. apply (H8 _ _ H). exact Hflag.
    + left. apply (H8 _ _ H). exact Hflag.
  - rewrite filter_cons, filter_nil. intros Hin. apply elem_of_app in Hin.
    destruct Hc as [(j & Hj & Hf & ->)|[Hn ->]].
    + destruct (decide (i = j)) as [->|Hij].
      * apply list_lookup_insert_eq. apply lookup_lt_Some in Hf. exact Hf.
      * rewrite list_lookup_insert_ne by congruence. apply (H8 _ _ H).
        destruct Hin as [Hin|Hin]; [exact Hin|].
        destruct (decide (c ∈ COLORS_HEX)); [|apply elem_of_nil in Hin; contradiction].
        apply list_elem_of_singleton in Hin. subst c0.
        exfalso. apply Hij. exact (COLORS_HEX_inj _ _ _ H Hj).
    + apply (H8 _ _ H). destruct Hin as [Hin|Hin]; [exact Hin|].
      destruct (decide (c ∈ COLORS_HEX)); [contradiction|].
      apply elem_of_nil in Hin. contradiction.
Qed.

Lemma Bucket_init_run (bucket_id : Z) (bucket_name : string) (is_active : bool)
    (bucket_ordering n_coll : Z) (cfg : ModelConfig)
    (st st' : BucketColorManager * R) (c : string) :
  BucketColorManager_assign_color st = (Ok c, st') ->
  exists b : Bucket model,
    Bucket_init bucket_id bucket_name is_active bucket_ordering n_coll cfg st = (Ok b, st')
    /\ bucket_frame b = (bucket_id, bucket_ordering, is_active, c)
    /\ name b = bucket_name /\ images b = [] /\ negatives b = []
    /\ svm_model b = None /\ active_suggs b = None
    /\ outstanding_ff b = [] /\ bad_ff b = []
    /\ n_sugg_candidates b = cfg_n_sugg_candidates cfg
    /\ oracle_mode b = cfg_oracle_mode cfg /\ al_ratio b = cfg_al_ratio cfg.
Proof.
  intros Hrun. unfold Bucket_init. rewrite bind_run, Hrun.
  eexists. split; [reflexivity|]. repeat split.
Qed.

Lemma AIModel_create_bucket_run (s : AIModelMgr model R) (c : string)
    (flags' : list bool) (r' : R) :
  len (buckets (am_model s)) < N_MAX_BUCKETS ->
  BucketColorManager_assign_color (am_color_mgr s, rng (world (am_model s)))
  = (Ok c, ({| taken := flags' |}, r')) ->
  let m := am_model s in
  let bucket_active := negb (N_MAX_ACTIVE_BUCKETS <=? len (AIModel__active_buckets m)) in
  let bucket_name := ("Bucket " ++ pretty (next_bucket_id m))%string in
  exists b : Bucket model,
    AIModel_create_bucket s
    = (Ok {| note_bucket_id := next_bucket_id m; note_bucket_name := bucket_name;
             note_is_now_active := bucket_active |},
       {| am_model :=
            set_next_bucket_id (next_bucket_id m + 1)
              (set_buckets (dict_set (next_bucket_id m) b (buckets m))
                 (set_world (set_rng r' (world m)) m));
          am_color_mgr := {| taken := flags' |};
          am_config := am_config s |})
    /\ bucket_frame b = (next_bucket_id m, len (buckets m), bucket_active, c)
    /\ name b = bucket_name /\ images b = [] /\ negatives b = []
    /\ svm_model b = None /\ active_suggs b = None
    /\ outstanding_ff b = [] /\ bad_ff b = []
    /\ n_sugg_candidates b = cfg_n_sugg_candidates (am_config s)
    /\ oracle_mode b = cfg_oracle_mode (am_config s)
    /\ al_ratio b = cfg_al_ratio (am_config s).
Proof.
  intros Hlt Hrun m bucket_active bucket_name.
  destruct (Bucket_init_run (next_bucket_id m) bucket_name bucket_active
              (len (buckets m)) (n (seen_images (world m))) (am_config s) _ _ _ Hrun)
    as (b & Hinit & Hb).
  exists b. split; [|exact Hb].
  unfold AIModel_create_bucket. rewrite bind_run. unfold get. fold m.
  destruct (Z.leb_spec N_MAX_BUCKETS (len (buckets m))) as [Hge|_];
    [unfold m in Hge; lia|].
  rewrite bind_run. unfold on_colors at 1, zoom at 1. fold m bucket_active bucket_name.
  fold m in Hinit. rewrite Hinit. cbn [fst snd].
  rewrite bind_run, on_core_run. cbn [fst snd modify am_model am_color_mgr am_config].
  rewrite bind_run, on_core_run. reflexivity.
Qed.

Lemma AIModel_create_bucket_full (s : AIModelMgr model R) :
  N_MAX_BUCKETS <= len (buckets (am_model s)) ->
  AIModel_create_bucket s = (Raise ValueError, s).
Proof.
  intros Hge. unfold AIModel_create_bucket. rewrite bind_run. unfold get.
  destruct (Z.leb_spec N_MAX_BUCKETS (len (buckets (am_model s)))); [reflexivity | lia].
Qed.

(** [create_bucket] on a session that may still be without buckets. *)
Lemma create_bucket_establishes_wf (s : AIModelMgr model R) :
  color_draws_in_range ->
  len (buckets (am_model s)) < N_MAX_BUCKETS ->
  NoDup (map fst (skeleton (am_model s))) ->
  Forall (fun e => fst (fst (fst (snd e))) = fst e
                   /\ INIT_BUCKET_ID <= fst e < next_bucket_id (am_model s))
         (skeleton (am_model s)) ->
  Permutation (map (fun e => snd (fst (fst (snd e)))) (skeleton (am_model s)))
              (py_range (len (skeleton (am_model s)))) ->
  len (List.filter (fun e => snd (fst (snd e))) (skeleton (am_model s)))
  <= N_MAX_ACTIVE_BUCKETS ->
  length (taken (am_color_mgr s)) = N_COLORS ->
  NoDup (filter (fun c => c ∈ COLORS_HEX)
           (map (fun e => snd (snd e)) (skeleton (am_model s)))) ->
  (forall i c, COLORS_HEX !! i = Some c ->
     (taken (am_color_mgr s) !! i = Some true
      <-> c ∈ filter (fun c => c ∈ COLORS_HEX)
                 (map (fun e => snd (snd e)) (skeleton (am_model s))))) ->
  INIT_BUCKET_ID <= next_bucket_id (am_model s) ->
  session_wf (snd (AIModel_create_bucket s)).
Proof.
  intros Hdraws Hlt H1 H2 H3 H4 H6 H7 H8 Hnext.
  destruct (assign_color_outcome (am_color_mgr s) (rng (world (am_model s))) Hdraws H6)
    as (c & flags' & r' & Hrun & Hcase).
  destruct (AIModel_create_bucket_run s c flags' r' Hlt Hrun) as (b & -> & Hb & _).
  apply session_wf_frames.
  cbn [snd am_model am_color_mgr taken].
  unfold set_next_bucket_id, set_buckets. cbn [buckets next_bucket_id].
  rewrite skeleton_entries.
  assert (Hfresh : dict_get (next_bucket_id (am_model s)) (buckets (am_model s)) = None).
  { apply dict_get_None_keys. rewrite frame_keys. intros Hin.
    apply list_elem_of_fmap in Hin as (e & He & Hin).
    rewrite Forall_forall in H2. apply H2 in Hin. lia. }
  cbn [buckets next_bucket_id set_world].
  rewrite (dict_set_absent _ _ _ Hfresh), map_app. cbn [map].
  unfold frame_entry at 2. cbn [fst snd]. rewrite Hb.
  rewrite frame_len, frame_active.
  replace (len (map fst (List.filter (fun e => snd (fst (snd e))) (skeleton (am_model s)))))
    with (len (List.filter (fun e => snd (fst (snd e))) (skeleton (am_model s))))
    by (unfold len; rewrite length_map; reflexivity).
  rewrite <- skeleton_entries.
  apply (frames_wf_create _ _ (taken (am_color_mgr s))); try assumption.
  destruct Hcase as [(i & Hi & Hf & _ & -> & _)|(Hn & _ & -> & _)].
  - left. exists i. repeat split; assumption.
  - right. split; [exact Hn | reflexivity].
Qed.

Lemma session_wf_create (s : AIModelMgr model R) :
  color_draws_in_range -> session_wf s -> session_wf (snd (AIModel_create_bucket s)).
Proof.
  intros Hdraws Hwf.
  destruct (Z.le_gt_cases N_MAX_BUCKETS (len (buckets (am_model s)))) as [Hge|Hlt].
  - rewrite (AIModel_create_bucket_full _ Hge). exact Hwf.
  - pose proof Hwf as Hfr. apply session_wf_frames in Hfr.
    destruct Hfr as (H1 & H2 & H3 & H4 & H5 & H6 & H7 & H8).
    apply create_bucket_establishes_wf; try assumption.
    destruct (skeleton (am_model s)) as [|e sk]; [unfold len in H5; simpl in H5; lia|].
    apply Forall_cons in H2 as [[_ He] _]. lia.
Qed.

Lemma AIModel_init_wf (n_coll : Z) (cfg : ModelConfig) (r : R) :
  color_draws_in_range ->
  session_wf (snd (AIModel_init n_coll cfg r) : AIModelMgr model R).
Proof.
  intros Hdraws. unfold AIModel_init.
  apply create_bucket_establishes_wf; cbn; try exact Hdraws.
  - reflexivity.
  - constructor.
  - constructor.
  - reflexivity.
  - discriminate.
  - reflexivity.
  - constructor.
  - intros i c Hc. do 7 (destruct i as [|i]; [split; [discriminate | intros H; inversion H]|]).
    discriminate Hc.
  - apply Z.le_refl.
Qed.

Lemma session_wf_swap (k1 k2 : Z) (s : AIModelMgr model R) :
  session_wf s -> session_wf (snd (on_core (AIModel_swap_buckets k1 k2) s)).
Proof.
  intros Hwf. rewrite on_core_run, AIModel_swap_buckets_run.
  destruct (dict_get k1 (buckets (am_model s))) as [b1|] eqn:H1;
    [|destruct s; exact Hwf].
  destruct (dict_get k2 (buckets (am_model s))) as [b2|] eqn:H2;
    [|destruct s; exact Hwf].
  apply session_wf_frames. apply session_wf_frames in Hwf.
  exact (frames_wf_swap _ _ _ _ _ _ H1 H2 Hwf).
Qed.

Lemma session_wf_toggle (k : Z) (s : AIModelMgr model R) :
  session_wf s -> session_wf (snd (on_core (AIModel_toggle_bucket k) s)).
Proof.
  intros Hwf. rewrite on_core_run, AIModel_toggle_bucket_run.
  destruct (dict_get k (buckets (am_model s))) as [b|] eqn:Hg;
    [|destruct s; exact Hwf].
  destruct (negb (active b) && _) eqn:Hguard; [destruct s; exact Hwf|].
  apply session_wf_frames. apply session_wf_frames in Hwf.
  exact (frames_wf_toggle _ _ _ _ Hg Hguard Hwf).
Qed.

Lemma session_wf_after_call (c : api_call) (s : AIModelMgr model R) :
  color_draws_in_range -> session_wf s -> session_wf (after_call c s).
Proof.
  intros Hdraws Hwf. destruct c; cbn [after_call].
  - apply session_wf_create; assumption.
  - apply session_wf_delete; assumption.
  - apply session_wf_on_core; [apply AIModel_rename_bucket_keeps_frame | exact Hwf].
  - apply session_wf_swap; exact Hwf.
  - apply session_wf_toggle; exact Hwf.
  - apply session_wf_on_core; [apply AIModel_user_feedback_keeps_frame | exact Hwf].
  - apply session_wf_on_core; [|exact Hwf].
    intros m. pose proof (AIModel_suggest_keeps_frame refresh_rand_exp (m, sugg_request)) as Hk.
    destruct (AIModel_suggest refresh_rand_exp (m, sugg_request)) as [res [m' d']].
    exact Hk.
  - apply session_wf_on_core; [apply AIModel_transfer_images_keeps_frame | exact Hwf].
  - apply session_wf_on_core; [apply AIModel_fast_forward_keeps_frame | exact Hwf].
  - apply session_wf_on_core; [apply AIModel_ff_commit_keeps_frame | exact Hwf].
Qed.

End ManagementProperties.
Section ManagementTheorems.

Context {model R : Type} `{!Externals model R} `{!ColorDraws R}.

Lemma next_bucket_id_after_call (c : api_call) (s : AIModelMgr model R) :
  color_draws_in_range -> session_wf s ->
  next_bucket_id (am_model s) <= next_bucket_id (am_model (after_call c s)).
Proof.
  intros Hdraws Hwf.
  assert (Hcore : forall A (c : M (AIModel model R) A),
            keeps (@frame_of model R) c ->
            next_bucket_id (am_model s) <= next_bucket_id (am_model (snd (on_core c s)))).
  { intros A c0 Hk. rewrite on_core_run. cbn [snd am_model].
    specialize (Hk (am_model s)). unfold frame_of in Hk. injection Hk as _ ->. lia. }
  destruct c; cbn [after_call].
  - destruct (Z.le_gt_cases N_MAX_BUCKETS (len (buckets (am_model s)))) as [Hge|Hlt].
    + rewrite (AIModel_create_bucket_full _ Hge). simpl. lia.
    + assert (Hlen : length (taken (am_color_mgr s)) = N_COLORS)
        by (apply session_wf_frames in Hwf; apply Hwf).
      destruct (assign_color_outcome (am_color_mgr s) (rng (world (am_model s)))
                  Hdraws Hlen) as (c & flags' & r' & Hrun & _).
      destruct (AIModel_create_bucket_run s c flags' r' Hlt Hrun) as (b & -> & _).
      simpl. lia.
  - assert (Hlen : length (taken (am_color_mgr s)) = N_COLORS)
      by (apply session_wf_frames in Hwf; apply Hwf).
    rewrite (AIModel_delete_bucket_run _ _ Hlen).
    destruct (len (buckets (am_model s)) =? 1); [simpl; lia|].
    destruct (dict_get bucket_id (buckets (am_model s))); simpl; lia.
  - apply Hcore, AIModel_rename_bucket_keeps_frame.
  - rewrite on_core_run, AIModel_swap_buckets_run. cbn [snd am_model].
    destruct (dict_get bucket1_id (buckets (am_model s))); [|simpl; lia].
    destruct (dict_get bucket2_id (buckets (am_model s))); simpl; lia.
  - rewrite on_core_run, AIModel_toggle_bucket_run. cbn [snd am_model].
    destruct (dict_get bucket_id (buckets (am_model s))) as [b|]; [|simpl; lia].
    destruct (negb (active b) && _); simpl; lia.
  - apply Hcore, AIModel_user_feedback_keeps_frame.
  - apply Hcore. intros m.
    pose proof (AIModel_suggest_keeps_frame refresh_rand_exp (m, sugg_request)) as Hk.
    destruct (AIModel_suggest refresh_rand_exp (m, sugg_request)) as [res [m' d']].
    exact Hk.
  - apply Hcore, AIModel_transfer_images_keeps_frame.
  - apply Hcore, AIModel_fast_forward_keeps_frame.
  - apply Hcore, AIModel_ff_commit_keeps_frame.
Qed.

Lemma fold_after_call_wf (calls : list api_call) (s : AIModelMgr model R) :
  color_draws_in_range -> session_wf s ->
  session_wf (fold_left (fun s c => after_call c s) calls s)
  /\ next_bucket_id (am_model s)
     <= next_bucket_id (am_model (fold_left (fun s c => after_call c s) calls s)).
Proof.
  intros Hdraws. revert s. induction calls as [|c calls IH]; intros s Hwf; simpl.
  - split; [exact Hwf | lia].
  - destruct (IH (after_call c s) (session_wf_after_call c s Hdraws Hwf)) as [H1 H2].
    split; [exact H1|].
    pose proof (next_bucket_id_after_call c s Hdraws Hwf). lia.
Qed.

(** X1. Whatever calls of the interface are made on a session after its
    construction, and whether they return or raise: the bucket identifiers
    are distinct, every bucket is stored under its own identifier, which is
    at least 1 and below the next identifier; the display orders of the [n]
    buckets are the numbers 0 to [n - 1], each once; at most seven buckets
    are active; there is at least one bucket; no two buckets have the same
    base colour, and the colour manager flags exactly the base colours that
    some bucket has. *)
Theorem AIModel_session_invariant (n_coll : Z) (cfg : ModelConfig) (r : R)
    (calls : list api_call) :
  color_draws_in_range ->
  session_wf (session_after n_coll cfg r calls : AIModelMgr model R).
Proof.
  intros Hdraws. unfold session_after.
  apply fold_after_call_wf; [exact Hdraws | apply AIModel_init_wf, Hdraws].
Qed.

(** X2. Bucket identifiers are never given twice: an identifier that a
    bucket of the session has at some time is below the next identifier to
    be given (the one [create_bucket] uses) at every later time, also when
    the bucket has been deleted in between. *)
Theorem AIModel_bucket_ids_never_reused (n_coll : Z) (cfg : ModelConfig) (r : R)
    (calls later : list api_call) (k : Z) :
  color_draws_in_range ->
  k ∈ dict_keys (buckets (am_model (session_after n_coll cfg r calls : AIModelMgr model R))) ->
  k < next_bucket_id
        (am_model (session_after n_coll cfg r (calls ++ later) : AIModelMgr model R)).
Proof.
  intros Hdraws Hk. unfold session_after in *. rewrite fold_left_app.
  set (s := fold_left (fun s c => after_call c s) calls (snd (AIModel_init n_coll cfg r))) in *.
  assert (Hwf : session_wf s).
  { apply fold_after_call_wf; [exact Hdraws | apply AIModel_init_wf, Hdraws]. }
  destruct (fold_after_call_wf later s Hdraws Hwf) as [_ Hle].
  destruct Hwf as (_ & Hids & _).
  apply list_elem_of_fmap in Hk as (kb & -> & Hin).
  rewrite Forall_forall in Hids. apply Hids in Hin. lia.
Qed.

Lemma substring_first (c : Ascii.ascii) (s : string) :
  String.substring 0 1 (String c s) = String c EmptyString.
Proof. simpl. destruct s; reflexivity. Qed.

(** X3. [create_bucket] on a session with 1000 buckets raises [ValueError]
    and changes nothing.  Otherwise it returns the identifier, the name and
    the activity of a new bucket, which is appended to the bucket
    dictionary under the next identifier (no bucket had it), and the next
    identifier goes up by one.  The new bucket is named after its
    identifier, is last in the display order, is active exactly when fewer
    than seven buckets were active, and has no images, no negatives and no
    model; the other buckets, the discard pile, the seen images and the
    outstanding suggestions are as before. *)
Theorem AIModel_create_bucket_spec (s : AIModelMgr model R) :
  color_draws_in_range -> session_wf s ->
  let m := am_model s in
  (N_MAX_BUCKETS <= len (buckets m) -> AIModel_create_bucket s = (Raise ValueError, s))
  /\ (len (buckets m) < N_MAX_BUCKETS ->
      exists (b : Bucket model) (s' : AIModelMgr model R),
        AIModel_create_bucket s
        = (Ok {| note_bucket_id := next_bucket_id m;
                 note_bucket_name := ("Bucket " ++ pretty (next_bucket_id m))%string;
                 note_is_now_active := active b |}, s')
        /\ buckets (am_model s') = buckets m ++ [(next_bucket_id m, b)]
        /\ (next_bucket_id m ∉ dict_keys (buckets m))
        /\ next_bucket_id (am_model s') = next_bucket_id m + 1
        /\ id_ b = next_bucket_id m
        /\ name b = ("Bucket " ++ pretty (next_bucket_id m))%string
        /\ ordering b = len (buckets m)
        /\ active b = (len (AIModel__active_buckets m) <? N_MAX_ACTIVE_BUCKETS)
        /\ images b = [] /\ negatives b = [] /\ svm_model b = None
        /\ discard_pile (world (am_model s')) = discard_pile (world m)
        /\ seen_images (world (am_model s')) = seen_images (world m)
        /\ randomized_explorer (world (am_model s')) = randomized_explorer (world m)
        /\ ai_outstanding_suggs (am_model s') = ai_outstanding_suggs m
        /\ am_config s' = am_config s).
Proof.
  intros Hdraws Hwf m. split; [apply AIModel_create_bucket_full|]. intros Hlt.
  pose proof Hwf as (Hnd & Hids & _ & _ & _ & Hlen & _).
  destruct (assign_color_outcome (am_color_mgr s) (rng (world m)) Hdraws Hlen)
    as (c & flags' & r' & Hrun & _).
  destruct (AIModel_create_bucket_run s c flags' r' Hlt Hrun)
    as (b & Hcreate & Hframe & Hname & Himg & Hneg & Hsvm & _).
  unfold bucket_frame in Hframe. injection Hframe as Hid Hord Hact Hcol.
  assert (Hfresh : next_bucket_id m ∉ dict_keys (buckets m)).
  { intros Hin. apply list_elem_of_fmap in Hin as (kb & He & Hin).
    rewrite Forall_forall in Hids. apply Hids in Hin. unfold m in He. lia. }
  exists b. eexists. split.
  - rewrite Hcreate. fold m. rewrite Hact. reflexivity.
  - cbn [am_model am_color_mgr am_config]. unfold set_next_bucket_id, set_buckets.
    cbn [buckets next_bucket_id world ai_outstanding_suggs set_world set_rng
         discard_pile seen_images randomized_explorer].
    fold m. repeat split; try assumption.
    + apply dict_set_absent, dict_get_None_keys, Hfresh.
    + rewrite Hact. unfold m.
      destruct (Z.leb_spec N_MAX_ACTIVE_BUCKETS
                  (len (AIModel__active_buckets (am_model s))));
        destruct (Z.ltb_spec (len (AIModel__active_buckets (am_model s)))
                    N_MAX_ACTIVE_BUCKETS);
        simpl; try reflexivity; lia.
Qed.

(** X4. The colour of a bucket made by [create_bucket]: the first base
    colour, in the order of [COLORS_HEX], that no bucket of the session has;
    when the buckets have all seven base colours, a colour of the form
    [#rrggbb] (seven characters) that is no base colour.  The constructor's
    call of [assign_color] never raises. *)
Theorem AIModel_create_bucket_color (s : AIModelMgr model R) :
  color_draws_in_range -> session_wf s ->
  len (buckets (am_model s)) < N_MAX_BUCKETS ->
  let m := am_model s in
  exists (b : Bucket model) (s' : AIModelMgr model R) (note : bucket_note),
    AIModel_create_bucket s = (Ok note, s')
    /\ buckets (am_model s') = buckets m ++ [(next_bucket_id m, b)]
    /\ ((exists i, COLORS_HEX !! i = Some (color b)
                   /\ (color b ∉ bucket_colors m)
                   /\ forall j c, (j < i)%nat -> COLORS_HEX !! j = Some c ->
                                  c ∈ bucket_colors m)
        \/ ((color b ∉ COLORS_HEX)
            /\ String.length (color b) = 7%nat
            /\ String.substring 0 1 (color b) = "#"%string
            /\ forall c, c ∈ COLORS_HEX -> c ∈ bucket_colors m)).
Proof.
  intros Hdraws Hwf Hlt m.
  pose proof Hwf as (Hnd & Hids & _ & _ & _ & Hlen & _ & Hflags).
  assert (Hbase : forall c, c ∈ base_colors_in_use m <-> c ∈ COLORS_HEX /\ c ∈ bucket_colors m).
  { intros c. unfold base_colors_in_use. rewrite list_elem_of_filter. reflexivity. }
  destruct (assign_color_outcome (am_color_mgr s) (rng (world m)) Hdraws Hlen)
    as (c & flags' & r' & Hrun & Hcase).
  destruct (AIModel_create_bucket_run s c flags' r' Hlt Hrun)
    as (b & Hcreate & Hframe & _).
  unfold bucket_frame in Hframe. injection Hframe as Hid Hord Hact Hcol.
  assert (Hfresh : next_bucket_id m ∉ dict_keys (buckets m)).
  { intros Hin. apply list_elem_of_fmap in Hin as (kb & He & Hin).
    rewrite Forall_forall in Hids. apply Hids in Hin. unfold m in He. lia. }
  exists b. eexists. eexists. split; [exact Hcreate|]. split.
  { cbn [am_model]. unfold set_next_bucket_id, set_buckets. cbn [buckets].
    apply dict_set_absent, dict_get_None_keys, Hfresh. }
  rewrite Hcol. destruct Hcase as [(i & Hi & Hf & Hbefore & _)|(Hn & Hl & _ & Hall & _)].
  - left. exists i. split; [exact Hi|]. split.
    + intros Hin. assert (Hu : c ∈ base_colors_in_use m).
      { apply Hbase. split; [eapply list_elem_of_lookup_2; exact Hi | exact Hin]. }
      apply (Hflags _ _ Hi) in Hu. congruence.
    + intros j cj Hj Hcj. apply Hbase. apply (Hflags _ _ Hcj). apply Hbefore, Hj.
  - right. split; [exact Hn|]. split; [exact Hl|]. split.
    + clear -Hrun Hall Hdraws. rewrite (assign_color_fallback _ _ Hall) in Hrun.
      destruct (color_draws (rng (world m))) as [[[[[cr cg] cb] shade] coef] r0].
      injection Hrun as <- _ _. apply substring_first.
    + intros c0 Hc0. apply list_elem_of_lookup in Hc0 as [j Hj].
      apply Hbase. apply (Hflags _ _ Hj). apply Hall.
      apply lookup_lt_Some in Hj. exact Hj.
Qed.

Lemma dict_get_map_entry {V} (f : V -> V) (k : Z) (d : dict V) :
  dict_get k (map (fun kb => (fst kb, f (snd kb))) d) = option_map f (dict_get k d).
Proof.
  induction d as [|[k' v'] d IH]; simpl; [reflexivity|].
  destruct (k' =? k); [reflexivity | exact IH].
Qed.

Lemma dict_keys_map_entry {V} (f : V -> V) (d : dict V) :
  dict_keys (map (fun kb => (fst kb, f (snd kb))) d) = dict_keys d.
Proof. unfold dict_keys. rewrite map_map. reflexivity. Qed.

Lemma py_range_NoDup (n : Z) : NoDup (py_range n).
Proof.
  unfold py_range. apply NoDup_fmap_2; [intros x y; apply Nat2Z.inj | apply NoDup_seq].
Qed.

(** Two buckets of a session have different display orders. *)
Lemma orderings_distinct (s : AIModelMgr model R) (k1 k2 : Z) (b1 b2 : Bucket model) :
  session_wf s -> k1 <> k2 ->
  dict_get k1 (buckets (am_model s)) = Some b1 ->
  dict_get k2 (buckets (am_model s)) = Some b2 ->
  ordering b1 <> ordering b2.
Proof.
  intros (_ & _ & Hperm & _) Hne H1 H2.
  destruct (swap_entries k1 k2 b1 b2 _ Hne H1 H2) as [Hold _].
  apply (Permutation_map (fun kb => ordering (snd kb))) in Hold.
  unfold bucket_orderings in Hperm. rewrite Hold in Hperm. simpl in Hperm.
  pose proof (py_range_NoDup (len (buckets (am_model s)))) as Hnd.
  rewrite <- Hperm in Hnd.
  apply NoDup_cons in Hnd as [Hnotin _]. intros Heq. apply Hnotin.
  apply elem_of_cons. left. symmetry. exact Heq.
Qed.

(** X5. [delete_bucket] raises [ValueError] and changes nothing when the
    session has one bucket only or has no bucket of the given identifier.
    Otherwise it returns the identifier and the name of the bucket and
    removes it from the bucket dictionary; the other buckets change in
    their display order only, those after the deleted one moving up by one
    place, so that the buckets keep their relative order and the display
    orders are again the numbers from 0 on; the flag of the bucket's colour,
    if it is a base colour, is down; the discard pile, the seen images and
    the next identifier are as before. *)
Theorem AIModel_delete_bucket_spec (k : Z) (s : AIModelMgr model R) :
  session_wf s ->
  let m := am_model s in
  (len (buckets m) = 1 \/ dict_get k (buckets m) = None ->
   AIModel_delete_bucket k s = (Raise ValueError, s))
  /\ forall b, len (buckets m) <> 1 -> dict_get k (buckets m) = Some b ->
       exists s' : AIModelMgr model R,
         AIModel_delete_bucket k s = (Ok (k, name b), s')
         /\ dict_keys (buckets (am_model s')) = dict_keys (dict_del k (buckets m))
         /\ dict_get k (buckets (am_model s')) = None
         /\ (forall k', k' <> k ->
               dict_get k' (buckets (am_model s'))
               = option_map (Bucket_update_ordering_after_deletion (ordering b))
                            (dict_get k' (buckets m)))
         /\ (forall k1 k2 b1 b2 b1' b2',
               k1 <> k -> k2 <> k ->
               dict_get k1 (buckets m) = Some b1 -> dict_get k2 (buckets m) = Some b2 ->
               dict_get k1 (buckets (am_model s')) = Some b1' ->
               dict_get k2 (buckets (am_model s')) = Some b2' ->
               (ordering b1 < ordering b2 <-> ordering b1' < ordering b2'))
         /\ Permutation (bucket_orderings (am_model s')) (py_range (len (buckets m) - 1))
         /\ (forall i, COLORS_HEX !! i = Some (color b) ->
               taken (am_color_mgr s') !! i = Some false)
         /\ world (am_model s') = world m
         /\ next_bucket_id (am_model s') = next_bucket_id m.
Proof.
  intros Hwf m.
  pose proof Hwf as (Hnd & _ & _ & _ & _ & Hlen & _).
  pose proof (session_wf_delete k s Hwf) as Hwf'.
  rewrite (AIModel_delete_bucket_run _ _ Hlen) in Hwf' |- *. fold m in Hwf' |- *.
  split.
  { intros [H1|Hnone].
    - rewrite H1. reflexivity.
    - rewrite Hnone. destruct (len (buckets m) =? 1); reflexivity. }
  intros b Hn Hg. rewrite Hg in Hwf' |- *.
  destruct (Z.eqb_spec (len (buckets m)) 1) as [|_]; [contradiction|].
  eexists. split; [reflexivity|].
  cbn [snd am_model am_color_mgr] in Hwf' |- *. unfold set_buckets in Hwf' |- *.
  cbn [buckets world next_bucket_id].
  assert (Hget : forall k', k' <> k ->
            dict_get k' (map (shift_entry (ordering b)) (dict_del k (buckets m)))
            = option_map (Bucket_update_ordering_after_deletion (ordering b))
                         (dict_get k' (buckets m))).
  { intros k' Hk'. unfold shift_entry.
    rewrite (dict_get_map_entry (Bucket_update_ordering_after_deletion (ordering b))).
    rewrite dict_get_del_ne by congruence. reflexivity. }
  split; [apply (dict_keys_map_entry (Bucket_update_ordering_after_deletion (ordering b)))|].
  split.
  { unfold shift_entry.
    rewrite (dict_get_map_entry (Bucket_update_ordering_after_deletion (ordering b))).
    rewrite (dict_get_del_eq _ _ Hnd). reflexivity. }
  split; [exact Hget|]. split.
  { intros k1 k2 b1 b2 b1' b2' Hk1 Hk2 H1 H2 H1' H2'.
    rewrite (Hget _ Hk1), H1 in H1'. rewrite (Hget _ Hk2), H2 in H2'.
    injection H1' as <-. injection H2' as <-.
    assert (Ho1 : ordering b1 <> ordering b)
      by (apply (orderings_distinct s k1 k b1 b Hwf Hk1 H1 Hg)).
    assert (Ho2 : ordering b2 <> ordering b)
      by (apply (orderings_distinct s k2 k b2 b Hwf Hk2 H2 Hg)).
    unfold Bucket_update_ordering_after_deletion.
    destruct (Z.ltb_spec (ordering b) (ordering b1));
      destruct (Z.ltb_spec (ordering b) (ordering b2)); simpl; lia. }
  split.
  { destruct Hwf' as (_ & _ & Hperm & _). cbn [am_model buckets] in Hperm.
    replace (len (buckets m) - 1)
      with (len (map (shift_entry (ordering b)) (dict_del k (buckets m)))); [exact Hperm|].
    unfold len. rewrite length_map.
    rewrite (Permutation_length (dict_get_perm_del _ _ _ Hg)). simpl length. lia. }
  split; [|split; reflexivity].
  intros i Hi. rewrite (str_index_COLORS_HEX _ _ Hi). cbn [taken].
  apply list_lookup_insert_eq. rewrite Hlen. apply lookup_lt_Some in Hi. exact Hi.
Qed.

Lemma set_ordering_twice (o o' : Z) (b : Bucket model) :
  set_ordering o (set_ordering o' b) = set_ordering o b.
Proof. reflexivity. Qed.

Lemma ordering_set_ordering (o : Z) (b : Bucket model) : ordering (set_ordering o b) = o.
Proof. reflexivity. Qed.

Lemma name_set_ordering (o : Z) (b : Bucket model) : name (set_ordering o b) = name b.
Proof. reflexivity. Qed.

Lemma set_active_twice (a a' : bool) (b : Bucket model) :
  set_active a (set_active a' b) = set_active a b.
Proof. reflexivity. Qed.

Lemma buckets_set_buckets (bs : dict (Bucket model)) (m : AIModel model R) :
  buckets (set_buckets bs m) = bs.
Proof. reflexivity. Qed.

Lemma set_buckets_twice (bs bs' : dict (Bucket model)) (m : AIModel model R) :
  set_buckets bs (set_buckets bs' m) = set_buckets bs m.
Proof. reflexivity. Qed.

(** X6. [swap_buckets] raises [ValueError] and changes nothing when one of
    the two identifiers is not that of a bucket.  Otherwise it returns the
    identifiers and names and exchanges the display orders of the two
    buckets: nothing else of the two buckets changes, the other buckets and
    the order of the bucket dictionary are as before, and swapping the same
    two buckets again gives back the session as it was. *)
Theorem AIModel_swap_buckets_spec (k1 k2 : Z) (m : AIModel model R) :
  (dict_get k1 (buckets m) = None \/ dict_get k2 (buckets m) = None ->
   AIModel_swap_buckets k1 k2 m = (Raise ValueError, m))
  /\ forall b1 b2,
       dict_get k1 (buckets m) = Some b1 -> dict_get k2 (buckets m) = Some b2 ->
       exists m' : AIModel model R,
         AIModel_swap_buckets k1 k2 m = (Ok (k1, name b1, k2, name b2), m')
         /\ dict_keys (buckets m') = dict_keys (buckets m)
         /\ dict_get k1 (buckets m') = Some (set_ordering (ordering b2) b1)
         /\ dict_get k2 (buckets m') = Some (set_ordering (ordering b1) b2)
         /\ (forall k, k <> k1 -> k <> k2 ->
               dict_get k (buckets m') = dict_get k (buckets m))
         /\ world m' = world m
         /\ next_bucket_id m' = next_bucket_id m
         /\ ai_outstanding_suggs m' = ai_outstanding_suggs m
         /\ AIModel_swap_buckets k1 k2 m' = (Ok (k1, name b1, k2, name b2), m).
Proof.
  rewrite AIModel_swap_buckets_run. split.
  { intros [H|H]; rewrite H; [reflexivity|].
    destruct (dict_get k1 (buckets m)); reflexivity. }
  intros b1 b2 H1 H2. rewrite H1, H2. eexists. split; [reflexivity|].
  rewrite !buckets_set_buckets.
  assert (H2' : dict_get k2 (dict_set k1 (set_ordering (ordering b2) b1) (buckets m))
                = Some (if Z.eq_dec k1 k2 then set_ordering (ordering b2) b1 else b2)).
  { destruct (Z.eq_dec k1 k2) as [<-|Hne]; [apply dict_get_set_eq|].
    rewrite dict_get_set_ne by exact Hne. exact H2. }
  split.
  { rewrite (dict_keys_set _ _ _ _ H2'). apply (dict_keys_set _ _ _ _ H1). }
  split.
  { destruct (Z.eq_dec k1 k2) as [<-|Hne].
    - rewrite dict_get_set_eq. rewrite H1 in H2. injection H2 as <-. reflexivity.
    - rewrite dict_get_set_ne by congruence. apply dict_get_set_eq. }
  split; [apply dict_get_set_eq|]. split.
  { intros k Hk1 Hk2. rewrite !dict_get_set_ne by congruence. reflexivity. }
  split; [reflexivity|]. split; [reflexivity|]. split; [reflexivity|].
  rewrite AIModel_swap_buckets_run, !buckets_set_buckets.
  destruct (Z.eq_dec k1 k2) as [<-|Hne].
  - rewrite H1 in H2. injection H2 as <-.
    rewrite !dict_set_set, !dict_get_set_eq, set_buckets_twice.
    rewrite !name_set_ordering, !ordering_set_ordering.
    rewrite !dict_set_set, ?set_ordering_twice, ?set_ordering_same.
    rewrite (dict_set_same _ _ _ H1). apply f_equal, set_buckets_same.
  - rewrite (dict_get_set_ne k2 k1) by congruence.
    rewrite !dict_get_set_eq, set_buckets_twice.
    rewrite !name_set_ordering, !ordering_set_ordering.
    rewrite ?set_ordering_twice, ?set_ordering_same.
    rewrite (dict_set_comm k1 k2 b1 _ (set_ordering (ordering b2) b1))
      by (try exact Hne; apply dict_get_set_eq).
    rewrite !dict_set_set.
    rewrite (dict_set_same k1 b1 _ H1), (dict_set_same _ _ _ H2).
    apply f_equal, set_buckets_same.
Qed.

Lemma active_buckets_set (k : Z) (b b' : Bucket model) (m : AIModel model R) :
  dict_get k (buckets m) = Some b ->
  len (AIModel__active_buckets (set_buckets (dict_set k b' (buckets m)) m))
  = len (AIModel__active_buckets m)
    - (if active b then 1 else 0) + (if active b' then 1 else 0).
Proof.
  intros Hg. unfold AIModel__active_buckets, len. rewrite buckets_set_buckets, !length_map.
  rewrite (Permutation_length
             (filter_perm _ _ _ (dict_set_perm_del k b' b _ Hg))).
  rewrite (Permutation_length
             (filter_perm _ _ _ (dict_get_perm_del k b _ Hg))).
  simpl. destruct (active b), (active b'); simpl length; lia.
Qed.

(** X7. [toggle_bucket] raises [ValueError] and changes nothing when the
    identifier is not that of a bucket and when an inactive bucket is to be
    activated while seven buckets are active.  Otherwise it flips the
    activity of the bucket and nothing else, returns the new activity, and
    the number of active buckets goes up or down by one; toggling the same
    bucket again then succeeds and gives back the session as it was. *)
Theorem AIModel_toggle_bucket_spec (k : Z) (s : AIModelMgr model R) :
  session_wf s ->
  let m := am_model s in
  (dict_get k (buckets m) = None -> AIModel_toggle_bucket k m = (Raise ValueError, m))
  /\ forall b, dict_get k (buckets m) = Some b ->
       (active b = false ->
        len (AIModel__active_buckets m) = N_MAX_ACTIVE_BUCKETS ->
        AIModel_toggle_bucket k m = (Raise ValueError, m))
       /\ (active b = true \/ len (AIModel__active_buckets m) < N_MAX_ACTIVE_BUCKETS ->
           exists m' : AIModel model R,
             AIModel_toggle_bucket k m
             = (Ok {| note_bucket_id := k; note_bucket_name := name b;
                      note_is_now_active := negb (active b) |}, m')
             /\ m' = set_buckets (dict_set k (set_active (negb (active b)) b) (buckets m)) m
             /\ len (AIModel__active_buckets m')
                = len (AIModel__active_buckets m) + (if active b then -1 else 1)
             /\ AIModel_toggle_bucket k m'
                = (Ok {| note_bucket_id := k; note_bucket_name := name b;
                         note_is_now_active := active b |}, m)).
Proof.
  intros Hwf m. pose proof Hwf as (_ & _ & _ & Hact & _). fold m in Hact.
  rewrite AIModel_toggle_bucket_run. split; [intros ->; reflexivity|].
  intros b Hg. rewrite Hg. split.
  { intros -> ->. reflexivity. }
  intros Hok.
  assert (Hguard : negb (active b)
                   && (N_MAX_ACTIVE_BUCKETS <=? len (AIModel__active_buckets m)) = false).
  { destruct Hok as [->|Hlt]; [reflexivity|].
    destruct (Z.leb_spec N_MAX_ACTIVE_BUCKETS (len (AIModel__active_buckets m))); [lia|].
    apply andb_false_r. }
  rewrite Hguard. eexists. split; [reflexivity|]. split; [reflexivity|].
  pose proof (active_buckets_set k b (set_active (negb (active b)) b) m Hg) as Hcount.
  split.
  { rewrite Hcount. change (active (set_active (negb (active b)) b)) with (negb (active b)).
    destruct (active b); simpl; lia. }
  rewrite AIModel_toggle_bucket_run, buckets_set_buckets, dict_get_set_eq.
  change (active (set_active (negb (active b)) b)) with (negb (active b)).
  change (name (set_active (negb (active b)) b)) with (name b).
  rewrite negb_involutive.
  assert (Hguard' : active b
                    && (N_MAX_ACTIVE_BUCKETS
                        <=? len (AIModel__active_buckets
                                   (set_buckets
                                      (dict_set k (set_active (negb (active b)) b)
                                         (buckets m)) m))) = false).
  { rewrite Hcount. change (active (set_active (negb (active b)) b)) with (negb (active b)).
    destruct (active b); [|reflexivity]. simpl.
    destruct (Z.leb_spec N_MAX_ACTIVE_BUCKETS (len (AIModel__active_buckets m) - 1 + 0));
      [lia | reflexivity]. }
  rewrite Hguard'. rewrite set_buckets_twice, dict_set_set, set_active_twice.
  rewrite set_active_same, (dict_set_same _ _ _ Hg), set_buckets_same. reflexivity.
Qed.

(** X8. [rename_bucket] returns exactly when the identifier is that of a
    bucket and the new name has at most 16 characters (code points, as
    [len] counts them, not bytes); otherwise it raises [ValueError] and
    changes nothing.  When it returns, it gives the identifier, the old and
    the new name, and the session differs in the name of that bucket
    only. *)
Theorem AIModel_rename_bucket_spec (k : Z) (new_name : string) (m : AIModel model R) :
  (is_ok (fst (AIModel_rename_bucket k new_name m))
   <-> dict_get k (buckets m) <> None
       /\ Z.of_nat (py_str_len new_name) <= MAX_BUCKET_NAME_LENGTH)
  /\ (~ is_ok (fst (AIModel_rename_bucket k new_name m)) ->
      AIModel_rename_bucket k new_name m = (Raise ValueError, m))
  /\ forall b, dict_get k (buckets m) = Some b ->
       Z.of_nat (py_str_len new_name) <= MAX_BUCKET_NAME_LENGTH ->
       AIModel_rename_bucket k new_name m
       = (Ok (k, name b, new_name),
          set_buckets (dict_set k (set_name new_name b) (buckets m)) m)
       /\ bucket_frame (set_name new_name b) = bucket_frame b
       /\ images (set_name new_name b) = images b
       /\ svm_model (set_name new_name b) = svm_model b.
Proof.
  rewrite AIModel_rename_bucket_run.
  destruct (dict_get k (buckets m)) as [b|] eqn:Hg.
  - destruct (Z.ltb_spec MAX_BUCKET_NAME_LENGTH (Z.of_nat (py_str_len new_name)))
      as [Hlong|Hshort].
    + split; [|split].
      * simpl. split; [contradiction | intros [_ H]; lia].
      * reflexivity.
      * intros b' _ H. lia.
    + split; [|split].
      * simpl. split; [intros _; split; [discriminate | exact Hshort] | intros _; exact I].
      * simpl. intros H. exfalso. apply H. exact I.
      * intros b' Hb' _. injection Hb' as <-. repeat split.
  - split; [|split].
    + simpl. split; [contradiction | intros [H _]; apply H; reflexivity].
    + reflexivity.
    + intros b' Hb'. discriminate.
Qed.

(** X9. [assign_color] on a colour manager with its seven flags never
    raises.  It returns the first base colour whose flag is down and puts
    the flag up, without a random draw; when all flags are up it returns a
    colour of the form [#rrggbb] (seven characters) that is no base colour
    and leaves the flags as they are.  In both cases [relinquish_color] of
    the returned colour gives back the manager as it was. *)
Theorem BucketColorManager_assign_relinquish (mgr : BucketColorManager) (r : R) :
  color_draws_in_range -> length (taken mgr) = N_COLORS ->
  exists (c : string) (mgr' : BucketColorManager) (r' : R),
    BucketColorManager_assign_color (mgr, r) = (Ok c, (mgr', r'))
    /\ ((exists i, COLORS_HEX !! i = Some c
                   /\ taken mgr !! i = Some false
                   /\ (forall j, (j < i)%nat -> taken mgr !! j = Some true)
                   /\ taken mgr' = <[i := true]> (taken mgr)
                   /\ r' = r)
        \/ ((forall j, (j < N_COLORS)%nat -> taken mgr !! j = Some true)
            /\ (c ∉ COLORS_HEX)
            /\ String.length c = 7%nat
            /\ String.substring 0 1 c = "#"%string
            /\ mgr' = mgr))
    /\ BucketColorManager_relinquish_color c mgr' = (Ok tt, mgr).
Proof.
  intros Hdraws Hlen.
  destruct (assign_color_outcome mgr r Hdraws Hlen) as (c & flags' & r' & Hrun & Hcase).
  exists c, {| taken := flags' |}, r'. split; [exact Hrun|].
  destruct Hcase as [(i & Hi & Hf & Hb & -> & ->)|(Hn & Hl & -> & Hall & ->)].
  - split.
    + left. exists i. repeat split; assumption.
    + rewrite relinquish_color_run by (cbn [taken]; rewrite length_insert; exact Hlen).
      rewrite (str_index_COLORS_HEX _ _ Hi). cbn [taken].
      rewrite list_insert_insert_eq, list_insert_id by exact Hf.
      destruct mgr; reflexivity.
  - split.
    + right. split; [exact Hall|]. split; [exact Hn|]. split; [exact Hl|].
      split; [|destruct mgr; reflexivity].
      rewrite (assign_color_fallback _ _ Hall) in Hrun.
      destruct (color_draws r) as [[[[[cr cg] cb] shade] coef] r0].
      injection Hrun as <- _. apply substring_first.
    + rewrite relinquish_color_run by exact Hlen.
      destruct (str_index c COLORS_HEX) as [i|e] eqn:Hi; [|destruct mgr; reflexivity].
      apply str_index_Ok in Hi. exfalso. apply Hn.
      eapply list_elem_of_lookup_2. exact Hi.
Qed.

End ManagementTheorems.
(** * Feedback on a suggestion of a deleted bucket *)

Section StaleSuggestions.

Context {model R : Type} `{!Externals model R} `{!ColorDraws R}.

Lemma bucketwise_append_unknown (b : Z) (which : bin_name) (img : Z) (acc : feedback_acc) :
  dict_get b (bucketwise_feedback acc) = None ->
  bucketwise_append b which img acc = (Raise KeyError, acc).
Proof.
  intros H. unfold bucketwise_append. rewrite bind_run. unfold get.
  rewrite bind_run. unfold lift_result, dict_lookup. rewrite H. reflexivity.
Qed.

Lemma bucketwise_append_keeps_unknown (b b' : Z) (which : bin_name) (img : Z)
    (r : result unit) (acc acc' : feedback_acc) :
  dict_get b (bucketwise_feedback acc) = None ->
  bucketwise_append b' which img acc = (r, acc') ->
  dict_get b (bucketwise_feedback acc') = None.
Proof.
  intros Hb. unfold bucketwise_append. rewrite bind_run. unfold get.
  rewrite bind_run. unfold lift_result, dict_lookup.
  destruct (dict_get b' (bucketwise_feedback acc)) as [f|] eqn:Hb'.
  - intros H. injection H as _ <-. simpl.
    rewrite dict_get_set_ne; [exact Hb | congruence].
  - intros H. injection H as _ <-. exact Hb.
Qed.

(** The entry of an image whose outstanding suggestion names a bucket that
    has no bins is not classified, whatever it assigns the image to: the
    look-up of the bins raises [KeyError]. *)
Lemma classify_entry_unknown_suggested (outstanding : dict img_info) (img assigned : Z)
    (info : img_info) (acc : feedback_acc) :
  dict_get img outstanding = Some info ->
  bucket info <> 0 ->
  dict_get (bucket info) (bucketwise_feedback acc) = None ->
  fst (classify_entry outstanding img assigned acc) = Raise KeyError.
Proof.
  intros Hsugg Hne Hnone. unfold classify_entry, suggested_bucket_of, truthy.
  rewrite Hsugg. destruct (Z.eqb_spec (bucket info) 0) as [|_]; [contradiction|].
  cbn [negb]. rewrite bind_run.
  destruct (assigned =? DISCARD_PILE_BUCKET_ID).
  - rewrite bind_run. unfold modify at 1. cbn [fst snd].
    rewrite bucketwise_append_unknown by exact Hnone. reflexivity.
  - destruct (assigned =? bucket info).
    + rewrite bucketwise_append_unknown by exact Hnone. reflexivity.
    + rewrite bind_run.
      destruct (bucketwise_append assigned NeutralBin img acc) as [[[]|e] acc'] eqn:Hn.
      * rewrite bucketwise_append_unknown; [reflexivity|].
        exact (bucketwise_append_keeps_unknown _ _ _ _ _ _ _ Hnone Hn).
      * pose proof Hn as Hn'. unfold bucketwise_append in Hn'.
        rewrite bind_run in Hn'. unfold get in Hn'. rewrite bind_run in Hn'.
        unfold lift_result, dict_lookup in Hn'.
        destruct (dict_get assigned (bucketwise_feedback acc));
          injection Hn' as He _; [discriminate He | subst e; reflexivity].
Qed.

(** [user_feedback] on such an entry raises [KeyError] and leaves the model
    as it is: nothing is recorded with a bucket, nothing is discarded, and
    the image is not added to the seen images. *)
Lemma AIModel_user_feedback_unknown_suggested (m : AIModel model R) (img assigned : Z)
    (info : img_info) :
  dict_get img (ai_outstanding_suggs m) = Some info ->
  bucket info <> 0 ->
  dict_get (bucket info) (buckets m) = None ->
  AIModel_user_feedback [(img, Some assigned)] m = (Raise KeyError, m).
Proof.
  intros Hsugg Hne Hnone. unfold AIModel_user_feedback. rewrite bind_run. unfold get.
  cbn [fst snd]. unfold classify_feedback. cbn [for_each fst snd]. rewrite bind_run.
  assert (Hbins : dict_get (bucket info) (bucketwise_feedback (initial_feedback_acc m)) = None).
  { unfold initial_feedback_acc. cbn [bucketwise_feedback].
    change (fun kb : Z * Bucket model => (fst kb, empty_bins))
      with (fun kb : Z * Bucket model => (fst kb, (fun _ : Bucket model => empty_bins) (snd kb))).
    clear -Hnone. induction (buckets m) as [|[k' v'] d IH]; simpl in *; [reflexivity|].
    destruct (k' =? bucket info); [discriminate Hnone | exact (IH Hnone)]. }
  pose proof (classify_entry_unknown_suggested _ _ assigned _ _ Hsugg Hne Hbins) as Hc.
  destruct (classify_entry (ai_outstanding_suggs m) img assigned (initial_feedback_acc m))
    as [r acc]. simpl in Hc. subst r. reflexivity.
Qed.

(** [delete_bucket] leaves the outstanding suggestions as they are: after
    it, feedback on an image that was suggested for the deleted bucket
    raises [KeyError] and changes nothing. *)
Lemma AIModel_user_feedback_after_delete_bucket (s s' : AIModelMgr model R)
    (k img assigned : Z) (info : img_info) (x : Z * string) :
  session_wf s ->
  AIModel_delete_bucket k s = (Ok x, s') ->
  dict_get img (ai_outstanding_suggs (am_model s)) = Some info ->
  bucket info = k ->
  k <> 0 ->
  ai_outstanding_suggs (am_model s') = ai_outstanding_suggs (am_model s)
  /\ AIModel_user_feedback [(img, Some assigned)] (am_model s')
     = (Raise KeyError, am_model s').
Proof.
  intros Hwf Hdel Hsugg Hk Hk0.
  pose proof Hwf as (Hnd & _ & _ & _ & _ & Hlen & _).
  rewrite (AIModel_delete_bucket_run _ _ Hlen) in Hdel.
  destruct (len (buckets (am_model s)) =? 1); [discriminate Hdel|].
  destruct (dict_get k (buckets (am_model s))) as [b|]; [|discriminate Hdel].
  injection Hdel as _ <-. cbn [am_model].
  split; [reflexivity|].
  apply (AIModel_user_feedback_unknown_suggested _ _ _ info).
  - exact Hsugg.
  - rewrite Hk. exact Hk0.
  - rewrite Hk. cbn [buckets set_buckets]. unfold shift_entry.
    rewrite (dict_get_map_entry (Bucket_update_ordering_after_deletion (ordering b))).
    rewrite (dict_get_del_eq _ _ Hnd). reflexivity.
Qed.

End StaleSuggestions.

(** C1 fails in the code.  In [suggested_session] image 4 is an outstanding
    suggestion of bucket 2, and feedback on it is classified as the table
    says: assigned to bucket 1, the image becomes a member of bucket 1 and
    a negative of bucket 2 and is seen; discarded, it is on the discard
    pile, a negative of bucket 2 and seen.  In [stale_session] bucket 2 has
    been deleted and image 4 is still recorded as its suggestion: the same
    two calls raise [KeyError] and leave the model as it was; the image is
    neither a member of bucket 1, nor discarded, nor seen.  So does a call
    with an entry for image 3, which was never suggested, before the one
    for image 4; alone, the entry for image 3 is classified. *)
Theorem AIModel_user_feedback_stale_suggestion :
  map (fun e => (fst e, bucket (snd e))) (ai_outstanding_suggs (am_model suggested_session))
  = [(4, 2)]
  /\ feedback_view (am_model suggested_session) = ([(1, [], []); (2, [0], [])], [], [0])
  /\ (let r := AIModel_user_feedback [(4, Some 1)] (am_model suggested_session) in
      (fst r, feedback_view (snd r))
      = (Ok tt, ([(1, [4], []); (2, [0], [4])], [], [0; 4])))
  /\ (let r := AIModel_user_feedback [(4, Some 0)] (am_model suggested_session) in
      (fst r, feedback_view (snd r))
      = (Ok tt, ([(1, [], []); (2, [0], [4])], [4], [0; 4])))
  /\ fst (AIModel_delete_bucket 2 suggested_session) = Ok (2, "Bucket 2"%string)
  /\ snd (AIModel_delete_bucket 2 suggested_session) = stale_session
  /\ map (fun e => (fst e, bucket (snd e))) (ai_outstanding_suggs (am_model stale_session))
     = [(4, 2)]
  /\ feedback_view (am_model stale_session) = ([(1, [], [])], [], [0])
  /\ AIModel_user_feedback [(4, Some 1)] (am_model stale_session)
     = (Raise KeyError, am_model stale_session)
  /\ AIModel_user_feedback [(4, Some 0)] (am_model stale_session)
     = (Raise KeyError, am_model stale_session)
  /\ AIModel_user_feedback [(3, Some 1); (4, Some 1)] (am_model stale_session)
     = (Raise KeyError, am_model stale_session)
  /\ (let r := AIModel_user_feedback [(3, Some 1)] (am_model stale_session) in
      (fst r, feedback_view (snd r)) = (Ok tt, ([(1, [3], [])], [], [0; 3]))).
Proof. repeat apply conj; vm_compute; reflexivity. Qed.

(** * Examples on the small session *)

(** ** Bucket._train *)

(** A bucket with the members 3 and 7 is retrained in a collection of ten
    images: the member with the largest score has confidence 1. *)
Lemma Bucket_retrain_confidence_bounds_witness :
  let b := demo_bucket 1 0 [3; 7] None Rf in
  let w := demo_world 10 [] [] [] in
  let st' := snd (Bucket__train (b, w)) in
  exists mdl,
    svm_model (fst st') = Some mdl
    /\ images (fst st') = [3; 7]
    /\ img_svm_scores (fst st') = map (decision_function mdl) (images (fst st'))
    /\ In (best_img_svm_score (fst st')) (img_svm_scores (fst st'))
    /\ Forall (fun s => (s <= best_img_svm_score (fst st'))%Q) (img_svm_scores (fst st'))
    /\ length (img_confidences (fst st')) = length (images (fst st'))
    /\ forall (i : nat) (s : Q),
         img_svm_scores (fst st') !! i = Some s ->
         exists q, img_confidences (fst st') !! i = Some (Fin q)
                   /\ (q == Qmin (Qmax (s / best_img_svm_score (fst st')) 0) 1)%Q
                   /\ (0 <= q)%Q /\ (q <= 1)%Q
                   /\ ((s == best_img_svm_score (fst st'))%Q -> (q == 1)%Q).
Proof.
  intros b w st'.
  apply (Bucket_retrain_confidence_bounds b w st').
  - discriminate.
  - vm_compute. reflexivity.
Defined.

(** ** AIModel.user_feedback *)

Lemma AIModel_user_feedback_classification_witness :
  classify_entry (ai_outstanding_suggs feedback_session) 42 3
    (initial_feedback_acc feedback_session)
  = (Ok tt,
     {| bucketwise_feedback :=
          [(1, empty_bins);
           (2, {| good := []; neutral := []; bad := [42] |});
           (3, {| good := []; neutral := [42]; bad := [] |})];
        discarded_img := [];
        fb_seen_images := [42] |})
  /\ seen (seen_images (world (snd
       (AIModel_user_feedback [(42, Some 3); (43, None)] feedback_session))))
     = seen (seen_images (world feedback_session)) ∪ list_to_set [42].
Proof.
  destruct (AIModel_user_feedback_classification
              (ai_outstanding_suggs feedback_session)
              (initial_feedback_acc feedback_session) 42
              feedback_session [(42, Some 3); (43, None)])
    as (_ & _ & _ & _ & Hrow & Hcall).
  split.
  - rewrite (Hrow 3 2 empty_bins empty_bins); try reflexivity; discriminate.
  - destruct (Hcall (snd (classify_feedback (ai_outstanding_suggs feedback_session)
                            [(42, Some 3); (43, None)]
                            (initial_feedback_acc feedback_session)))
                    (snd (dispatch_feedback
                            (snd (classify_feedback (ai_outstanding_suggs feedback_session)
                                    [(42, Some 3); (43, None)]
                                    (initial_feedback_acc feedback_session)))
                            feedback_session)))
      as [_ Hseen].
    + vm_compute. reflexivity.
    + vm_compute. reflexivity.
    + exact Hseen.
Defined.

(** ** AIModel._ff_discard *)

(** Ten discards over three trained buckets. *)
Example n_discards_per_bucket_10_3 : n_discards_per_bucket 10 [1; 2; 3] = [4; 3; 3].
Proof. reflexivity. Qed.

(** C4 as stated fails: of one discard over the two buckets, the one extra
    candidate is asked of bucket 1, the first in the dictionary, and not of
    bucket 2, the first in display order. *)
Lemma AIModel_ff_discard_not_in_display_order :
  AIModel__trained_buckets swapped_session = [1; 2]
  /\ n_discards_per_bucket 1 (AIModel__trained_buckets swapped_session) = [1; 0]
  /\ display_rank swapped_session 2 = 0
  /\ ~ split_in_display_order swapped_session 1.
Proof.
  split; [reflexivity|]. split; [reflexivity|]. split; [reflexivity|].
  intros H. specialize (H 0%nat 1 eq_refl). vm_compute in H. discriminate H.
Qed.

Lemma AIModel_ff_discard_split_witness :
  AIModel__ff_discard 3 swapped_session
  = (Ok tt,
     set_world
       (set_discard_pile
          {| pile := [];
             dp_outstanding_ff :=
               concat (zip_with (discard_candidates_of swapped_session) [1; 2] [2; 1]) |}
          (world swapped_session)) swapped_session).
Proof.
  assert (Hnd : NoDup (dict_keys (buckets swapped_session))).
  { apply (bool_decide_unpack _). vm_compute. exact I. }
  destruct (AIModel_ff_discard_split swapped_session 3 Hnd) as (_ & _ & _ & _ & H).
  apply H. discriminate.
Defined.

(** ** CollectionIndex.distances *)

(** C9 as stated fails: with an empty second set there is no error, the
    result is a matrix with no columns. *)
Lemma CollectionIndex_distances_empty_columns :
  CollectionIndex_distances 0 Z.add demo_index [0; 1] [] = Ok [[]; []].
Proof. reflexivity. Qed.

Lemma CollectionIndex_distances_spec_witness :
  CollectionIndex_distances 0 Z.add demo_index [] [0] = Raise ValueError
  /\ exists d,
       CollectionIndex_distances 0 Z.add demo_index [0; 1] [1] = Ok d
       /\ has_shape d 2 1
       /\ forall i j a b, [0; 1] !! i = Some a -> [1] !! j = Some b ->
            exists x, mat_get d i j = Some x
                      /\ pq_distance 0 Z.add demo_index a b = Ok x.
Proof.
  destruct (CollectionIndex_distances_spec 0 Z.add demo_index [] [0]) as (Hempty & _ & _).
  destruct (CollectionIndex_distances_spec 0 Z.add demo_index [0; 1] [1]) as (_ & _ & Hfull).
  split; [apply Hempty; reflexivity|].
  assert (Hi : forall a, a = 0 \/ a = 1 -> item_indexed demo_index a).
  { intros a [-> | ->]; eexists; (split; [reflexivity|]);
      simpl; repeat constructor; simpl; lia. }
  apply Hfull.
  - discriminate.
  - repeat constructor; apply Hi; auto.
  - repeat constructor; apply Hi; auto.
  - repeat constructor.
Defined.

(** ** AIModel.suggest *)

Lemma order_session_keys_are_ids : keys_are_ids (buckets order_session).
Proof.
  apply keys_are_ids_Forall. repeat constructor.
Qed.

Lemma demo_collaborators_quiet : @collaborators_quiet unit (list Z) demo_externals.
Proof.
  split.
  - intros candidates [|x seen_so_far]; discriminate.
  - intros. discriminate.
Qed.

(** The example of the specification: two suggestions of bucket 1, one of
    each of the buckets 2 and 3 and one exploration suggestion are
    requested, with the entries of the request in two orders.  The list has
    the suggestion of bucket 2 first, then the explorer's stand-in for the
    untrained bucket 3, then the two suggestions of bucket 1, then the
    exploration suggestion, which is what the explorer returns for one
    suggestion on the session as it is before the call. *)
Lemma AIModel_suggest_order_witness :
  exists suggs,
    fst (AIModel_suggest true (order_session, [(1, 2); (-1, 1); (2, 1); (3, 1)])) = Ok suggs
    /\ map bucket suggs = [2; 0; 1; 1; 0]
    /\ fst (AIModel_suggest true (order_session, [(3, 1); (2, 1); (-1, 1); (1, 2)])) = Ok suggs
    /\ exists segs explore,
         suggs = concat segs ++ explore
         /\ length segs = 3%nat
         /\ fst (RandomizedExplorer_suggest 1 true (world order_session)) = Ok explore
         /\ length explore = 1%nat.
Proof.
  pose (req := [(1, 2); (-1, 1); (2, 1); (3, 1)] : dict Z).
  pose (run := AIModel_suggest true (order_session, req)).
  pose (suggs := match fst run with Ok l => l | Raise _ => [] end).
  exists suggs. split; [vm_compute; reflexivity|]. split; [vm_compute; reflexivity|].
  assert (Hnd : NoDup (dict_keys req)).
  { apply (bool_decide_unpack _). vm_compute. exact I. }
  assert (Hrun : AIModel_suggest true (order_session, req)
                 = (Ok suggs, (fst (snd run), snd (snd run)))).
  { vm_compute. reflexivity. }
  destruct (AIModel_suggest_order true order_session _ req _ suggs
              order_session_keys_are_ids Hnd Hrun) as [Hsegments Hshuffled].
  split.
  - apply (Hshuffled (rev req)).
    + apply Permutation_rev.
    + apply (bool_decide_unpack _). vm_compute. exact I.
  - destruct Hsegments
      as (order & segs & explore & Hlist & Hperm & _ & Hnames & _ & _ & _ & Hexplore).
    destruct (Hexplore 1 eq_refl) as [Hexp Hlen].
    exists segs, explore. split; [exact Hlist|]. split; [|split; assumption].
    rewrite <- (Forall2_length _ _ _ Hnames), (Permutation_length Hperm). reflexivity.
Defined.

(** The request of the example has the sentinel among its keys: after the
    call it is gone from the caller's dictionary. *)
Lemma AIModel_suggest_deletes_sentinel_witness :
  snd (snd (AIModel_suggest true (order_session, [(1, 2); (-1, 1); (2, 1); (3, 1)])))
  = [(1, 2); (2, 1); (3, 1)].
Proof.
  assert (Hnd : NoDup (dict_keys ([(1, 2); (-1, 1); (2, 1); (3, 1)] : dict Z))).
  { apply (bool_decide_unpack _). vm_compute. exact I. }
  destruct (AIModel_suggest_deletes_sentinel true order_session
              [(1, 2); (-1, 1); (2, 1); (3, 1)] 1 Hnd eq_refl) as [Hok _].
  destruct Hok as [Hdel _]; [vm_compute; exact I|].
  etransitivity; [exact Hdel | reflexivity].
Defined.

(** C10 as stated fails.  Three images of the collection are unseen and the
    request asks the explorer for seven: the explorer's call raises, the
    deletion that follows it is never reached, and the caller's dictionary
    still has the sentinel among its keys.  The same happens when no image
    of the collection is unseen. *)
Lemma AIModel_suggest_sentinel_kept_when_explorer_raises :
  (let outcome := AIModel_suggest true (shortfall_session, [(1, 1); (-1, 7)]) in
   fst outcome = Raise ValueError
   /\ snd (snd outcome) = [(1, 1); (-1, 7)]
   /\ dict_get RANDOM_EXPLORE_REQUEST (snd (snd outcome)) = Some 7)
  /\ (let outcome := AIModel_suggest true (exhausted_session, [(1, 1); (-1, 1)]) in
      fst outcome = Raise DatasetExhaustedError
      /\ snd (snd outcome) = [(1, 1); (-1, 1)]
      /\ dict_get RANDOM_EXPLORE_REQUEST (snd (snd outcome)) = Some 1).
Proof. vm_compute. repeat split. Qed.

(** C3 fails in the code.  Of the five images of the collection three are
    unseen.  Asked for seven suggestions, bucket 2 makes all of them queries
    to the oracle and returns the five images there are.  When bucket 2 is
    the only bucket of the request, the randomized explorer adds the two
    that are missing.  When bucket 1 is served before it with two
    suggestions, nothing is added: the list has seven entries by then, which
    is not less than seven, and bucket 2's segment has five entries where
    seven were requested.  When bucket 1 is served before it with one
    suggestion, one entry is added, not two. *)
Theorem AIModel_suggest_shortfall_not_topped_up :
  SeenImages_len (seen_images (world shortfall_session)) = 2
  /\ n (seen_images (world shortfall_session)) = 5
  /\ sugg_entries (fst (with_bucket 2 (Bucket_suggest 7) shortfall_session))
     = Ok [(2, 2); (3, 2); (4, 2); (0, 2); (1, 2)]
  /\ sugg_entries (fst (AIModel_suggest true (shortfall_session, [(2, 7)])))
     = Ok [(2, 2); (3, 2); (4, 2); (0, 2); (1, 2); (2, 0); (3, 0)]
  /\ sugg_entries (fst (AIModel_suggest true (shortfall_session, [(1, 2); (2, 7)])))
     = Ok [(4, 1); (3, 1); (2, 2); (3, 2); (4, 2); (0, 2); (1, 2)]
  /\ sugg_entries (fst (AIModel_suggest true (shortfall_session, [(1, 1); (2, 7)])))
     = Ok [(4, 1); (2, 2); (3, 2); (4, 2); (0, 2); (1, 2); (2, 0)].
Proof. repeat split; vm_compute; reflexivity. Qed.

(** ** AIModel.transfer_images *)

(** C8 as stated fails: a move that raises leaves its removals behind.
    Image 99 is no member of bucket 1, and there is no bucket 7: both moves
    raise, and after both image 10 is gone from bucket 1 and is in no other
    bucket. *)
Lemma AIModel_transfer_images_not_atomic :
  members_of transfer_session = [(1, [10; 11]); (2, [])]
  /\ fst (AIModel_transfer_images [10; 99] 1 2 "move" transfer_session) = Raise ValueError
  /\ members_of (snd (AIModel_transfer_images [10; 99] 1 2 "move" transfer_session))
     = [(1, [11]); (2, [])]
  /\ fst (AIModel_transfer_images [10] 1 7 "move" transfer_session) = Raise ValueError
  /\ members_of (snd (AIModel_transfer_images [10] 1 7 "move" transfer_session))
     = [(1, [11]); (2, [])].
Proof. repeat split; vm_compute; reflexivity. Qed.

(** A copy into the discard pile, which is rejected with the model
    unchanged; a move of image 10 from bucket 1 to bucket 2 that returns;
    the move of images 10 and 99 out of bucket 1, which raises at image 99
    and leaves bucket 1 without image 10; the move of image 10 into the
    unknown bucket 7, which raises and leaves what the removal has left. *)
Lemma AIModel_transfer_images_spec_witness :
  AIModel_transfer_images [10] 1 0 "copy" transfer_session
  = (Raise ValueError, transfer_session)
  /\ (exists bs' bd',
       let m' := snd (AIModel_transfer_images [10] 1 2 "move" transfer_session) in
       dict_get 1 (buckets m') = Some bs'
       /\ dict_get 2 (buckets m') = Some bd'
       /\ Permutation [10; 11] (10 :: images bs' ++ outstanding_ff bs')
       /\ images bd' = [10]
       /\ discard_pile (world m') = discard_pile (world transfer_session))
  /\ (exists bs1,
       AIModel_transfer_images [10; 99] 1 2 "move" transfer_session
       = (Raise ValueError,
          set_buckets (dict_set 1 bs1 (buckets transfer_session)) transfer_session)
       /\ images bs1 = [11])
  /\ AIModel_transfer_images [10] 1 7 "move" transfer_session
     = (Raise ValueError,
        snd (with_bucket 1 (Bucket_remove_images [10]) transfer_session)).
Proof.
  assert (H10 : 1 <> DISCARD_PILE_BUCKET_ID) by discriminate.
  assert (H20 : 2 <> DISCARD_PILE_BUCKET_ID) by discriminate.
  assert (H70 : 7 <> DISCARD_PILE_BUCKET_ID) by discriminate.
  split; [|split; [|split]].
  - destruct (AIModel_transfer_images_spec transfer_session [10] 1 0 "copy")
      as (_ & Hcopy & _).
    apply Hcopy; [reflexivity | right; reflexivity].
  - destruct (AIModel_transfer_images_spec transfer_session [10] 1 2 "move")
      as (_ & _ & _ & _ & Hmove & _).
    pose (m' := snd (AIModel_transfer_images [10] 1 2 "move" transfer_session)).
    assert (Hrun : AIModel_transfer_images [10] 1 2 "move" transfer_session = (Ok tt, m')).
    { vm_compute. reflexivity. }
    assert (H12 : 1 <> 2) by discriminate.
    destruct (Hmove eq_refl H10 H20 H12 m' Hrun)
      as (bs & bd & bs' & bd' & Hs & Hd & Hs' & Hd' & Hperm & Himg & _ & _ & Hpile).
    exists bs', bd'.
    injection Hs as <-. injection Hd as <-.
    split; [exact Hs'|]. split; [exact Hd'|]. split; [exact Hperm|].
    split; [exact Himg | exact Hpile].
  - destruct (AIModel_transfer_images_spec transfer_session [10; 99] 1 2 "move")
      as (_ & _ & _ & _ & _ & _ & _ & Habsent & _).
    destruct (dict_get 1 (buckets transfer_session)) as [bs|] eqn:Hs;
      [|discriminate Hs].
    pose (bs1 := snd (for_each [10] Bucket_remove_one bs)).
    assert (Hpre : for_each [10] Bucket_remove_one bs = (Ok tt, bs1)).
    { injection Hs as <-. vm_compute. reflexivity. }
    assert (Hi : 99 ∉ images bs1).
    { injection Hs as <-. vm_compute.
      apply not_elem_of_cons. split; [discriminate | apply not_elem_of_nil]. }
    assert (Hf : 99 ∉ outstanding_ff bs1).
    { injection Hs as <-. vm_compute. apply not_elem_of_nil. }
    destruct (Habsent eq_refl H10 bs bs1 [10] [] 99 eq_refl eq_refl Hpre Hi Hf)
      as (Hrun & _).
    exists bs1. split; [exact Hrun|].
    injection Hs as <-. vm_compute. reflexivity.
  - destruct (AIModel_transfer_images_spec transfer_session [10] 1 7 "move")
      as (_ & _ & _ & _ & _ & _ & _ & _ & Hdst).
    apply (Hdst eq_refl H10 H70).
    + vm_compute. reflexivity.
    + vm_compute. reflexivity.
Defined.
(** ** Examples of bucket management *)

Lemma demo_draws_in_range : color_draws_in_range (R := list Z).
Proof.
  intros r. simpl. split; [|split].
  - apply elem_of_cons. left. reflexivity.
  - discriminate.
  - discriminate.
Qed.

Lemma demo_managed_wf (calls : list api_call) : session_wf (demo_managed calls).
Proof.
  unfold demo_managed, session_after.
  apply fold_after_call_wf; [exact demo_draws_in_range|].
  apply AIModel_init_wf, demo_draws_in_range.
Qed.

Lemma AIModel_session_invariant_witness :
  session_wf (demo_managed [CreateBucket; CreateBucket; SwapBuckets 1 3; DeleteBucket 2;
                            ToggleBucket 1; CreateBucket]).
Proof.
  apply (AIModel_session_invariant (model := unit) (R := list Z)).
  exact demo_draws_in_range.
Defined.

Lemma AIModel_bucket_ids_never_reused_witness :
  2 < next_bucket_id
        (am_model (demo_managed ([CreateBucket] ++ [DeleteBucket 2; CreateBucket]))).
Proof.
  unfold demo_managed.
  apply (AIModel_bucket_ids_never_reused (model := unit) (R := list Z)).
  - exact demo_draws_in_range.
  - vm_compute. apply elem_of_cons. right. apply elem_of_cons. left. reflexivity.
Defined.

(** The second bucket of a session. *)
Lemma AIModel_create_bucket_spec_witness :
  exists (b : Bucket unit) (s' : AIModelMgr unit (list Z)),
    AIModel_create_bucket (demo_managed [])
    = (Ok {| note_bucket_id := 2; note_bucket_name := "Bucket 2";
             note_is_now_active := true |}, s')
    /\ buckets (am_model s') = buckets (am_model (demo_managed [])) ++ [(2, b)]
    /\ ordering b = 1 /\ active b = true /\ images b = [].
Proof.
  destruct (AIModel_create_bucket_spec (demo_managed []) demo_draws_in_range
              (demo_managed_wf [])) as [_ H].
  destruct H as (b & s' & Hrun & Hbs & _ & _ & _ & _ & Hord & Hact & Himg & _).
  { vm_compute. reflexivity. }
  exists b, s'. rewrite Hact in Hrun. repeat split; assumption.
Defined.

(** The eighth bucket of a session gets a colour that is no base colour. *)
Lemma AIModel_create_bucket_color_witness :
  exists (b : Bucket unit) (s' : AIModelMgr unit (list Z)) (note : bucket_note),
    AIModel_create_bucket (demo_managed (repeat CreateBucket 6)) = (Ok note, s')
    /\ buckets (am_model s')
       = buckets (am_model (demo_managed (repeat CreateBucket 6))) ++ [(8, b)]
    /\ color b ∉ COLORS_HEX.
Proof.
  destruct (AIModel_create_bucket_color (demo_managed (repeat CreateBucket 6))
              demo_draws_in_range (demo_managed_wf _))
    as (b & s' & note & Hrun & Hbs & Hcol).
  { vm_compute. reflexivity. }
  exists b, s', note. split; [exact Hrun|]. split; [exact Hbs|].
  destruct Hcol as [(i & Hi & Hnotin & _)|(Hn & _)]; [|exact Hn].
  exfalso. apply Hnotin. eapply list_elem_of_lookup_2 in Hi. revert Hi.
  generalize (color b). intros c Hc.
  assert (Hall : Forall (fun c => c ∈ bucket_colors (am_model (demo_managed (repeat CreateBucket 6))))
                        COLORS_HEX).
  { vm_compute. repeat constructor. }
  rewrite Forall_forall in Hall. apply Hall, Hc.
Defined.

(** Deleting the first of three buckets. *)
Lemma AIModel_delete_bucket_spec_witness :
  exists s' : AIModelMgr unit (list Z),
    AIModel_delete_bucket 1 (demo_managed [CreateBucket; CreateBucket])
    = (Ok (1, "Bucket 1"%string), s')
    /\ dict_keys (buckets (am_model s')) = [2; 3]
    /\ Permutation (bucket_orderings (am_model s')) [0; 1]
    /\ taken (am_color_mgr s') !! 0%nat = Some false.
Proof.
  destruct (AIModel_delete_bucket_spec 1 (demo_managed [CreateBucket; CreateBucket])
              (demo_managed_wf _)) as [_ H].
  destruct (dict_get 1 (buckets (am_model (demo_managed [CreateBucket; CreateBucket]))))
    as [b|] eqn:Hg; [|vm_compute in Hg; discriminate Hg].
  destruct (H b) as (s' & Hrun & Hkeys & _ & _ & _ & Hperm & Hflag & _).
  { vm_compute. discriminate. }
  { reflexivity. }
  assert (Hb : name b = "Bucket 1"%string /\ color b = "#0065bd"%string).
  { vm_compute in Hg. injection Hg as <-. split; reflexivity. }
  destruct Hb as [Hname Hcolor]. rewrite Hname in Hrun. rewrite Hcolor in Hflag.
  exists s'. split; [exact Hrun|]. split; [exact Hkeys|]. split; [exact Hperm|].
  apply Hflag. reflexivity.
Defined.

(** With seven active buckets the eighth one, created inactive, cannot be
    activated; once bucket 1 is toggled off, it can. *)
Lemma AIModel_toggle_bucket_spec_witness :
  AIModel_toggle_bucket 8 (am_model (demo_managed (repeat CreateBucket 7)))
  = (Raise ValueError, am_model (demo_managed (repeat CreateBucket 7)))
  /\ exists m' : AIModel unit (list Z),
       AIModel_toggle_bucket 8
         (am_model (demo_managed (repeat CreateBucket 7 ++ [ToggleBucket 1])))
       = (Ok {| note_bucket_id := 8; note_bucket_name := "Bucket 8";
                note_is_now_active := true |}, m')
       /\ len (AIModel__active_buckets m') = 7.
Proof.
  split.
  - destruct (AIModel_toggle_bucket_spec 8 (demo_managed (repeat CreateBucket 7))
                (demo_managed_wf _)) as [_ H].
    destruct (dict_get 8 (buckets (am_model (demo_managed (repeat CreateBucket 7)))))
      as [b|] eqn:Hg; [|vm_compute in Hg; discriminate Hg].
    destruct (H b eq_refl) as [Hfull _].
    apply Hfull.
    + vm_compute in Hg. injection Hg as <-. reflexivity.
    + vm_compute. reflexivity.
  - destruct (AIModel_toggle_bucket_spec 8
                (demo_managed (repeat CreateBucket 7 ++ [ToggleBucket 1]))
                (demo_managed_wf _)) as [_ H].
    destruct (dict_get 8 (buckets (am_model
                (demo_managed (repeat CreateBucket 7 ++ [ToggleBucket 1])))))
      as [b|] eqn:Hg; [|vm_compute in Hg; discriminate Hg].
    destruct (H b eq_refl) as [_ Hok].
    assert (Hb : name b = "Bucket 8"%string /\ active b = false).
    { vm_compute in Hg. injection Hg as <-. split; reflexivity. }
    destruct Hb as [Hname Hact].
    destruct Hok as (m' & Hrun & _ & Hcount & _).
    { right. vm_compute. reflexivity. }
    rewrite Hname, Hact in Hrun. rewrite Hact in Hcount.
    exists m'. split; [exact Hrun|]. rewrite Hcount. vm_compute. reflexivity.
Defined.

(** The first colour of a fresh manager, and the colour given when all base
    colours are taken. *)
Lemma BucketColorManager_assign_relinquish_witness :
  exists (c : string) (mgr' : BucketColorManager) (r' : list Z),
    BucketColorManager_assign_color ({| taken := repeat true 7 |}, []) = (Ok c, (mgr', r'))
    /\ (c ∉ COLORS_HEX)
    /\ BucketColorManager_relinquish_color c mgr' = (Ok tt, {| taken := repeat true 7 |}).
Proof.
  destruct (BucketColorManager_assign_relinquish (R := list Z)
              {| taken := repeat true 7 |} [] demo_draws_in_range eq_refl)
    as (c & mgr' & r' & Hrun & Hcase & Hback).
  exists c, mgr', r'. split; [exact Hrun|]. split; [|exact Hback].
  destruct Hcase as [(i & Hi & Hf & _)|(_ & Hn & _)]; [|exact Hn].
  exfalso. apply lookup_lt_Some in Hi as Hlt. simpl in Hlt.
  do 7 (destruct i as [|i]; [discriminate Hf|]). lia.
Defined.

(** A name of nine characters that takes eighteen bytes is accepted; a name
    of seventeen characters is not. *)
Lemma AIModel_rename_bucket_spec_witness :
  String.length "ééééééééé" = 18%nat
  /\ fst (AIModel_rename_bucket 1 "ééééééééé" (am_model (demo_managed [])))
     = Ok (1, "Bucket 1"%string, "ééééééééé"%string)
  /\ AIModel_rename_bucket 1 "seventeen letters" (am_model (demo_managed []))
     = (Raise ValueError, am_model (demo_managed [])).
Proof.
  split; [reflexivity|].
  destruct (AIModel_rename_bucket_spec 1 "ééééééééé" (am_model (demo_managed [])))
    as (_ & _ & Hok).
  destruct (AIModel_rename_bucket_spec 1 "seventeen letters" (am_model (demo_managed [])))
    as (_ & Hraise & _).
  split.
  - destruct (dict_get 1 (buckets (am_model (demo_managed [])))) as [b|] eqn:Hg;
      [|vm_compute in Hg; discriminate Hg].
    destruct (Hok b eq_refl) as [Hrun _]; [vm_compute; discriminate|].
    rewrite Hrun. cbn [fst]. vm_compute in Hg. injection Hg as <-. reflexivity.
  - apply Hraise. vm_compute. intros H. exact H.
Defined.
